(** * Recruiting-class scraper: crawl convergence, gap resolution and
      timeline reconciliation

    A shallow embedding of the algorithmic core of [src/scraper.py] and
    [src/patch_missing_ranks.py], followed by the properties of the
    specification stated against it.

    Conventions of the embedding.
    - Python [str] values are [string]s (sequences of 8-bit characters; the
      inputs of interest, URLs and timeline captions, are ASCII).
    - Python [int] values that are compared or arithmetically combined are [Z].
    - A [dict] is a [gmap]; the record [data] of a player is a
      [gmap string string] plus the side-channel key ['_date_priority'],
      whose value is the only non-string of the dictionary and is kept in a
      separate field.
    - The browser (Playwright) and the HTML parser (BeautifulSoup) are outside
      the repository: what a page shows and which of its operations raise is
      given by explicit script values that the functions consume. *)

From Stdlib Require Import ZArith Ascii String List Bool Lia DecimalString.
From stdpp Require Import base option list strings gmap.

Local Open Scope string_scope.
Local Open Scope Z_scope.

(** ** Python string primitives *)

Module Py.

(** [s.split(c)[0]] for a one-character separator [c]: the text before the
    first occurrence of [c], the whole of [s] when there is none. *)
Fixpoint before_char (c : ascii) (s : string) : string :=
  match s with
  | EmptyString => EmptyString
  | String a rest => if Ascii.eqb a c then EmptyString
                     else String a (before_char c rest)
  end.

(** [s.startswith(p)], returning the remainder of [s] after [p]. *)
Fixpoint strip_prefix (p s : string) : option string :=
  match p with
  | EmptyString => Some s
  | String a p' =>
      match s with
      | EmptyString => None
      | String b s' => if Ascii.eqb a b then strip_prefix p' s' else None
      end
  end.

Definition startswith (s p : string) : bool :=
  match strip_prefix p s with Some _ => true | None => false end.

(** [s.replace(old, new)] for a non-empty [old]: one left-to-right pass
    over [s]; at each position where [old] starts, [new] is emitted and the
    scan resumes after the occurrence (occurrences do not overlap, and the
    text produced by a replacement is not scanned again).  [skip] counts
    the characters of the occurrence still to be jumped over. *)
Fixpoint replace_from (skip : nat) (old new s : string) : string :=
  match s with
  | EmptyString => EmptyString
  | String a rest =>
      match skip with
      | S k => replace_from k old new rest
      | O =>
          if startswith s old
          then new ++ replace_from (Nat.pred (String.length old)) old new rest
          else String a (replace_from O old new rest)
      end
  end.

Definition replace (s old new : string) : string := replace_from O old new s.

(** The longest prefix of [s] whose characters all satisfy [p]. *)
Fixpoint take_while (p : ascii -> bool) (s : string) : string :=
  match s with
  | EmptyString => EmptyString
  | String a rest => if p a then String a (take_while p rest) else EmptyString
  end.

(** [sub in s]. *)
Fixpoint contains (s sub : string) : bool :=
  startswith s sub ||
  match s with
  | EmptyString => false
  | String _ rest => contains rest sub
  end.

(** [str.isspace] for one character (code points below 256); it is also
    the class [\s] of regular expressions. *)
Definition isspace (a : ascii) : bool :=
  let n := nat_of_ascii a in
  ((9 <=? n)%nat && (n <=? 13)%nat) || ((28 <=? n)%nat && (n <=? 32)%nat)
  || Nat.eqb n 133 || Nat.eqb n 160.

Fixpoint lstrip (s : string) : string :=
  match s with
  | EmptyString => EmptyString
  | String a rest => if isspace a then lstrip rest else s
  end.

Fixpoint rstrip (s : string) : string :=
  match s with
  | EmptyString => EmptyString
  | String a rest =>
      match rstrip rest with
      | EmptyString => if isspace a then EmptyString else String a EmptyString
      | rest' => String a rest'
      end
  end.

(** [s.strip()]. *)
Definition strip (s : string) : string := rstrip (lstrip s).

(** [c.lower()] for one character: A-Z and the Latin-1 capitals. *)
Definition lower_char (a : ascii) : ascii :=
  let n := nat_of_ascii a in
  if ((65 <=? n)%nat && (n <=? 90)%nat)
     || ((192 <=? n)%nat && (n <=? 222)%nat && negb (Nat.eqb n 215))
  then ascii_of_nat (n + 32) else a.

(** [s.lower()]. *)
Fixpoint lower (s : string) : string :=
  match s with
  | EmptyString => EmptyString
  | String a rest => String (lower_char a) (lower rest)
  end.

Definition LF : string := String "010"%char EmptyString.   (* '\n' *)
Definition CR : string := String "013"%char EmptyString.   (* '\r' *)

(** [not s] for a string: true on the empty string. *)
Definition falsy (s : string) : bool :=
  match s with EmptyString => true | _ => false end.

(** [str(n)] for an integer. *)
Definition str_of_nonneg (n : Z) : string :=
  NilZero.string_of_uint (N.to_uint (Z.to_N n)).
Definition str (n : Z) : string :=
  if n <? 0 then "-" ++ str_of_nonneg (- n) else str_of_nonneg n.

(** [s.strip(chars)]: the characters of [chars] are removed from both
    ends. *)
Definition in_chars (chars : list ascii) (a : ascii) : bool :=
  existsb (Ascii.eqb a) chars.

Fixpoint lstrip_chars (chars : list ascii) (s : string) : string :=
  match s with
  | EmptyString => EmptyString
  | String a rest => if in_chars chars a then lstrip_chars chars rest else s
  end.

Fixpoint rstrip_chars (chars : list ascii) (s : string) : string :=
  match s with
  | EmptyString => EmptyString
  | String a rest =>
      match rstrip_chars chars rest with
      | EmptyString => if in_chars chars a then EmptyString else String a EmptyString
      | rest' => String a rest'
      end
  end.

Definition strip_chars (chars : list ascii) (s : string) : string :=
  rstrip_chars chars (lstrip_chars chars s).

(** [c.isdigit()] for one character (code points below 256): the decimal
    digits and the superscripts two, three and one. *)
Definition isdigit (a : ascii) : bool :=
  let n := nat_of_ascii a in
  ((48 <=? n)%nat && (n <=? 57)%nat) || Nat.eqb n 178 || Nat.eqb n 179 || Nat.eqb n 185.

(** [any(p(c) for c in s)]. *)
Fixpoint any (p : ascii -> bool) (s : string) : bool :=
  match s with
  | EmptyString => false
  | String a rest => p a || any p rest
  end.

(** [s.upper()] on code points below 256: a-z and the Latin-1 small
    letters go to their capitals and the sharp s to two letters S.  The
    micro sign and the y with diaeresis, whose capitals lie beyond code
    point 255, are left as they are: the result is only searched for ASCII
    words. *)
Fixpoint upper (s : string) : string :=
  match s with
  | EmptyString => EmptyString
  | String a rest =>
      let n := nat_of_ascii a in
      if Nat.eqb n 223 then String "S" (String "S" (upper rest))
      else if ((97 <=? n)%nat && (n <=? 122)%nat)
              || ((224 <=? n)%nat && (n <=? 254)%nat && negb (Nat.eqb n 247))
           then String (ascii_of_nat (n - 32)) (upper rest)
           else String a (upper rest)
  end.

(** The apostrophe and the double quote. *)
Definition APOSTROPHE : ascii := "039"%char.
Definition QUOTE : ascii := "034"%char.

End Py.

(** ** Python regular expressions

    The patterns of the source are values of [re]; [run] is the backtracking
    matcher of Python's [re] module restricted to what those patterns use:
    ordered alternation, greedy and lazy bounded repetition, and numbered
    capturing groups.  A continuation receives the text still to be matched
    and the groups captured on the current path, so that a failure of the
    continuation makes the matcher try the next choice. *)

Module Re.

Inductive re : Type :=
| Eps
| Chr (p : ascii -> bool)
| Cat (r1 r2 : re)
| Alt (r1 r2 : re)
| Rep (greedy : bool) (lo : nat) (hi : option nat) (r : re)
| Grp (n : nat) (r : re).

Definition captures : Type := list (nat * string).

Definition group (n : nat) (caps : captures) : option string :=
  snd <$> List.find (fun c => Nat.eqb (fst c) n) caps.

(** The part of [s] consumed when [rest] is what remains of it. *)
Definition consumed (s rest : string) : string :=
  String.substring 0 (String.length s - String.length rest) s.

Section Matcher.
Context {R : Type}.

Definition cont : Type := string -> captures -> option R.
Definition matcher : Type := string -> captures -> cont -> option R.

Definition orelse (a b : option R) : option R :=
  match a with Some x => Some x | None => b end.

(** Repetition of the matcher [m] between [lo] and [hi] times.  Every
    iteration must consume at least one character (the repeated
    sub-patterns of the source never match the empty string), so
    [S (length s)] units of [fuel] are never exhausted. *)
Fixpoint rep (m : matcher) (fuel : nat) (greedy : bool) (lo : nat)
    (hi : option nat) (s : string) (caps : captures) (k : cont) : option R :=
  match fuel with
  | O => None
  | S fuel' =>
      let again :=
        m s caps (fun s' caps' =>
          if (String.length s' <? String.length s)%nat
          then rep m fuel' greedy (Nat.pred lo) (Nat.pred <$> hi) s' caps' k
          else None) in
      match lo, hi with
      | S _, _ => again
      | O, Some O => k s caps
      | O, _ => if greedy then orelse again (k s caps)
                else orelse (k s caps) again
      end
  end.

Fixpoint run (r : re) (s : string) (caps : captures) (k : cont) : option R :=
  match r with
  | Eps => k s caps
  | Chr p =>
      match s with
      | String a rest => if p a then k rest caps else None
      | EmptyString => None
      end
  | Cat r1 r2 => run r1 s caps (fun s' caps' => run r2 s' caps' k)
  | Alt r1 r2 => orelse (run r1 s caps k) (run r2 s caps k)
  | Rep greedy lo hi r0 =>
      rep (run r0) (S (String.length s)) greedy lo hi s caps k
  | Grp n r0 =>
      run r0 s caps (fun s' caps' => k s' ((n, consumed s s') :: caps'))
  end.
End Matcher.

(** [re.match(r, s)]: the groups of the first successful path from the
    start of [s], with the text left after the match. *)
Definition match_ (r : re) (s : string) : option (captures * string) :=
  run r s [] (fun rest caps => Some (caps, rest)).

(** [re.search(r, s)]: the leftmost start position that matches. *)
Fixpoint search (r : re) (s : string) : option captures :=
  match match_ r s with
  | Some (caps, _) => Some caps
  | None =>
      match s with
      | String _ rest => search r rest
      | EmptyString => None
      end
  end.

(** Character classes (characters are code points below 256). *)
Definition in_range (lo hi : nat) (a : ascii) : bool :=
  let n := nat_of_ascii a in (lo <=? n)%nat && (n <=? hi)%nat.
Definition digit : ascii -> bool := in_range 48 57.      (* \d, [0-9] *)
Definition upper : ascii -> bool := in_range 65 90.      (* [A-Z] *)
Definition lower : ascii -> bool := in_range 97 122.     (* [a-z] *)
Definition space : ascii -> bool := Py.isspace.           (* \s *)
Definition one (c : ascii) : ascii -> bool := Ascii.eqb c.
Definition none_of (cs : list ascii) (a : ascii) : bool :=
  negb (existsb (Ascii.eqb a) cs).

(** A literal character under [re.IGNORECASE]. *)
Definition one_i (c : ascii) (a : ascii) : bool :=
  Ascii.eqb (Py.lower_char c) (Py.lower_char a).

Fixpoint cat (rs : list re) : re :=
  match rs with
  | [] => Eps
  | [r] => r
  | r :: rs' => Cat r (cat rs')
  end.
Fixpoint alt (rs : list re) : re :=
  match rs with
  | [] => Chr (fun _ => false)
  | [r] => r
  | r :: rs' => Alt r (alt rs')
  end.
Fixpoint lit (s : string) : re :=
  match s with
  | EmptyString => Eps
  | String a EmptyString => Chr (one a)
  | String a rest => Cat (Chr (one a)) (lit rest)
  end.
Fixpoint lit_i (s : string) : re :=
  match s with
  | EmptyString => Eps
  | String a EmptyString => Chr (one_i a)
  | String a rest => Cat (Chr (one_i a)) (lit_i rest)
  end.
Definition plus (r : re) : re := Rep true 1 None r.          (* r+  *)
Definition plus_lazy (r : re) : re := Rep false 1 None r.    (* r+? *)
Definition opt (r : re) : re := Rep true 0 (Some 1%nat) r.   (* r?  *)
Definition times (lo hi : nat) (r : re) : re := Rep true lo (Some hi) r.

(** [.]: any character except a line feed. *)
Definition dot (a : ascii) : bool := negb (Ascii.eqb a "010"%char).
Definition star (r : re) : re := Rep true 0 None r.           (* r*  *)

End Re.

(** ** Python [datetime]: construction, [strptime], [strftime] *)

Module Datetime.

(** A [datetime] at midnight: year, month, day. *)
Record t : Type := mk { year : Z; month : Z; day : Z }.

Definition is_leap (y : Z) : bool :=
  (y mod 4 =? 0) && (negb (y mod 100 =? 0) || (y mod 400 =? 0)).

Definition days_in_month (y m : Z) : Z :=
  if m =? 2 then (if is_leap y then 29 else 28)
  else if (m =? 4) || (m =? 6) || (m =? 9) || (m =? 11) then 30
  else 31.

(** [datetime(y, m, d)]: [None] stands for the [ValueError] raised when
    the year is outside 1..9999 or the day does not exist. *)
Definition make (y m d : Z) : option t :=
  if (1 <=? y) && (y <=? 9999) && (1 <=? m) && (m <=? 12)
     && (1 <=? d) && (d <=? days_in_month y m)
  then Some (mk y m d) else None.

(** [a < b]. *)
Definition ltb (a b : t) : bool :=
  (year a <? year b)
  || ((year a =? year b)
      && ((month a <? month b)
          || ((month a =? month b) && (day a <? day b)))).

Definition a_month : list string :=
  ["jan"; "feb"; "mar"; "apr"; "may"; "jun";
   "jul"; "aug"; "sep"; "oct"; "nov"; "dec"].
Definition f_month : list string :=
  ["january"; "february"; "march"; "april"; "may"; "june"; "july";
   "august"; "september"; "october"; "november"; "december"].

(** [sorted(names, key=len, reverse=True)]: a stable insertion sort. *)
Fixpoint insert_by_len (x : string) (l : list string) : list string :=
  match l with
  | [] => [x]
  | y :: l' => if (String.length y <? String.length x)%nat
               then x :: l else y :: insert_by_len x l'
  end.
Definition sorted_by_len_desc (l : list string) : list string :=
  fold_right insert_by_len [] l.

(** [_strptime.TimeRE.__seqToRE]. *)
Definition seqToRE (names : list string) : Re.re :=
  Re.alt (Re.lit_i <$> sorted_by_len_desc names).

Definition r19 : Re.re := Re.Chr (Re.in_range 49 57).     (* [1-9] *)

(** The directives of [_strptime.TimeRE] that the formats of the source
    use, with the group number that stands for the directive's name. *)
Definition directive (c : ascii) : option Re.re :=
  if Ascii.eqb c "m" then
    Some (Re.Grp 1 (Re.alt [Re.Cat (Re.lit "1") (Re.Chr (Re.in_range 48 50));
                            Re.Cat (Re.lit "0") r19; r19]))
  else if Ascii.eqb c "d" then
    Some (Re.Grp 2 (Re.alt [Re.Cat (Re.lit "3") (Re.Chr (Re.in_range 48 49));
                            Re.Cat (Re.Chr (Re.in_range 49 50)) (Re.Chr Re.digit);
                            Re.Cat (Re.lit "0") r19; r19;
                            Re.Cat (Re.lit " ") r19]))
  else if Ascii.eqb c "Y" then
    Some (Re.Grp 3 (Re.times 4 4 (Re.Chr Re.digit)))
  else if Ascii.eqb c "b" then Some (Re.Grp 4 (seqToRE a_month))
  else if Ascii.eqb c "B" then Some (Re.Grp 5 (seqToRE f_month))
  else None.

(** [_strptime.TimeRE.pattern]: a run of white space in the format stands
    for [\s+], a directive for its pattern, any other character for
    itself.  [in_ws] tells that the previous character was white space. *)
Fixpoint pattern (in_ws : bool) (fmt : string) : option (list Re.re) :=
  match fmt with
  | EmptyString => Some []
  | String a rest =>
      if Re.space a then
        if in_ws then pattern true rest
        else cons (Re.plus (Re.Chr Re.space)) <$> pattern true rest
      else if Ascii.eqb a "%" then
        match rest with
        | String c rest' =>
            match directive c with
            | Some r => cons r <$> pattern false rest'
            | None => None
            end
        | EmptyString => None
        end
      else cons (Re.Chr (Re.one_i a)) <$> pattern false rest
  end.

Definition digit_value (a : ascii) : Z := Z.of_nat (nat_of_ascii a) - 48.

(** [int(s)] for a run of decimal digits, white space around it ignored. *)
Fixpoint int_acc (acc : Z) (s : string) : Z :=
  match s with
  | EmptyString => acc
  | String a rest => if Re.digit a then int_acc (10 * acc + digit_value a) rest
                     else int_acc acc rest
  end.
Definition int (s : string) : Z := int_acc 0 s.

(** [list.index(x)], 0-based. *)
Fixpoint index_of (x : string) (l : list string) : option Z :=
  match l with
  | [] => None
  | y :: l' => if String.eqb x y then Some 0 else Z.succ <$> index_of x l'
  end.

(** [datetime.strptime(s, fmt)]; [None] stands for [ValueError]: the text
    does not match the format, text remains after the match, or the
    fields do not make a date.  Absent fields default to 1900-01-01. *)
Definition strptime (s fmt : string) : option t :=
  match pattern false fmt with
  | None => None
  | Some rs =>
      match Re.match_ (Re.cat rs) s with
      | Some (caps, EmptyString) =>
          let y := match Re.group 3 caps with Some g => int g | None => 1900 end in
          let d := match Re.group 2 caps with Some g => int g | None => 1 end in
          let m :=
            match Re.group 1 caps, Re.group 5 caps, Re.group 4 caps with
            | Some g, _, _ => Some (int g)
            | None, Some g, _ => Z.succ <$> index_of (Py.lower g) f_month
            | None, None, Some g => Z.succ <$> index_of (Py.lower g) a_month
            | None, None, None => Some 1
            end in
          match m with Some m => make y m d | None => None end
      | _ => None
      end
  end.

Definition digit_char (n : Z) : ascii := ascii_of_nat (Z.to_nat (48 + n mod 10)).
Definition two_digits (n : Z) : string :=
  String (digit_char (n / 10)) (String (digit_char n) EmptyString).
Definition four_digits (n : Z) : string := two_digits (n / 100) ++ two_digits n.

(** [%Y]: the year in decimal.  The C library under CPython on Linux does
    not pad it, so that a year below 1000 is written with fewer than four
    digits. *)
Definition year_digits (y : Z) : string :=
  if y <? 1000 then Py.str y else four_digits y.

(** [dt.strftime("%m/%d/%Y")]. *)
Definition strftime_mdY (dt : t) : string :=
  two_digits (month dt) ++ "/" ++ two_digits (day dt) ++ "/" ++ year_digits (year dt).

End Datetime.

(** ** Exceptions, early [return] and mutable state

    A Python block that mutates a dictionary and may raise or [return] is a
    function from the state before to an outcome and the state after: the
    mutations made before an exception are kept, as they are in Python. *)

Module Effect.

Inductive outcome (A : Type) : Type :=
| Val (a : A)        (* the block ran to its end *)
| Raised             (* an exception is propagating *)
| Returned.          (* a [return] statement is leaving the function *)
Arguments Val {A} a.
Arguments Raised {A}.
Arguments Returned {A}.

Definition M (S A : Type) : Type := S -> outcome A * S.

Section Ops.
Context {S : Type}.

Definition ret {A} (a : A) : M S A := fun s => (Val a, s).

Definition bind {A B} (m : M S A) (f : A -> M S B) : M S B :=
  fun s =>
    match m s with
    | (Val a, s') => f a s'
    | (Raised, s') => (Raised, s')
    | (Returned, s') => (Returned, s')
    end.

Definition raise {A} : M S A := fun s => (Raised, s).
Definition return_ {A} : M S A := fun s => (Returned, s).
Definition get : M S S := fun s => (Val s, s).
Definition modify (f : S -> S) : M S unit := fun s => (Val tt, f s).

(** [try: m  except Exception: pass]. *)
Definition try_pass (m : M S unit) : M S unit :=
  fun s =>
    match m s with
    | (Raised, s') => (Val tt, s')
    | r => r
    end.

(** The body of a function whose [return] statements carry no value. *)
Definition call (m : M S unit) : M S unit :=
  fun s =>
    match m s with
    | (Returned, s') => (Val tt, s')
    | r => r
    end.

(** [for x in l: body x]. *)
Fixpoint for_each {A} (l : list A) (body : A -> M S unit) : M S unit :=
  match l with
  | [] => ret tt
  | x :: l' => bind (body x) (fun _ => for_each l' body)
  end.

(** A value obtained from the outside world; [None] when obtaining it
    raises. *)
Definition await {A} (o : option A) : M S A :=
  match o with Some a => ret a | None => raise end.
End Ops.

Module Notations.
Notation "x <- m ;; k" := (bind m (fun x => k))
  (at level 100, m at next level, k at level 200, right associativity,
   only parsing).
Notation "m ;;; k" := (bind m (fun _ => k))
  (at level 100, k at level 200, right associativity, only parsing).
End Notations.

End Effect.

(** ** The listing page

    A ranking list is a page with a "Load More" button.  Every interaction
    with it may change what it shows, so the page is a state [P] with the
    operations below; each returns the page as it is afterwards.

    What may raise is the look for the button, the click and the pause
    after the click.  The pauses elsewhere and the counts of items made for
    the progress messages are taken to succeed. *)

Module Listing.

(** One pass through the guarded block of a crawl loop: the button is
    looked for and, when it is visible, clicked. *)
Inductive attempt : Type :=
| Clicked              (* visible, clicked, and the statements after the click ran *)
| ClickedThenRaised    (* visible and clicked; a later statement of the block raised *)
| NoButton             (* not present or not visible *)
| Failed.              (* an exception before the click went through *)

(** One entry of the list: rank, link, name. *)
Record entry : Type := Entry { rank : Z; url : string; name : string }.

Class Page (P : Type) : Type := {
  (** the initial navigation succeeded *)
  opened : P -> bool;
  (** the number of list items currently shown *)
  item_count : P -> Z;
  (** one pass through the guarded block *)
  try_load_more : P -> attempt * P;
  (** is the button visible?  [None]: the query raises *)
  button_visible : P -> option bool;
  (** the [href]s of the name links, of the links inside list items, and
      of all player links, as the three extraction queries return them *)
  name_links : P -> list string;
  item_links : P -> list string;
  player_links : P -> list string;
  (** the rank, link and name of each list item that has all three *)
  entries : P -> list entry
}.

End Listing.

(** ** [scraper.py]: configuration, data structures, helper functions *)

Module Scraper.

Definition MAX_CONCURRENT : Z := 4.
Definition DEEP_TIMELINE_LIMIT : Z := 1000.

Definition CSV_HEADERS : list string :=
  ["247 ID"; "Player Name"; "Position"; "Height"; "Weight"; "High School";
   "City, ST"; "Class"; "247 Stars"; "247 Rating"; "247 National Rank";
   "247 Position"; "247 Position Rank"; "Composite Stars"; "Composite Rating";
   "Composite National Rank"; "Composite Position"; "Composite Position Rank";
   "Signed Date"; "Signed Team"; "Draft Date"; "Draft Team"; "Recruiting Year";
   "Profile URL"; "Scrape Date"; "Data Source"].

(** [re.search(r'/player/[^/]+-(\d+)/', url)], scraper.py:69-71. *)
Definition player_id_re : Re.re :=
  Re.cat [Re.lit "/player/"; Re.plus (Re.Chr (Re.none_of ["/"%char]));
          Re.lit "-"; Re.Grp 1 (Re.plus (Re.Chr Re.digit)); Re.lit "/"].

Definition extract_player_id (url : string) : string :=
  match Re.search player_id_re url with
  | Some caps => default "NA" (Re.group 1 caps)
  | None => "NA"
  end.

(** scraper.py:73-75. *)
Definition clean_text (text : string) : string :=
  if Py.falsy text then "NA"
  else Py.replace (Py.replace (Py.strip text) Py.LF " ") Py.CR "".

(** scraper.py:77-89 (and patch_missing_ranks.py:84-90, the same text
    without the comments). *)
Definition normalize_height (height_str : string) : string :=
  if Py.falsy height_str || String.eqb height_str "NA" then "NA"
  else
    let height_str := Py.strip_chars [Py.APOSTROPHE; Py.QUOTE] (Py.strip height_str) in
    if Py.contains height_str "-"
       || Py.contains height_str (String Py.APOSTROPHE EmptyString)
       || ((String.length height_str <=? 4)%nat && Py.any Py.isdigit height_str)
    then String Py.APOSTROPHE height_str
    else height_str.

(** [#?(\d+)], scraper.py:108. *)
Definition rank_re : Re.re :=
  Re.Cat (Re.opt (Re.Chr (Re.one "#"))) (Re.Grp 1 (Re.plus (Re.Chr Re.digit))).

(** scraper.py:106-109. *)
Definition parse_rank (text : string) : string :=
  if Py.falsy text then "NA"
  else
    match Re.search rank_re text with
    | Some caps => default "NA" (Re.group 1 caps)
    | None => "NA"
    end.

Definition slash : ascii := "/"%char.

Definition player_prefix : string := "https://247sports.com/player/".

(** [(https://247sports\.com/player/[^/]+)], scraper.py:101. *)
Definition player_url_re : Re.re :=
  Re.Grp 1 (Re.Cat (Re.lit player_prefix)
                   (Re.plus (Re.Chr (Re.none_of [slash])))).

(** [re.match(player_url_re, url)] and the [group(1)] of the match. *)
Definition match_player_url (url : string) : option string :=
  match Re.match_ player_url_re url with
  | Some (caps, _) => Re.group 1 caps
  | None => None
  end.

(** scraper.py:91-104. *)
Definition normalize_player_url (url : string) : string :=
  let url := Py.before_char "#" (Py.before_char "?" url) in
  let url := Py.replace url "://www." "://" in
  let url := Py.replace url "http://" "https://" in
  match match_player_url url with
  | Some g1 => g1 ++ "/"
  | None => url
  end.

(** scraper.py:111-127.  The three formats are tried in order; the first
    that parses decides. *)
Definition date_formats : list string := ["%m/%d/%Y"; "%b %d, %Y"; "%B %d, %Y"].

Fixpoint first_parse (date_str : string) (formats : list string) : option Datetime.t :=
  match formats with
  | [] => None
  | fmt :: formats' =>
      match Datetime.strptime date_str fmt with
      | Some dt => Some dt
      | None => first_parse date_str formats'
      end
  end.

Definition normalize_date (date_str : string) : string :=
  if Py.falsy date_str then "NA"
  else
    let date_str := clean_text date_str in
    match first_parse date_str date_formats with
    | Some dt => Datetime.strftime_mdY dt
    | None => date_str
    end.

(** scraper.py:129-137.  Both [strptime] and the construction of the
    cut-off are inside the [try]; whatever they raise makes the function
    answer [True]. *)
Definition is_date_valid_for_class (date_str : string) (recruiting_year : Z) : bool :=
  if String.eqb date_str "NA" then false
  else
    match Datetime.strptime date_str "%m/%d/%Y" with
    | None => true
    | Some dt =>
        match Datetime.make recruiting_year 9 1 with
        | None => true
        | Some cutoff_date => Datetime.ltb dt cutoff_date
        end
    end.

(** *** The player record

    [data] is the dictionary built by [parse_profile]: the CSV columns,
    all strings, and the key ['_date_priority'], an integer.  [None] in
    [date_priority] means that the key is absent. *)
Record player_data : Type := PlayerData {
  fields : gmap string string;
  date_priority : option Z
}.

Inductive tier : Type := Abbreviated | DeepHistory.

(** What the scan did, in order: the timeline items on which a loop body
    ran, and the clicks on the "next page" button of the full history. *)
Inductive event : Type :=
| Examined (t : tier) (item_text : string)
| NextPage.

Record state : Type := State {
  data : player_data;
  trace : list event
}.

Import Effect Effect.Notations.

Definition log (e : event) : M state unit :=
  modify (fun s => State (data s) (trace s ++ [e])).

(** [data[key] = value]. *)
Definition set_field (key value : string) : M state unit :=
  modify (fun s =>
    State (PlayerData (<[key := value]> (fields (data s))) (date_priority (data s)))
          (trace s)).

(** [data[key]]: a [KeyError] when the key is absent. *)
Definition get_field (key : string) : M state string :=
  s <- get ;; await (fields (data s) !! key).

(** [data.get('_date_priority', -1)]. *)
Definition get_date_priority : M state Z :=
  s <- get ;; ret (default (-1) (date_priority (data s))).

(** [data['_date_priority'] = p]. *)
Definition set_date_priority (p : Z) : M state unit :=
  modify (fun s => State (PlayerData (fields (data s)) (Some p)) (trace s)).

(** *** Timeline patterns, scraper.py:378, 382, 385, 397, 407 *)

(** [([A-Z][a-z]+\s+\d{1,2},\s+\d{4}|\d{1,2}/\d{1,2}/\d{4})] *)
Definition date_re : Re.re :=
  Re.Grp 1 (Re.Alt
    (Re.cat [Re.Chr Re.upper; Re.plus (Re.Chr Re.lower); Re.plus (Re.Chr Re.space);
             Re.times 1 2 (Re.Chr Re.digit); Re.lit ","; Re.plus (Re.Chr Re.space);
             Re.times 4 4 (Re.Chr Re.digit)])
    (Re.cat [Re.times 1 2 (Re.Chr Re.digit); Re.lit "/";
             Re.times 1 2 (Re.Chr Re.digit); Re.lit "/";
             Re.times 4 4 (Re.Chr Re.digit)])).

(** [(?:to|with|at|commits to)\s+([A-Z][^,.]+)] *)
Definition team_re : Re.re :=
  Re.cat [Re.alt [Re.lit "to"; Re.lit "with"; Re.lit "at"; Re.lit "commits to"];
          Re.plus (Re.Chr Re.space);
          Re.Grp 1 (Re.Cat (Re.Chr Re.upper)
                           (Re.plus (Re.Chr (Re.none_of [","%char; "."%char]))))].

Definition letter (a : ascii) : bool := Re.upper a || Re.lower a.

(** [(?:Draft[:\s]+)?([A-Z][A-Za-z0-9\s\.]+?)\s+(?:select|pick)] under
    [re.IGNORECASE], which makes [[A-Z]] accept both cases. *)
Definition draft_team_re : Re.re :=
  Re.cat [Re.opt (Re.Cat (Re.lit_i "Draft")
                         (Re.plus (Re.Chr (fun a => Re.one ":" a || Re.space a))));
          Re.Grp 1 (Re.Cat (Re.Chr letter)
                           (Re.plus_lazy (Re.Chr (fun a =>
                              letter a || Re.digit a || Re.space a || Re.one "." a))));
          Re.plus (Re.Chr Re.space);
          Re.Alt (Re.lit_i "select") (Re.lit_i "pick")].

(** [re.sub(r'^Draft\s*', '', s, flags=re.IGNORECASE)]: the pattern can
    only match at the start of [s]. *)
Definition strip_draft_prefix (s : string) : string :=
  match Re.match_ (Re.Cat (Re.lit_i "Draft") (Re.Rep true 0 None (Re.Chr Re.space))) s with
  | Some (_, rest) => rest
  | None => s
  end.

(** [m.group(1)] of a search. *)
Definition search1 (r : Re.re) (s : string) : option string :=
  match Re.search r s with
  | Some caps => Re.group 1 caps
  | None => None
  end.

(** *** [parse_timeline], scraper.py:357-472 *)

(** scraper.py:377-387. *)
Definition draft_logic (item_text : string) : M state unit :=
  if Py.contains (Py.lower item_text) "draft" then
    (match search1 date_re item_text with
     | Some g1 =>
         draft_date <- get_field "Draft Date" ;;
         if String.eqb draft_date "NA"
         then set_field "Draft Date" (normalize_date g1)
         else ret tt
     | None => ret tt
     end) ;;;
    match search1 draft_team_re item_text with
    | Some g1 =>
        draft_team <- get_field "Draft Team" ;;
        if String.eqb draft_team "NA" then
          let team_name := clean_text g1 in
          let team_name := Py.strip (strip_draft_prefix team_name) in
          if negb (Py.falsy team_name) && negb (String.eqb (Py.lower team_name) "draft")
          then set_field "Draft Team" team_name
          else ret tt
        else ret tt
    | None => ret tt
    end
  else ret tt.

(** scraper.py:390-394 and 436-440. *)
Definition item_priority_of (item_text : string) : Z :=
  let low := Py.lower item_text in
  if Py.contains low "commitment" || Py.contains low "committed"
     || Py.contains low "commits to" then 100
  else if Py.contains low "signed" || Py.contains low "signing" then 1
  else 0.

(** scraper.py:397-398 and 443-444. *)
Definition found_date_of (item_text : string) : string :=
  match search1 date_re item_text with
  | Some g1 => normalize_date g1
  | None => "NA"
  end.

(** scraper.py:389-409 (abbreviated timeline) and 436-458 (full history):
    the two blocks are the same text, except that the second ends with
    the early exit of lines 457-458, taken here when [early_exit] holds. *)
Definition commitment_logic (early_exit : bool) (year : Z) (item_text : string)
    : M state unit :=
  let item_priority := item_priority_of item_text in
  if item_priority >? 0 then
    let found_date := found_date_of item_text in
    if negb (String.eqb found_date "NA") && is_date_valid_for_class found_date year then
      current_priority <- get_date_priority ;;
      if item_priority >? current_priority then
        set_field "Signed Date" found_date ;;;
        set_date_priority item_priority ;;;
        (match search1 team_re item_text with
         | Some g1 => set_field "Signed Team" (clean_text g1)
         | None => ret tt
         end) ;;;
        if early_exit && (item_priority =? 100) then return_ else ret tt
      else ret tt
    else ret tt
  else ret tt.

(** What the next-page button of a history page does when it is queried
    and clicked (scraper.py:460-466). *)
Inductive next_button : Type :=
| NextClicked      (* present, visible, and the click went through *)
| NextAbsent       (* not present or not visible: the loop breaks *)
| NextRaises.      (* querying or clicking it raises *)

Record history_page : Type := HistoryPage {
  full_items : option (list string);   (* texts of the items; [None]: [page.content()] raises *)
  next : next_button
}.

(** What the browser shows to [parse_timeline]. *)
Record timeline_view : Type := TimelineView {
  items : option (list string);        (* texts of the abbreviated items; [None]: raises *)
  see_all_href : option (option string);
    (* [None]: scrolling or querying the link raises; [Some None]: there
       is no such link or it has no [href] *)
  goto_ok : bool;                      (* navigation to the full history *)
  pages : list history_page            (* the pages of the full history *)
}.

Definition max_pages : nat := 10.

(** scraper.py:427-466; [remaining] is [max_pages - page_count]. *)
Fixpoint scan_pages (year : Z) (pages : list history_page)
    (remaining page_count : nat) : M state unit :=
  match remaining with
  | O => ret tt
  | S remaining' =>
      page <- await (pages !! page_count) ;;
      full_items <- await (full_items page) ;;
      for_each full_items (fun item =>
        let item_text := clean_text item in
        log (Examined DeepHistory item_text) ;;;
        commitment_logic true year item_text) ;;;
      match next page with
      | NextClicked => log NextPage ;;; scan_pages year pages remaining' (S page_count)
      | NextAbsent => ret tt
      | NextRaises => raise
      end
  end.

Definition parse_timeline (page : timeline_view) (year : Z) (do_deep_dive : bool)
    : M state unit :=
  call (try_pass (
    items <- await (items page) ;;
    for_each items (fun item =>
      let item_text := clean_text item in
      log (Examined Abbreviated item_text) ;;;
      draft_logic item_text ;;;
      commitment_logic false year item_text) ;;;
    if do_deep_dive then
      href <- await (see_all_href page) ;;
      match href with
      | Some href =>
          if negb (Py.falsy href) then
            try_pass (
              (if goto_ok page then ret tt else raise) ;;;
              scan_pages year (pages page) max_pages O)
          else ret tt
      | None => ret tt
      end
    else ret tt)).

(** *** [parse_profile], scraper.py:474-597 *)

(** What BeautifulSoup finds on the profile page.  The header loop
    (lines 498-521) and the ranking loop (lines 526-577) are pure
    functions of the parsed page whose only effect is a sequence of
    assignments [data[key] = value]; the sequence is given here as such.
    [commit_banner] is the text of the first [span] or [a] of the
    commitment banner, when there is one. *)
Record soup_view : Type := SoupView {
  header_writes : list (string * string);
  ranking_writes : list (string * string);
  commit_banner : option string
}.

(** The page opened for one player: which of the operations on it raise,
    and what it shows. *)
Record profile_page : Type := ProfilePage {
  clock : string;                      (* [datetime.now()], formatted *)
  fetch_ok : bool;                     (* [page.goto(url)] and the wait after it *)
  content : option soup_view;          (* [None]: [page.content()] raises *)
  timeline : timeline_view;
  close_ok : bool                      (* [page.close()] *)
}.

Definition data_source : string := "247Sports Composite".

(** [{header: "NA" for header in CSV_HEADERS}]. *)
Definition all_NA : gmap string string :=
  list_to_map ((fun header => (header, "NA")) <$> CSV_HEADERS).

(** scraper.py:475-480. *)
Definition initial_data (page : profile_page) (url : string) (year : Z) : player_data :=
  PlayerData
    (<["Data Source" := data_source]>
      (<["Scrape Date" := clock page]>
        (<["Recruiting Year" := Py.str year]>
          (<["Profile URL" := url]> all_NA))))
    (Some (-1)).

Definition do_deep_dive (player_num : Z) : bool := player_num <=? DEEP_TIMELINE_LIMIT.

(** The body of the [try] block, lines 483-593. *)
Definition parse_profile_body (page : profile_page) (url : string) (year : Z)
    (player_num : Z) : M state unit :=
  (if fetch_ok page then ret tt else raise) ;;;
  soup <- await (content page) ;;
  set_field "247 ID" (extract_player_id url) ;;;
  for_each (header_writes soup) (fun kv => set_field (fst kv) (snd kv)) ;;;
  set_field "Class" (Py.str year) ;;;
  for_each (ranking_writes soup) (fun kv => set_field (fst kv) (snd kv)) ;;;
  parse_timeline (timeline page) year (do_deep_dive player_num) ;;;
  signed_team <- get_field "Signed Team" ;;
  if String.eqb signed_team "NA" then
    match commit_banner soup with
    | Some team =>
        let team_text := clean_text team in
        let low := Py.lower team_text in
        if negb (String.eqb low "committed" || String.eqb low "commitment"
                 || String.eqb low "signed")
        then set_field "Signed Team" team_text
        else ret tt
    | None => ret tt
    end
  else ret tt.

(** [parse_profile] with the trace of the timeline scan it made.  Both
    exits of the function return [data], whatever the body did. *)
Definition parse_profile_run (page : profile_page) (url : string) (year : Z)
    (player_num total : Z) : state :=
  snd (parse_profile_body page url year player_num
         (State (initial_data page url year) [])).

Definition parse_profile (page : profile_page) (url : string) (year : Z)
    (player_num total : Z) : player_data :=
  data (parse_profile_run page url year player_num total).

(** *** The header and ranking loops of [parse_profile],
    scraper.py:497-577

    What the selectors of the two loops find on the parsed page; the
    loops themselves are the functions below, which give the assignments
    [data[key] = value] that they make, in order. *)

(** One [li] of a [ul.ranks-list]. *)
Record rank_item : Type := RankItem {
  pos_node : option string;            (* the text of its first [b] *)
  link_tag : option (option string * option string)
    (* its first [a]: the [href] attribute, and the text of the first
       [strong] inside the link *)
}.

(** One ranking section. *)
Record ranking_section : Type := RankingSection {
  section_header : option string;      (* the text of its [h3] *)
  stars : nat;                         (* how many yellow star icons it has *)
  rating_elem : option string;         (* the text of its rating block *)
  ranks_list : option (list rank_item)
}.

Record profile_soup : Type := ProfileSoup {
  name_elem : option string;           (* the text of the first [.name] *)
  all_header_items : list string;      (* [item.get_text(strip=True)] of each header item *)
  ranking_sections : list ranking_section;
  banner_team : option string          (* the first [span] or [a] of the commitment banner *)
}.

(** The patterns of lines 505-520, under [re.IGNORECASE]: one of
    [labels], tried in order, then [[:\s]] any number of times, then
    group 1, which takes what is left of the line. *)
Definition header_re (labels : list string) : Re.re :=
  Re.cat [Re.alt (Re.lit_i <$> labels);
          Re.star (Re.Chr (fun a => Re.one ":" a || Re.space a));
          Re.Grp 1 (Re.star (Re.Chr Re.dot))].

(** [if match: data[key] = f(match.group(1))]. *)
Definition header_write (labels : list string) (key : string)
    (f : string -> string) (text : string) : list (string * string) :=
  match search1 (header_re labels) text with
  | Some g1 => [(key, f g1)]
  | None => []
  end.

(** The body of the loop of lines 502-521. *)
Definition header_item (text : string) : list (string * string) :=
  if Py.contains text "Pos" || Py.contains text "Position" then
    header_write ["Pos"; "Position"] "Position" clean_text text
  else if Py.contains text "Height" then
    header_write ["Height"] "Height" normalize_height text
  else if Py.contains text "Weight" then
    header_write ["Weight"] "Weight" clean_text text
  else if Py.contains text "High School" then
    header_write ["High School"] "High School" clean_text text
  else if Py.contains text "Home Town" || Py.contains text "Hometown"
          || Py.contains text "City" then
    header_write ["Home Town"; "Hometown"; "City"] "City, ST" clean_text text
  else if Py.contains text "Class" then
    header_write ["Class"] "Class" clean_text text
  else [].

(** Lines 498-521. *)
Definition header_loop (soup : profile_soup) : list (string * string) :=
  (match name_elem soup with
   | Some text => [("Player Name", clean_text text)]
   | None => []
   end ++ flat_map header_item (all_header_items soup))%list.

(** [(\d+(?:\.\d+)?)] *)
Definition rating_re : Re.re :=
  Re.Grp 1 (Re.Cat (Re.plus (Re.Chr Re.digit))
                   (Re.opt (Re.Cat (Re.lit ".") (Re.plus (Re.Chr Re.digit))))).

(** Lines 536-541: the family of columns that the section fills. *)
Definition section_prefix (header_text : string) : option string :=
  if Py.contains header_text "COMPOSITE" then Some "Composite"
  else if Py.contains header_text "247SPORTS"
          && negb (Py.contains header_text "COMPOSITE") then Some "247"
  else None.

(** [f'{prefix} <name>']. *)
Definition column (prefix name : string) : string := prefix ++ " " ++ name.

(** The body of the loop of lines 554-577. *)
Definition rank_item_writes (prefix : string) (li : rank_item) : list (string * string) :=
  match link_tag li with
  | Some (href, rank_node) =>
      let href := default "" href in
      if Py.contains href "Position=" then
        (match pos_node li with
         | Some text => [(column prefix "Position", clean_text text)]
         | None => []
         end ++
         match rank_node with
         | Some text => [(column prefix "Position Rank", parse_rank text)]
         | None => []
         end)%list
      else if Py.contains href "State=" || Py.contains href "state=" then []
      else if Py.contains href "InstitutionGroup=HighSchool" then
        match rank_node with
        | Some text => [(column prefix "National Rank", parse_rank text)]
        | None => []
        end
      else []
  | None => []
  end.

(** The body of the loop of lines 526-577. *)
Definition section_writes (section : ranking_section) : list (string * string) :=
  match section_header section with
  | None => []
  | Some header =>
      let header_text := Py.upper (clean_text header) in
      if Py.contains header_text "JUCO" then []
      else
        match section_prefix header_text with
        | None => []
        | Some prefix =>
            ((if (0 <? stars section)%nat
              then [(column prefix "Stars", Py.str (Z.min (Z.of_nat (stars section)) 5))]
              else []) ++
             match rating_elem section with
             | Some text =>
                 match search1 rating_re (clean_text text) with
                 | Some g1 => [(column prefix "Rating", g1)]
                 | None => []
                 end
             | None => []
             end ++
             match ranks_list section with
             | Some lis => flat_map (rank_item_writes prefix) lis
             | None => []
             end)%list
        end
  end.

Definition ranking_loop (soup : profile_soup) : list (string * string) :=
  flat_map section_writes (ranking_sections soup).

(** The parsed page, as [parse_profile] uses it. *)
Definition soup_of (soup : profile_soup) : soup_view :=
  SoupView (header_loop soup) (ranking_loop soup) (banner_team soup).

(** *** [scrape_player], scraper.py:622-636 *)

(** A dictionary, or the exception that left the task. *)
Inductive task_result : Type :=
| Dict (d : player_data)
| Exception.

(** [url.split('/')[-2]] in the progress line raises [IndexError] when
    [url] has no ['/']; the [except] clause then returns the dictionary of
    sentinels, which has no ['_date_priority'] key.  The [finally] clause
    closes the page; when that raises, the exception replaces the
    result. *)
Definition scrape_player (page : profile_page) (url : string) (year : Z)
    (player_num total : Z) : task_result :=
  let result :=
    if Py.contains url "/"
    then parse_profile page url year player_num total
    else PlayerData all_NA None in
  if close_ok page then Dict result else Exception.

(** *** [scrape_player_batch], scraper.py:603-620, and the loop of
    [scrape_year], scraper.py:653-694

    [MAX_CONCURRENT] is the constant 4 in the source; the functions take
    the width as a parameter so that properties can be stated for every
    width.  [browser n] is the page that the browser opens for the task
    of player number [n]. *)

(** [enumerate(urls)], with 0-based indices. *)
Definition enumerate {A} (l : list A) : list (Z * A) :=
  imap (fun i x => (Z.of_nat i, x)) l.

(** [del result['_date_priority']] when the key is present. *)
Definition del_date_priority (d : player_data) : player_data :=
  PlayerData (fields d) None.

Definition batch_tasks (width : Z) (browser : Z -> profile_page) (urls : list string)
    (year batch_num total_players : Z) : list task_result :=
  (fun iu =>
     let player_num := batch_num * width + fst iu + 1 in
     scrape_player (browser player_num) (snd iu) year player_num total_players)
  <$> enumerate urls.

(** [asyncio.gather] with [return_exceptions=True] gives the results in
    the order of the tasks; those that are dictionaries are kept. *)
Definition valid_result (result : task_result) : option player_data :=
  match result with
  | Dict d => Some (del_date_priority d)
  | Exception => None
  end.

Definition scrape_player_batch (width : Z) (browser : Z -> profile_page)
    (urls : list string) (year batch_num total_players : Z) : list player_data :=
  omap valid_result (batch_tasks width browser urls year batch_num total_players).

(** [range(0, stop, step)] for a positive [step] (Python refuses 0). *)
Definition range_step (stop step : Z) : list Z :=
  (fun k => Z.of_nat k * step) <$> seq 0 (Z.to_nat ((stop + step - 1) / step)).

(** [l[i:j]] for [0 <= i <= j]. *)
Definition slice {A} (l : list A) (i j : Z) : list A :=
  take (Z.to_nat (j - i)) (drop (Z.to_nat i) l).

(** [player_urls[START_FROM_PLAYER:]] when resuming, scraper.py:654-656. *)
Definition resume (start_from : Z) (player_urls : list string) : list string :=
  if start_from >? 0 then drop (Z.to_nat start_from) player_urls else player_urls.

(** The batches of scraper.py:670-675, each with its number. *)
Definition batches (width : Z) (player_urls : list string) : list (Z * list string) :=
  (fun i => (i / width, slice player_urls i (i + width)))
  <$> range_step (Z.of_nat (length player_urls)) width.

(** [all_data] at the end of [scrape_year]. *)
Definition scrape_profiles (width : Z) (browser : Z -> profile_page)
    (start_from : Z) (player_urls : list string) (year : Z) : list player_data :=
  let player_urls := resume start_from player_urls in
  mjoin ((fun b =>
            scrape_player_batch width browser (snd b) year (fst b)
              (Z.of_nat (length player_urls)))
         <$> batches width player_urls).

(** *** [click_load_more_until_complete], scraper.py:153-321 *)

Section Crawl.
Context {P : Type} `{Listing.Page P}.
Variable TEST_MODE : bool.

Definition max_clicks : Z := if TEST_MODE then 20 else 500.

Record counters : Type := Counters {
  click_count : Z;
  consecutive_failures : Z;
  no_button_checks : Z
}.

(** Why the [while] loop of lines 218-251 ended. *)
Inductive exit : Type :=
| ClickCeiling         (* the loop condition [click_count < max_clicks] failed *)
| AllLoaded            (* [no_button_checks >= 3] *)
| TooManyFailures.     (* [consecutive_failures >= 10] *)

Record loop_result : Type := LoopResult {
  final_page : P;
  final_counters : counters;
  reason : exit;
  attempts : list Listing.attempt     (* the passes made, in order *)
}.

(** Lines 218-251.  [fuel] bounds the number of passes; [None] means
    that it was too small. *)
Fixpoint load_more_loop (fuel : nat) (page : P) (c : counters)
    (done : list Listing.attempt) : option loop_result :=
  if negb (click_count c <? max_clicks)
  then Some (LoopResult page c ClickCeiling done)
  else
    match fuel with
    | O => None
    | S fuel' =>
        let '(a, page') := Listing.try_load_more page in
        let done' := (done ++ [a])%list in
        match a with
        | Listing.Clicked =>
            load_more_loop fuel' page' (Counters (click_count c + 1) 0 0) done'
        | Listing.ClickedThenRaised =>
            (* counters reset by the click, then the handler counts the failure *)
            let c' := Counters (click_count c + 1) (0 + 1) 0 in
            if consecutive_failures c' >=? 10
            then Some (LoopResult page' c' TooManyFailures done')
            else load_more_loop fuel' page' c' done'
        | Listing.NoButton =>
            let c' := Counters (click_count c) (consecutive_failures c)
                               (no_button_checks c + 1) in
            if no_button_checks c' >=? 3
            then Some (LoopResult page' c' AllLoaded done')
            else load_more_loop fuel' page' c' done'
        | Listing.Failed =>
            let c' := Counters (click_count c) (consecutive_failures c + 1)
                               (no_button_checks c) in
            if consecutive_failures c' >=? 10
            then Some (LoopResult page' c' TooManyFailures done')
            else load_more_loop fuel' page' c' done'
        end
    end.

(** Enough fuel for any page: between two clicks there are at most 2
    passes without button and 9 failures. *)
Definition loop_fuel : nat := Z.to_nat (13 * max_clicks + 14).

(** Lines 259-267: up to [n] clean-up passes.  A pass that raises is
    skipped ([continue]); a pass that finds no button ends the loop. *)
Fixpoint cleanup (n : nat) (page : P) (done : list Listing.attempt)
    : P * list Listing.attempt :=
  match n with
  | O => (page, done)
  | S n' =>
      let '(a, page') := Listing.try_load_more page in
      match a with
      | Listing.NoButton => (page', (done ++ [a])%list)
      | _ => cleanup n' page' ((done ++ [a])%list)
      end
  end.

(** Lines 253-271. *)
Definition post_loop_verification (page : P) : P * list Listing.attempt :=
  match Listing.button_visible page with
  | Some true => cleanup 50 page []
  | _ => (page, [])
  end.

(** [list(dict.fromkeys(l))]: the first occurrence of each element, in
    order. *)
Fixpoint fromkeys (seen : list string) (l : list string) : list string :=
  match l with
  | [] => []
  | x :: l' => if bool_decide (x ∈ seen) then fromkeys seen l'
               else x :: fromkeys (x :: seen) l'
  end.

(** The condition of line 301: [u and '/player/' in u and
    '247sports.com' in u]. *)
Definition is_player_link (u : string) : bool :=
  negb (Py.falsy u) && Py.contains u "/player/" && Py.contains u "247sports.com".

(** Lines 279-302. *)
Definition extract_player_urls (page : P) : list string :=
  let links := Listing.name_links page in
  let links := if bool_decide (links = []) then Listing.item_links page else links in
  let links := if bool_decide (links = []) then Listing.player_links page else links in
  fromkeys [] (normalize_player_url <$> List.filter is_player_link links).

(** What the function returns, [player_urls], and what it did on the
    way: why the [while] loop ended ([None] when the function returned
    before the loop), the passes of the loop and the passes of the
    clean-up. *)
Record crawl : Type := Crawl {
  player_urls : list string;
  loop_exit : option exit;
  loop_attempts : list Listing.attempt;
  cleanup_attempts : list Listing.attempt
}.

(** The whole function; [None] only if [loop_fuel] were too small. *)
Definition click_load_more_until_complete (page : P) : option crawl :=
  if negb (Listing.opened page) then Some (Crawl [] None [] [])
  else if negb (Listing.item_count page >? 0) then Some (Crawl [] None [] [])
  else
    match load_more_loop loop_fuel page (Counters 0 0 0) [] with
    | None => None
    | Some r =>
        let '(page', cleaned) := post_loop_verification (final_page r) in
        let urls := extract_player_urls page' in
        let urls := if TEST_MODE && (Z.of_nat (length urls) >? 300)
                    then take 300 urls else urls in
        Some (Crawl urls (Some (reason r)) (attempts r) cleaned)
    end.
End Crawl.

(** *** [append_to_csv], scraper.py:139-147

    A CSV file is the sequence of the rows handed to the [csv] writer,
    [None] when the file does not exist.  The writing itself (opening,
    writing, closing) is taken to succeed; what raises is a dictionary
    that the writer refuses. *)
Inductive csv_row : Type :=
| HeaderRow (fieldnames : list string)
| Row (cells : list string).

Definition csv_file : Type := option (list csv_row).

(** [DictWriter._dict_to_list]: a key that is no field name is a
    [ValueError]; a field name that is no key gives the empty string. *)
Definition dict_to_list (fieldnames : list string) (rowdict : player_data)
    : option (list string) :=
  if bool_decide (is_Some (date_priority rowdict))
     || negb (forallb (fun key => bool_decide (key ∈ fieldnames))
                      (map_to_list (fields rowdict)).*1)
  then None
  else Some ((fun key => default "" (fields rowdict !! key)) <$> fieldnames).

(** [writer.writerows(players)]: the rows are written one by one, up to
    the first dictionary that is refused. *)
Fixpoint writerows (fieldnames : list string) (rowdicts : list player_data)
    : Effect.M (list csv_row) unit :=
  match rowdicts with
  | [] => Effect.ret tt
  | rowdict :: rowdicts' =>
      match dict_to_list fieldnames rowdict with
      | Some cells =>
          Effect.bind (Effect.modify (fun rows => rows ++ [Row cells])%list)
                      (fun _ => writerows fieldnames rowdicts')
      | None => Effect.raise
      end
  end.

Definition append_to_csv (players : list player_data) : Effect.M csv_file unit :=
  fun file =>
    let file_exists := bool_decide (is_Some file) in
    let rows := default [] file in
    let rows := if negb file_exists then (rows ++ [HeaderRow CSV_HEADERS])%list else rows in
    let '(o, rows) := writerows CSV_HEADERS players rows in
    (o, Some rows).

(** *** [scrape_year], scraper.py:642-694 *)

(** The loop of lines 670-686 with its incremental save; [batches_data]
    are the results of [scrape_player_batch] for the batches, in order. *)
Fixpoint save_loop (batches_data : list (list player_data))
    (all_data batch_buffer : list player_data)
    : Effect.M csv_file (list player_data * list player_data) :=
  match batches_data with
  | [] => Effect.ret (all_data, batch_buffer)
  | batch_data :: rest =>
      let all_data := (all_data ++ batch_data)%list in
      let batch_buffer := (batch_buffer ++ batch_data)%list in
      if (100 <=? length batch_buffer)%nat
      then Effect.bind (append_to_csv batch_buffer)
                       (fun _ => save_loop rest all_data [])
      else save_loop rest all_data batch_buffer
  end.

(** Lines 649-694; [player_urls] is what
    [click_load_more_until_complete] returned on line 647, and the state
    is the output file of the run. *)
Definition scrape_year (width : Z) (browser : Z -> profile_page) (start_from : Z)
    (player_urls : list string) (year : Z) : Effect.M csv_file (list player_data) :=
  if bool_decide (player_urls = []) then Effect.ret []
  else
    let player_urls := resume start_from player_urls in
    Effect.bind
      (save_loop ((fun b => scrape_player_batch width browser (snd b) year (fst b)
                              (Z.of_nat (length player_urls)))
                  <$> batches width player_urls) [] [])
      (fun '(all_data, batch_buffer) =>
         Effect.bind
           (if negb (bool_decide (batch_buffer = []))
            then append_to_csv batch_buffer else Effect.ret tt)
           (fun _ => Effect.ret all_data)).

End Scraper.

(** ** [patch_missing_ranks.py] *)

Module Patch.

Definition CSV_HEADERS : list string := Scraper.CSV_HEADERS.

(** *** [get_players_from_list], patch_missing_ranks.py:111-236 *)

(** Lines 227-231 and 583: [rank_to_player[item['rank']] = ...] for each
    item in turn, a later item replacing an earlier one of the same rank. *)
Definition rank_to_player (items_data : list Listing.entry) : gmap Z Listing.entry :=
  fold_left (fun m item => <[Listing.rank item := item]> m) items_data ∅.

Section List.
Context {P : Type} `{Listing.Page P}.

Record counters : Type := Counters {
  click_count : Z;
  consecutive_failures : Z;
  no_button_checks : Z
}.

(** Why the [for] loop of lines 150-195 ended. *)
Inductive exit : Type :=
| RangeExhausted       (* all [clicks_needed + 5] passes were made *)
| EnoughLoaded         (* [items > max_rank_needed + 50] *)
| AllLoaded            (* [no_button_checks >= 3] *)
| TooManyFailures.     (* [consecutive_failures >= 5] *)

Record loop_result : Type := LoopResult {
  final_page : P;
  final_counters : counters;
  reason : exit;
  attempts : list Listing.attempt
}.

(** Lines 150-195; [n] is the number of passes of the [for] loop still
    to be made. *)
Fixpoint load_more_loop (max_rank_needed : Z) (n : nat) (page : P) (c : counters)
    (done : list Listing.attempt) : loop_result :=
  match n with
  | O => LoopResult page c RangeExhausted done
  | S n' =>
      let '(a, page') := Listing.try_load_more page in
      let done' := (done ++ [a])%list in
      match a with
      | Listing.Clicked =>
          let c' := Counters (click_count c + 1) 0 0 in
          if (click_count c' mod 5 =? 0)
             && (Listing.item_count page' >? max_rank_needed + 50)
          then LoopResult page' c' EnoughLoaded done'
          else load_more_loop max_rank_needed n' page' c' done'
      | Listing.ClickedThenRaised =>
          let c' := Counters (click_count c + 1) (0 + 1) 0 in
          if consecutive_failures c' >=? 5
          then LoopResult page' c' TooManyFailures done'
          else load_more_loop max_rank_needed n' page' c' done'
      | Listing.NoButton =>
          let c' := Counters (click_count c) (consecutive_failures c)
                             (no_button_checks c + 1) in
          if no_button_checks c' >=? 3
          then LoopResult page' c' AllLoaded done'
          else load_more_loop max_rank_needed n' page' c' done'
      | Listing.Failed =>
          let c' := Counters (click_count c) (consecutive_failures c + 1)
                             (no_button_checks c) in
          if consecutive_failures c' >=? 5
          then LoopResult page' c' TooManyFailures done'
          else load_more_loop max_rank_needed n' page' c' done'
      end
  end.

(** [range(clicks_needed + 5)] with [clicks_needed = max_rank_needed // 50 + 5]. *)
Definition passes (max_rank_needed : Z) : nat :=
  Z.to_nat ((max_rank_needed / 50 + 5) + 5).

Definition get_players_from_list (page : P) (max_rank_needed : Z)
    : gmap Z Listing.entry :=
  if negb (Listing.opened page) then ∅
  else
    let r := load_more_loop max_rank_needed (passes max_rank_needed) page
               (Counters 0 0 0) [] in
    rank_to_player (Listing.entries (final_page r)).
End List.

(** *** [parse_profile], patch_missing_ranks.py:242-393 *)

(** The outcome of fetching one profile: [reached] tells that the page was
    fetched and parsed (line 298 was reached); [writes] are the
    assignments [data[key] = value] of lines 301-378, in order. *)
Record profile : Type := Profile {
  now : string;
  reached : bool;
  writes : list (string * string)
}.

Definition data_source : string := "247Sports Composite (patch)".

Definition parse_profile (page : profile) (url : string) (year : Z) : gmap string string :=
  let data :=
    <["Class" := Py.str year]>
      (<["Data Source" := data_source]>
        (<["Scrape Date" := now page]>
          (<["Recruiting Year" := Py.str year]>
            (<["Profile URL" := url]> Scraper.all_NA)))) in
  if reached page then
    fold_left (fun d kv => <[fst kv := snd kv]> d) (writes page)
              (<["247 ID" := Scraper.extract_player_id url]> data)
  else data.

(** *** The body of the loop over years in [main],
    patch_missing_ranks.py:447-610 *)

Record gaps : Type := Gaps {
  gaps_247 : list Z;
  gaps_composite : list Z
}.

(** The value of [target_players[url]]. *)
Record target : Type := Target {
  t_name : string;
  missing_composite_rank : option Z;
  missing_247_rank : option Z
}.

(** The value of [diagnostics[key]]. *)
Record diagnostic : Type := Diagnostic {
  d_year : Z;
  d_name : string;
  d_url : string;
  expected_composite_rank : option Z;
  got_247_rank : string;
  got_composite_rank : string;
  success : bool
}.

Inductive variant : Type := Composite | Only247.

(** What the run has produced so far.  [fetched] lists the URLs given to
    [parse_profile], in order; [not_found] the ranks reported by the
    warnings of lines 475 and 605; [skipped] the years whose list could
    not be loaded (line 455); [list_failures] the years for which the
    handler of line 608 reported a failure of the 247-only list. *)
Record run : Type := Run {
  all_patched : list (gmap string string);
  diagnostics : gmap string diagnostic;
  fetched : list string;
  not_found : list (Z * variant * Z);
  skipped : list Z;
  list_failures : list Z
}.

(** [target_players] is a dictionary in insertion order: an association
    list whose keys are distinct. *)
Fixpoint set_composite_rank (url : string) (rank : Z) (l : list (string * target))
    : list (string * target) :=
  match l with
  | [] => []
  | (u, t) :: l' =>
      if String.eqb u url
      then (u, Target (t_name t) (Some rank) (missing_247_rank t)) :: l'
      else (u, t) :: set_composite_rank url rank l'
  end.

Definition has_key (url : string) (l : list (string * target)) : bool :=
  existsb (fun ut => String.eqb (fst ut) url) l.

(** Lines 460-475: the targets, and the ranks not found on the list. *)
Fixpoint composite_targets (rank_map : gmap Z Listing.entry) (ranks : list Z)
    (target_players : list (string * target)) (missing : list Z)
    : list (string * target) * list Z :=
  match ranks with
  | [] => (target_players, missing)
  | rank :: ranks' =>
      match rank_map !! rank with
      | Some player =>
          let url := Listing.url player in
          if negb (has_key url target_players)
          then composite_targets rank_map ranks'
                 (target_players ++ [(url, Target (Listing.name player) (Some rank) None)])%list
                 missing
          else composite_targets rank_map ranks'
                 (set_composite_rank url rank target_players) missing
      | None => composite_targets rank_map ranks' target_players (missing ++ [rank])%list
      end
  end.

Definition field (data : gmap string string) (key : string) : string :=
  default "NA" (data !! key).

(** The tab that the 247-only pass opens for one profile (lines 595-598):
    [tab_opens] tells that [context247.new_page()] and [pg.route(...)] went
    through, [tab_closes] that [pg.close()] did.  These calls are inside
    the [try] of line 537.  The same calls of the composite pass (lines
    497-503) are outside any handler: when they raise, the run ends. *)
Record tab : Type := Tab {
  tab_opens : bool;
  tab_closes : bool
}.

Import Effect Effect.Notations.

Section Year.
Variable browser : string -> profile.   (* the profile page behind a URL *)
Variable tabs : string -> tab.          (* the tab of the 247-only pass for a URL *)

(** Lines 494-525, one target. *)
Definition scrape_target (year : Z) (r : run) (ut : string * target) : run :=
  let '(url, info) := ut in
  let data := parse_profile (browser url) url year in
  let got_247 := negb (String.eqb (field data "247 National Rank") "NA") in
  let got_comp := negb (String.eqb (field data "Composite National Rank") "NA") in
  Run (all_patched r ++ [data])%list
      (<[Py.str year ++ "_" ++ field data "247 ID" :=
           Diagnostic year (field data "Player Name") url
             (missing_composite_rank info)
             (field data "247 National Rank")
             (field data "Composite National Rank")
             (got_247 || got_comp)]> (diagnostics r))
      (fetched r ++ [url])%list
      (not_found r) (skipped r) (list_failures r).

(** Lines 531-534. *)
Definition covered (year : Z) (diags : gmap string diagnostic) (rank : Z) : bool :=
  existsb (fun kd => (d_year (snd kd) =? year)
                     && String.eqb (got_247_rank (snd kd)) (Py.str rank))
          (map_to_list diags).

(** Lines 589-592: some diagnostic has this URL. *)
Definition already_scraped (diags : gmap string diagnostic) (url : string) : bool :=
  existsb (fun kd => String.eqb (d_url (snd kd)) url) (map_to_list diags).

(** Lines 585-605, one rank.  An exception of [new_page] or [route]
    leaves the loop before the profile is fetched, one of [close] after
    it was fetched and before its row is added. *)
Definition lookup_247 (year : Z) (r247_map : gmap Z Listing.entry) (rank : Z)
    : M run unit :=
  match r247_map !! rank with
  | Some player =>
      r <- get ;;
      if negb (already_scraped (diagnostics r) (Listing.url player)) then
        let pg := tabs (Listing.url player) in
        (if tab_opens pg then ret tt else raise) ;;;
        let data := parse_profile (browser (Listing.url player))
                      (Listing.url player) year in
        modify (fun r =>
          Run (all_patched r) (diagnostics r)
              (fetched r ++ [Listing.url player])%list
              (not_found r) (skipped r) (list_failures r)) ;;;
        (if tab_closes pg then ret tt else raise) ;;;
        modify (fun r =>
          Run (all_patched r ++ [data])%list (diagnostics r) (fetched r)
              (not_found r) (skipped r) (list_failures r))
      else ret tt
  | None =>
      modify (fun r =>
        Run (all_patched r) (diagnostics r) (fetched r)
            (not_found r ++ [(year, Only247, rank)])%list (skipped r)
            (list_failures r))
  end.

(** Lines 460-527: the targets are identified, the ranks not found are
    reported, and each target is scraped once. *)
Definition composite_pass (year : Z) (g : gaps) (rank_map : gmap Z Listing.entry)
    (r : run) : run :=
  let '(target_players, missing) :=
    composite_targets rank_map (gaps_composite g) [] [] in
  let r := Run (all_patched r) (diagnostics r) (fetched r)
               (not_found r ++ ((fun rank => (year, Composite, rank)) <$> missing))%list
               (skipped r) (list_failures r) in
  fold_left (scrape_target year) target_players r.

(** Lines 531-534. *)
Definition missing_247_not_covered (year : Z) (g : gaps) (r : run) : list Z :=
  List.filter (fun rank => negb (covered year (diagnostics r) rank)) (gaps_247 g).

(** Lines 536-610.  [r247_data] are the entries read from the 247-only
    list, [None] when loading or reading that list raises.  Whatever is
    raised inside the [try], by the list or by a tab, is caught at line
    607 and reported as a failure of the list. *)
Definition pass_247 (year : Z) (r247_data : option (list Listing.entry))
    (missing : list Z) (r : run) : run :=
  match missing with
  | [] => r
  | _ =>
      match (r247_data <- await r247_data ;;
             for_each missing (lookup_247 year (rank_to_player r247_data))) r with
      | (Raised, r') =>
          Run (all_patched r') (diagnostics r') (fetched r') (not_found r')
              (skipped r') (list_failures r' ++ [year])%list
      | (_, r') => r'
      end
  end.

(** One year; [rank_map] is the result of [get_players_from_list], and
    an empty one makes the year be skipped (lines 454-456). *)
Definition patch_year (year : Z) (g : gaps) (rank_map : gmap Z Listing.entry)
    (r247_data : option (list Listing.entry)) (r : run) : run :=
  if bool_decide (rank_map = ∅)
  then Run (all_patched r) (diagnostics r) (fetched r) (not_found r)
           (skipped r ++ [year])%list (list_failures r)
  else
    let r := composite_pass year g rank_map r in
    pass_247 year r247_data (missing_247_not_covered year g r) r.
End Year.

Definition empty_run : run := Run [] ∅ [] [] [] [].

End Patch.

(** * The vocabulary of the statements *)

(** ** Lists *)

(** The items up to and including the first that satisfies [f]; all of
    them when none does. *)
Fixpoint up_to_first {A} (f : A -> bool) (l : list A) : list A :=
  match l with
  | [] => []
  | x :: l' => x :: (if f x then [] else up_to_first f l')
  end.

(** The items before the first that satisfies [f]. *)
Fixpoint before_first {A} (f : A -> bool) (l : list A) : list A :=
  match l with
  | [] => []
  | x :: l' => if f x then [] else x :: before_first f l'
  end.

(** ** Timeline events and the recorded priority *)

Module Timeline.
Import Effect Scraper.

(** [data.get('_date_priority', -1)]: the recorded priority. *)
Definition recorded_priority (d : player_data) : Z := default (-1) (date_priority d).

(** A candidate event: its text has Commitment or Signing priority, a date
    was found in it, and the date passes the validity check. *)
Definition valid_event (year : Z) (item_text : string) : bool :=
  (item_priority_of item_text >? 0)
  && negb (String.eqb (found_date_of item_text) "NA")
  && is_date_valid_for_class (found_date_of item_text) year.

(** The event is written into a record whose priority is [p]. *)
Definition accepts (year p : Z) (item_text : string) : bool :=
  valid_event year item_text && (item_priority_of item_text >? p).

(** The record after the event has been written into it. *)
Definition record_event (item_text : string) (d : player_data) : player_data :=
  let fields1 := <["Signed Date" := found_date_of item_text]> (fields d) in
  PlayerData
    match search1 team_re item_text with
    | Some g1 => <["Signed Team" := clean_text g1]> fields1
    | None => fields1
    end
    (Some (item_priority_of item_text)).

(** The priority recorded after an event of the trace, from priority [p]. *)
Definition step (year : Z) (p : Z) (e : event) : Z :=
  match e with
  | Examined _ item_text =>
      if accepts year p item_text then item_priority_of item_text else p
  | NextPage => p
  end.

Definition replay (year : Z) (p : Z) (tr : list event) : Z :=
  fold_left (step year) tr p.

(** The event makes the full-history scan leave the function. *)
Definition exits (year p : Z) (e : event) : bool :=
  match e with
  | Examined DeepHistory item_text =>
      accepts year p item_text && (item_priority_of item_text =? 100)
  | _ => false
  end.

(** Some event of the trace makes the scan leave the function. *)
Fixpoint stops (year p : Z) (tr : list event) : bool :=
  match tr with
  | [] => false
  | e :: tr' => exits year p e || stops year (step year p e) tr'
  end.

(** Nothing follows an event that makes the scan leave the function. *)
Fixpoint well_stopped (year p : Z) (tr : list event) : bool :=
  match tr with
  | [] => true
  | e :: tr' =>
      if exits year p e then bool_decide (tr' = [])
      else well_stopped year (step year p e) tr'
  end.

(** The priorities of the valid events among the texts examined. *)
Definition valid_priorities (year : Z) (tr : list event) : list Z :=
  omap (fun e =>
          match e with
          | Examined _ item_text =>
              if valid_event year item_text
              then Some (item_priority_of item_text) else None
          | NextPage => None
          end) tr.

Definition max_of (base : Z) (l : list Z) : Z := fold_right Z.max base l.

(** The dictionary has the columns that [parse_timeline] reads. *)
Definition has_columns (d : player_data) : Prop :=
  forall header, header ∈ CSV_HEADERS -> is_Some (fields d !! header).

(** The body of the loop over the abbreviated timeline. *)
Definition abbreviated_body (year : Z) (item : string) : M state unit :=
  let item_text := clean_text item in
  bind (log (Examined Abbreviated item_text))
       (fun _ => bind (draft_logic item_text)
          (fun _ => commitment_logic false year item_text)).

(** The event is an item of the abbreviated timeline. *)
Definition is_abbreviated (e : event) : bool :=
  match e with
  | Examined Abbreviated _ => true
  | _ => false
  end.

(** The scan has looked at the abbreviated timeline only. *)
Definition shallow (s : state) : Prop :=
  has_columns (data s) /\ forallb is_abbreviated (trace s) = true.

(** The items of the abbreviated timeline, as the trace shows them. *)
Definition abbreviated_events (items : list string) : list event :=
  (fun item => Examined Abbreviated (clean_text item)) <$> items.

(** What holds of the state during and after the scan of the timeline
    that started with the recorded priority [p0] and the trace [pre]. *)
Section Scan.
Variables (year p0 : Z) (pre : list event).

(** While the scan goes on: the columns are there, the recorded priority
    is the one that the trace gives, no event of the trace has made the
    scan leave, and the trace extends [pre]. *)
Definition scanning (s : state) : Prop :=
  has_columns (data s)
  /\ recorded_priority (data s) = replay year p0 (trace s)
  /\ stops year p0 (trace s) = false
  /\ pre `prefix_of` trace s.

(** When it is over: moreover, if the last event made the scan leave,
    the record holds the date of that event. *)
Definition scanned (s : state) : Prop :=
  has_columns (data s)
  /\ recorded_priority (data s) = replay year p0 (trace s)
  /\ well_stopped year p0 (trace s) = true
  /\ pre `prefix_of` trace s
  /\ forall tr item_text,
       trace s = (tr ++ [Examined DeepHistory item_text])%list ->
       exits year (replay year p0 tr) (Examined DeepHistory item_text) = true ->
       fields (data s) !! "Signed Date" = Some (found_date_of item_text).

End Scan.

(** The items of one page of the full history, as the trace shows them. *)
Definition history_items (items : list string) : list event :=
  (fun item => Examined DeepHistory (clean_text item)) <$> items.

(** What the full history offers to a scan that reads [remaining] pages
    from page [page_count] on: the items of each page in order, and the
    click that leads from a page to the next.  The reading ends with the
    page whose button is absent or fails, and before a page that cannot
    be read. *)
Fixpoint history_events (pages : list history_page) (remaining page_count : nat)
    : list event :=
  match remaining with
  | O => []
  | S remaining' =>
      match pages !! page_count with
      | Some page =>
          match full_items page with
          | Some items =>
              (history_items items
               ++ match next page with
                  | NextClicked =>
                      NextPage :: history_events pages remaining' (S page_count)
                  | NextAbsent | NextRaises => []
                  end)%list
          | None => []
          end
      | None => []
      end
  end.

(** The events up to and including the first that makes a scan started
    with the recorded priority [p] leave the function. *)
Fixpoint cut (year p : Z) (tr : list event) : list event :=
  match tr with
  | [] => []
  | e :: tr' => e :: (if exits year p e then [] else cut year (step year p e) tr')
  end.

(** An item of the full history with Commitment priority whose date was
    found and passes the validity check. *)
Definition dated_commitment (year : Z) (e : event) : bool :=
  match e with
  | Examined DeepHistory item_text =>
      valid_event year item_text && (item_priority_of item_text =? 100)
  | _ => false
  end.

(** The scan goes to the full history: the deep dive is asked for, the
    page has a link to the full history with a non-empty [href], and the
    navigation to it succeeds. *)
Definition opens_history (page : timeline_view) (do_deep_dive : bool) : bool :=
  do_deep_dive
  && match see_all_href page with
     | Some (Some href) => negb (Py.falsy href) && goto_ok page
     | _ => false
     end.

(** The events that the timeline offers to the scan: the abbreviated
    items and, when the scan goes to the full history, its events. *)
Definition offered (page : timeline_view) (do_deep_dive : bool) : list event :=
  match items page with
  | Some its =>
      (abbreviated_events its
       ++ if opens_history page do_deep_dive
          then history_events (pages page) max_pages 0 else [])%list
  | None => []
  end.

(** The events that a profile offers to the scan, with or without the
    deep dive: those of its timeline when the page is fetched and parsed,
    none otherwise; and those that it offers to the scan of player number
    [player_num]. *)
Definition profile_offer (page : profile_page) (deep : bool) : list event :=
  if fetch_ok page then
    match content page with
    | Some _ => offered (timeline page) deep
    | None => []
    end
  else [].

Definition profile_events (page : profile_page) (player_num : Z) : list event :=
  profile_offer page (do_deep_dive player_num).

(** Before the timeline is looked at. *)
Definition fresh (s : state) : Prop :=
  has_columns (data s) /\ date_priority (data s) = Some (-1) /\ trace s = [].

Definition reconciled (year : Z) : state -> Prop := scanned year (-1) [].
End Timeline.

(** ** What a computation of the monad ensures *)

Section Outcomes.
Import Effect.
Context {S : Type}.

(** [m] keeps [I] along normal and exceptional exits and establishes [F]
    when it leaves the function. *)
Definition triple {A} (I F : S -> Prop) (m : M S A) : Prop :=
  forall s, I s ->
    match m s with
    | (Val _, s') => I s'
    | (Raised, s') => I s'
    | (Returned, s') => F s'
    end.

(** [m] started in a state of [P] ends its normal course in [V] and its
    other courses in [E]. *)
Definition ensures {A} (P : S -> Prop) (m : M S A) (V : A -> S -> Prop)
    (E : S -> Prop) : Prop :=
  forall s, P s ->
    match m s with
    | (Val a, s') => V a s'
    | (_, s') => E s'
    end.
End Outcomes.

(** ** Strings and URLs *)

Fixpoint has_char (c : ascii) (s : string) : bool :=
  match s with
  | EmptyString => false
  | String a rest => Ascii.eqb a c || has_char c rest
  end.

Definition not_slash (a : ascii) : bool := negb (Ascii.eqb a Scraper.slash).

(** What is left of [s] after its longest prefix of characters that
    satisfy [p]. *)
Fixpoint drop_while (p : ascii -> bool) (s : string) : string :=
  match s with
  | EmptyString => EmptyString
  | String a rest => if p a then drop_while p rest else s
  end.

(** What the player pattern takes at the start of [url]: the pattern is
    anchored, its literal part is the prefix, and [[^/]+] greedily takes
    the non-empty run of characters other than ['/'] that follows;
    nothing comes after it in the pattern, so the matcher never gives a
    character back. *)
Definition leading_player_url (url : string) : option string :=
  match Py.strip_prefix Scraper.player_prefix url with
  | None => None
  | Some rest =>
      match Py.take_while not_slash rest with
      | EmptyString => None
      | seg => Some (Scraper.player_prefix ++ seg)
      end
  end.

(** A text that is empty or starts with ['/']. *)
Definition path_or_empty (tail : string) : Prop :=
  tail = "" \/ exists t, tail = String "/" t.

(** The text on which the pattern is tried. *)
Definition prepared (url : string) : string :=
  Py.replace (Py.replace (Py.before_char "#" (Py.before_char "?" url))
                         "://www." "://") "http://" "https://".

(** The segment that names the player: not empty, and free of the
    characters that delimit the parts of a URL. *)
Definition is_slug (seg : string) : bool :=
  negb (Py.falsy seg) && negb (has_char "/" seg) && negb (has_char "?" seg)
  && negb (has_char "#" seg) && negb (has_char ":" seg).

(** What may follow the segment: nothing, a path, a query string or a
    fragment. *)
Definition is_tail (tail : string) : bool :=
  match tail with
  | EmptyString => true
  | String c _ => Ascii.eqb c "/" || Ascii.eqb c "?" || Ascii.eqb c "#"
  end.

Definition host_path : string := "247sports.com/player/".

(** Decides a goal about [startswith] on a text made of a symbolic
    segment, by cases on the characters that the test looks at, using the
    hypotheses that tell which characters the segment does not contain. *)
Ltac closed_eqb :=
  match goal with
  | |- context [Ascii.eqb ?a ?b] =>
      assert_fails (is_var a); assert_fails (is_var b);
      let v := eval vm_compute in (Ascii.eqb a b) in
      change (Ascii.eqb a b) with v
  | H : Ascii.eqb ?a ?b = _ |- _ =>
      assert_fails (is_var a); assert_fails (is_var b);
      vm_compute in H
  end.

Ltac char_step :=
  simpl in *;
  first
    [ congruence
    | closed_eqb
    | match goal with
      | H : _ || _ = false |- _ => apply orb_false_iff in H as [? ?]
      | |- context [Ascii.eqb ?c ?a] =>
          is_var a; destruct (Ascii.eqb_spec c a) as [<-|?]
      | |- context [String.append ?s _] => is_var s; destruct s
      end ].

Ltac char_cases := repeat char_step.

(** ** Batches *)

Module BatchWords.
Import Scraper.
(** The player number of the task at index [i] of batch [batch_num]. *)
Definition player_num_at (width batch_num : Z) (i : nat) : Z :=
  batch_num * width + Z.of_nat i + 1.

(** The record of all sentinels, with the locator and the metadata. *)
Definition sentinel_record (page : profile_page) (url : string) (year : Z) : player_data :=
  PlayerData
    (<["Data Source" := data_source]>
      (<["Scrape Date" := clock page]>
        (<["Recruiting Year" := Py.str year]>
          (<["Profile URL" := url]> all_NA))))
    None.

(** What the task of one player returns when its page closes normally. *)
Definition task_record (page : profile_page) (url : string) (year player_num total : Z)
    : player_data :=
  del_date_priority
    (if Py.contains url "/" then parse_profile page url year player_num total
     else PlayerData all_NA None).
End BatchWords.

(** ** List pages and their passes *)

Module Crawl.
Import Listing.

(** The number of failures since the last click that went through (a
    click followed by a failure in the same pass counts one). *)
Definition failures_since_click (l : list attempt) : Z :=
  fold_left (fun n a =>
               match a with
               | Clicked => 0
               | ClickedThenRaised => 1
               | NoButton => n
               | Failed => n + 1
               end) l 0.

(** The number of passes without button since the last click. *)
Definition no_button_since_click (l : list attempt) : Z :=
  fold_left (fun n a =>
               match a with
               | Clicked | ClickedThenRaised => 0
               | NoButton => n + 1
               | Failed => n
               end) l 0.

(** The number of clicks. *)
Definition clicks (l : list attempt) : Z :=
  fold_left (fun n a =>
               match a with
               | Clicked | ClickedThenRaised => n + 1
               | NoButton | Failed => n
               end) l 0.

Section Page.
Context {P : Type} `{Page P}.

(** The page after [n] passes, and what the passes were. *)
Fixpoint page_after (n : nat) (page : P) : P :=
  match n with
  | O => page
  | S n' => page_after n' (snd (try_load_more page))
  end.

Fixpoint observed (n : nat) (page : P) : list attempt :=
  match n with
  | O => []
  | S n' => fst (try_load_more page) :: observed n' (snd (try_load_more page))
  end.
End Page.

(** A page on which every pass has the same outcome. *)
Definition always (a : attempt) : Page unit :=
  {| opened := fun _ => true;
     item_count := fun _ => 50;
     try_load_more := fun _ => (a, tt);
     button_visible := fun _ => Some true;
     name_links := fun _ => [];
     item_links := fun _ => [];
     player_links := fun _ => [];
     entries := fun _ => [] |}.

(** Modelled from the spec: the simulated source of the convergence
    property, a list with a finite item count whose "Load More" button
    shows [per_click] more items at each click and disappears once all
    items are shown. *)
Record source : Type := Source {
  all_urls : list string;    (* the links of all the items, in rank order *)
  per_click : nat;
  shown : nat                (* how many items the page shows *)
}.

Definition exhausted (s : source) : bool := (length (all_urls s) <=? shown s)%nat.

Definition shown_links (s : source) : list string := take (shown s) (all_urls s).

Definition simulated : Page source :=
  {| opened := fun _ => true;
     item_count := fun s => Z.of_nat (length (shown_links s));
     try_load_more := fun s =>
       if exhausted s then (NoButton, s)
       else (Clicked, Source (all_urls s) (per_click s) (shown s + per_click s));
     button_visible := fun s => Some (negb (exhausted s));
     name_links := shown_links;
     item_links := shown_links;
     player_links := shown_links;
     entries := fun s => imap (fun i u => Entry (Z.of_nat i + 1) u u) (shown_links s) |}.

(** The links are canonical player links: the normalizer leaves them as
    they are and the extraction keeps them. *)
Definition canonical_link (u : string) : bool :=
  String.eqb (Scraper.normalize_player_url u) u && Scraper.is_player_link u.

(** *** The loop of the full crawl *)

Section Full.
Context {P : Type} `{Page P}.
Variable TEST_MODE : bool.
Variable page0 : P.
Import Scraper.

(** At the head of the loop, after [k] passes. *)
Definition at_head (k : nat) (page : P) (c : counters) (done : list attempt) : Prop :=
  done = observed k page0 /\ page = page_after k page0
  /\ click_count c = clicks done
  /\ consecutive_failures c = failures_since_click done
  /\ no_button_checks c = no_button_since_click done
  /\ 0 <= click_count c
  /\ 0 <= consecutive_failures c < 10
  /\ 0 <= no_button_checks c < 3.

(** The passes that the loop can still make. *)
Definition budget (c : counters) : Z :=
  12 * (max_clicks TEST_MODE - click_count c)
  - no_button_checks c - consecutive_failures c.

(** The loop goes on only while no ceiling is reached. *)
Definition going_on (l : list attempt) : Prop :=
  failures_since_click l < 10 /\ no_button_since_click l < 3
  /\ clicks l < max_clicks TEST_MODE.

(** What the loop returns, when it was entered after [k] passes. *)
Definition loop_ok (k : nat) (c : counters) (r : loop_result) : Prop :=
  attempts r = observed (length (attempts r)) page0
  /\ final_page r = page_after (length (attempts r)) page0
  /\ click_count (final_counters r) = clicks (attempts r)
  /\ consecutive_failures (final_counters r) = failures_since_click (attempts r)
  /\ no_button_checks (final_counters r) = no_button_since_click (attempts r)
  /\ (reason r = TooManyFailures <-> failures_since_click (attempts r) = 10)
  /\ (reason r = AllLoaded <-> no_button_since_click (attempts r) = 3)
  /\ (reason r = ClickCeiling <-> max_clicks TEST_MODE <= clicks (attempts r))
  /\ (forall j, (k <= j < length (attempts r))%nat -> going_on (observed j page0))
  /\ Z.of_nat (length (attempts r)) <= Z.of_nat k + Z.max 0 (budget c).

End Full.

(** *** The loop of the gap-repair crawl *)

Section Gap.
Context {P : Type} `{Page P}.
Variable page0 : P.
Import Patch.

Definition gap_at_head (k : nat) (page : P) (c : counters) (done : list attempt) : Prop :=
  done = observed k page0 /\ page = page_after k page0
  /\ click_count c = clicks done
  /\ consecutive_failures c = failures_since_click done
  /\ no_button_checks c = no_button_since_click done
  /\ 0 <= consecutive_failures c < 5
  /\ 0 <= no_button_checks c < 3.

Definition gap_going_on (l : list attempt) : Prop :=
  failures_since_click l < 5 /\ no_button_since_click l < 3.

(** What the loop returns, when it was entered after [k] passes with [n]
    passes left. *)
Definition gap_ok (k n : nat) (r : loop_result) : Prop :=
  attempts r = observed (length (attempts r)) page0
  /\ final_page r = page_after (length (attempts r)) page0
  /\ click_count (final_counters r) = clicks (attempts r)
  /\ consecutive_failures (final_counters r) = failures_since_click (attempts r)
  /\ no_button_checks (final_counters r) = no_button_since_click (attempts r)
  /\ (reason r = TooManyFailures <-> failures_since_click (attempts r) = 5)
  /\ (reason r = AllLoaded <-> no_button_since_click (attempts r) = 3)
  /\ (forall j, (k <= j < length (attempts r))%nat -> gap_going_on (observed j page0))
  /\ (k <= length (attempts r) <= k + n)%nat.

End Gap.
End Crawl.

(** ** Inputs of the examples *)

Module Examples.
Import Scraper.

(** A full-history page with a commitment dated after the cut-off followed
    by a signing dated before it. *)
Definition late_commitment : timeline_view :=
  TimelineView (Some []) (Some (Some "/Player/TimelineEvents/")) true
    [HistoryPage (Some ["Committed to Auburn 10/01/2019";
                         "Signed with Alabama 02/06/2019"]) NextAbsent].

(** A full-history page with a commitment in which no date is found,
    followed by a signing dated before the cut-off. *)
Definition undated_commitment : timeline_view :=
  TimelineView (Some []) (Some (Some "/Player/TimelineEvents/")) true
    [HistoryPage (Some ["Committed to Auburn";
                         "Signed with Alabama 02/06/2019"]) NextAbsent].

(** An abbreviated timeline with a signing dated before the cut-off and
    a commitment whose date does not read as MM/DD/YYYY. *)
Definition unparsed_commitment : timeline_view :=
  TimelineView (Some ["Signed with Alabama 02/06/2019";
                      "Committed to Auburn Sept 5, 2019"])
    (Some None) true [].

(** A signing, then a commitment, in the full history. *)
Definition signing_then_commitment : timeline_view :=
  TimelineView (Some ["Visit to Alabama on 01/05/2019"])
    (Some (Some "/Player/TimelineEvents/")) true
    [HistoryPage (Some ["Signed with Alabama 02/06/2019";
                         "Committed to Alabama 12/19/2018"; "Offer from Auburn"])
                 NextClicked;
     HistoryPage (Some ["Camp"]) NextAbsent].

(** A commitment shown by the abbreviated timeline and again by the full
    history, which has a second page. *)
Definition repeated_commitment : timeline_view :=
  TimelineView (Some ["Committed to Alabama 12/19/2018"])
    (Some (Some "/Player/TimelineEvents/")) true
    [HistoryPage (Some ["Committed to Alabama 12/19/2018";
                         "Signed with Alabama 02/06/2019"])
                 NextClicked;
     HistoryPage (Some ["Camp"]) NextAbsent].

Definition some_profile (tl : timeline_view) : profile_page :=
  ProfilePage "2026-02-20 10:00:00" true (Some (SoupView [] [] None)) tl true.

Definition some_url : string := "https://247sports.com/player/john-doe-123/".

Definition fresh_state : state := State (initial_data (some_profile late_commitment) some_url 2019) [].

Definition late_date_text : string := "Committed to Alabama Sept 5, 2019".

(** A profile that cannot be fetched. *)
Definition unreachable_profile : profile_page :=
  ProfilePage "2026-02-20 10:00:05" false None signing_then_commitment true.

(** A browser in which the page of player number 2 cannot be fetched. *)
Definition batch_browser (player_num : Z) : profile_page :=
  if player_num =? 2 then unreachable_profile else some_profile signing_then_commitment.

(** A browser in which the page of player number 2 cannot be closed. *)
Definition stuck_page_browser (player_num : Z) : profile_page :=
  if player_num =? 2
  then ProfilePage "2026-02-20 10:00:05" true (Some (SoupView [] [] None))
         signing_then_commitment false
  else some_profile signing_then_commitment.

(** A browser in which every page shows a commitment that only the full
    history has. *)
Definition history_browser (player_num : Z) : profile_page :=
  some_profile signing_then_commitment.

Definition batch_urls : list string :=
  [some_url; "https://247sports.com/player/jane-roe-456/";
   "https://247sports.com/player/sam-poe-789/"].
End Examples.

Module Words.
Import Scraper.
(** "The date falls strictly before September 1 of the recruiting year." *)
Definition before_cutoff (date_str : string) (year : Z) : bool :=
  match Datetime.strptime date_str "%m/%d/%Y" with
  | Some dt => Datetime.ltb dt (Datetime.mk year 9 1)
  | None => false
  end.

(** "The text mentions one of the words", whatever the case of its
    letters. *)
Definition mentions (words : list string) (item_text : string) : bool :=
  existsb (Py.contains (Py.lower item_text)) words.

Definition commitment_words : list string := ["commitment"; "committed"; "commits to"].
Definition signing_words : list string := ["signed"; "signing"].

(** "The maximum valid (date-passes-cutoff) priority seen": the
    priorities of the events examined that are candidates and whose date
    falls before the cut-off. *)
Definition priorities_before_cutoff (year : Z) (tr : list event) : list Z :=
  omap (fun e =>
          match e with
          | Examined _ item_text =>
              if (item_priority_of item_text >? 0)
                 && before_cutoff (found_date_of item_text) year
              then Some (item_priority_of item_text) else None
          | NextPage => None
          end) tr.
End Words.

Module CrawlExamples.
Import Listing Crawl.
(** [n] distinct canonical player links. *)
Definition links (n : nat) : list string :=
  (fun i => Scraper.player_prefix ++ "player-" ++ Py.str (Z.of_nat i) ++ "/") <$> seq 1 n.

(** A list of 12 players shown 5 at a time. *)
Definition small_source : source := Source (links 12) 5 5.

(** A list of 600 players shown one more at each click. *)
Definition slow_source : source := Source (links 600) 1 1.
End CrawlExamples.

(** ** The passes of the gap repair *)

Module GapWords.
Import Listing Patch.

(** The key under which the composite pass files the diagnostic of a URL
    (line 517): the year and the 247 ID of the parsed profile. *)
Definition diagnostic_key (browser : string -> profile) (year : Z) (u : string) : string :=
  Py.str year ++ "_" ++ field (parse_profile (browser u) u year) "247 ID".

(** The rank interrupts the 247-only pass: the list has it, no diagnostic
    records its player, and opening or closing the tab of the player
    raises. *)
Definition breaks (tabs : string -> tab) (r247_map : gmap Z entry)
    (diags : gmap string diagnostic) (rank : Z) : bool :=
  match r247_map !! rank with
  | Some e =>
      negb (already_scraped diags (url e))
      && negb (tab_opens (tabs (url e)) && tab_closes (tabs (url e)))
  | None => false
  end.
End GapWords.

Module GapExamples.
Import Listing Patch.
Definition player (n : string) : string :=
  Scraper.player_prefix ++ n ++ "/".

(** A browser on which every profile is fetched and parsed, giving a name
    and no rank. *)
Definition browser (u : string) : profile :=
  Profile "2026-02-20 10:00:00" true [("Player Name", "Some Player")].

Definition composite_list : list entry :=
  [Entry 5 (player "a-1") "A"; Entry 9 (player "b-2") "B"].

(** A 247-only list that shows one player at two ranks. *)
Definition doubled_list : list entry :=
  [Entry 7 (player "p-3") "P"; Entry 9 (player "p-3") "P"].

(** Tabs that open and close. *)
Definition tabs (u : string) : tab := Tab true true.

(** Tabs that open and close, but for the tab of player p-3, which does
    not close. *)
Definition stuck_tabs (u : string) : tab :=
  Tab true (negb (String.eqb u (player "p-3"))).

(** A 247-only list with three players. *)
Definition long_list : list entry :=
  [Entry 3 (player "n-4") "N"; Entry 7 (player "p-3") "P"; Entry 8 (player "q-5") "Q"].

(** A browser on which no profile can be fetched. *)
Definition offline_browser (u : string) : profile :=
  Profile "2026-02-20 10:00:00" false [].

(** A 247-only list on which the first player of the composite list holds
    rank 7. *)
Definition shared_list : list entry := [Entry 7 (player "a-1") "A"].
End GapExamples.

(** ** What a pattern matches

    The texts that a pattern matches, with the groups captured on the way:
    [lang r t c c'] tells that [r] matches exactly the text [t] and turns
    the captures [c] into [c']. *)

Module Lang.
Import Re.

(** [n] successive matches, each of a non-empty text. *)
Inductive iter (P : string -> captures -> captures -> Prop)
  : nat -> string -> captures -> captures -> Prop :=
| iter_O c : iter P 0 "" c c
| iter_S n t1 t2 c c1 c2 :
    t1 <> "" -> P t1 c c1 -> iter P n t2 c1 c2 -> iter P (S n) (t1 ++ t2) c c2.

Fixpoint lang (r : re) (t : string) (c c' : captures) : Prop :=
  match r with
  | Eps => t = "" /\ c' = c
  | Chr p => exists a, t = String a "" /\ p a = true /\ c' = c
  | Cat r1 r2 =>
      exists t1 t2 c1, t = t1 ++ t2 /\ lang r1 t1 c c1 /\ lang r2 t2 c1 c'
  | Alt r1 r2 => lang r1 t c c' \/ lang r2 t c c'
  | Rep _ lo hi r0 =>
      exists n, (lo <= n)%nat
                /\ match hi with Some h => (n <= Nat.max lo h)%nat | None => True end
                /\ iter (lang r0) n t c c'
  | Grp n r0 => exists c1, lang r0 t c c1 /\ c' = (n, t) :: c1
  end.

(** All the characters of [s] satisfy [p]. *)
Fixpoint all_chars (p : ascii -> bool) (s : string) : bool :=
  match s with
  | EmptyString => true
  | String a rest => p a && all_chars p rest
  end.

(** A non-empty run of decimal digits. *)
Definition is_number (s : string) : bool :=
  negb (Py.falsy s) && all_chars Re.digit s.
End Lang.

(** ** Texts *)

Module Text.
(** The first run of decimal digits of [s], empty when [s] has no digit. *)
Definition first_digits (s : string) : string :=
  Py.take_while Re.digit (drop_while (fun a => negb (Re.digit a)) s).

(** The text looks like a date or a number to a spreadsheet: it has a
    hyphen or an apostrophe, or it is short and has a digit. *)
Definition spreadsheet_bait (s : string) : bool :=
  Py.contains s "-" || Py.contains s (String Py.APOSTROPHE EmptyString)
  || ((String.length s <=? 4)%nat && Py.any Py.isdigit s).
End Text.


(** ** What the scan of the timeline writes *)

Module Draft.
Import Scraper.

(** The columns that [parse_timeline] may write. *)
Definition timeline_columns : list string :=
  ["Signed Date"; "Signed Team"; "Draft Date"; "Draft Team"].

Definition signed_columns : list string := ["Signed Date"; "Signed Team"].

(** From [s0] to [s] only columns of [cols] were written, and no column
    was removed. *)
Definition writes_only (cols : list string) (s0 s : state) : Prop :=
  (forall key, key ∉ cols -> fields (data s) !! key = fields (data s0) !! key)
  /\ (forall key, is_Some (fields (data s0) !! key) -> is_Some (fields (data s) !! key)).

(** The draft date that an item of the timeline offers. *)
Definition draft_date_of (item_text : string) : option string :=
  if Py.contains (Py.lower item_text) "draft"
  then normalize_date <$> search1 date_re item_text
  else None.

(** The drafting team that an item of the timeline offers. *)
Definition draft_team_of (item_text : string) : option string :=
  if Py.contains (Py.lower item_text) "draft" then
    match search1 draft_team_re item_text with
    | Some g1 =>
        let team_name := Py.strip (strip_draft_prefix (clean_text g1)) in
        if negb (Py.falsy team_name) && negb (String.eqb (Py.lower team_name) "draft")
        then Some team_name else None
    | None => None
    end
  else None.

(** The Signed Date of the record is the sentinel, or the date found in
    an item that the scan has examined, an item with a priority, whose
    date passed the check for the class year. *)
Definition signed_date_checked (year : Z) (s : state) : Prop :=
  fields (data s) !! "Signed Date" = Some "NA"
  \/ exists tier item_text,
       Examined tier item_text ∈ trace s
       /\ Timeline.valid_event year item_text = true
       /\ fields (data s) !! "Signed Date" = Some (found_date_of item_text).

(** The first of the values that is not the sentinel, the sentinel when
    there is none. *)
Definition first_known (l : list string) : string :=
  default "NA" (head (List.filter (fun v => negb (String.eqb v "NA")) l)).
End Draft.

(** ** What the list crawls return *)

Module Links.
Import Listing Crawl.

Section Page.
Context {P : Type} `{Page P}.

(** The links that the three extraction queries can return on [page]. *)
Definition all_links (page : P) : list string :=
  (name_links page ++ item_links page ++ player_links page)%list.

(** Pass [j] of the gap-repair loop (the first is pass 0) on [page0] ends
    with the check that enough of the list is loaded, and the check
    holds: the pass clicked, the clicks so far are a multiple of 5, and
    the list shows more than [max_rank_needed + 50] items. *)
Definition enough_at (max_rank_needed : Z) (page0 : P) (j : nat) : bool :=
  match fst (try_load_more (page_after j page0)) with
  | Clicked =>
      (clicks (observed (S j) page0) mod 5 =? 0)
      && (item_count (page_after (S j) page0) >? max_rank_needed + 50)
  | _ => false
  end.
End Page.

(** The entries of rank [k], in the order of the list. *)
Definition of_rank (k : Z) (items_data : list entry) : list entry :=
  List.filter (fun e => rank e =? k) items_data.
End Links.

(** ** The columns of a record *)

Module Columns.
Import Scraper Lang.

(** The columns that the header loop may write. *)
Definition header_columns : list string :=
  ["Player Name"; "Position"; "Height"; "Weight"; "High School"; "City, ST"; "Class"].

Definition stars_columns : list string := ["247 Stars"; "Composite Stars"].
Definition rating_columns : list string := ["247 Rating"; "Composite Rating"].
Definition rank_columns : list string :=
  ["247 National Rank"; "247 Position Rank";
   "Composite National Rank"; "Composite Position Rank"].
Definition position_columns : list string := ["247 Position"; "Composite Position"].

(** The columns that the ranking loop may write. *)
Definition ranking_columns : list string :=
  (stars_columns ++ rating_columns ++ rank_columns ++ position_columns)%list.

(** A number of stars, from 1 to 5. *)
Definition is_stars (v : string) : bool :=
  existsb (String.eqb v) ["1"; "2"; "3"; "4"; "5"].

(** Decimal digits, alone or followed by a point and decimal digits. *)
Definition is_decimal (v : string) : bool :=
  negb (Py.falsy (Py.take_while Re.digit v))
  && match drop_while Re.digit v with
     | EmptyString => true
     | String c frac => Ascii.eqb c "." && is_number frac
     end.

Definition in_list (key : string) (l : list string) : bool :=
  existsb (String.eqb key) l.

(** The value is one that the column [key] may hold. *)
Definition well_formed (key value : string) : bool :=
  if in_list key stars_columns then String.eqb value "NA" || is_stars value
  else if in_list key rating_columns then String.eqb value "NA" || is_decimal value
  else if in_list key rank_columns then String.eqb value "NA" || is_number value
  else true.

(** [data] after the writes [data[key] = value], in order. *)
Definition written (writes : list (string * string)) (m : gmap string string)
    : gmap string string :=
  fold_left (fun m kv => <[fst kv := snd kv]> m) writes m.

(** The columns of the record of [parse_profile] when the scan of the
    timeline begins. *)
Definition before_timeline (page : profile_page) (soup : soup_view) (url : string)
    (year : Z) : gmap string string :=
  written (ranking_writes soup)
    (<["Class" := Py.str year]>
       (written (header_writes soup)
          (<["247 ID" := extract_player_id url]>
             (fields (initial_data page url year))))).

(** The dictionary can be handed to the [csv.DictWriter] of the scraper:
    its keys are the columns of the file, neither more nor fewer. *)
Definition writable (d : player_data) : Prop :=
  date_priority d = None
  /\ forall key, is_Some (fields d !! key) <-> key ∈ CSV_HEADERS.
End Columns.

Module ProfileExamples.
Import Scraper.

Definition quarterback : profile_soup :=
  ProfileSoup (Some "Trevor Lawrence")
    ["PosQB"; "Height6-6"; "Weight208"; "High SchoolCartersville"; "Class2018"]
    [RankingSection (Some "247Sports Composite") 5 (Some "0.9999")
       (Some [RankItem (Some "QB") (Some (Some "/Season/2018-Football/CompositeRecruitRankings/?Position=QB", Some "1"));
              RankItem None (Some (Some "/Season/2018-Football/CompositeRecruitRankings/?State=GA", Some "1"));
              RankItem None (Some (Some "/Season/2018-Football/CompositeRecruitRankings/?InstitutionGroup=HighSchool", Some "1"))]);
     RankingSection (Some "247Sports JUCO") 3 (Some "88") None]
    (Some "Clemson").

Definition quarterback_page : profile_page :=
  ProfilePage "2024-01-15 10:00:00" true (Some (soup_of quarterback))
    (TimelineView (Some ["Signed with Clemson 12/20/2017"]) (Some None) true []) true.

Definition quarterback_url : string :=
  "https://247sports.com/player/trevor-lawrence-45618/".
End ProfileExamples.

(** ** The output file *)

Module Output.
Import Scraper.

(** The row of a record in the file. *)
Definition row_of (d : player_data) : csv_row :=
  Row ((fun key => default "" (fields d !! key)) <$> CSV_HEADERS).

(** The file after [records] have been appended to it: the header comes
    first when the file did not exist. *)
Definition appended (file : csv_file) (records : list player_data) : csv_file :=
  match records with
  | [] => file
  | _ => Some (default [HeaderRow CSV_HEADERS] file ++ (row_of <$> records))%list
  end.

(** [c[:\s]]: a colon or white space. *)
Definition label_gap (a : ascii) : bool := Re.one ":" a || Re.space a.
End Output.

(** * Properties *)

(** ** The URL normalizer *)

Section UrlProperties.
#[local] Arguments String.append : simpl nomatch.
#[local] Arguments Ascii.eqb : simpl never.

Section StringFacts.

Lemma append_assoc (a b c : string) : (a ++ b) ++ c = a ++ (b ++ c).
Proof. induction a as [|x a IH]; simpl; [reflexivity | now rewrite IH]. Qed.

Lemma has_char_app c a b : has_char c (a ++ b) = has_char c a || has_char c b.
Proof.
  induction a as [|x a IH]; simpl; [reflexivity|].
  rewrite IH. now rewrite orb_assoc.
Qed.

Lemma before_char_absent c s : has_char c s = false -> Py.before_char c s = s.
Proof.
  induction s as [|a s IH]; simpl; [reflexivity|].
  intros Hc. apply orb_false_iff in Hc as [Ha Hs].
  rewrite Ha. now rewrite IH.
Qed.

Lemma before_char_removes c s : has_char c (Py.before_char c s) = false.
Proof.
  induction s as [|a s IH]; simpl; [reflexivity|].
  destruct (Ascii.eqb a c) eqn:E; simpl; [reflexivity|]. now rewrite E.
Qed.

Lemma before_char_keeps_absent c d s :
  has_char d s = false -> has_char d (Py.before_char c s) = false.
Proof.
  induction s as [|a s IH]; simpl; [reflexivity|].
  intros Hd. apply orb_false_iff in Hd as [Ha Hs].
  destruct (Ascii.eqb a c); simpl; [reflexivity|].
  rewrite Ha. now apply IH.
Qed.

Lemma replace_from_keeps_absent c old new s :
  has_char c new = false -> has_char c s = false ->
  forall skip, has_char c (Py.replace_from skip old new s) = false.
Proof.
  intros Hnew. induction s as [|a s IH]; simpl; [reflexivity|].
  intros Hs skip. apply orb_false_iff in Hs as [Ha Hs].
  destruct skip as [|k]; [|now apply IH].
  destruct (Py.startswith (String a s) old).
  - rewrite has_char_app, Hnew. now apply IH.
  - simpl. rewrite Ha. now apply IH.
Qed.

Lemma strip_prefix_keeps_absent c p s rest :
  Py.strip_prefix p s = Some rest -> has_char c s = false -> has_char c rest = false.
Proof.
  revert s. induction p as [|a p IH]; simpl; intros s.
  - now intros [= ->].
  - destruct s as [|b s]; [discriminate|].
    destruct (Ascii.eqb a b); [|discriminate].
    simpl. intros Hp Hs. apply orb_false_iff in Hs as [_ Hs]. eauto.
Qed.

Lemma strip_prefix_app p s : Py.strip_prefix p (p ++ s) = Some s.
Proof.
  induction p as [|a p IH]; simpl; [reflexivity|].
  now rewrite Ascii.eqb_refl.
Qed.

Lemma strip_prefix_Some p s rest : Py.strip_prefix p s = Some rest -> s = p ++ rest.
Proof.
  revert s. induction p as [|a p IH]; simpl; intros s.
  - now intros [= ->].
  - destruct s as [|b s]; [discriminate|].
    destruct (Ascii.eqb_spec a b) as [->|]; [|discriminate].
    intros Hp. now rewrite (IH _ Hp).
Qed.

Lemma take_while_keeps_absent c p s :
  has_char c s = false -> has_char c (Py.take_while p s) = false.
Proof.
  induction s as [|a s IH]; simpl; [reflexivity|].
  intros Hs. apply orb_false_iff in Hs as [Ha Hs].
  destruct (p a); simpl; [|reflexivity]. rewrite Ha. now apply IH.
Qed.

Lemma take_while_no_slash s : has_char "/" (Py.take_while not_slash s) = false.
Proof.
  induction s as [|a s IH]; simpl; [reflexivity|].
  unfold not_slash at 1. destruct (Ascii.eqb a Scraper.slash) eqn:E; simpl; [reflexivity|].
  unfold Scraper.slash in E. now rewrite E.
Qed.

(** A segment without ['/'], followed by text that is empty or starts
    with ['/'], is what [[^/]+] takes. *)
Lemma take_while_segment seg tail :
  has_char "/" seg = false -> path_or_empty tail ->
  Py.take_while not_slash (seg ++ tail) = seg.
Proof.
  intros Hseg Htail. induction seg as [|a seg IH]; simpl.
  - destruct Htail as [->|[t ->]]; reflexivity.
  - simpl in Hseg. apply orb_false_iff in Hseg as [Ha Hseg].
    unfold not_slash at 1, Scraper.slash. rewrite Ha. simpl. now rewrite IH.
Qed.

End StringFacts.

Section Normalizer.

Lemma www_not_at_segment seg :
  has_char "/" seg = false -> Py.startswith (seg ++ "/") "://www." = false.
Proof. intros H. unfold Py.startswith. char_cases. Qed.

Lemma http_not_at_segment seg :
  has_char "/" seg = false -> Py.startswith (seg ++ "/") "http://" = false.
Proof. intros H. unfold Py.startswith. char_cases. Qed.

Lemma replace_www_segment seg :
  has_char "/" seg = false ->
  Py.replace_from 0 "://www." "://" (seg ++ "/") = seg ++ "/".
Proof.
  induction seg as [|a seg IH]; intros Hseg; [reflexivity|].
  pose proof (www_not_at_segment _ Hseg) as Hw.
  simpl in Hseg. apply orb_false_iff in Hseg as [_ Hseg].
  change (String a seg ++ "/") with (String a (seg ++ "/")) in *.
  cbn [Py.replace_from]. rewrite Hw. now rewrite IH.
Qed.

Lemma replace_http_segment seg :
  has_char "/" seg = false ->
  Py.replace_from 0 "http://" "https://" (seg ++ "/") = seg ++ "/".
Proof.
  induction seg as [|a seg IH]; intros Hseg; [reflexivity|].
  pose proof (http_not_at_segment _ Hseg) as Hw.
  simpl in Hseg. apply orb_false_iff in Hseg as [_ Hseg].
  change (String a seg ++ "/") with (String a (seg ++ "/")) in *.
  cbn [Py.replace_from]. rewrite Hw. now rewrite IH.
Qed.

(** The literal part of a URL is scanned without looking at what
    follows it: no occurrence can start there. *)
Lemma replace_www_prefix rest :
  Py.replace_from 0 "://www." "://" (Scraper.player_prefix ++ rest)
  = Scraper.player_prefix ++ Py.replace_from 0 "://www." "://" rest.
Proof. reflexivity. Qed.

Lemma replace_http_prefix rest :
  Py.replace_from 0 "http://" "https://" (Scraper.player_prefix ++ rest)
  = Scraper.player_prefix ++ Py.replace_from 0 "http://" "https://" rest.
Proof. reflexivity. Qed.

(** *** The matcher on the player pattern *)

Lemma run_lit {R} (p s : string) caps (k : @Re.cont R) :
  Re.run (Re.lit p) s caps k
  = match Py.strip_prefix p s with
    | Some rest => k rest caps
    | None => None
    end.
Proof.
  revert s caps k. induction p as [|a p IH]; intros s caps k; [reflexivity|].
  destruct p as [|a' p'].
  - destruct s as [|b s]; [reflexivity|]. cbn. unfold Re.one.
    now destruct (Ascii.eqb a b).
  - change (Re.lit (String a (String a' p')))
      with (Re.Cat (Re.Chr (Re.one a)) (Re.lit (String a' p'))).
    destruct s as [|b s]; [reflexivity|].
    cbn [Re.run Py.strip_prefix]. unfold Re.one.
    destruct (Ascii.eqb a b); [apply IH | reflexivity].
Qed.

Lemma take_drop_while p s : Py.take_while p s ++ drop_while p s = s.
Proof.
  induction s as [|a s IH]; [reflexivity|]. cbn.
  destruct (p a); cbn; [now rewrite IH | reflexivity].
Qed.

Lemma length_drop_while p s : (String.length (drop_while p s) <= String.length s)%nat.
Proof.
  induction s as [|a s IH]; cbn; [lia|]. destruct (p a); cbn; lia.
Qed.

(** A greedy run of one-character matches, before a continuation that
    always succeeds, takes all the characters that it can. *)
Lemma rep_chr_greedy {R} (p : ascii -> bool) (k : @Re.cont R) (f : string -> Re.captures -> R) :
  (forall s caps, k s caps = Some (f s caps)) ->
  forall fuel s caps,
    (String.length s < fuel)%nat ->
    Re.rep (Re.run (Re.Chr p)) fuel true 0 None s caps k = k (drop_while p s) caps.
Proof.
  intros Hk. induction fuel as [|fuel IH]; intros s caps Hlen; [lia|].
  cbn [Re.rep]. destruct s as [|a s]; [reflexivity|].
  cbn [Re.run drop_while]. destruct (p a); [|reflexivity].
  replace (String.length s <? String.length (String a s))%nat with true
    by (symmetry; apply Nat.ltb_lt; cbn; lia).
  cbn [Nat.pred fmap option_fmap option_map].
  rewrite IH by (cbn in Hlen; lia). now rewrite Hk.
Qed.

Lemma run_plus_chr {R} (p : ascii -> bool) (k : @Re.cont R) (f : string -> Re.captures -> R) s caps :
  (forall s caps, k s caps = Some (f s caps)) ->
  Re.run (Re.plus (Re.Chr p)) s caps k
  = match s with
    | String a rest => if p a then k (drop_while p rest) caps else None
    | EmptyString => None
    end.
Proof.
  intros Hk. unfold Re.plus. cbn [Re.run Re.rep].
  destruct s as [|a s]; [reflexivity|]. cbn [Re.run]. destruct (p a); [|reflexivity].
  replace (String.length s <? String.length (String a s))%nat with true
    by (symmetry; apply Nat.ltb_lt; cbn; lia).
  cbn [Nat.pred fmap option_fmap option_map].
  apply (rep_chr_greedy p k f Hk). cbn. lia.
Qed.

Lemma consumed_app a b : Re.consumed (a ++ b) b = a.
Proof.
  unfold Re.consumed.
  replace (String.length (a ++ b) - String.length b)%nat with (String.length a).
  - induction a as [|x a IH]; cbn; [now destruct b | now rewrite IH].
  - induction a as [|x a IH]; cbn; [lia|].
    assert (String.length b <= String.length (a ++ b))%nat
      by (clear; induction a; cbn; lia).
    lia.
Qed.

Lemma drop_while_ext p q s :
  (forall a, p a = q a) -> drop_while p s = drop_while q s.
Proof.
  intros E. induction s as [|a s IH]; [reflexivity|]. cbn. rewrite E, IH. reflexivity.
Qed.

Lemma none_of_slash a : Re.none_of [Scraper.slash] a = not_slash a.
Proof. unfold Re.none_of, not_slash. cbn. now rewrite orb_false_r. Qed.

(** The matcher gives on the player pattern what [leading_player_url]
    says. *)
Lemma match_player_url_direct url :
  Scraper.match_player_url url = leading_player_url url.
Proof.
  unfold Scraper.match_player_url, leading_player_url, Re.match_, Scraper.player_url_re.
  cbn [Re.run]. rewrite run_lit.
  destruct (Py.strip_prefix Scraper.player_prefix url) as [rest|] eqn:Hp; [|reflexivity].
  apply strip_prefix_Some in Hp. subst url.
  rewrite (run_plus_chr _ _ (fun s' caps' =>
             ((1%nat, Re.consumed (Scraper.player_prefix ++ rest) s') :: caps', s')))
    by reflexivity.
  destruct rest as [|a rest]; [reflexivity|].
  rewrite none_of_slash. cbn [Py.take_while].
  destruct (not_slash a) eqn:Ha; [|reflexivity].
  cbn [Re.group List.find fst snd Nat.eqb fmap option_fmap option_map].
  f_equal.
  rewrite (drop_while_ext (Re.none_of [Scraper.slash]) not_slash) by apply none_of_slash.
  rewrite <- (take_drop_while not_slash rest) at 1.
  change (String a (Py.take_while not_slash rest ++ drop_while not_slash rest))
    with (String a (Py.take_while not_slash rest) ++ drop_while not_slash rest).
  rewrite <- append_assoc. apply consumed_app.
Qed.

Lemma match_player_url_segment seg tail :
  seg <> "" -> has_char "/" seg = false -> path_or_empty tail ->
  Scraper.match_player_url (Scraper.player_prefix ++ seg ++ tail)
  = Some (Scraper.player_prefix ++ seg).
Proof.
  intros Hne Hs Ht. rewrite match_player_url_direct. unfold leading_player_url.
  rewrite strip_prefix_app.
  change (fun a => negb (Ascii.eqb a Scraper.slash)) with not_slash.
  rewrite take_while_segment by assumption.
  destruct seg; [congruence | reflexivity].
Qed.

(** A canonical URL: the prefix, a non-empty segment without ['/'], and
    one ['/']. *)
Lemma normalize_canonical seg :
  seg <> "" -> has_char "/" seg = false ->
  has_char "?" seg = false -> has_char "#" seg = false ->
  Scraper.normalize_player_url (Scraper.player_prefix ++ seg ++ "/")
  = Scraper.player_prefix ++ seg ++ "/".
Proof.
  intros Hne Hs Hq Hh. unfold Scraper.normalize_player_url.
  rewrite (before_char_absent "?") by (simpl; rewrite has_char_app, Hq; reflexivity).
  rewrite (before_char_absent "#") by (simpl; rewrite has_char_app, Hh; reflexivity).
  unfold Py.replace.
  rewrite replace_www_prefix, replace_www_segment by assumption.
  rewrite replace_http_prefix, replace_http_segment by assumption.
  rewrite match_player_url_segment by (auto; right; eauto).
  now rewrite append_assoc.
Qed.

Lemma prepared_no_query url :
  has_char "?" (prepared url) = false /\ has_char "#" (prepared url) = false.
Proof.
  unfold prepared, Py.replace. split.
  - do 2 (apply replace_from_keeps_absent; [reflexivity|]).
    apply before_char_keeps_absent, before_char_removes.
  - do 2 (apply replace_from_keeps_absent; [reflexivity|]).
    apply before_char_removes.
Qed.

Lemma normalize_matched url g1 :
  Scraper.match_player_url (prepared url) = Some g1 ->
  exists seg, g1 = Scraper.player_prefix ++ seg /\ seg <> ""
    /\ has_char "/" seg = false /\ has_char "?" seg = false
    /\ has_char "#" seg = false.
Proof.
  rewrite match_player_url_direct. unfold leading_player_url.
  destruct (Py.strip_prefix Scraper.player_prefix (prepared url)) as [rest|] eqn:Hp;
    [|discriminate].
  destruct (prepared_no_query url) as [Hq Hh].
  pose proof (strip_prefix_keeps_absent "?" _ _ _ Hp Hq) as Hq'.
  pose proof (strip_prefix_keeps_absent "#" _ _ _ Hp Hh) as Hh'.
  pose proof (take_while_keeps_absent "?" not_slash _ Hq') as Hq''.
  pose proof (take_while_keeps_absent "#" not_slash _ Hh') as Hh''.
  pose proof (take_while_no_slash rest) as Hs.
  destruct (Py.take_while not_slash rest) as [|a seg] eqn:Hseg; [discriminate|].
  intros [= <-]. exists (String a seg). repeat split; auto.
Qed.

Lemma normalize_idempotent_on_match url g1 :
  Scraper.match_player_url (prepared url) = Some g1 ->
  Scraper.normalize_player_url (Scraper.normalize_player_url url)
  = Scraper.normalize_player_url url.
Proof.
  intros Hm. destruct (normalize_matched _ _ Hm) as (seg & -> & Hne & Hs & Hq & Hh).
  assert (Hn : Scraper.normalize_player_url url = Scraper.player_prefix ++ seg ++ "/").
  { unfold Scraper.normalize_player_url. fold (prepared url).
    unfold prepared, Py.replace in *. rewrite Hm. apply append_assoc. }
  rewrite Hn. now apply normalize_canonical.
Qed.

(** *** Raw forms of one player URL *)

Lemma before_char_app c a b :
  has_char c a = false -> Py.before_char c (a ++ b) = a ++ Py.before_char c b.
Proof.
  induction a as [|x a IH]; simpl; [reflexivity|].
  intros Hc. apply orb_false_iff in Hc as [Hx Ha]. rewrite Hx. now rewrite IH.
Qed.

Lemma is_slug_spec seg :
  is_slug seg = true ->
  seg <> "" /\ has_char "/" seg = false /\ has_char "?" seg = false
  /\ has_char "#" seg = false /\ has_char ":" seg = false.
Proof.
  unfold is_slug. rewrite !andb_true_iff, !negb_true_iff.
  intros ((((Hne & ?) & ?) & ?) & ?). repeat split; auto.
  now destruct seg.
Qed.

Lemma tail_prepared tail :
  is_tail tail = true ->
  path_or_empty (Py.before_char "#" (Py.before_char "?" tail)).
Proof.
  destruct tail as [|c t]; [now left|]. simpl.
  destruct (Ascii.eqb_spec c "/") as [->|Hs].
  - intros _. right. simpl. eauto.
  - destruct (Ascii.eqb_spec c "?") as [->|Hq]; [intros _; now left|].
    destruct (Ascii.eqb_spec c "#") as [->|Hh]; [|discriminate].
    intros _. simpl. now left.
Qed.

Lemma www_not_in_slug seg tail :
  seg <> "" -> has_char ":" seg = false ->
  Py.startswith (seg ++ tail) "://www." = false.
Proof. intros Hne H. unfold Py.startswith. destruct seg; [congruence|]. char_cases. Qed.

Lemma http_not_in_slug seg tail :
  seg <> "" -> has_char ":" seg = false -> has_char "/" seg = false ->
  path_or_empty tail ->
  Py.startswith (seg ++ tail) "http://" = false.
Proof.
  intros Hne H H' [->|[t ->]]; unfold Py.startswith;
    (destruct seg; [congruence|]); char_cases.
Qed.

Lemma replace_www_slug seg tail :
  has_char ":" seg = false ->
  Py.replace_from 0 "://www." "://" (seg ++ tail)
  = seg ++ Py.replace_from 0 "://www." "://" tail.
Proof.
  induction seg as [|a seg IH]; intros Hseg; [reflexivity|].
  pose proof (www_not_in_slug (String a seg) tail ltac:(discriminate) Hseg) as Hw.
  simpl in Hseg. apply orb_false_iff in Hseg as [_ Hseg].
  change (String a seg ++ tail) with (String a (seg ++ tail)) in *.
  cbn [Py.replace_from]. rewrite Hw. now rewrite IH.
Qed.

Lemma replace_http_slug seg tail :
  has_char ":" seg = false -> has_char "/" seg = false -> path_or_empty tail ->
  Py.replace_from 0 "http://" "https://" (seg ++ tail)
  = seg ++ Py.replace_from 0 "http://" "https://" tail.
Proof.
  intros Hc Hs Ht. induction seg as [|a seg IH]; [reflexivity|].
  pose proof (http_not_in_slug (String a seg) tail ltac:(discriminate) Hc Hs Ht) as Hw.
  simpl in Hc, Hs. apply orb_false_iff in Hc as [_ Hc]. apply orb_false_iff in Hs as [_ Hs].
  change (String a seg ++ tail) with (String a (seg ++ tail)) in *.
  cbn [Py.replace_from]. rewrite Hw. now rewrite IH.
Qed.

Lemma replace_www_path tail :
  path_or_empty tail -> path_or_empty (Py.replace_from 0 "://www." "://" tail).
Proof. intros [->|[t ->]]; [now left|]. right. simpl. eauto. Qed.

Lemma replace_http_path tail :
  path_or_empty tail -> path_or_empty (Py.replace_from 0 "http://" "https://" tail).
Proof. intros [->|[t ->]]; [now left|]. right. simpl. eauto. Qed.

(** One raw form: [pre] is the part of the URL before the segment;
    scanning it for ["://www."] gives [pre1] and scanning [pre1] for
    ["http://"] gives the canonical prefix, whatever follows. *)
Lemma normalize_with_prefix pre pre1 seg tail :
  has_char "?" pre = false -> has_char "#" pre = false ->
  (forall r, Py.replace_from 0 "://www." "://" (pre ++ r)
             = pre1 ++ Py.replace_from 0 "://www." "://" r) ->
  (forall r, Py.replace_from 0 "http://" "https://" (pre1 ++ r)
             = Scraper.player_prefix ++ Py.replace_from 0 "http://" "https://" r) ->
  is_slug seg = true -> is_tail tail = true ->
  Scraper.normalize_player_url (pre ++ seg ++ tail)
  = Scraper.player_prefix ++ seg ++ "/".
Proof.
  intros Hpq Hph Hwww Hhttp Hslug Htail.
  apply is_slug_spec in Hslug as (Hne & Hs & Hq & Hh & Hc).
  apply tail_prepared in Htail.
  unfold Scraper.normalize_player_url, Py.replace.
  rewrite !before_char_app by assumption.
  set (tail' := Py.before_char "#" (Py.before_char "?" tail)) in *.
  rewrite Hwww, replace_www_slug by assumption.
  rewrite Hhttp, replace_http_slug by auto using replace_www_path.
  rewrite match_player_url_segment
    by auto using replace_www_path, replace_http_path.
  apply append_assoc.
Qed.

Lemma normalize_raw_forms scheme www seg tail :
  scheme = "http://" \/ scheme = "https://" ->
  www = "" \/ www = "www." ->
  is_slug seg = true -> is_tail tail = true ->
  Scraper.normalize_player_url (scheme ++ www ++ host_path ++ seg ++ tail)
  = Scraper.player_prefix ++ seg ++ "/".
Proof.
  intros [-> | ->] [-> | ->] Hslug Htail.
  - apply (normalize_with_prefix "http://247sports.com/player/"
             "http://247sports.com/player/"); auto.
  - apply (normalize_with_prefix "http://www.247sports.com/player/"
             "http://247sports.com/player/"); auto.
  - apply (normalize_with_prefix "https://247sports.com/player/"
             "https://247sports.com/player/"); auto.
  - apply (normalize_with_prefix "https://www.247sports.com/player/"
             "https://247sports.com/player/"); auto.
Qed.
End Normalizer.

Section NormalizerClaims.
#[local] Arguments String.append : simpl nomatch.




Example normalize_not_idempotent_values :
  Scraper.normalize_player_url "http://www.www.247sports.com/player/john-doe-123/"
  = "https://www.247sports.com/player/john-doe-123/"
  /\ Scraper.normalize_player_url "https://www.247sports.com/player/john-doe-123/"
     = "https://247sports.com/player/john-doe-123/".
Proof. vm_compute. split; reflexivity. Qed.
End NormalizerClaims.
End UrlProperties.

(** ** The timeline *)

Section TimelineProperties.
#[local] Arguments Timeline.replay : simpl never.
Import Effect Scraper Timeline Words.

Section Triples.
Context {S : Type}.
Local Abbreviation triple := (triple (S:=S)).

Lemma triple_ret {A} I F (a : A) : triple I F (ret a).
Proof. intros s Hs. exact Hs. Qed.

Lemma triple_raise {A} I F : triple I F (@raise S A).
Proof. intros s Hs. exact Hs. Qed.

Lemma triple_await {A} I F (o : option A) : triple I F (await o).
Proof. destruct o; [apply triple_ret | apply triple_raise]. Qed.

Lemma triple_get I F : triple I F (@get S).
Proof. intros s Hs. exact Hs. Qed.

Lemma triple_bind {A B} I F (m : M S A) (f : A -> M S B) :
  triple I F m -> (forall a, triple I F (f a)) -> triple I F (bind m f).
Proof.
  intros Hm Hf s Hs. unfold bind. specialize (Hm s Hs).
  destruct (m s) as [[a| |] s']; auto. now apply Hf.
Qed.

Lemma triple_for_each {A} I F (l : list A) (body : A -> M S unit) :
  (forall x, triple I F (body x)) -> triple I F (for_each l body).
Proof.
  intros Hbody. induction l as [|x l IH]; simpl.
  - apply triple_ret.
  - apply triple_bind; auto.
Qed.

Lemma triple_try_pass I F (m : M S unit) : triple I F m -> triple I F (try_pass m).
Proof.
  intros Hm s Hs. unfold try_pass. specialize (Hm s Hs).
  destruct (m s) as [[a| |] s']; auto.
Qed.

Lemma triple_modify I F (f : S -> S) :
  (forall s, I s -> I (f s)) -> triple I F (modify f).
Proof. intros Hf s Hs. now apply Hf. Qed.

(** At the boundary of the function both exits give the final property. *)
Lemma triple_call I F (m : M S unit) :
  triple I F m -> (forall s, I s -> F s) ->
  forall s, I s -> F (snd (call m s)).
Proof.
  intros Hm HIF s Hs. unfold call. specialize (Hm s Hs).
  destruct (m s) as [[a| |] s']; simpl; auto.
Qed.

Lemma call_never_raises_or_returns (m : M S unit) s :
  fst (call (try_pass m) s) = Val tt.
Proof.
  unfold call, try_pass. destruct (m s) as [[[]| |] s']; reflexivity.
Qed.
End Triples.

Section TimelineFacts.
Variable year : Z.

Lemma item_priority_values item_text :
  item_priority_of item_text = 100 \/ item_priority_of item_text = 1
  \/ item_priority_of item_text = 0.
Proof.
  unfold item_priority_of.
  repeat match goal with |- context [if ?c then _ else _] => destruct c end; auto.
Qed.

Lemma replay_snoc p tr e : replay year p (tr ++ [e]) = step year (replay year p tr) e.
Proof. unfold replay. now rewrite fold_left_app. Qed.

Lemma replay_app p tr1 tr2 :
  replay year p (tr1 ++ tr2) = replay year (replay year p tr1) tr2.
Proof. unfold replay. now rewrite fold_left_app. Qed.

Lemma stops_app p tr1 tr2 :
  stops year p (tr1 ++ tr2) = stops year p tr1 || stops year (replay year p tr1) tr2.
Proof.
  revert p. induction tr1 as [|e tr1 IH]; intros p; simpl; [reflexivity|].
  rewrite IH. now rewrite orb_assoc.
Qed.

Lemma well_stopped_of_not_stops p tr :
  stops year p tr = false -> well_stopped year p tr = true.
Proof.
  revert p. induction tr as [|e tr IH]; intros p; simpl; [reflexivity|].
  intros H. apply orb_false_iff in H as [-> H]. now apply IH.
Qed.

Lemma well_stopped_snoc p tr e :
  stops year p tr = false -> well_stopped year p (tr ++ [e]) = true.
Proof.
  revert p. induction tr as [|e' tr IH]; intros p; simpl.
  - intros _. destruct (exits year p e); reflexivity.
  - intros H. apply orb_false_iff in H as [-> H]. now apply IH.
Qed.

Lemma stops_abbreviated p items : stops year p (abbreviated_events items) = false.
Proof.
  revert p. induction items as [|i items IH]; intros p; simpl; [reflexivity|]. apply IH.
Qed.

(** What [commitment_logic] does, in one equation. *)
Lemma commitment_logic_eq early_exit item_text s :
  commitment_logic early_exit year item_text s
  = if accepts year (recorded_priority (data s)) item_text
    then (if early_exit && (item_priority_of item_text =? 100)
          then Returned else Val tt,
          State (record_event item_text (data s)) (trace s))
    else (Val tt, s).
Proof.
  unfold commitment_logic, accepts, valid_event, record_event, recorded_priority.
  destruct (item_priority_of item_text >? 0) eqn:Hp; simpl; [|reflexivity].
  destruct (negb (String.eqb (found_date_of item_text) "NA")
            && is_date_valid_for_class (found_date_of item_text) year) eqn:Hv;
    simpl; [|reflexivity].
  unfold bind at 1. unfold get_date_priority at 1. unfold bind at 1. simpl.
  destruct (item_priority_of item_text >? default (-1) (date_priority (data s)));
    [|reflexivity].
  unfold bind, set_field, set_date_priority, modify; simpl.
  destruct (search1 team_re item_text); simpl;
    destruct (early_exit && (item_priority_of item_text =? 100)); reflexivity.
Qed.

Lemma has_columns_insert d key value :
  has_columns d ->
  has_columns (PlayerData (<[key := value]> (fields d)) (date_priority d)).
Proof.
  intros H header Hin. simpl. rewrite lookup_insert.
  case_decide; [eauto | now apply H].
Qed.

Lemma has_columns_fields d d' :
  fields d' = fields d -> has_columns d -> has_columns d'.
Proof. intros Hf H header Hin. rewrite Hf. now apply H. Qed.

Lemma has_columns_record_event item_text d :
  has_columns d -> has_columns (record_event item_text d).
Proof.
  intros H header Hin. unfold record_event. simpl.
  destruct (search1 team_re item_text); rewrite ?lookup_insert; repeat case_decide;
    eauto.
Qed.

(** With its columns present, [draft_logic] runs to its end and touches
    neither the priority nor the trace. *)
Lemma draft_logic_spec item_text s :
  has_columns (data s) ->
  exists d', draft_logic item_text s = (Val tt, State d' (trace s))
    /\ has_columns d' /\ date_priority d' = date_priority (data s).
Proof.
  intros Hcols. unfold draft_logic.
  destruct (Py.contains (Py.lower item_text) "draft");
    [|exists (data s); destruct s; simpl; auto].
  assert (Hdate : is_Some (fields (data s) !! "Draft Date"))
    by (apply Hcols; unfold CSV_HEADERS; set_solver).
  assert (Hteam : is_Some (fields (data s) !! "Draft Team"))
    by (apply Hcols; unfold CSV_HEADERS; set_solver).
  destruct Hdate as [dd Hdate], Hteam as [dt Hteam].
  set (first :=
    match search1 date_re item_text with
    | Some g1 =>
        bind (get_field "Draft Date") (fun draft_date =>
          if String.eqb draft_date "NA"
          then set_field "Draft Date" (normalize_date g1) else ret tt)
    | None => ret tt
    end).
  assert (H1 : exists d1, first s = (Val tt, State d1 (trace s))
            /\ has_columns d1 /\ date_priority d1 = date_priority (data s)
            /\ is_Some (fields d1 !! "Draft Team")).
  { unfold first. destruct (search1 date_re item_text).
    - unfold bind, get_field, get, await, bind. simpl. rewrite Hdate. simpl.
      destruct (String.eqb dd "NA").
      + eexists. split; [reflexivity|]. simpl. split; [|split; [reflexivity|]].
        * now apply has_columns_insert.
        * rewrite lookup_insert_ne by discriminate. eauto.
      + exists (data s). destruct s; simpl in *; eauto.
    - exists (data s). destruct s; simpl in *; eauto. }
  destruct H1 as (d1 & E1 & Hc1 & Hp1 & [dt1 Ht1]).
  unfold bind at 1. rewrite E1.
  destruct (search1 draft_team_re item_text).
  - unfold bind, get_field, get, await, bind. simpl. rewrite Ht1. simpl.
    destruct (String.eqb dt1 "NA"); [|eauto].
    match goal with |- context [if ?c then _ else _] => destruct c end; [|eauto].
    eexists. split; [reflexivity|]. simpl. split; [|assumption].
    now apply has_columns_insert.
  - eauto.
Qed.
End TimelineFacts.

Section Scan.
Variables (year p0 : Z) (pre : list event).
Local Abbreviation scanning := (Timeline.scanning year p0 pre).
Local Abbreviation scanned := (Timeline.scanned year p0 pre).

Lemma scanning_scanned s : scanning s -> scanned s.
Proof.
  intros (? & ? & Hs & ?). repeat split; auto using well_stopped_of_not_stops.
  intros tr item_text Htr Hex. rewrite Htr, stops_app in Hs.
  apply orb_false_iff in Hs as [_ Hs]. simpl in Hs. rewrite orb_false_r in Hs.
  simpl in Hex. congruence.
Qed.

Lemma record_event_signed_date item_text d :
  fields (record_event item_text d) !! "Signed Date" = Some (found_date_of item_text).
Proof.
  unfold record_event. simpl. destruct (search1 team_re item_text).
  - rewrite lookup_insert_ne by discriminate. apply lookup_insert_eq.
  - apply lookup_insert_eq.
Qed.

Lemma prefix_snoc (tr : list event) e : pre `prefix_of` tr -> pre `prefix_of` (tr ++ [e])%list.
Proof. intros H. now apply prefix_app_r. Qed.

Lemma deep_item_triple item_text :
  triple scanning scanned
    (bind (log (Examined DeepHistory item_text))
          (fun _ => commitment_logic true year item_text)).
Proof.
  intros s (Hc & Hp & Hs & Hpre). unfold bind, log, modify.
  rewrite commitment_logic_eq. simpl.
  destruct (accepts year (recorded_priority (data s)) item_text) eqn:Ha.
  - assert (Hr : recorded_priority (record_event item_text (data s))
                 = replay year p0 (trace s ++ [Examined DeepHistory item_text]))
      by (rewrite replay_snoc; simpl; now rewrite <- Hp, Ha).
    destruct (item_priority_of item_text =? 100) eqn:H100;
      unfold scanning, scanned; simpl;
      (split; [now apply has_columns_record_event|]);
      (split; [exact Hr|]);
      [ split; [|split; [now apply prefix_snoc|]]
      | split; [|now apply prefix_snoc] ].
    + now apply well_stopped_snoc.
    + intros tr t Htr _. apply app_inj_tail in Htr as [_ [= <-]].
      apply record_event_signed_date.
    + rewrite stops_app, Hs. simpl. now rewrite <- Hp, Ha, H100.
  - unfold scanning; simpl. split; [assumption|].
    split; [rewrite replay_snoc; simpl; now rewrite <- Hp, Ha|].
    split; [|now apply prefix_snoc].
    rewrite stops_app, Hs. simpl. now rewrite <- Hp, Ha.
Qed.

Lemma log_next_page_triple : triple scanning scanned (log NextPage).
Proof.
  intros s (Hc & Hp & Hs & Hpre). unfold log, modify, scanning. simpl.
  split; [assumption|]. split; [now rewrite replay_snoc|].
  split; [|now apply prefix_snoc].
  rewrite stops_app, Hs. reflexivity.
Qed.

Lemma scan_pages_triple pages remaining page_count :
  triple scanning scanned (scan_pages year pages remaining page_count).
Proof.
  revert page_count. induction remaining as [|remaining IH]; intros page_count; simpl.
  - apply triple_ret.
  - apply triple_bind; [apply triple_await|]. intros page.
    apply triple_bind; [apply triple_await|]. intros full_items.
    apply triple_bind.
    + apply triple_for_each. intros item. apply deep_item_triple.
    + intros _. destruct (next page).
      * apply triple_bind; [apply log_next_page_triple | intros _; apply IH].
      * apply triple_ret.
      * apply triple_raise.
Qed.
End Scan.

Section Abbreviated.
Variable year : Z.

(** One item of the abbreviated timeline: the loop body runs to its end. *)
Lemma abbreviated_item item_text s :
  has_columns (data s) ->
  exists d',
    bind (log (Examined Abbreviated item_text))
         (fun _ => bind (draft_logic item_text)
            (fun _ => commitment_logic false year item_text)) s
    = (Val tt, State d' (trace s ++ [Examined Abbreviated item_text]))
    /\ has_columns d'
    /\ recorded_priority d'
       = step year (recorded_priority (data s)) (Examined Abbreviated item_text).
Proof.
  intros Hc. unfold bind at 1. unfold log, modify. simpl.
  destruct (draft_logic_spec item_text
              (State (data s) (trace s ++ [Examined Abbreviated item_text])) Hc)
    as (d1 & E1 & Hc1 & Hp1).
  unfold bind. rewrite E1. rewrite commitment_logic_eq. simpl in *.
  assert (Hr : recorded_priority d1 = recorded_priority (data s))
    by (unfold recorded_priority; now rewrite Hp1).
  rewrite Hr.
  destruct (accepts year (recorded_priority (data s)) item_text); simpl.
  - eexists. split; [reflexivity|]. split; [now apply has_columns_record_event|].
    reflexivity.
  - eexists. split; [reflexivity|]. split; assumption.
Qed.

(** The whole abbreviated timeline is scanned. *)
Lemma abbreviated_loop items s :
  has_columns (data s) ->
  exists d',
    for_each items (abbreviated_body year) s
    = (Val tt, State d' (trace s ++ abbreviated_events items))
    /\ has_columns d'
    /\ recorded_priority d'
       = replay year (recorded_priority (data s)) (abbreviated_events items).
Proof.
  revert s. induction items as [|item items IH]; intros s Hc.
  - exists (data s). simpl. rewrite app_nil_r. destruct s; auto.
  - destruct (abbreviated_item (clean_text item) s Hc) as (d1 & E1 & Hc1 & Hp1).
    destruct (IH (State d1 (trace s ++ [Examined Abbreviated (clean_text item)])) Hc1)
      as (d2 & E2 & Hc2 & Hp2).
    exists d2. cbn [for_each]. unfold bind at 1.
    unfold abbreviated_body at 1. cbv zeta. rewrite E1, E2. simpl in *.
    rewrite <- app_assoc. simpl.
    split; [reflexivity|]. split; [assumption|]. now rewrite Hp2, Hp1.
Qed.

Lemma parse_timeline_spec page do_deep s :
  has_columns (data s) -> trace s = [] ->
  let out := parse_timeline page year do_deep s in
  fst out = Val tt
  /\ scanned year (recorded_priority (data s))
       (match items page with Some its => abbreviated_events its | None => [] end)
       (snd out).
Proof.
  intros Hc Htr out. split; [apply call_never_raises_or_returns|].
  subst out. unfold parse_timeline.
  set (p0 := recorded_priority (data s)).
  destruct (items page) as [its|] eqn:Hits.
  2:{ unfold call, try_pass, bind, await, raise. simpl.
      unfold scanned. rewrite Htr. repeat split; auto.
      intros [|? ?] ? [=]. }
  change (for_each its _) with (for_each its (abbreviated_body year)).
  destruct (abbreviated_loop its s Hc) as (d1 & E1 & Hc1 & Hp1).
  set (s1 := State d1 (trace s ++ abbreviated_events its)) in *.
  assert (Hs1 : scanning year p0 (abbreviated_events its) s1).
  { subst s1. rewrite Htr. simpl. repeat split; auto.
    apply stops_abbreviated. }
  set (rest := (if do_deep then _ else _) : M state unit).
  assert (Hrest : triple (scanning year p0 (abbreviated_events its))
                         (scanned year p0 (abbreviated_events its)) rest).
  { subst rest. destruct do_deep; [|apply triple_ret].
    apply triple_bind; [apply triple_await|]. intros [href|]; [|apply triple_ret].
    destruct (negb (Py.falsy href)); [|apply triple_ret].
    apply triple_try_pass. apply triple_bind.
    - destruct (goto_ok page); [apply triple_ret | apply triple_raise].
    - intros _. apply scan_pages_triple. }
  unfold call, try_pass. unfold bind at 1. simpl.
  change (for_each its _) with (for_each its (abbreviated_body year)).
  unfold bind at 1. rewrite E1.
  specialize (Hrest s1 Hs1).
  destruct (rest s1) as [[[]| |] s2]; simpl; auto using scanning_scanned.
Qed.
End Abbreviated.

(** *** The trace of the scan, from what the page offers *)

Section ScanTrace.
Variable year : Z.

Lemma item_priority_le item_text : item_priority_of item_text <= 100.
Proof. destruct (item_priority_values item_text) as [-> | [-> | ->]]; lia. Qed.

Lemma replay_cons p e tr : replay year p (e :: tr) = replay year (step year p e) tr.
Proof. reflexivity. Qed.

Lemma cut_app p tr1 tr2 :
  cut year p (tr1 ++ tr2)
  = if stops year p tr1 then cut year p tr1
    else (tr1 ++ cut year (replay year p tr1) tr2)%list.
Proof.
  revert p. induction tr1 as [|e tr1 IH]; intros p; [reflexivity|].
  cbn [app cut stops]. destruct (exits year p e); cbn [orb]; [reflexivity|].
  rewrite IH, replay_cons. now destruct (stops year (step year p e) tr1).
Qed.

Lemma cut_not_stops p tr : stops year p tr = false -> cut year p tr = tr.
Proof.
  revert p. induction tr as [|e tr IH]; intros p; [reflexivity|]. cbn [cut stops].
  intros H. apply orb_false_iff in H as [-> H]. now rewrite IH.
Qed.

Lemma exits_accepted p e : exits year p e = true -> step year p e = 100.
Proof.
  destruct e as [[|] item_text|]; try discriminate. cbn [exits step].
  intros H. apply andb_true_iff in H as [-> H]. now apply Z.eqb_eq in H.
Qed.

Lemma step_top e : step year 100 e = 100.
Proof.
  destruct e as [t item_text|]; [|reflexivity]. cbn [step]. unfold accepts.
  pose proof (item_priority_le item_text).
  replace (item_priority_of item_text >? 100) with false
    by (symmetry; rewrite Z.gtb_ltb; apply Z.ltb_ge; lia).
  now rewrite andb_false_r.
Qed.

Lemma replay_top tr : replay year 100 tr = 100.
Proof.
  induction tr as [|e tr IH]; [reflexivity|]. rewrite replay_cons, step_top. exact IH.
Qed.

(** The early exit loses nothing: the events after it could not raise
    the recorded priority. *)
Lemma replay_cut p tr : replay year p (cut year p tr) = replay year p tr.
Proof.
  revert p. induction tr as [|e tr IH]; intros p; [reflexivity|].
  cbn [cut]. rewrite !replay_cons. destruct (exits year p e) eqn:He.
  - rewrite (exits_accepted p e He). now rewrite !replay_top.
  - apply IH.
Qed.

(** While no commitment is recorded, the events that make the scan leave
    are the dated commitments of the full history. *)
Lemma exits_dated p e : p < 100 -> exits year p e = dated_commitment year e.
Proof.
  intros Hp. destruct e as [[|] item_text|]; try reflexivity.
  cbn [exits dated_commitment]. unfold accepts.
  destruct (Z.eqb_spec (item_priority_of item_text) 100) as [E|E].
  - replace (item_priority_of item_text >? p) with true
      by (symmetry; apply Z.gtb_lt; lia).
    now rewrite !andb_true_r.
  - now rewrite !andb_false_r.
Qed.

Lemma step_below p e :
  p < 100 -> is_abbreviated e = false -> exits year p e = false ->
  step year p e < 100.
Proof.
  intros Hp Hdeep He. destruct e as [[|] item_text|]; [discriminate| |exact Hp].
  cbn [step]. cbn [exits] in He.
  destruct (accepts year p item_text); [|exact Hp].
  destruct (item_priority_values item_text) as [E | [E | E]]; rewrite E in *;
    [discriminate | lia | lia].
Qed.

Lemma cut_dated p tr :
  p < 100 -> forallb (fun e => negb (is_abbreviated e)) tr = true ->
  cut year p tr = up_to_first (dated_commitment year) tr.
Proof.
  revert p. induction tr as [|e tr IH]; intros p Hp Hdeep; [reflexivity|].
  cbn [forallb] in Hdeep. apply andb_true_iff in Hdeep as [He Hdeep].
  apply negb_true_iff in He.
  cbn [cut up_to_first]. rewrite <- (exits_dated p e Hp).
  destruct (exits year p e) eqn:Hex; [reflexivity|].
  f_equal. apply IH; [now apply step_below | assumption].
Qed.

Lemma up_to_first_abbreviated its tr :
  up_to_first (dated_commitment year) (abbreviated_events its ++ tr)
  = (abbreviated_events its ++ up_to_first (dated_commitment year) tr)%list.
Proof.
  induction its as [|item its IH]; [reflexivity|].
  cbn [abbreviated_events fmap list_fmap app up_to_first dated_commitment].
  f_equal. exact IH.
Qed.

Lemma history_items_deep its :
  forallb (fun e => negb (is_abbreviated e)) (history_items its) = true.
Proof. induction its as [|item its IH]; [reflexivity | exact IH]. Qed.

Lemma history_events_deep pages remaining :
  forall page_count,
    forallb (fun e => negb (is_abbreviated e))
      (history_events pages remaining page_count) = true.
Proof.
  induction remaining as [|remaining IH]; intros page_count; [reflexivity|].
  cbn [history_events]. destruct (pages !! page_count) as [page|]; [|reflexivity].
  destruct (full_items page) as [its|]; [|reflexivity].
  rewrite forallb_app, history_items_deep.
  destruct (next page); [|reflexivity..]. cbn [forallb andb negb is_abbreviated].
  apply IH.
Qed.

(** The items of one page of the full history. *)
Lemma deep_items_run its :
  forall s,
    exists d',
      for_each its (fun item =>
        let item_text := clean_text item in
        bind (log (Examined DeepHistory item_text))
             (fun _ => commitment_logic true year item_text)) s
      = (if stops year (recorded_priority (data s)) (history_items its)
         then Returned else Val tt,
         State d' (trace s ++ cut year (recorded_priority (data s)) (history_items its)))
      /\ recorded_priority d'
         = replay year (recorded_priority (data s)) (history_items its).
Proof.
  induction its as [|item its IH]; intros s.
  - exists (data s). cbn. rewrite app_nil_r. now destruct s.
  - cbn [for_each history_items fmap list_fmap stops cut]. cbv zeta.
    rewrite replay_cons. unfold bind at 1. unfold bind at 1, log at 1, modify at 1.
    rewrite commitment_logic_eq. cbn [data trace exits step andb].
    destruct (accepts year (recorded_priority (data s)) (clean_text item)) eqn:Ha;
      cbn [andb].
    + destruct (item_priority_of (clean_text item) =? 100) eqn:H100; cbn [orb].
      * eexists. split; [reflexivity|]. cbn [recorded_priority record_event date_priority default].
        apply Z.eqb_eq in H100. rewrite H100. symmetry. apply replay_top.
      * destruct (IH (State (record_event (clean_text item) (data s))
                        (trace s ++ [Examined DeepHistory (clean_text item)])))
          as (d' & E & Hp).
        cbn [data trace] in E, Hp.
        change (recorded_priority (record_event (clean_text item) (data s)))
          with (item_priority_of (clean_text item)) in E, Hp.
        exists d'. rewrite E, <- app_assoc. split; [reflexivity | exact Hp].
    + cbn [orb].
      destruct (IH (State (data s) (trace s ++ [Examined DeepHistory (clean_text item)])))
        as (d' & E & Hp).
      cbn [data trace] in E, Hp. exists d'. rewrite E, <- app_assoc.
      split; [reflexivity | exact Hp].
Qed.

Lemma scan_pages_trace pages remaining :
  forall page_count s,
    trace (snd (scan_pages year pages remaining page_count s))
    = (trace s ++ cut year (recorded_priority (data s))
                    (history_events pages remaining page_count))%list.
Proof.
  induction remaining as [|remaining IH]; intros page_count s.
  - cbn. now rewrite app_nil_r.
  - cbn [scan_pages history_events]. unfold bind at 1.
    destruct (pages !! page_count) as [page|]; cbn [await ret raise];
      [|cbn; now rewrite app_nil_r].
    unfold bind at 1.
    destruct (full_items page) as [its|]; cbn [await ret raise];
      [|cbn; now rewrite app_nil_r].
    unfold bind at 1.
    destruct (deep_items_run its s) as (d' & E & Hp).
    cbv zeta in E. rewrite E. rewrite cut_app.
    destruct (stops year (recorded_priority (data s)) (history_items its)) eqn:Hs;
      [reflexivity|].
    rewrite (cut_not_stops _ _ Hs). rewrite <- Hp.
    destruct (next page).
    + unfold bind at 1, log at 1, modify at 1. cbn [data trace].
      rewrite IH. cbn [data trace cut exits step]. now rewrite <- !app_assoc.
    + cbn. now rewrite app_nil_r.
    + cbn. now rewrite app_nil_r.
Qed.

Lemma snd_call_try_pass {S} (m : M S unit) s : snd (call (try_pass m) s) = snd (m s).
Proof. unfold call, try_pass. now destruct (m s) as [[[]| |] s']. Qed.

Lemma snd_try_pass {S} (m : M S unit) s : snd (try_pass m s) = snd (m s).
Proof. unfold try_pass. now destruct (m s) as [[[]| |] s']. Qed.

(** The events that [parse_timeline] examines are those that the page
    offers, up to and including the first that makes the scan leave. *)
Lemma parse_timeline_trace page do_deep s :
  has_columns (data s) -> trace s = [] ->
  trace (snd (parse_timeline page year do_deep s))
  = cut year (recorded_priority (data s)) (offered page do_deep).
Proof.
  intros Hc Htr. unfold parse_timeline, offered. rewrite snd_call_try_pass.
  destruct (items page) as [its|] eqn:Hits.
  2:{ unfold bind, await, raise. cbn. exact Htr. }
  unfold bind at 1. cbn [await ret].
  change (for_each its _) with (for_each its (abbreviated_body year)).
  destruct (abbreviated_loop year its s Hc) as (d1 & E1 & Hc1 & Hp1).
  unfold bind at 1. rewrite E1. rewrite Htr. cbn [app].
  rewrite cut_app, stops_abbreviated, <- Hp1.
  unfold opens_history.
  destruct do_deep; cbn [andb]; [|cbn; now rewrite app_nil_r].
  unfold bind at 1.
  destruct (see_all_href page) as [[href|]|]; cbn [await ret raise];
    try (cbn; now rewrite app_nil_r).
  destruct (Py.falsy href); cbn [negb andb]; [cbn; now rewrite app_nil_r|].
  rewrite snd_try_pass. unfold bind at 1.
  destruct (goto_ok page); cbn [ret raise]; [|cbn; now rewrite app_nil_r].
  now rewrite scan_pages_trace.
Qed.

End ScanTrace.

Section Profile.
Context {S : Type}.
Local Abbreviation ensures := (ensures (S:=S)).

Lemma ensures_bind {A B} P (m : M S A) (f : A -> M S B) V V' E :
  ensures P m V E -> (forall a, ensures (V a) (f a) V' E) ->
  ensures P (bind m f) V' E.
Proof.
  intros Hm Hf s Hs. unfold bind. specialize (Hm s Hs).
  destruct (m s) as [[a| |] s']; auto. now apply Hf.
Qed.

Lemma ensures_ret {A} (P : S -> Prop) (a : A) E : ensures P (ret a) (fun _ => P) E.
Proof. intros s Hs. exact Hs. Qed.

Lemma ensures_raise {A} (P : S -> Prop) V : ensures P (@raise S A) V P.
Proof. intros s Hs. exact Hs. Qed.

Lemma ensures_weaken {A} (P : S -> Prop) (m : M S A) V (E E' : S -> Prop) :
  (forall s, E s -> E' s) -> ensures P m V E -> ensures P m V E'.
Proof.
  intros HE Hm s Hs. specialize (Hm s Hs).
  destruct (m s) as [[a| |] s']; auto.
Qed.

Lemma ensures_for_each {A} (P : S -> Prop) (l : list A) (body : A -> M S unit) E :
  (forall x, ensures P (body x) (fun _ => P) E) ->
  ensures P (for_each l body) (fun _ => P) E.
Proof.
  intros Hbody. induction l as [|x l IH]; simpl.
  - apply ensures_ret.
  - eapply ensures_bind; [apply Hbody | intros []; apply IH].
Qed.
End Profile.

Section ProfileFacts.
Variable year : Z.
Local Abbreviation reconciled := (Timeline.reconciled year).

Lemma fresh_reconciled s : fresh s -> reconciled s.
Proof.
  intros (Hc & Hp & Htr). unfold reconciled, scanned, recorded_priority.
  rewrite Hp, Htr. repeat split; auto. intros [|? ?] ? [=].
Qed.

Lemma all_NA_columns header : header ∈ CSV_HEADERS -> is_Some (all_NA !! header).
Proof.
  intros Hin. destruct (all_NA !! header) eqn:E; [eauto|].
  unfold all_NA in E. apply not_elem_of_list_to_map in E.
  exfalso. apply E. rewrite <- list_fmap_compose.
  change (fst ∘ (fun header => (header, "NA"))) with (@id string).
  now rewrite list_fmap_id.
Qed.

Lemma has_columns_initial_data page url :
  has_columns (initial_data page url year).
Proof.
  intros header Hin. unfold initial_data. cbn [fields].
  rewrite !lookup_insert. repeat case_decide; eauto using all_NA_columns.
Qed.

Lemma fresh_initial page url : fresh (State (initial_data page url year) []).
Proof. split; [apply has_columns_initial_data|]. split; reflexivity. Qed.

Lemma fresh_set_field key value E :
  ensures fresh (set_field key value) (fun _ => fresh) E.
Proof.
  intros s (Hc & Hp & Htr). unfold set_field, modify, fresh. cbn [data trace fst snd].
  split; [now apply has_columns_insert|]. split; assumption.
Qed.

Lemma reconciled_set_signed_team value E :
  ensures reconciled (set_field "Signed Team" value) (fun _ => reconciled) E.
Proof.
  intros s (Hc & Hp & Hw & Hpre & Hlast). unfold set_field, modify.
  unfold reconciled, scanned. cbn [data trace fst snd].
  split; [now apply has_columns_insert|]. repeat split; auto.
  intros tr t Htr Hex. cbn [fields]. rewrite lookup_insert_ne by discriminate. eauto.
Qed.

Lemma reconciled_parse_timeline page do_deep :
  ensures fresh (parse_timeline page year do_deep) (fun _ => reconciled) reconciled.
Proof.
  intros s (Hc & Hp & Htr).
  destruct (parse_timeline_spec year page do_deep s Hc Htr) as [Hv Hs].
  assert (Hr : recorded_priority (data s) = -1)
    by (unfold recorded_priority; now rewrite Hp).
  rewrite Hr in Hs.
  assert (Hs' : reconciled (snd (parse_timeline page year do_deep s))).
  { destruct Hs as (? & ? & ? & _ & ?). repeat split; auto. apply prefix_nil. }
  destruct (parse_timeline page year do_deep s) as [[[]| |] s']; simpl in *;
    auto; discriminate.
Qed.

(** Whatever the page does, the record that [parse_profile] returns is
    the result of a scan that went as the trace tells. *)
Lemma parse_profile_reconciled page url player_num total :
  reconciled (parse_profile_run page url year player_num total).
Proof.
  unfold parse_profile_run.
  assert (H : ensures fresh (parse_profile_body page url year player_num)
                (fun _ => reconciled) reconciled).
  { unfold parse_profile_body.
    eapply ensures_bind with (V := fun _ => fresh).
    { destruct (fetch_ok page).
      - apply ensures_ret.
      - eapply ensures_weaken; [apply fresh_reconciled | apply ensures_raise]. }
    intros []. eapply ensures_bind with (V := fun _ => fresh).
    { destruct (content page).
      - apply ensures_ret.
      - eapply ensures_weaken; [apply fresh_reconciled | apply ensures_raise]. }
    intros soup. eapply ensures_bind; [apply fresh_set_field|]. intros [].
    eapply ensures_bind;
      [apply ensures_for_each; intros; apply fresh_set_field|]. intros [].
    eapply ensures_bind; [apply fresh_set_field|]. intros [].
    eapply ensures_bind;
      [apply ensures_for_each; intros; apply fresh_set_field|]. intros [].
    eapply ensures_bind; [apply reconciled_parse_timeline|]. intros [].
    eapply ensures_bind with (V := fun _ => reconciled).
    { unfold get_field. eapply ensures_bind with (V := fun _ => reconciled).
      - intros s Hs. exact Hs.
      - intros s0. destruct (fields (data s0) !! "Signed Team").
        + apply ensures_ret.
        + apply ensures_raise. }
    intros signed_team. destruct (String.eqb signed_team "NA"); [|apply ensures_ret].
    destruct (commit_banner soup); [|apply ensures_ret].
    match goal with |- context [if ?c then _ else _] => destruct c end;
      [apply reconciled_set_signed_team | apply ensures_ret]. }
  specialize (H _ (fresh_initial page url)).
  destruct (parse_profile_body _ _ _ _ _) as [[[]| |] s']; exact H.
Qed.

Lemma fresh_shallow s : fresh s -> shallow s.
Proof. intros (Hc & _ & Htr). split; [assumption|]. now rewrite Htr. Qed.

Lemma shallow_set_field key value E :
  ensures shallow (set_field key value) (fun _ => shallow) E.
Proof.
  intros s (Hc & Htr). unfold set_field, modify, shallow. cbn [data trace fst snd].
  split; [now apply has_columns_insert | assumption].
Qed.

Lemma abbreviated_events_shallow items :
  forallb is_abbreviated (abbreviated_events items) = true.
Proof. induction items as [|item items IH]; [reflexivity | exact IH]. Qed.

(** Without the budget the scan stays on the abbreviated timeline. *)
Lemma shallow_parse_timeline page :
  ensures fresh (parse_timeline page year false) (fun _ => shallow) shallow.
Proof.
  intros s (Hc & Hp & Htr). unfold parse_timeline.
  destruct (items page) as [its|] eqn:Hits.
  - destruct (abbreviated_loop year its s Hc) as (d1 & E1 & Hc1 & _).
    unfold call, try_pass. unfold bind at 1. simpl.
    change (for_each its _) with (for_each its (abbreviated_body year)).
    unfold bind at 1. rewrite E1. simpl.
    split; [assumption|]. cbn [trace]. rewrite Htr. apply abbreviated_events_shallow.
  - unfold call, try_pass, bind, await, raise. cbn.
    split; [assumption | now rewrite Htr].
Qed.

(** A player beyond the limit of the deep dive has only items of the
    abbreviated timeline in the trace. *)
Lemma parse_profile_shallow page url player_num total :
  do_deep_dive player_num = false ->
  shallow (parse_profile_run page url year player_num total).
Proof.
  intros Hdeep. unfold parse_profile_run.
  assert (H : ensures fresh (parse_profile_body page url year player_num)
                (fun _ => shallow) shallow).
  { unfold parse_profile_body. rewrite Hdeep.
    eapply ensures_bind with (V := fun _ => fresh).
    { destruct (fetch_ok page).
      - apply ensures_ret.
      - eapply ensures_weaken; [apply fresh_shallow | apply ensures_raise]. }
    intros []. eapply ensures_bind with (V := fun _ => fresh).
    { destruct (content page).
      - apply ensures_ret.
      - eapply ensures_weaken; [apply fresh_shallow | apply ensures_raise]. }
    intros soup.
    eapply ensures_bind;
      [eapply ensures_weaken; [apply fresh_shallow | apply fresh_set_field]|]. intros [].
    eapply ensures_bind;
      [apply ensures_for_each; intros;
       eapply ensures_weaken; [apply fresh_shallow | apply fresh_set_field]|]. intros [].
    eapply ensures_bind;
      [eapply ensures_weaken; [apply fresh_shallow | apply fresh_set_field]|]. intros [].
    eapply ensures_bind;
      [apply ensures_for_each; intros;
       eapply ensures_weaken; [apply fresh_shallow | apply fresh_set_field]|]. intros [].
    eapply ensures_bind; [apply shallow_parse_timeline|]. intros [].
    eapply ensures_bind with (V := fun _ => shallow).
    { unfold get_field. eapply ensures_bind with (V := fun _ => shallow).
      - intros s Hs. exact Hs.
      - intros s0. destruct (fields (data s0) !! "Signed Team").
        + apply ensures_ret.
        + apply ensures_raise. }
    intros signed_team. destruct (String.eqb signed_team "NA"); [|apply ensures_ret].
    destruct (commit_banner soup); [|apply ensures_ret].
    match goal with |- context [if ?c then _ else _] => destruct c end;
      [apply shallow_set_field | apply ensures_ret]. }
  specialize (H _ (fresh_initial page url)).
  destruct (parse_profile_body _ _ _ _ _) as [[[]| |] s']; exact H.
Qed.
End ProfileFacts.

Section TimelineClaims.

Lemma step_max year p e :
  step year p e
  = match e with
    | Examined _ item_text =>
        if valid_event year item_text then Z.max (item_priority_of item_text) p else p
    | NextPage => p
    end.
Proof.
  destruct e as [t item_text|]; [|reflexivity]. unfold step, accepts.
  destruct (valid_event year item_text); [|reflexivity]. simpl.
  destruct (Z.gtb_spec (item_priority_of item_text) p); lia.
Qed.

Lemma max_of_base a b l : max_of (Z.max a b) l = Z.max a (max_of b l).
Proof. induction l as [|x l IH]; simpl; [reflexivity|]. rewrite IH. lia. Qed.

Lemma replay_max_of year p tr : replay year p tr = max_of p (valid_priorities year tr).
Proof.
  revert p. induction tr as [|e tr IH]; intros p; [reflexivity|].
  change (replay year p (e :: tr)) with (replay year (step year p e) tr).
  rewrite IH, step_max. destruct e as [t item_text|]; [|reflexivity]. simpl.
  destruct (valid_event year item_text); [|reflexivity].
  simpl. apply max_of_base.
Qed.

Lemma not_accepted early_exit year item_text s :
  accepts year (recorded_priority (data s)) item_text = false ->
  commitment_logic early_exit year item_text s = (Val tt, s).
Proof. intros H. now rewrite commitment_logic_eq, H. Qed.

Example scenario_signing_then_commitment :
  let final := parse_profile_run (Examples.some_profile Examples.signing_then_commitment)
                 Examples.some_url 2019 1 10 in
  recorded_priority (data final) = 100
  /\ fields (data final) !! "Signed Date" = Some "12/19/2018"
  /\ fields (data final) !! "Signed Team" = Some "Alabama 12/19/2018"
  /\ trace final = [Examined Abbreviated "Visit to Alabama on 01/05/2019";
                    Examined DeepHistory "Signed with Alabama 02/06/2019";
                    Examined DeepHistory "Committed to Alabama 12/19/2018"].
Proof. vm_compute. auto. Qed.

Lemma well_stopped_cut year p pre e post :
  well_stopped year p (pre ++ e :: post) = true ->
  exits year (replay year p pre) e = true -> post = [].
Proof.
  revert p. induction pre as [|e' pre IH]; intros p; simpl.
  - intros Hw He. change (replay year p []) with p in He. rewrite He in Hw.
    now apply bool_decide_eq_true in Hw.
  - intros Hw He. destruct (exits year p e').
    + apply bool_decide_eq_true in Hw. now destruct pre.
    + now apply (IH (step year p e')).
Qed.

(** C4, as amended.  In the full history, as soon as a Commitment-priority
    event is accepted into the record (its date is valid and its priority
    strictly exceeds the recorded one) the scan ends: no later item or
    page is examined and the record keeps the date of that event.
    Nothing else ends it: when the abbreviated timeline has recorded no
    commitment, the scan examines what the page offers (the abbreviated
    items, then the items and the page turns of the full history when it
    is opened) up to and including the first item of the full history
    with Commitment priority whose date was found and is valid, and all
    of it when there is none; so a commitment whose date is missing or
    not valid does not end the scan.  The abbreviated timeline has no
    early exit: all its items are examined. *)
Theorem deep_scan_early_exit (page : timeline_view) (year : Z) (do_deep_dive : bool)
    (s : state) :
  has_columns (data s) -> trace s = [] ->
  let final := snd (parse_timeline page year do_deep_dive s) in
  (forall pre item_text post,
      trace final = (pre ++ Examined DeepHistory item_text :: post)%list ->
      item_priority_of item_text = 100 ->
      accepts year (replay year (recorded_priority (data s)) pre) item_text = true ->
      post = []
      /\ fields (data final) !! "Signed Date" = Some (found_date_of item_text))
  /\ (forall its, items page = Some its ->
        replay year (recorded_priority (data s)) (abbreviated_events its) < 100 ->
        trace final = up_to_first (dated_commitment year) (offered page do_deep_dive))
  /\ (forall its, items page = Some its ->
        abbreviated_events its `prefix_of` trace final).
Proof.
  intros Hc Htr final.
  destruct (parse_timeline_spec year page do_deep_dive s Hc Htr)
    as (_ & _ & _ & Hw & Hpre & Hlast).
  fold final in Hw, Hpre, Hlast. split; [|split].
  - intros pre item_text post Hfinal H100 Hacc.
    assert (Hex : exits year (replay year (recorded_priority (data s)) pre)
                    (Examined DeepHistory item_text) = true)
      by (simpl; rewrite Hacc, H100; reflexivity).
    rewrite Hfinal in Hw. pose proof (well_stopped_cut _ _ _ _ _ Hw Hex) as ->.
    split; [reflexivity|]. now apply (Hlast pre).
  - intros its Hits Hlow. subst final.
    rewrite (parse_timeline_trace year page do_deep_dive s Hc Htr).
    unfold offered. rewrite Hits.
    rewrite cut_app, stops_abbreviated, up_to_first_abbreviated. f_equal.
    apply cut_dated; [exact Hlow|].
    destruct (opens_history page do_deep_dive); [apply history_events_deep | reflexivity].
  - intros its Hits. now rewrite Hits in Hpre.
Qed.

Lemma deep_scan_early_exit_witness :
  let final := snd (parse_timeline Examples.signing_then_commitment 2019 true
                      Examples.fresh_state) in
  (forall pre item_text post,
      trace final = (pre ++ Examined DeepHistory item_text :: post)%list ->
      item_priority_of item_text = 100 ->
      accepts 2019 (replay 2019 (recorded_priority (data Examples.fresh_state)) pre)
        item_text = true ->
      post = []
      /\ fields (data final) !! "Signed Date" = Some (found_date_of item_text))
  /\ (forall its, items Examples.signing_then_commitment = Some its ->
        replay 2019 (recorded_priority (data Examples.fresh_state))
          (abbreviated_events its) < 100 ->
        trace final
        = up_to_first (dated_commitment 2019)
            (offered Examples.signing_then_commitment true))
  /\ (forall its, items Examples.signing_then_commitment = Some its ->
        abbreviated_events its `prefix_of` trace final).
Proof.
  apply (deep_scan_early_exit Examples.signing_then_commitment 2019 true
           Examples.fresh_state).
  - apply has_columns_initial_data.
  - reflexivity.
Defined.

(** What the full history of the example offers, and where the scan
    stops: the offer after the commitment and the second page are not
    examined. *)
Example offered_and_examined :
  offered Examples.signing_then_commitment true
  = [Examined Abbreviated "Visit to Alabama on 01/05/2019";
     Examined DeepHistory "Signed with Alabama 02/06/2019";
     Examined DeepHistory "Committed to Alabama 12/19/2018";
     Examined DeepHistory "Offer from Auburn";
     NextPage;
     Examined DeepHistory "Camp"]
  /\ up_to_first (dated_commitment 2019) (offered Examples.signing_then_commitment true)
     = [Examined Abbreviated "Visit to Alabama on 01/05/2019";
        Examined DeepHistory "Signed with Alabama 02/06/2019";
        Examined DeepHistory "Committed to Alabama 12/19/2018"].
Proof. vm_compute. split; reflexivity. Qed.

(** C4, as stated, fails.  A commitment of the full history whose date is
    after the cut-off does not end the scan, and neither does one in
    which no date is found: the next item is examined and sets the
    record. *)
Lemma deep_scan_continues_after_commitment :
  (item_priority_of "Committed to Auburn 10/01/2019" = 100
   /\ trace (snd (parse_timeline Examples.late_commitment 2019 true
                    Examples.fresh_state))
      = [Examined DeepHistory "Committed to Auburn 10/01/2019";
         Examined DeepHistory "Signed with Alabama 02/06/2019"]
   /\ fields (data (snd (parse_timeline Examples.late_commitment 2019 true
                           Examples.fresh_state))) !! "Signed Date"
      = Some "02/06/2019")
  /\ (item_priority_of "Committed to Auburn" = 100
      /\ trace (snd (parse_timeline Examples.undated_commitment 2019 true
                       Examples.fresh_state))
         = [Examined DeepHistory "Committed to Auburn";
            Examined DeepHistory "Signed with Alabama 02/06/2019"]
      /\ fields (data (snd (parse_timeline Examples.undated_commitment 2019 true
                              Examples.fresh_state))) !! "Signed Date"
         = Some "02/06/2019").
Proof. vm_compute. repeat split; reflexivity. Qed.

(** A commitment that the abbreviated timeline has already recorded is
    not written again when the full history shows it, and the scan goes
    on to the end of the history. *)
Example recorded_commitment_keeps_paginating :
  trace (snd (parse_timeline Examples.repeated_commitment 2019 true
                Examples.fresh_state))
  = [Examined Abbreviated "Committed to Alabama 12/19/2018";
     Examined DeepHistory "Committed to Alabama 12/19/2018";
     Examined DeepHistory "Signed with Alabama 02/06/2019";
     NextPage;
     Examined DeepHistory "Camp"].
Proof. vm_compute. reflexivity. Qed.

Lemma make_bounds y m d dt :
  Datetime.make y m d = Some dt -> dt = Datetime.mk y m d /\ 1 <= y <= 9999.
Proof.
  unfold Datetime.make.
  destruct (1 <=? y) eqn:H1; [|discriminate].
  destruct (y <=? 9999) eqn:H2; [|discriminate].
  simpl. match goal with |- context [if ?c then _ else _] => destruct c end;
    [|discriminate].
  intros [= <-]. split; [reflexivity|]. lia.
Qed.

Lemma strptime_year s fmt dt :
  Datetime.strptime s fmt = Some dt -> 1 <= Datetime.year dt <= 9999.
Proof.
  unfold Datetime.strptime.
  destruct (Datetime.pattern false fmt); [|discriminate].
  destruct (Re.match_ _ s) as [[caps [|? ?]]|]; try discriminate.
  match goal with
  | |- match ?m with Some _ => _ | None => _ end = _ -> _ => destruct m
  end; [|discriminate].
  intros H. apply make_bounds in H as [-> H]. exact H.
Qed.

Lemma make_cutoff year :
  1 <= year <= 9999 -> Datetime.make year 9 1 = Some (Datetime.mk year 9 1).
Proof.
  intros H. unfold Datetime.make.
  replace (1 <=? year) with true by (symmetry; apply Z.leb_le; lia).
  replace (year <=? 9999) with true by (symmetry; apply Z.leb_le; lia).
  reflexivity.
Qed.

Lemma invalid_after_cutoff date_str year dt :
  1 <= year ->
  Datetime.strptime date_str "%m/%d/%Y" = Some dt ->
  Datetime.ltb dt (Datetime.mk year 9 1) = false ->
  is_date_valid_for_class date_str year = false.
Proof.
  intros Hy Hdt Hlt. unfold is_date_valid_for_class.
  destruct (String.eqb date_str "NA"); [reflexivity|]. rewrite Hdt.
  destruct (Z_le_gt_dec year 9999) as [Hle|Hgt].
  - now rewrite make_cutoff by lia.
  - apply strptime_year in Hdt. exfalso.
    unfold Datetime.ltb in Hlt. simpl in Hlt.
    apply orb_false_iff in Hlt as [Hlt _]. apply Z.ltb_ge in Hlt. lia.
Qed.

(** C5, as amended.  An event whose date, as found and normalized, reads
    as MM/DD/YYYY and falls on or after September 1 of the recruiting
    year (a year from 1 on) leaves the record untouched: it sets neither
    the Signed Date nor the Signed Team. *)
Theorem cutoff_gate (early_exit : bool) (year : Z) (item_text : string) (s : state)
    (dt : Datetime.t) :
  1 <= year ->
  Datetime.strptime (found_date_of item_text) "%m/%d/%Y" = Some dt ->
  before_cutoff (found_date_of item_text) year = false ->
  commitment_logic early_exit year item_text s = (Val tt, s).
Proof.
  intros Hy Hdt Hlt. apply not_accepted. unfold accepts, valid_event.
  unfold before_cutoff in Hlt. rewrite Hdt in Hlt.
  rewrite (invalid_after_cutoff _ _ _ Hy Hdt Hlt).
  now rewrite !andb_false_r.
Qed.

Lemma cutoff_gate_witness :
  commitment_logic true 2019 "Committed to Auburn 09/01/2019" Examples.fresh_state
  = (Val tt, Examples.fresh_state).
Proof.
  apply (cutoff_gate true 2019 "Committed to Auburn 09/01/2019" Examples.fresh_state
           (Datetime.mk 2019 9 1)).
  - lia.
  - vm_compute. reflexivity.
  - vm_compute. reflexivity.
Defined.

(** C5, as stated, fails: a date that the normalizer could not bring to
    MM/DD/YYYY passes the check, and the event sets the Signed Date
    although its date is not before the cut-off. *)
Lemma cutoff_not_enforced_on_unparsed_date :
  ~ (forall (year : Z) (item_text : string) (s : state),
       fields (data (snd (commitment_logic false year item_text s))) !! "Signed Date"
         <> fields (data s) !! "Signed Date" ->
       before_cutoff (found_date_of item_text) year = true).
Proof.
  intros H. specialize (H 2019 Examples.late_date_text Examples.fresh_state).
  assert (Hset : fields (data (snd (commitment_logic false 2019 Examples.late_date_text
                                      Examples.fresh_state))) !! "Signed Date"
                 = Some "Sept 5, 2019") by (vm_compute; reflexivity).
  assert (Hold : fields (data Examples.fresh_state) !! "Signed Date" = Some "NA")
    by (vm_compute; reflexivity).
  rewrite Hset, Hold in H.
  assert (Hb : before_cutoff (found_date_of Examples.late_date_text) 2019 = false)
    by (vm_compute; reflexivity).
  rewrite Hb in H. discriminate H. discriminate.
Qed.

Lemma unparsed_date_is_valid date_str year :
  date_str <> "NA" -> Datetime.strptime date_str "%m/%d/%Y" = None ->
  is_date_valid_for_class date_str year = true.
Proof.
  intros Hna Hparse. unfold is_date_valid_for_class.
  destruct (String.eqb_spec date_str "NA"); [contradiction|]. now rewrite Hparse.
Qed.

(** C10.  A date string other than "NA" that does not parse as MM/DD/YYYY
    passes the validity check for every recruiting year, and an event
    that carries it, with a priority above the recorded one, sets the
    Signed Date to that string. *)
Theorem malformed_date_is_valid (date_str : string) (year : Z) (early_exit : bool)
    (item_text : string) (s : state) :
  date_str <> "NA" ->
  Datetime.strptime date_str "%m/%d/%Y" = None ->
  found_date_of item_text = date_str ->
  0 < item_priority_of item_text ->
  recorded_priority (data s) < item_priority_of item_text ->
  is_date_valid_for_class date_str year = true
  /\ fields (data (snd (commitment_logic early_exit year item_text s))) !! "Signed Date"
     = Some date_str.
Proof.
  intros Hna Hparse Hfound Hpos Hgt.
  pose proof (unparsed_date_is_valid date_str year Hna Hparse) as Hvalid.
  split; [exact Hvalid|].
  rewrite commitment_logic_eq. unfold accepts, valid_event. rewrite Hfound, Hvalid.
  destruct (String.eqb_spec date_str "NA"); [contradiction|].
  replace (item_priority_of item_text >? 0) with true
    by (symmetry; apply Z.gtb_lt; lia).
  replace (item_priority_of item_text >? recorded_priority (data s)) with true
    by (symmetry; apply Z.gtb_lt; lia).
  cbn [andb negb snd data]. rewrite record_event_signed_date. now rewrite Hfound.
Qed.

Lemma malformed_date_is_valid_witness :
  is_date_valid_for_class "Sept 5, 2019" 2019 = true
  /\ fields (data (snd (commitment_logic false 2019 Examples.late_date_text
                          Examples.fresh_state))) !! "Signed Date"
     = Some "Sept 5, 2019".
Proof.
  apply (malformed_date_is_valid "Sept 5, 2019" 2019 false Examples.late_date_text
           Examples.fresh_state).
  - discriminate.
  - vm_compute. reflexivity.
  - vm_compute. reflexivity.
  - vm_compute. reflexivity.
  - vm_compute. reflexivity.
Defined.

Example normalize_date_passes_through :
  normalize_date "Sept 5, 2019" = "Sept 5, 2019"
  /\ normalize_date "Sep 5, 2019" = "09/05/2019"
  /\ is_date_valid_for_class "09/05/2019" 2019 = false.
Proof. vm_compute. auto. Qed.
End TimelineClaims.
End TimelineProperties.

(** ** The batches *)

Section BatchProperties.
Import Effect Scraper BatchWords.

Section Batches.

(** Cutting a list into windows of [w] items and numbering the items of
    window [j] from [j * w] numbers them by their position in the list. *)
Lemma windows_by_position {A B} (F : nat -> A -> B) (w : nat) (l : list A) (k : nat) :
  mjoin ((fun j => imap (fun i x => F (j * w + i)%nat x) (take w (drop (j * w) l)))
         <$> seq 0 k)
  = imap F (take (k * w) l).
Proof.
  induction k as [|k IH]; [reflexivity|].
  rewrite seq_S, fmap_app, join_app, IH. simpl. rewrite app_nil_r.
  replace (w + k * w)%nat with (k * w + w)%nat by lia.
  rewrite <- take_take_drop, imap_app. f_equal.
  destruct (le_lt_dec (k * w) (length l)) as [Hle|Hgt].
  - rewrite length_take_le by assumption. reflexivity.
  - rewrite drop_ge by lia. now rewrite take_nil.
Qed.

Lemma range_step_windows (n : nat) (width : Z) :
  0 < width ->
  range_step (Z.of_nat n) width
  = (fun k => Z.of_nat (k * Z.to_nat width)) <$> seq 0 (Z.to_nat ((Z.of_nat n + width - 1) / width)).
Proof.
  intros Hw. unfold range_step. apply list_fmap_ext. intros _ k _. lia.
Qed.

Lemma windows_cover (n : nat) (width : Z) :
  0 < width ->
  (n <= Z.to_nat ((Z.of_nat n + width - 1) / width) * Z.to_nat width)%nat.
Proof.
  intros Hw.
  assert (H : Z.of_nat n <= ((Z.of_nat n + width - 1) / width) * width).
  { pose proof (Z.mul_succ_div_gt (Z.of_nat n + width - 1) width Hw) as H1.
    pose proof (Z.div_pos (Z.of_nat n + width - 1) width ltac:(lia) Hw). nia. }
  assert (0 <= (Z.of_nat n + width - 1) / width) by (apply Z.div_pos; lia).
  nia.
Qed.

(** The tasks of all the batches, in order. *)
Lemma tasks_by_position width browser (urls : list string) year total :
  0 < width ->
  mjoin ((fun b => batch_tasks width browser (snd b) year (fst b) total)
         <$> batches width urls)
  = imap (fun i url => scrape_player (browser (Z.of_nat i + 1)) url year
                          (Z.of_nat i + 1) total) urls.
Proof.
  intros Hw. unfold batches. rewrite range_step_windows by assumption.
  rewrite <- !list_fmap_compose.
  set (F := fun (i : nat) (url : string) =>
              scrape_player (browser (Z.of_nat i + 1)) url year (Z.of_nat i + 1) total).
  set (w := Z.to_nat width).
  set (k := Z.to_nat ((Z.of_nat (length urls) + width - 1) / width)).
  transitivity (mjoin ((fun j => imap (fun i x => F (j * w + i)%nat x)
                                   (take w (drop (j * w) urls))) <$> seq 0 k)).
  - f_equal. apply list_fmap_ext. intros _ j _. simpl.
    unfold batch_tasks, enumerate, slice.
    rewrite fmap_imap.
    replace (Z.to_nat (Z.of_nat (j * w) + width - Z.of_nat (j * w)))
      with w by (subst w; lia).
    rewrite Nat2Z.id.
    apply imap_ext. intros i url _. simpl. subst F. simpl.
    replace (Z.of_nat (j * w) / width * width + Z.of_nat i + 1)
      with (Z.of_nat (j * w + i) + 1); [reflexivity|].
    subst w. rewrite Nat2Z.inj_mul, Z2Nat.id by lia.
    rewrite Z.div_mul by lia. lia.
  - rewrite windows_by_position. f_equal. apply take_ge.
    subst k w. now apply windows_cover.
Qed.
End Batches.

Section BatchClaims.

Lemma omap_all_Some {A B} (f : A -> option B) (g : A -> B) (l : list A) :
  (forall i x, l !! i = Some x -> f x = Some (g x)) -> omap f l = g <$> l.
Proof.
  induction l as [|x l IH]; intros H; [reflexivity|]. simpl.
  rewrite (H 0%nat x eq_refl). f_equal. apply IH. intros i y Hy. apply (H (S i) y Hy).
Qed.

Lemma omap_join {A B C} (f : B -> option C) (g : A -> list B) (l : list A) :
  mjoin ((fun a => omap f (g a)) <$> l) = omap f (mjoin (g <$> l)).
Proof.
  induction l as [|a l IH]; [reflexivity|].
  change (omap f (g a) ++ mjoin ((fun a => omap f (g a)) <$> l)
          = omap f (g a ++ mjoin (g <$> l)))%list.
  rewrite omap_app. now rewrite IH.
Qed.

Lemma parse_profile_fetch_failure page url year player_num total :
  fetch_ok page = false ->
  parse_profile page url year player_num total = initial_data page url year.
Proof.
  intros Hf. unfold parse_profile, parse_profile_run, parse_profile_body, bind.
  now rewrite Hf.
Qed.

Lemma omap_imap {A B C} (f : B -> option C) (l : list A) :
  forall g : nat -> A -> B,
    omap f (imap g l) = omap id (imap (fun i x => f (g i x)) l).
Proof.
  induction l as [|x l IH]; intros g; [reflexivity|].
  cbn [imap omap list_omap]. rewrite IH. reflexivity.
Qed.

Lemma omap_imap_Some {A B} (l : list A) :
  forall g : nat -> A -> B, omap id (imap (fun i x => Some (g i x)) l) = imap g l.
Proof.
  induction l as [|x l IH]; intros g; [reflexivity|].
  cbn [imap omap list_omap id]. f_equal. apply (IH (g ∘ S)).
Qed.

(** The records kept are as many as the pages that close. *)
Lemma kept_count {A B} (c : nat -> bool) (r : nat -> A -> B) (l : list A) :
  forall k,
    length (omap id (imap (fun i x => if c (k + i)%nat then Some (r (k + i)%nat x) else None) l))
    = length (List.filter c (seq k (length l))).
Proof.
  induction l as [|x l IH]; intros k; [reflexivity|].
  cbn [imap omap list_omap length seq List.filter]. rewrite Nat.add_0_r.
  assert (Hshift : imap ((fun i x => if c (k + i)%nat then Some (r (k + i)%nat x) else None) ∘ S) l
                   = imap (fun i x => if c (S k + i)%nat then Some (r (S k + i)%nat x) else None) l).
  { apply imap_ext. intros i y _. cbn. now rewrite Nat.add_succ_r. }
  rewrite Hshift. destruct (c k); cbn [id length]; now rewrite IH.
Qed.


Example batch_of_three_with_one_failure :
  let records := scrape_player_batch 4 Examples.batch_browser Examples.batch_urls
                   2019 0 3 in
  length records = 3%nat
  /\ records !! 1%nat
     = Some (sentinel_record Examples.unreachable_profile
               "https://247sports.com/player/jane-roe-456/" 2019).
Proof. vm_compute. split; reflexivity. Qed.


Example batch_of_three_with_one_stuck_page :
  (fun d => fields d !! "Profile URL")
    <$> scrape_player_batch 4 Examples.stuck_page_browser Examples.batch_urls 2019 0 3
  = [Some "https://247sports.com/player/john-doe-123/";
     Some "https://247sports.com/player/sam-poe-789/"].
Proof. vm_compute. reflexivity. Qed.

(** The same page at positions 1000 and 1001. *)
Example deep_dive_limit :
  trace (parse_profile_run (Examples.some_profile Examples.signing_then_commitment)
           Examples.some_url 2019 1000 2000)
  = [Examined Abbreviated "Visit to Alabama on 01/05/2019";
     Examined DeepHistory "Signed with Alabama 02/06/2019";
     Examined DeepHistory "Committed to Alabama 12/19/2018"]
  /\ trace (parse_profile_run (Examples.some_profile Examples.signing_then_commitment)
              Examples.some_url 2019 1001 2000)
     = [Examined Abbreviated "Visit to Alabama on 01/05/2019"].
Proof. vm_compute. split; reflexivity. Qed.
End BatchClaims.
End BatchProperties.

(** ** The list crawls *)

Section CrawlProperties.
Import Listing Crawl.

Section CrawlFacts.
Context {P : Type} `{Page P}.

Lemma page_after_S n (page : P) :
  page_after (S n) page = snd (try_load_more (page_after n page)).
Proof. revert page. induction n as [|n IH]; intros page; [reflexivity|]. simpl in *. now rewrite IH. Qed.

Lemma observed_S n (page : P) :
  observed (S n) page = (observed n page ++ [fst (try_load_more (page_after n page))])%list.
Proof.
  revert page. induction n as [|n IH]; intros page; [reflexivity|].
  change (observed (S (S n)) page)
    with (fst (try_load_more page) :: observed (S n) (snd (try_load_more page))).
  rewrite IH. reflexivity.
Qed.

Lemma length_observed n (page : P) : length (observed n page) = n.
Proof. revert page. induction n as [|n IH]; intros page; simpl; [reflexivity|]. now rewrite IH. Qed.

Lemma failures_snoc l a :
  failures_since_click (l ++ [a])
  = match a with
    | Clicked => 0
    | ClickedThenRaised => 1
    | NoButton => failures_since_click l
    | Failed => failures_since_click l + 1
    end.
Proof. unfold failures_since_click. now rewrite fold_left_app. Qed.

Lemma no_button_snoc l a :
  no_button_since_click (l ++ [a])
  = match a with
    | Clicked | ClickedThenRaised => 0
    | NoButton => no_button_since_click l + 1
    | Failed => no_button_since_click l
    end.
Proof. unfold no_button_since_click. now rewrite fold_left_app. Qed.

Lemma clicks_snoc l a :
  clicks (l ++ [a])
  = match a with
    | Clicked | ClickedThenRaised => clicks l + 1
    | NoButton | Failed => clicks l
    end.
Proof. unfold clicks. now rewrite fold_left_app. Qed.

(** The passes made before a given pass: a prefix of the passes. *)
Lemma prefix_cases {A} (done pre post : list A) (a x : A) :
  (done ++ [x] = pre ++ a :: post)%list -> (length done <= length pre)%nat ->
  pre = done /\ a = x /\ post = [].
Proof.
  intros Heq Hlen.
  assert (Hl : length (done ++ [x]) = length (pre ++ a :: post)) by now rewrite Heq.
  rewrite !length_app in Hl. simpl in Hl.
  assert (length pre = length done /\ post = []) as [Hl' ->].
  { destruct post; simpl in *; [split; [lia|reflexivity] | lia]. }
  apply app_inj_1 in Heq as [-> [= ->]]; auto.
Qed.
End CrawlFacts.

Section FullCrawl.
Context {P : Type} `{Page P}.
Variable TEST_MODE : bool.
Variable page0 : P.

Import Scraper.
Local Abbreviation at_head := (Crawl.at_head page0).
Local Abbreviation budget := (Crawl.budget TEST_MODE).
Local Abbreviation going_on := (Crawl.going_on TEST_MODE).
Local Abbreviation loop_ok := (Crawl.loop_ok TEST_MODE page0).

Lemma max_clicks_pos : 0 < max_clicks TEST_MODE.
Proof. unfold max_clicks. destruct TEST_MODE; lia. Qed.

(** The loop is left at its head. *)
Lemma loop_ok_ceiling k page c done :
  at_head k page c done -> max_clicks TEST_MODE <= click_count c ->
  loop_ok k c (LoopResult page c ClickCeiling done).
Proof.
  intros (Hdone & Hpage & Hcc & Hcf & Hnb & Hcc0 & Hcf0 & Hnb0) Hge.
  assert (Hk : length done = k) by (rewrite Hdone; apply length_observed).
  unfold loop_ok. cbn [attempts final_page final_counters reason]. rewrite Hk.
  repeat split; auto; try discriminate; try lia.
Qed.

(** The loop is left by a pass that reaches a ceiling. *)
Lemma loop_ok_break k page c done a page' c' why :
  at_head k page c done -> click_count c < max_clicks TEST_MODE ->
  try_load_more page = (a, page') ->
  click_count c' = clicks (done ++ [a]) ->
  consecutive_failures c' = failures_since_click (done ++ [a]) ->
  no_button_checks c' = no_button_since_click (done ++ [a]) ->
  click_count c' < max_clicks TEST_MODE ->
  (why = TooManyFailures /\ consecutive_failures c' = 10 /\ no_button_checks c' < 3
   \/ why = AllLoaded /\ no_button_checks c' = 3 /\ consecutive_failures c' < 10) ->
  loop_ok k c (LoopResult page' c' why (done ++ [a])).
Proof.
  intros (Hdone & Hpage & Hcc & Hcf & Hnb & Hcc0 & Hcf0 & Hnb0) Hlt Htry H1 H2 H3 H4 Hwhy.
  assert (Hk : length done = k) by (rewrite Hdone; apply length_observed).
  assert (Hdone' : (done ++ [a])%list = observed (S k) page0)
    by (rewrite observed_S, <- Hdone, <- Hpage, Htry; reflexivity).
  assert (Hpage' : page' = page_after (S k) page0)
    by (rewrite page_after_S, <- Hpage, Htry; reflexivity).
  unfold loop_ok. cbn [attempts final_page final_counters reason].
  rewrite length_app, Hk. simpl. replace (k + 1)%nat with (S k) by lia.
  split; [assumption|]. split; [assumption|]. split; [assumption|].
  split; [assumption|]. split; [assumption|].
  split; [|split; [|split; [|split]]].
  - destruct Hwhy as [(-> & ? & ?)|(-> & ? & ?)]; split; intros;
      first [discriminate | reflexivity | lia | exfalso; lia].
  - destruct Hwhy as [(-> & ? & ?)|(-> & ? & ?)]; split; intros;
      first [discriminate | reflexivity | lia | exfalso; lia].
  - destruct Hwhy as [(-> & ? & ?)|(-> & ? & ?)]; split; intros;
      first [discriminate | reflexivity | lia | exfalso; lia].
  - intros j Hj. assert (j = k) as -> by lia. rewrite <- Hdone.
    unfold going_on. lia.
  - unfold budget. lia.
Qed.

(** The loop goes on after a pass; [r] is what it returns in the end. *)
Lemma loop_ok_continue k page c done c' r :
  at_head k page c done -> click_count c < max_clicks TEST_MODE ->
  budget c' <= budget c - 1 ->
  loop_ok (S k) c' r -> loop_ok k c r.
Proof.
  intros (Hdone & Hpage & Hcc & Hcf & Hnb & Hcc0 & Hcf0 & Hnb0) Hlt Hb
    (O1 & O2 & O3 & O4 & O5 & O6 & O7 & O8 & O9 & O10).
  unfold loop_ok. unfold budget in *.
  repeat split; auto; try apply O6; try apply O7; try apply O8.
  all: try (destruct (decide (j = k)) as [->|Hne]; [rewrite <- Hdone|apply O9]).
  all: lia.
Qed.

Lemma loop_spec fuel :
  forall k page c done,
    at_head k page c done -> budget c <= Z.of_nat fuel ->
    exists r, load_more_loop TEST_MODE fuel page c done = Some r /\ loop_ok k c r.
Proof.
  pose proof max_clicks_pos as Hmax.
  induction fuel as [|fuel IH]; intros k page c done Hhead Hfuel;
    pose proof Hhead as (Hdone & Hpage & Hcc & Hcf & Hnb & Hcc0 & Hcf0 & Hnb0);
    simpl; destruct (click_count c <? max_clicks TEST_MODE) eqn:Hlt; simpl;
    try (apply Z.ltb_ge in Hlt; eexists; split; [reflexivity|];
         now apply loop_ok_ceiling);
    apply Z.ltb_lt in Hlt.
  - unfold budget in Hfuel. lia.
  - destruct (try_load_more page) as [a page'] eqn:Htry.
    assert (Hdone' : (done ++ [a])%list = observed (S k) page0)
      by (rewrite observed_S, <- Hdone, <- Hpage, Htry; reflexivity).
    assert (Hpage' : page' = page_after (S k) page0)
      by (rewrite page_after_S, <- Hpage, Htry; reflexivity).
    assert (Hcont : forall c',
              click_count c' = clicks (done ++ [a]) ->
              consecutive_failures c' = failures_since_click (done ++ [a]) ->
              no_button_checks c' = no_button_since_click (done ++ [a]) ->
              0 <= click_count c' -> 0 <= consecutive_failures c' < 10 ->
              0 <= no_button_checks c' < 3 -> budget c' <= budget c - 1 ->
              exists r, load_more_loop TEST_MODE fuel page' c' (done ++ [a]) = Some r
                        /\ loop_ok k c r).
    { intros c' H1 H2 H3 H4 H5 H6 H7.
      destruct (IH (S k) page' c' (done ++ [a])%list) as (r & Hr & Hok).
      { repeat split; auto; lia. }
      { lia. }
      exists r. split; [exact Hr|]. now apply (loop_ok_continue k page c done c'). }
    assert (Hbreak : forall c' why,
              click_count c' = clicks (done ++ [a]) ->
              consecutive_failures c' = failures_since_click (done ++ [a]) ->
              no_button_checks c' = no_button_since_click (done ++ [a]) ->
              click_count c' < max_clicks TEST_MODE ->
              (why = TooManyFailures /\ consecutive_failures c' = 10
                 /\ no_button_checks c' < 3
               \/ why = AllLoaded /\ no_button_checks c' = 3
                 /\ consecutive_failures c' < 10) ->
              exists r, Some (LoopResult page' c' why (done ++ [a])) = Some r
                        /\ loop_ok k c r).
    { intros c' why H1 H2 H3 H4 H5. eexists. split; [reflexivity|].
      now apply (loop_ok_break k page c done a page' c' why). }
    destruct a; cbn [click_count consecutive_failures no_button_checks].
    + apply Hcont; cbn [click_count consecutive_failures no_button_checks];
        rewrite ?clicks_snoc, ?failures_snoc, ?no_button_snoc; unfold budget;
        cbn [click_count consecutive_failures no_button_checks]; lia.
    + change (0 + 1 >=? 10) with false. cbv iota.
      apply Hcont; cbn [click_count consecutive_failures no_button_checks];
        rewrite ?clicks_snoc, ?failures_snoc, ?no_button_snoc; unfold budget;
        cbn [click_count consecutive_failures no_button_checks]; lia.
    + destruct (no_button_checks c + 1 >=? 3) eqn:Hge.
      * apply Z.geb_le in Hge.
        apply Hbreak; cbn [click_count consecutive_failures no_button_checks];
          rewrite ?clicks_snoc, ?failures_snoc, ?no_button_snoc; try lia.
        right. repeat split; lia.
      * assert (no_button_checks c + 1 < 3)
          by (destruct (Z.geb_spec (no_button_checks c + 1) 3); [discriminate|lia]).
        apply Hcont; cbn [click_count consecutive_failures no_button_checks];
          rewrite ?clicks_snoc, ?failures_snoc, ?no_button_snoc; unfold budget;
          cbn [click_count consecutive_failures no_button_checks]; lia.
    + destruct (consecutive_failures c + 1 >=? 10) eqn:Hge.
      * apply Z.geb_le in Hge.
        apply Hbreak; cbn [click_count consecutive_failures no_button_checks];
          rewrite ?clicks_snoc, ?failures_snoc, ?no_button_snoc; try lia.
        left. repeat split; lia.
      * assert (consecutive_failures c + 1 < 10)
          by (destruct (Z.geb_spec (consecutive_failures c + 1) 10); [discriminate|lia]).
        apply Hcont; cbn [click_count consecutive_failures no_button_checks];
          rewrite ?clicks_snoc, ?failures_snoc, ?no_button_snoc; unfold budget;
          cbn [click_count consecutive_failures no_button_checks]; lia.
Qed.
End FullCrawl.

Section GapCrawl.
Context {P : Type} `{Page P}.
Variable max_rank_needed : Z.
Variable page0 : P.

Import Patch.
Local Abbreviation gap_at_head := (Crawl.gap_at_head page0).
Local Abbreviation gap_ok := (Crawl.gap_ok page0).

Lemma gap_ok_continue k n page c done r :
  gap_at_head k page c done -> gap_ok (S k) n r -> gap_ok k (S n) r.
Proof.
  intros (Hdone & Hpage & Hcc & Hcf & Hnb & Hcf0 & Hnb0)
    (O1 & O2 & O3 & O4 & O5 & O6 & O7 & O9 & O10).
  unfold gap_ok. repeat split; auto; try apply O6; try apply O7.
  all: try (destruct (decide (j = k)) as [->|Hne]; [rewrite <- Hdone|apply O9]).
  all: lia.
Qed.

Lemma gap_ok_break k n page c done a page' c' why :
  gap_at_head k page c done ->
  try_load_more page = (a, page') ->
  click_count c' = clicks (done ++ [a]) ->
  consecutive_failures c' = failures_since_click (done ++ [a]) ->
  no_button_checks c' = no_button_since_click (done ++ [a]) ->
  (why = TooManyFailures /\ consecutive_failures c' = 5 /\ no_button_checks c' < 3
   \/ why = AllLoaded /\ no_button_checks c' = 3 /\ consecutive_failures c' < 5
   \/ why = EnoughLoaded /\ no_button_checks c' < 3 /\ consecutive_failures c' < 5) ->
  gap_ok k (S n) (LoopResult page' c' why (done ++ [a])).
Proof.
  intros (Hdone & Hpage & Hcc & Hcf & Hnb & Hcf0 & Hnb0) Htry H1 H2 H3 Hwhy.
  assert (Hk : length done = k) by (rewrite Hdone; apply length_observed).
  assert (Hdone' : (done ++ [a])%list = observed (S k) page0)
    by (rewrite observed_S, <- Hdone, <- Hpage, Htry; reflexivity).
  assert (Hpage' : page' = page_after (S k) page0)
    by (rewrite page_after_S, <- Hpage, Htry; reflexivity).
  unfold gap_ok. cbn [attempts final_page final_counters reason].
  rewrite length_app, Hk. simpl. replace (k + 1)%nat with (S k) by lia.
  split; [assumption|]. split; [assumption|]. split; [assumption|].
  split; [assumption|]. split; [assumption|].
  split; [|split; [|split]].
  - destruct Hwhy as [(-> & ? & ?)|[(-> & ? & ?)|(-> & ? & ?)]]; split; intros;
      first [discriminate | reflexivity | lia | exfalso; lia].
  - destruct Hwhy as [(-> & ? & ?)|[(-> & ? & ?)|(-> & ? & ?)]]; split; intros;
      first [discriminate | reflexivity | lia | exfalso; lia].
  - intros j Hj. assert (j = k) as -> by lia. rewrite <- Hdone.
    unfold gap_going_on. lia.
  - lia.
Qed.

Lemma gap_loop_spec n :
  forall k page c done,
    gap_at_head k page c done ->
    gap_ok k n (load_more_loop max_rank_needed n page c done).
Proof.
  induction n as [|n IH]; intros k page c done Hhead;
    pose proof Hhead as (Hdone & Hpage & Hcc & Hcf & Hnb & Hcf0 & Hnb0).
  - assert (Hk : length done = k) by (rewrite Hdone; apply length_observed).
    unfold gap_ok. cbn [load_more_loop attempts final_page final_counters reason].
    rewrite Hk. repeat split; auto; try discriminate; intros; lia.
  - cbn [load_more_loop].
    destruct (try_load_more page) as [a page'] eqn:Htry.
    assert (Hdone' : (done ++ [a])%list = observed (S k) page0)
      by (rewrite observed_S, <- Hdone, <- Hpage, Htry; reflexivity).
    assert (Hpage' : page' = page_after (S k) page0)
      by (rewrite page_after_S, <- Hpage, Htry; reflexivity).
    assert (Hcont : forall c',
              click_count c' = clicks (done ++ [a]) ->
              consecutive_failures c' = failures_since_click (done ++ [a]) ->
              no_button_checks c' = no_button_since_click (done ++ [a]) ->
              0 <= consecutive_failures c' < 5 -> 0 <= no_button_checks c' < 3 ->
              gap_ok k (S n) (load_more_loop max_rank_needed n page' c' (done ++ [a]))).
    { intros c' H1 H2 H3 H5 H6.
      apply (gap_ok_continue k n page c done); [assumption|].
      apply IH. repeat split; auto; lia. }
    pose proof (gap_ok_break k n page c done a page') as Hbreak.
    destruct a; cbn [click_count consecutive_failures no_button_checks].
    + match goal with |- context [if ?b then _ else _] => destruct b end.
      * apply Hbreak; auto;
          cbn [click_count consecutive_failures no_button_checks];
          rewrite ?clicks_snoc, ?failures_snoc, ?no_button_snoc; try lia.
        right. right. repeat split; lia.
      * apply Hcont; cbn [click_count consecutive_failures no_button_checks];
          rewrite ?clicks_snoc, ?failures_snoc, ?no_button_snoc; lia.
    + change (0 + 1 >=? 5) with false. cbv iota.
      apply Hcont; cbn [click_count consecutive_failures no_button_checks];
        rewrite ?clicks_snoc, ?failures_snoc, ?no_button_snoc; lia.
    + destruct (no_button_checks c + 1 >=? 3) eqn:Hge.
      * apply Z.geb_le in Hge.
        apply Hbreak; auto;
          cbn [click_count consecutive_failures no_button_checks];
          rewrite ?clicks_snoc, ?failures_snoc, ?no_button_snoc; try lia.
        right. left. repeat split; lia.
      * assert (no_button_checks c + 1 < 3)
          by (destruct (Z.geb_spec (no_button_checks c + 1) 3); [discriminate|lia]).
        apply Hcont; cbn [click_count consecutive_failures no_button_checks];
          rewrite ?clicks_snoc, ?failures_snoc, ?no_button_snoc; lia.
    + destruct (consecutive_failures c + 1 >=? 5) eqn:Hge.
      * apply Z.geb_le in Hge.
        apply Hbreak; auto;
          cbn [click_count consecutive_failures no_button_checks];
          rewrite ?clicks_snoc, ?failures_snoc, ?no_button_snoc; try lia.
        left. repeat split; lia.
      * assert (consecutive_failures c + 1 < 5)
          by (destruct (Z.geb_spec (consecutive_failures c + 1) 5); [discriminate|lia]).
        apply Hcont; cbn [click_count consecutive_failures no_button_checks];
          rewrite ?clicks_snoc, ?failures_snoc, ?no_button_snoc; lia.
Qed.
End GapCrawl.

Section CrawlClaims.

Lemma cleanup_length {P} `{Page P} n (page : P) done :
  (length (snd (Scraper.cleanup n page done)) <= length done + n)%nat.
Proof.
  revert page done. induction n as [|n IH]; intros page done; simpl; [lia|].
  destruct (try_load_more page) as [a page'].
  destruct a; simpl; rewrite ?length_app; simpl; try lia;
    (etransitivity; [apply IH|]; rewrite length_app; simpl; lia).
Qed.

Lemma initial_at_head {P} `{Page P} (page : P) :
  at_head page 0 page (Scraper.Counters 0 0 0) [].
Proof. unfold at_head. simpl. repeat split; reflexivity || lia. Qed.



Example gap_crawl_five_failures :
  let r := @Patch.load_more_loop unit (always Failed) 300 (Patch.passes 300) tt
             (Patch.Counters 0 0 0) [] in
  Patch.reason r = Patch.TooManyFailures
  /\ Patch.attempts r = [Failed; Failed; Failed; Failed; Failed].
Proof. vm_compute. auto. Qed.

Example full_crawl_ten_failures :
  exists r,
    @Scraper.load_more_loop unit (always Failed) false (Scraper.loop_fuel false) tt
      (Scraper.Counters 0 0 0) [] = Some r
    /\ Scraper.reason r = Scraper.TooManyFailures
    /\ Scraper.attempts r = repeat Failed 10.
Proof. eexists. vm_compute. auto. Qed.
End CrawlClaims.

Section Simulated.
#[local] Existing Instance simulated.

Lemma clicks_nonneg l : 0 <= clicks l.
Proof.
  induction l as [|a l IH] using rev_ind; [reflexivity|].
  rewrite clicks_snoc. destruct a; lia.
Qed.

(** The simulated source after [j] passes. *)
Lemma simulated_after j (s : source) :
  all_urls (page_after j s) = all_urls s
  /\ per_click (page_after j s) = per_click s
  /\ shown (page_after j s)
     = (shown s + Z.to_nat (clicks (observed j s)) * per_click s)%nat
  /\ failures_since_click (observed j s) = 0
  /\ (0 < no_button_since_click (observed j s) -> exhausted (page_after j s) = true).
Proof.
  induction j as [|j (IH1 & IH2 & IH3 & IH4 & IH5)].
  - simpl. repeat split; auto; try lia.
    unfold no_button_since_click. simpl. lia.
  - rewrite page_after_S, observed_S.
    rewrite clicks_snoc, failures_snoc, no_button_snoc.
    pose proof (clicks_nonneg (observed j s)) as Hc.
    cbn [try_load_more simulated].
    destruct (exhausted (page_after j s)) eqn:Hex; cbn [fst snd all_urls per_click shown].
    + repeat split; auto.
    + rewrite IH1, IH2, IH3. repeat split; auto; lia.
Qed.

Lemma simulated_cleanup n (s : source) done :
  all_urls (fst (Scraper.cleanup n s done)) = all_urls s
  /\ (exhausted (fst (Scraper.cleanup n s done)) = true
      \/ shown (fst (Scraper.cleanup n s done)) = (shown s + n * per_click s)%nat).
Proof.
  revert s done. induction n as [|n IH]; intros s done.
  - split; [reflexivity|]. right. simpl. lia.
  - cbn [Scraper.cleanup try_load_more simulated].
    destruct (exhausted s) eqn:Hex; cbn [fst]; [auto|].
    destruct (IH (Source (all_urls s) (per_click s) (shown s + per_click s))
                 (done ++ [Clicked])%list) as [H1 H2].
    cbn [all_urls per_click shown] in H1, H2.
    split; [assumption|]. destruct H2 as [H2|H2]; [auto|]. right. lia.
Qed.

Lemma simulated_button_visible (s : source) :
  button_visible s = Some (negb (exhausted s)).
Proof. reflexivity. Qed.

(** After the post-loop verification the source is exhausted, or 50 more
    clicks have been made. *)
Lemma simulated_post_loop (s : source) :
  all_urls (fst (Scraper.post_loop_verification s)) = all_urls s
  /\ (exhausted (fst (Scraper.post_loop_verification s)) = true
      \/ shown (fst (Scraper.post_loop_verification s)) = (shown s + 50 * per_click s)%nat).
Proof.
  unfold Scraper.post_loop_verification. rewrite simulated_button_visible.
  destruct (exhausted s) eqn:Hex; cbn [negb fst]; [auto|].
  apply simulated_cleanup.
Qed.

Lemma filter_all {A} (f : A -> bool) (l : list A) :
  forallb f l = true -> List.filter f l = l.
Proof.
  induction l as [|x l IH]; simpl; [reflexivity|].
  intros H. apply andb_true_iff in H as [-> H]. now rewrite IH.
Qed.

Lemma fmap_fixed {A} (g : A -> A) (l : list A) :
  Forall (fun x => g x = x) l -> g <$> l = l.
Proof.
  induction 1 as [|x l Hx _ IH]; [reflexivity|]. rewrite fmap_cons. congruence.
Qed.

Lemma fromkeys_NoDup l :
  NoDup l -> forall seen, (forall x, x ∈ l -> x ∉ seen) -> Scraper.fromkeys seen l = l.
Proof.
  induction 1 as [|x l Hx Hnd IH]; intros seen Hseen; simpl; [reflexivity|].
  rewrite bool_decide_eq_false_2 by (apply Hseen; left).
  f_equal. apply IH. intros y Hy Hin. apply elem_of_cons in Hin as [->|Hin].
  - contradiction.
  - apply (Hseen y); [now right | assumption].
Qed.

Lemma canonical_links_extracted (l : list string) :
  forallb canonical_link l = true -> NoDup l ->
  Scraper.fromkeys [] (Scraper.normalize_player_url <$> List.filter Scraper.is_player_link l)
  = l.
Proof.
  intros Hc Hnd.
  assert (H1 : forallb Scraper.is_player_link l = true).
  { apply forallb_forall. intros u Hu.
    rewrite forallb_forall in Hc. specialize (Hc u Hu).
    unfold canonical_link in Hc. now apply andb_true_iff in Hc as [_ ?]. }
  assert (H2 : Forall (fun u => Scraper.normalize_player_url u = u) l).
  { apply Forall_forall. intros u Hu. apply list_elem_of_In in Hu.
    rewrite forallb_forall in Hc. specialize (Hc u Hu).
    unfold canonical_link in Hc. apply andb_true_iff in Hc as [Hc _].
    now apply String.eqb_eq in Hc. }
  rewrite filter_all, fmap_fixed by assumption.
  apply fromkeys_NoDup; [assumption|]. intros x _ Hin. now apply elem_of_nil in Hin.
Qed.
End Simulated.

Section ConvergenceClaims.
#[local] Existing Instance simulated.

Lemma loop_totals {P} `{Page P} TEST_MODE (page : P) k c r :
  (k = 0)%nat -> loop_ok TEST_MODE page k c r ->
  clicks (Scraper.attempts r) <= Scraper.max_clicks TEST_MODE
  /\ failures_since_click (Scraper.attempts r) <= 10
  /\ no_button_since_click (Scraper.attempts r) <= 3.
Proof.
  intros -> (O1 & _ & _ & _ & _ & _ & _ & _ & O9 & _).
  pose proof (max_clicks_pos TEST_MODE) as Hmax.
  destruct (length (Scraper.attempts r)) as [|j] eqn:Hn.
  - rewrite O1. simpl. unfold clicks, failures_since_click, no_button_since_click.
    simpl. lia.
  - destruct (O9 j ltac:(lia)) as (G1 & G2 & G3).
    rewrite O1, observed_S, clicks_snoc, failures_snoc, no_button_snoc.
    destruct (fst (try_load_more (page_after j page))); lia.
Qed.

(** The driver, once its loop has returned. *)
Lemma crawl_of_loop {P} `{Page P} TEST_MODE (page : P) r :
  opened page = true -> (item_count page >? 0) = true ->
  Scraper.load_more_loop TEST_MODE (Scraper.loop_fuel TEST_MODE) page
    (Scraper.Counters 0 0 0) [] = Some r ->
  Scraper.click_load_more_until_complete TEST_MODE page
  = Some (let '(page', cleaned) := Scraper.post_loop_verification (Scraper.final_page r) in
          let urls := Scraper.extract_player_urls page' in
          let urls := if TEST_MODE && (Z.of_nat (length urls) >? 300)
                      then take 300 urls else urls in
          Scraper.Crawl urls (Some (Scraper.reason r)) (Scraper.attempts r) cleaned).
Proof.
  intros H1 H2 H3. unfold Scraper.click_load_more_until_complete.
  rewrite H1, H2, H3. cbn [negb].
  now destruct (Scraper.post_loop_verification (Scraper.final_page r)).
Qed.

(** The driver returns, within the ceilings of its loop and clean-up. *)
Lemma driver_bounded {P} `{Page P} (TEST_MODE : bool) (page : P) :
  exists c,
      Scraper.click_load_more_until_complete TEST_MODE page = Some c
      /\ Z.of_nat (length (Scraper.loop_attempts c)) <= 12 * Scraper.max_clicks TEST_MODE
      /\ clicks (Scraper.loop_attempts c) <= Scraper.max_clicks TEST_MODE
      /\ failures_since_click (Scraper.loop_attempts c) <= 10
      /\ no_button_since_click (Scraper.loop_attempts c) <= 3
      /\ (Scraper.loop_exit c = Some Scraper.AllLoaded
          <-> no_button_since_click (Scraper.loop_attempts c) = 3)
      /\ (length (Scraper.cleanup_attempts c) <= 50)%nat.
Proof.
  pose proof (max_clicks_pos TEST_MODE) as Hmax.
    unfold Scraper.click_load_more_until_complete.
    assert (Hnone : exists c,
              Some (Scraper.Crawl [] None [] []) = Some c
              /\ Z.of_nat (length (Scraper.loop_attempts c))
                 <= 12 * Scraper.max_clicks TEST_MODE
              /\ clicks (Scraper.loop_attempts c) <= Scraper.max_clicks TEST_MODE
              /\ failures_since_click (Scraper.loop_attempts c) <= 10
              /\ no_button_since_click (Scraper.loop_attempts c) <= 3
              /\ (Scraper.loop_exit c = Some Scraper.AllLoaded
                  <-> no_button_since_click (Scraper.loop_attempts c) = 3)
              /\ (length (Scraper.cleanup_attempts c) <= 50)%nat).
    { eexists. split; [reflexivity|]. simpl.
      unfold clicks, failures_since_click, no_button_since_click. simpl.
      repeat split; try lia; discriminate. }
    destruct (negb (opened page)); [exact Hnone|].
    destruct (negb (item_count page >? 0)); [exact Hnone|]. clear Hnone.
    destruct (loop_spec TEST_MODE page (Scraper.loop_fuel TEST_MODE) 0 page
                (Scraper.Counters 0 0 0) [] (initial_at_head page))
      as (r & Hr & Hok).
    { unfold budget, Scraper.loop_fuel.
      cbn [Scraper.click_count Scraper.consecutive_failures Scraper.no_button_checks].
      pose proof (max_clicks_pos false). pose proof (max_clicks_pos true).
      rewrite Z2Nat.id; destruct TEST_MODE; lia. }
    rewrite Hr.
    destruct (loop_totals TEST_MODE page 0 _ r eq_refl Hok) as (T1 & T2 & T3).
    destruct Hok as (O1 & O2 & O3 & O4 & O5 & O6 & O7 & O8 & O9 & O10).
    destruct (Scraper.post_loop_verification (Scraper.final_page r))
      as [page' cleaned] eqn:Hpost.
    eexists. split; [reflexivity|]. cbn [Scraper.loop_attempts Scraper.loop_exit
                                        Scraper.cleanup_attempts].
    split; [|split; [assumption|split; [assumption|split; [assumption|split]]]].
    + unfold budget in O10.
      cbn [Scraper.click_count Scraper.consecutive_failures Scraper.no_button_checks] in O10. lia.
    + rewrite <- O7. split; [now intros [= ->] | now intros ->].
    + unfold Scraper.post_loop_verification in Hpost.
      destruct (button_visible (Scraper.final_page r)) as [[|]|];
        try (injection Hpost as <- <-; simpl; lia).
      pose proof (cleanup_length 50 (Scraper.final_page r) []) as Hl.
      rewrite Hpost in Hl. simpl in Hl. lia.
Qed.

Lemma driver_complete_on_source (src : source) :
  (0 < shown src)%nat -> (0 < length (all_urls src))%nat ->
  (length (all_urls src) <= shown src + 550 * per_click src)%nat ->
  forallb canonical_link (all_urls src) = true -> NoDup (all_urls src) ->
  exists c,
    @Scraper.click_load_more_until_complete source simulated false src = Some c
    /\ Scraper.player_urls c = all_urls src
    /\ length (Scraper.player_urls c) = length (all_urls src)
    /\ NoDup (Scraper.player_urls c).
Proof.
  intros Hshown Htotal Hreach Hcanon Hnd.
  assert (Hitems : (@item_count source simulated src >? 0) = true).
    { apply Z.gtb_lt. cbn [item_count simulated]. unfold shown_links.
      rewrite length_take. lia. }
    destruct (@loop_spec source simulated false src (Scraper.loop_fuel false) 0 src
                (Scraper.Counters 0 0 0) [] (@initial_at_head source simulated src))
      as (r & Hr & Hok).
    { unfold budget, Scraper.loop_fuel.
      cbn [Scraper.click_count Scraper.consecutive_failures Scraper.no_button_checks].
      change (Scraper.max_clicks false) with 500. lia. }
    rewrite (@crawl_of_loop source simulated false src r eq_refl Hitems Hr). clear Hr.
    destruct Hok as (O1 & O2 & O3 & O4 & O5 & O6 & O7 & O8 & O9 & O10).
    destruct (simulated_after (length (Scraper.attempts r)) src)
      as (S1 & S2 & S3 & S4 & S5).
    rewrite <- O1, <- O2 in *.
    set (fp := Scraper.final_page r) in *.
    assert (Hfp : exhausted fp = true \/ (shown src + 500 * per_click src <= shown fp)%nat).
    { destruct (Scraper.reason r) eqn:Hreason.
      - right. apply proj1 in O8. specialize (O8 eq_refl).
        change (Scraper.max_clicks false) with 500 in O8. rewrite S3. nia.
      - left. apply S5. apply proj1 in O7. specialize (O7 eq_refl). lia.
      - apply proj1 in O6. specialize (O6 eq_refl). lia. }
    destruct (Scraper.post_loop_verification fp) as [page' cleaned] eqn:Hpost.
    assert (Hpage' : all_urls page' = all_urls src /\ exhausted page' = true).
    { destruct (simulated_post_loop fp) as [C1 C2].
      rewrite Hpost in C1, C2. cbn [fst] in C1, C2.
      split; [congruence|]. destruct C2 as [C2|C2]; [assumption|].
      destruct Hfp as [Hfp|Hfp].
      - unfold exhausted in *. apply Nat.leb_le. apply Nat.leb_le in Hfp.
        rewrite C1, C2. lia.
      - unfold exhausted. apply Nat.leb_le. rewrite C1, C2, S1, S2. lia. }
    destruct Hpage' as [Hall Hex].
    assert (Hlinks : shown_links page' = all_urls src).
    { unfold shown_links. rewrite Hall. apply take_ge.
      unfold exhausted in Hex. apply Nat.leb_le in Hex. now rewrite Hall in Hex. }
    assert (Hurls : Scraper.extract_player_urls page' = all_urls src).
    { unfold Scraper.extract_player_urls. cbn [name_links item_links player_links simulated].
      rewrite Hlinks.
      rewrite bool_decide_eq_false_2 by (destruct (all_urls src); [simpl in Htotal; lia | discriminate]).
      rewrite bool_decide_eq_false_2 by (destruct (all_urls src); [simpl in Htotal; lia | discriminate]).
      now apply canonical_links_extracted. }
    cbn [andb]. rewrite Hurls.
    eexists. split; [reflexivity|]. cbn [Scraper.player_urls]. auto.
Qed.

(** A source that shows no item when the crawl begins is answered with
    no entry. *)
Lemma driver_on_empty_page (TEST_MODE : bool) (src : source) :
  shown src = 0%nat \/ all_urls src = [] ->
  @Scraper.click_load_more_until_complete source simulated TEST_MODE src
  = Some (Scraper.Crawl [] None [] []).
Proof.
  intros Hempty. unfold Scraper.click_load_more_until_complete.
  cbn [opened simulated negb item_count]. unfold shown_links.
  replace (take (shown src) (all_urls src)) with (@nil string)
    by (destruct Hempty as [-> | ->]; [reflexivity | now rewrite take_nil]).
  reflexivity.
Qed.



(** Three links, none of them shown when the crawl begins: the guard of
    scraper.py:183-186 answers that no player was found. *)
Example hidden_source_gives_nothing :
  Scraper.click_load_more_until_complete false (Source (CrawlExamples.links 3) 1 0)
  = Some (Scraper.Crawl [] None [] []).
Proof. vm_compute. reflexivity. Qed.

End ConvergenceClaims.
End CrawlProperties.

(** ** Gap resolution *)

Section GapProperties.
Import Listing Patch GapWords GapExamples Effect.

Section GapFacts.

Lemma has_key_spec url (l : list (string * target)) :
  has_key url l = true <-> url ∈ l.*1.
Proof.
  unfold has_key. induction l as [|[u t] l IH]; simpl.
  - split; [discriminate | intros H; now apply elem_of_nil in H].
  - rewrite orb_true_iff, IH, elem_of_cons. rewrite String.eqb_eq.
    split; intros [H|H]; auto.
Qed.

Lemma set_composite_rank_keys url rank (l : list (string * target)) :
  (set_composite_rank url rank l).*1 = l.*1.
Proof.
  induction l as [|[u t] l IH]; [reflexivity|]. cbn [set_composite_rank].
  destruct (String.eqb u url); [reflexivity|]. rewrite !fmap_cons. now rewrite IH.
Qed.

Variable rank_map : gmap Z entry.

(** The targets of the composite pass: the URLs found for the requested
    ranks, each once, and the ranks that the list does not have. *)
Lemma composite_targets_spec ranks :
  forall tp0 miss0 tp miss,
    composite_targets rank_map ranks tp0 miss0 = (tp, miss) ->
    NoDup tp0.*1 ->
    NoDup tp.*1
    /\ (exists new, tp.*1 = (tp0.*1 ++ new)%list
          /\ forall u, u ∈ new ->
               exists rank e, rank ∈ ranks /\ rank_map !! rank = Some e /\ url e = u)
    /\ (forall rank e, rank ∈ ranks -> rank_map !! rank = Some e -> url e ∈ tp.*1)
    /\ (forall rank, rank ∈ miss
                     <-> rank ∈ miss0 \/ (rank ∈ ranks /\ rank_map !! rank = None)).
Proof.
  induction ranks as [|rank ranks IH]; intros tp0 miss0 tp miss Heq Hnd.
  - injection Heq as <- <-. split; [assumption|]. split.
    + exists []. rewrite app_nil_r. split; [reflexivity|].
      intros u Hu. now apply elem_of_nil in Hu.
    + split.
      * intros r e Hr. now apply elem_of_nil in Hr.
      * intros r. split; [auto|]. intros [H|[H _]]; [assumption|].
        now apply elem_of_nil in H.
  - cbn [composite_targets] in Heq.
    destruct (rank_map !! rank) as [player|] eqn:Hrank.
    + destruct (has_key (url player) tp0) eqn:Hkey; cbn [negb] in Heq.
      * (* already a target *)
        apply IH in Heq; [|now rewrite set_composite_rank_keys].
        rewrite set_composite_rank_keys in Heq.
        destruct Heq as (H1 & (new & H2 & H3) & H4 & H5).
        split; [assumption|]. split; [|split].
        -- exists new. split; [assumption|]. intros u Hu.
           destruct (H3 u Hu) as (r & e & Hr & He & Hu'). exists r, e.
           split; [now right | auto].
        -- intros r e Hr He. apply elem_of_cons in Hr as [-> | Hr]; [|eauto].
           rewrite Hrank in He. injection He as <-.
           rewrite H2. apply elem_of_app. left. now apply has_key_spec.
        -- intros r. rewrite H5. rewrite elem_of_cons.
           split; intros [H|[H H']]; auto.
           destruct H as [-> | H]; [congruence | auto].
      * (* a new target *)
        assert (Hnot : url player ∉ tp0.*1).
        { intros Hin. apply has_key_spec in Hin. congruence. }
        apply IH in Heq.
        2:{ rewrite fmap_app. simpl. apply NoDup_app. split; [assumption|].
            split; [|apply NoDup_singleton].
            intros u Hu Hu'. apply list_elem_of_singleton in Hu' as ->. contradiction. }
        rewrite fmap_app in Heq. simpl in Heq.
        destruct Heq as (H1 & (new & H2 & H3) & H4 & H5).
        split; [assumption|]. split; [|split].
        -- exists (url player :: new). rewrite H2, <- app_assoc. split; [reflexivity|].
           intros u Hu. apply elem_of_cons in Hu as [-> | Hu].
           ++ exists rank, player. split; [now left | auto].
           ++ destruct (H3 u Hu) as (r & e & Hr & He & Hu'). exists r, e.
              split; [now right | auto].
        -- intros r e Hr He. apply elem_of_cons in Hr as [-> | Hr]; [|eauto].
           rewrite Hrank in He. injection He as <-.
           rewrite H2. apply elem_of_app. left. apply elem_of_app. right. now left.
        -- intros r. rewrite H5. rewrite elem_of_cons.
           split; intros [H|[H H']]; auto.
           destruct H as [-> | H]; [congruence | auto].
    + apply IH in Heq; [|assumption].
      destruct Heq as (H1 & (new & H2 & H3) & H4 & H5).
      split; [assumption|]. split; [|split].
      * exists new. split; [assumption|]. intros u Hu.
        destruct (H3 u Hu) as (r & e & Hr & He & Hu'). exists r, e.
        split; [now right | auto].
      * intros r e Hr He. apply elem_of_cons in Hr as [-> | Hr]; [congruence | eauto].
      * intros r. rewrite H5, elem_of_app, list_elem_of_singleton, elem_of_cons.
        split.
        -- intros [[H | ->]|[H H']]; auto.
        -- intros [H|[[-> | H] H']]; auto.
Qed.
End GapFacts.

Section GapClaims.
Variable browser : string -> profile.
Variable tabs : string -> tab.
Variable year : Z.

Lemma scrape_targets_spec targets :
  forall r,
    let r' := fold_left (scrape_target browser year) targets r in
    fetched r' = (fetched r ++ targets.*1)%list
    /\ not_found r' = not_found r
    /\ skipped r' = skipped r
    /\ list_failures r' = list_failures r.
Proof.
  induction targets as [|[u t] targets IH]; intros r.
  - simpl. now rewrite app_nil_r.
  - cbn [fold_left]. cbv zeta.
    destruct (IH (scrape_target browser year r (u, t))) as (H1 & H2 & H3 & H4).
    rewrite H1, H2, H3, H4.
    cbn [scrape_target fetched not_found skipped list_failures]. rewrite fmap_cons.
    now rewrite <- app_assoc.
Qed.

Lemma already_scraped_spec (diags : gmap string diagnostic) u :
  already_scraped diags u = true <-> exists k d, diags !! k = Some d /\ d_url d = u.
Proof.
  unfold already_scraped. rewrite existsb_exists. split.
  - intros ([k d] & Hin & Heq). exists k, d. split.
    + apply elem_of_map_to_list. now apply list_elem_of_In.
    + now apply String.eqb_eq.
  - intros (k & d & Hk & Hu). exists (k, d). split.
    + apply list_elem_of_In. now apply elem_of_map_to_list.
    + now apply String.eqb_eq.
Qed.

(** A URL that the diagnostics record after the composite pass was
    recorded before it or is one of its targets. *)
Lemma scrape_targets_diagnostics targets u :
  forall r,
    already_scraped (diagnostics (fold_left (scrape_target browser year) targets r)) u = true ->
    already_scraped (diagnostics r) u = true \/ u ∈ targets.*1.
Proof.
  induction targets as [|[v t] targets IH]; intros r H.
  - now left.
  - cbn [fold_left] in H. apply IH in H as [H|H].
    + apply already_scraped_spec in H as (k & d & Hk & Hu).
      cbn [scrape_target diagnostics] in Hk.
      apply lookup_insert_Some in Hk as [[_ <-] | [_ Hk]].
      * right. rewrite fmap_cons. cbn [d_url] in Hu. subst u. now left.
      * left. apply already_scraped_spec. eauto.
    + right. rewrite fmap_cons. now right.
Qed.

(** A diagnostic stays where it is as long as no target is filed under
    its key. *)
Lemma scrape_targets_keep targets k d :
  forall r,
    diagnostics r !! k = Some d ->
    (forall v, v ∈ targets.*1 -> diagnostic_key browser year v <> k) ->
    diagnostics (fold_left (scrape_target browser year) targets r) !! k = Some d.
Proof.
  induction targets as [|[v t] targets IH]; intros r Hk Hfree; [exact Hk|].
  cbn [fold_left]. apply IH.
  - cbn [scrape_target diagnostics]. rewrite lookup_insert_ne; [exact Hk|].
    apply (Hfree v). rewrite fmap_cons. now left.
  - intros w Hw. apply Hfree. rewrite fmap_cons. now right.
Qed.

(** When the targets are filed under distinct keys, the diagnostics
    record each of them after the composite pass. *)
Lemma scrape_targets_recorded targets :
  forall r u,
    NoDup targets.*1 ->
    (forall v w, v ∈ targets.*1 -> w ∈ targets.*1 ->
       diagnostic_key browser year v = diagnostic_key browser year w -> v = w) ->
    u ∈ targets.*1 ->
    already_scraped (diagnostics (fold_left (scrape_target browser year) targets r)) u = true.
Proof.
  induction targets as [|[v t] targets IH]; intros r u Hnd Hinj Hu.
  - now apply elem_of_nil in Hu.
  - rewrite fmap_cons in Hnd, Hu. cbn [fst] in Hnd, Hu.
    apply NoDup_cons in Hnd as [Hv Hnd].
    cbn [fold_left]. apply elem_of_cons in Hu as [-> | Hu].
    + apply already_scraped_spec.
      exists (diagnostic_key browser year v). eexists. split.
      * apply scrape_targets_keep.
        -- cbn [scrape_target diagnostics]. apply lookup_insert_eq.
        -- intros w Hw Heq. apply Hv.
           assert (w = v) as ->; [|exact Hw].
           apply Hinj; [rewrite fmap_cons; now right | rewrite fmap_cons; now left | exact Heq].
      * reflexivity.
    + apply IH; [assumption | | assumption].
      intros a b Ha Hb. apply Hinj; rewrite fmap_cons; now right.
Qed.

(** What the 247-only pass does with one rank. *)
Lemma lookup_247_eq (m : gmap Z entry) rank r :
  lookup_247 browser tabs year m rank r
  = match m !! rank with
    | Some e =>
        if already_scraped (diagnostics r) (url e) then (Val tt, r)
        else if negb (tab_opens (tabs (url e))) then (Raised, r)
        else if tab_closes (tabs (url e))
        then (Val tt,
              Run (all_patched r ++ [parse_profile (browser (url e)) (url e) year])%list
                  (diagnostics r) (fetched r ++ [url e])%list
                  (not_found r) (skipped r) (list_failures r))
        else (Raised,
              Run (all_patched r) (diagnostics r) (fetched r ++ [url e])%list
                  (not_found r) (skipped r) (list_failures r))
    | None =>
        (Val tt,
         Run (all_patched r) (diagnostics r) (fetched r)
             (not_found r ++ [(year, Only247, rank)])%list (skipped r) (list_failures r))
    end.
Proof.
  unfold lookup_247. destruct (m !! rank) as [e|]; [|reflexivity].
  unfold bind at 1, get at 1.
  destruct (already_scraped (diagnostics r) (url e)); cbn [negb]; [reflexivity|].
  cbv zeta. unfold bind at 1.
  destruct (tab_opens (tabs (url e))); cbn [negb ret raise]; [|reflexivity].
  unfold bind at 1, modify at 1. unfold bind at 1.
  destruct (tab_closes (tabs (url e))); cbn [ret raise]; reflexivity.
Qed.

(** The loop of the 247-only pass over the ranks that no diagnostic
    covers: it handles the ranks before the first that interrupts it. *)
Lemma lookups_247_spec (m : gmap Z entry) missing :
  forall r,
    exists o r' only,
      for_each missing (lookup_247 browser tabs year m) r = (o, r')
      /\ diagnostics r' = diagnostics r
      /\ skipped r' = skipped r
      /\ list_failures r' = list_failures r
      /\ o = (if forallb (fun rank => negb (breaks tabs m (diagnostics r) rank)) missing
              then Val tt else Raised)
      /\ fetched r' = (fetched r ++ only)%list
      /\ (forall x, x ∈ not_found r'
                    <-> x ∈ not_found r
                        \/ exists rank, x = (year, Only247, rank)
                                        /\ rank ∈ before_first (breaks tabs m (diagnostics r)) missing
                                        /\ m !! rank = None)
      /\ (forall u, u ∈ only ->
            exists rank e,
              rank ∈ up_to_first (breaks tabs m (diagnostics r)) missing
              /\ m !! rank = Some e /\ url e = u
              /\ already_scraped (diagnostics r) u = false
              /\ tab_opens (tabs u) = true)
      /\ (forall rank e,
            rank ∈ before_first (breaks tabs m (diagnostics r)) missing ->
            m !! rank = Some e ->
            url e ∈ only \/ already_scraped (diagnostics r) (url e) = true)
      /\ (NoDup missing ->
          (forall rank1 rank2 e1 e2,
             rank1 ∈ missing -> rank2 ∈ missing ->
             m !! rank1 = Some e1 -> m !! rank2 = Some e2 ->
             url e1 = url e2 -> rank1 = rank2) ->
          NoDup only).
Proof.
  induction missing as [|rank missing IH]; intros r.
  - exists (Val tt), r, []. cbn. rewrite app_nil_r.
    repeat split; auto.
    + intros [H|(rk & _ & H & _)]; [assumption | now apply elem_of_nil in H].
    + intros u Hu. now apply elem_of_nil in Hu.
    + intros rk e Hr. now apply elem_of_nil in Hr.
    + intros _ _. constructor.
  - cbn [for_each]. unfold bind at 1. rewrite lookup_247_eq.
    cbn [forallb before_first up_to_first].
    destruct (m !! rank) as [player|] eqn:Hrank.
    + destruct (already_scraped (diagnostics r) (url player)) eqn:Hal; cbn [negb andb].
      * (* recorded by a diagnostic: the rank is passed over *)
        assert (Hbr : breaks tabs m (diagnostics r) rank = false)
          by (unfold breaks; rewrite Hrank, Hal; reflexivity).
        rewrite Hbr. cbn [negb andb].
        destruct (IH r) as (o & r' & only & E & D & S & L & O & F & N & U1 & U2 & U3).
        exists o, r', only. rewrite E.
        split; [reflexivity|]. split; [assumption|]. split; [assumption|].
        split; [assumption|]. split; [assumption|]. split; [assumption|].
        split; [|split; [|split]].
        -- intros x. rewrite N. split.
           ++ intros [H|(rk & H1 & H2 & H3)]; [auto|]. right. exists rk.
              split; [assumption|]. split; [now right | assumption].
           ++ intros [H|(rk & H1 & H2 & H3)]; [auto|].
              apply elem_of_cons in H2 as [-> | H2]; [congruence|]. right. eauto.
        -- intros u Hu. destruct (U1 u Hu) as (rk & e & H1 & H2).
           exists rk, e. split; [now right | assumption].
        -- intros rk e Hr He. apply elem_of_cons in Hr as [-> | Hr]; [|eauto].
           rewrite Hrank in He. injection He as <-. now right.
        -- intros Hnd Hinj. apply NoDup_cons in Hnd as [_ Hnd]. apply U3; [assumption|].
           intros rank1 rank2 e1 e2 H1 H2. apply Hinj; now right.
      * destruct (tab_opens (tabs (url player))) eqn:Hopen; cbn [negb andb].
        -- assert (Hbr : breaks tabs m (diagnostics r) rank
                          = negb (tab_closes (tabs (url player))))
             by (unfold breaks; rewrite Hrank, Hal, Hopen; reflexivity).
           rewrite Hbr.
           destruct (tab_closes (tabs (url player))) eqn:Hclose; cbn [negb andb].
           ++ (* fetched, and its row added *)
              match goal with
              | |- context [for_each missing _ ?r1] =>
                  destruct (IH r1) as (o & r' & only & E & D & S & L & O & F & N & U1 & U2 & U3)
              end.
              cbn [diagnostics fetched not_found skipped list_failures] in *.
              exists o, r', (url player :: only). rewrite E.
              split; [reflexivity|]. split; [assumption|]. split; [assumption|].
              split; [assumption|]. split; [assumption|].
              split; [rewrite F, <- app_assoc; reflexivity|].
              split; [|split; [|split]].
              ** intros x. rewrite N. split.
                 --- intros [H|(rk & H1 & H2 & H3)]; [auto|]. right. exists rk.
                     split; [assumption|]. split; [now right | assumption].
                 --- intros [H|(rk & H1 & H2 & H3)]; [auto|].
                     apply elem_of_cons in H2 as [-> | H2]; [congruence|]. right. eauto.
              ** intros u Hu. apply elem_of_cons in Hu as [-> | Hu].
                 --- exists rank, player. split; [now left|]. auto.
                 --- destruct (U1 u Hu) as (rk & e & H1 & H2).
                     exists rk, e. split; [now right | assumption].
              ** intros rk e Hr He. apply elem_of_cons in Hr as [-> | Hr].
                 --- rewrite Hrank in He. injection He as <-. left. now left.
                 --- destruct (U2 rk e Hr He) as [H|H]; [left; now right | now right].
              ** intros Hnd Hinj. apply NoDup_cons in Hnd as [Hfresh Hnd].
                 apply NoDup_cons. split.
                 --- intros Hin. destruct (U1 _ Hin) as (rk & e & H1 & H2 & H3 & _).
                     assert (Hrk : rk ∈ missing).
                     { clear -H1. revert H1.
                       generalize (breaks tabs m (diagnostics r)). intros f.
                       induction missing as [|x l IHl]; cbn [up_to_first]; intros H;
                         [now apply elem_of_nil in H|].
                       apply elem_of_cons in H as [-> | H]; [now left|]. right.
                       destruct (f x); [now apply elem_of_nil in H | auto]. }
                     assert (rk = rank) as ->; [|contradiction].
                     apply (Hinj rk rank e player); [now right | now left | assumption..].
                 --- apply U3; [assumption|].
                     intros rank1 rank2 e1 e2 H1 H2. apply Hinj; now right.
           ++ (* fetched, but the tab does not close: the loop is left *)
              eexists Raised, _, [url player]. split; [reflexivity|].
              cbn [diagnostics fetched not_found skipped list_failures].
              repeat split; auto.
              ** intros [H|(rk & _ & H & _)]; [assumption | now apply elem_of_nil in H].
              ** intros u Hu. apply list_elem_of_singleton in Hu as ->.
                 exists rank, player. split; [now left|]. auto.
              ** intros rk e Hr. now apply elem_of_nil in Hr.
              ** intros _ _. apply NoDup_singleton.
        -- (* the tab does not open: the loop is left *)
           assert (Hbr : breaks tabs m (diagnostics r) rank = true)
             by (unfold breaks; rewrite Hrank, Hal, Hopen; reflexivity).
           rewrite Hbr. cbn [negb andb].
           exists Raised, r, []. rewrite app_nil_r. repeat split; auto.
           ++ intros [H|(rk & _ & H & _)]; [assumption | now apply elem_of_nil in H].
           ++ intros u Hu. now apply elem_of_nil in Hu.
           ++ intros rk e Hr. now apply elem_of_nil in Hr.
           ++ intros _ _. constructor.
    + (* not on the list: reported *)
      assert (Hbr : breaks tabs m (diagnostics r) rank = false)
        by (unfold breaks; rewrite Hrank; reflexivity).
      rewrite Hbr. cbn [negb andb].
      match goal with
      | |- context [for_each missing _ ?r1] =>
          destruct (IH r1) as (o & r' & only & E & D & S & L & O & F & N & U1 & U2 & U3)
      end.
      cbn [diagnostics fetched not_found skipped list_failures] in *.
      exists o, r', only. rewrite E.
      split; [reflexivity|]. split; [assumption|]. split; [assumption|].
      split; [assumption|]. split; [assumption|]. split; [assumption|].
      split; [|split; [|split]].
      * intros x. rewrite N, elem_of_app, list_elem_of_singleton. split.
        -- intros [[H | ->]|(rk & H1 & H2 & H3)]; [auto| |].
           ++ right. exists rank. split; [reflexivity|]. split; [now left | assumption].
           ++ right. exists rk. split; [assumption|]. split; [now right | assumption].
        -- intros [H|(rk & H1 & H2 & H3)]; [auto|].
           apply elem_of_cons in H2 as [-> | H2]; [left; now right|]. right. eauto.
      * intros u Hu. destruct (U1 u Hu) as (rk & e & H1 & H2).
        exists rk, e. split; [now right | assumption].
      * intros rk e Hr He. apply elem_of_cons in Hr as [-> | Hr]; [congruence | eauto].
      * intros Hnd Hinj. apply NoDup_cons in Hnd as [_ Hnd]. apply U3; [assumption|].
        intros rank1 rank2 e1 e2 H1 H2. apply Hinj; now right.
Qed.

Lemma NoDup_list_filter {A} (f : A -> bool) (l : list A) :
  NoDup l -> NoDup (List.filter f l).
Proof.
  induction 1 as [|x l Hx Hnd IH]; cbn [List.filter]; [constructor|].
  destruct (f x); [|exact IH]. apply NoDup_cons. split; [|exact IH].
  intros Hin. apply Hx. apply list_elem_of_In, filter_In in Hin as [Hin _].
  now apply list_elem_of_In.
Qed.

Lemma elem_of_before_first {A} (f : A -> bool) (l : list A) x :
  x ∈ before_first f l -> x ∈ l.
Proof.
  induction l as [|y l IH]; cbn [before_first]; [auto|].
  destruct (f y); [intros H; now apply elem_of_nil in H|].
  intros H. apply elem_of_cons in H as [-> | H]; [now left | right; auto].
Qed.

Lemma elem_of_up_to_first {A} (f : A -> bool) (l : list A) x :
  x ∈ up_to_first f l -> x ∈ l.
Proof.
  induction l as [|y l IH]; cbn [up_to_first]; [auto|].
  intros H. apply elem_of_cons in H as [-> | H]; [now left|]. right.
  destruct (f y); [now apply elem_of_nil in H | auto].
Qed.

(** The composite pass: its targets are the URLs that hold a requested
    composite rank, each once; the ranks that the list lacks are
    reported; and nothing else of the run changes but the diagnostics
    and the rows. *)
Lemma composite_pass_spec (g : gaps) (rank_map : gmap Z entry) (r : run) :
  let mid := composite_pass browser year g rank_map r in
  exists comp,
    fetched mid = (fetched r ++ comp)%list
    /\ NoDup comp
    /\ (forall u, u ∈ comp <->
          exists rank e, rank ∈ gaps_composite g /\ rank_map !! rank = Some e /\ url e = u)
    /\ (forall x, x ∈ not_found mid <->
          x ∈ not_found r
          \/ exists rank, x = (year, Composite, rank) /\ rank ∈ gaps_composite g
                          /\ rank_map !! rank = None)
    /\ skipped mid = skipped r
    /\ list_failures mid = list_failures r
    /\ (forall u, already_scraped (diagnostics mid) u = true ->
          already_scraped (diagnostics r) u = true \/ u ∈ comp)
    /\ ((forall v w, v ∈ comp -> w ∈ comp ->
           diagnostic_key browser year v = diagnostic_key browser year w -> v = w) ->
        forall u, u ∈ comp -> already_scraped (diagnostics mid) u = true).
Proof.
  intros mid. subst mid. unfold composite_pass.
  destruct (composite_targets rank_map (gaps_composite g) [] []) as [tp miss] eqn:Hct.
  apply composite_targets_spec in Hct as (Hnd & (new & Hnew & Hsound) & Hcomplete & Hmiss);
    [|constructor].
  exists tp.*1.
  match goal with
  | |- context [fold_left _ tp ?r0] =>
      destruct (scrape_targets_spec tp r0) as (Hf & Hn & Hs & Hl);
      pose proof (fun u => scrape_targets_diagnostics tp u r0) as Hd;
      pose proof (fun u => scrape_targets_recorded tp r0 u Hnd) as Hrec
  end.
  rewrite Hf, Hn, Hs, Hl. cbn [fetched not_found diagnostics skipped list_failures] in *.
  split; [reflexivity|]. split; [assumption|].
  split; [|split; [|split; [reflexivity|split; [reflexivity|split]]]].
  - intros u. split.
    + intros Hu. apply Hsound. now rewrite Hnew in Hu.
    + intros (rank & e & H1 & H2 & <-). eauto.
  - intros x. rewrite elem_of_app, list_elem_of_fmap. split.
    + intros [H|(rank & -> & Hr)]; [now left|]. right. exists rank.
      apply Hmiss in Hr as [Hr|Hr]; [now apply elem_of_nil in Hr|]. now split.
    + intros [H|(rank & -> & Hr & Hnone)]; [now left|]. right. exists rank.
      split; [reflexivity|]. apply Hmiss. right. now split.
  - exact Hd.
  - intros Hinj u Hu. now apply Hrec.
Qed.

(** The 247-only pass. *)
Lemma pass_247_spec (r247_data : option (list entry)) (missing : list Z) (r : run) :
  let out := pass_247 browser tabs year r247_data missing r in
  skipped out = skipped r
  /\ diagnostics out = diagnostics r
  /\ match r247_data with
     | Some l =>
         let m := rank_to_player l in
         list_failures out
         = (list_failures r
            ++ if forallb (fun rank => negb (breaks tabs m (diagnostics r) rank)) missing
               then [] else [year])%list
         /\ (forall x, x ∈ not_found out
                       <-> x ∈ not_found r
                           \/ exists rank,
                                x = (year, Only247, rank)
                                /\ rank ∈ before_first (breaks tabs m (diagnostics r)) missing
                                /\ m !! rank = None)
         /\ exists only,
              fetched out = (fetched r ++ only)%list
              /\ (forall u, u ∈ only ->
                    exists rank e,
                      rank ∈ up_to_first (breaks tabs m (diagnostics r)) missing
                      /\ m !! rank = Some e /\ url e = u
                      /\ already_scraped (diagnostics r) u = false
                      /\ tab_opens (tabs u) = true)
              /\ (forall rank e,
                    rank ∈ before_first (breaks tabs m (diagnostics r)) missing ->
                    m !! rank = Some e ->
                    url e ∈ only \/ already_scraped (diagnostics r) (url e) = true)
              /\ (NoDup missing ->
                  (forall rank1 rank2 e1 e2,
                     rank1 ∈ missing -> rank2 ∈ missing ->
                     m !! rank1 = Some e1 -> m !! rank2 = Some e2 ->
                     url e1 = url e2 -> rank1 = rank2) ->
                  NoDup only)
     | None =>
         fetched out = fetched r /\ not_found out = not_found r
         /\ list_failures out
            = (list_failures r ++ match missing with [] => [] | _ => [year] end)%list
     end.
Proof.
  intros out. subst out. unfold pass_247.
  destruct missing as [|rank0 rest].
  { split; [reflexivity|]. split; [reflexivity|]. destruct r247_data as [l|].
    - cbn [forallb before_first up_to_first]. rewrite app_nil_r.
      split; [reflexivity|]. split.
      + intros x. split; [auto|]. intros [H|(rk & _ & H & _)]; [assumption|].
        now apply elem_of_nil in H.
      + exists []. rewrite app_nil_r. split; [reflexivity|]. split; [|split].
        * intros u Hu. now apply elem_of_nil in Hu.
        * intros rk e Hr. now apply elem_of_nil in Hr.
        * intros _ _. constructor.
    - now rewrite app_nil_r. }
  cbv iota. set (missing := rank0 :: rest).
  destruct r247_data as [l|].
  - unfold bind, await, ret.
    destruct (lookups_247_spec (rank_to_player l) missing r)
      as (o & r' & only & E & D & S & L & O & F & N & U1 & U2 & U3).
    rewrite E.
    destruct (forallb (fun rank => negb (breaks tabs (rank_to_player l) (diagnostics r) rank))
                missing); subst o;
      cbn [skipped diagnostics list_failures not_found fetched].
    + split; [assumption|]. split; [assumption|]. cbv zeta. rewrite app_nil_r.
      split; [assumption|]. split; [assumption|]. exists only. auto.
    + split; [assumption|]. split; [assumption|]. cbv zeta. rewrite L.
      split; [reflexivity|]. split; [assumption|]. exists only. auto.
  - unfold bind, await, raise.
    cbn [skipped diagnostics list_failures not_found fetched]. auto.
Qed.
End GapClaims.

Section GapTheorems.



(** The scenario of the specification: ranks 5 and 9 are on the list and
    rank 17 is not. *)
Example scenario_two_found_one_missing :
  let out := patch_year browser tabs 2019 (Gaps [] [5; 9; 17])
               (rank_to_player composite_list) None empty_run in
  fetched out = [player "a-1"; player "b-2"]
  /\ not_found out = [(2019, Composite, 17)]
  /\ list_failures out = [].
Proof. vm_compute. repeat split; reflexivity. Qed.


(** A tab that does not close ends the 247-only pass: the profile was
    fetched but its row is not added, and the rank after it is neither
    fetched nor reported. *)
Example stuck_tab_ends_the_pass :
  let out := patch_year browser stuck_tabs 2019 (Gaps [3; 7; 8; 12] [5])
               (rank_to_player composite_list) (Some long_list) empty_run in
  fetched out = [player "a-1"; player "n-4"; player "p-3"]
  /\ (fun d => d !! "Profile URL") <$> all_patched out
     = [Some (player "a-1"); Some (player "n-4")]
  /\ not_found out = []
  /\ list_failures out = [2019].
Proof. vm_compute. repeat split; reflexivity. Qed.

(** The diagnostics are filed under the year and the 247 ID.  When the
    profiles of two targets of the composite pass cannot be fetched, both
    have the ID "NA": the second diagnostic takes the place of the first,
    and the first player, found again on the 247-only list at a requested
    rank, is fetched a second time. *)
Example colliding_keys_fetch_twice :
  diagnostic_key offline_browser 2019 (player "a-1")
  = diagnostic_key offline_browser 2019 (player "b-2")
  /\ fetched (patch_year offline_browser tabs 2019 (Gaps [7] [5; 9])
                (rank_to_player composite_list) (Some shared_list) empty_run)
     = [player "a-1"; player "b-2"; player "a-1"].
Proof. vm_compute. split; reflexivity. Qed.

(** The 247-only pass does not record what it fetches: a player that the
    247-only list shows at two requested ranks is fetched at each. *)
Example player_at_two_ranks :
  fetched (patch_year browser tabs 2019 (Gaps [7; 9] [5])
             (rank_to_player composite_list) (Some doubled_list) empty_run)
  = [player "a-1"; player "p-3"; player "p-3"].
Proof. vm_compute. reflexivity. Qed.

End GapTheorems.
End GapProperties.

(** ** The matcher and the patterns *)

Section MatcherProperties.
Import Re Lang.
#[local] Arguments String.append : simpl nomatch.

Lemma app_nil_r_string (s : string) : s ++ "" = s.
Proof. induction s as [|a s IH]; cbn; [reflexivity | now rewrite IH]. Qed.

Lemma length_app_string (a b : string) :
  String.length (a ++ b) = (String.length a + String.length b)%nat.
Proof. induction a as [|x a IH]; cbn; [reflexivity | now rewrite IH]. Qed.

Section Soundness.
Context {R : Type}.

(** What [rep] returns comes from the continuation, run on what is left
    after some iterations of the pattern. *)
Lemma rep_sound (r0 : re) :
  (forall s caps (k : @cont R) x,
      run r0 s caps k = Some x ->
      exists t s' c', s = t ++ s' /\ lang r0 t caps c' /\ k s' c' = Some x) ->
  forall fuel greedy lo hi s caps (k : @cont R) x,
    rep (run r0) fuel greedy lo hi s caps k = Some x ->
    exists n t s' c',
      s = t ++ s' /\ (lo <= n)%nat
      /\ match hi with Some h => (n <= Nat.max lo h)%nat | None => True end
      /\ iter (lang r0) n t caps c' /\ k s' c' = Some x.
Proof.
  intros IH0. induction fuel as [|fuel IH]; intros greedy lo hi s caps k x H;
    [discriminate|].
  cbn [rep] in H.
  set (again := run r0 s caps _) in H.
  assert (Hagain : again = Some x ->
            exists n t s' c',
              s = t ++ s' /\ (Nat.pred lo <= n)%nat
              /\ match hi with Some h => (n <= Nat.max (Nat.pred lo) (Nat.pred h))%nat
                             | None => True end
              /\ iter (lang r0) (S n) t caps c' /\ k s' c' = Some x).
  { subst again. intros Ha. apply IH0 in Ha as (t1 & s1 & c1 & Hs & Hl & Hk).
    destruct (String.length s1 <? String.length s)%nat eqn:Hlen; [|discriminate].
    apply IH in Hk as (n & t2 & s2 & c2 & Hs1 & Hlo & Hhi & Hit & Hk).
    exists n, (t1 ++ t2), s2, c2. split; [now rewrite append_assoc, <- Hs1|].
    split; [assumption|]. split; [now destruct hi|]. split; [|assumption].
    apply iter_S with c1; auto.
    intros ->. cbn in Hs. subst s1. apply Nat.ltb_lt in Hlen. lia. }
  assert (Hstop : k s caps = Some x ->
            exists n t s' c',
              s = t ++ s' /\ (0 <= n)%nat /\ n = 0%nat
              /\ iter (lang r0) n t caps c' /\ k s' c' = Some x).
  { intros Hk. exists 0%nat, "", s, caps. repeat split; auto. constructor. }
  destruct lo as [|lo].
  - destruct hi as [[|h]|].
    + destruct (Hstop H) as (n & t & s' & c' & ? & ? & -> & ? & ?).
      exists 0%nat, t, s', c'. split; [assumption|]. split; [lia|].
      split; [cbn; lia|]. split; assumption.
    + assert (Hor : again = Some x \/ k s caps = Some x).
      { destruct greedy; unfold orelse in H.
        - destruct again; [left; assumption | right; assumption].
        - destruct (k s caps); [right; assumption | left; assumption]. }
      destruct Hor as [Ha|Hk].
      * destruct (Hagain Ha) as (n & t & s' & c' & ? & ? & ? & ? & ?).
        exists (S n), t, s', c'. split; [assumption|]. split; [lia|].
        split; [cbn in *; lia|]. split; assumption.
      * destruct (Hstop Hk) as (n & t & s' & c' & ? & ? & -> & ? & ?).
        exists 0%nat, t, s', c'. split; [assumption|]. split; [lia|].
        split; [cbn; lia|]. split; assumption.
    + assert (Hor : again = Some x \/ k s caps = Some x).
      { destruct greedy; unfold orelse in H.
        - destruct again; [left; assumption | right; assumption].
        - destruct (k s caps); [right; assumption | left; assumption]. }
      destruct Hor as [Ha|Hk].
      * destruct (Hagain Ha) as (n & t & s' & c' & ? & ? & ? & ? & ?).
        exists (S n), t, s', c'. split; [assumption|]. split; [lia|].
        split; [exact I|]. split; assumption.
      * destruct (Hstop Hk) as (n & t & s' & c' & ? & ? & -> & ? & ?).
        exists 0%nat, t, s', c'. split; [assumption|]. split; [lia|].
        split; [exact I|]. split; assumption.
  - destruct (Hagain H) as (n & t & s' & c' & ? & ? & ? & ? & ?).
    exists (S n), t, s', c'. split; [assumption|]. split; [cbn in *; lia|].
    split; [|split; assumption].
    destruct hi as [h|]; [|exact I]. cbn in *. lia.
Qed.

(** The matcher is sound: what [run] returns comes from the continuation,
    run on what is left after a text that the pattern matches. *)
Lemma run_sound (r : re) :
  forall s caps (k : @cont R) x,
    run r s caps k = Some x ->
    exists t s' c', s = t ++ s' /\ lang r t caps c' /\ k s' c' = Some x.
Proof.
  induction r as [|p|r1 IH1 r2 IH2|r1 IH1 r2 IH2|greedy lo hi r0 IH0|n r0 IH0];
    intros s caps k x H; cbn [run] in H.
  - exists "", s, caps. repeat split; auto.
  - destruct s as [|a rest]; [discriminate|].
    destruct (p a) eqn:Hp; [|discriminate].
    exists (String a ""), rest, caps. split; [reflexivity|]. split; [|assumption].
    cbn [lang]. exists a. auto.
  - apply IH1 in H as (t1 & s1 & c1 & -> & Hl1 & H).
    apply IH2 in H as (t2 & s2 & c2 & -> & Hl2 & H).
    exists (t1 ++ t2), s2, c2. split; [now rewrite append_assoc|].
    split; [|assumption]. cbn [lang]. exists t1, t2, c1. auto.
  - unfold orelse in H. destruct (run r1 s caps k) eqn:E1.
    + injection H as ->. apply IH1 in E1 as (t & s' & c' & ? & ? & ?).
      exists t, s', c'. repeat split; auto. now left.
    + apply IH2 in H as (t & s' & c' & ? & ? & ?).
      exists t, s', c'. repeat split; auto. now right.
  - apply (rep_sound r0 IH0) in H as (m & t & s' & c' & ? & ? & ? & ? & ?).
    exists t, s', c'. split; [assumption|]. split; [|assumption].
    cbn [lang]. exists m. auto.
  - apply IH0 in H as (t & s' & c' & -> & Hl & H).
    rewrite consumed_app in H.
    exists t, s', ((n, t) :: c'). split; [reflexivity|]. split; [|assumption].
    cbn [lang]. exists c'. auto.
Qed.
End Soundness.

Lemma match_sound r s caps rest :
  match_ r s = Some (caps, rest) -> exists t, s = t ++ rest /\ lang r t [] caps.
Proof.
  unfold match_. intros H. apply run_sound in H as (t & s' & c' & -> & Hl & [= <- <-]).
  eauto.
Qed.

Lemma search_sound r s caps :
  search r s = Some caps ->
  exists pre t post, s = pre ++ t ++ post /\ lang r t [] caps.
Proof.
  induction s as [|a s IH]; cbn [search].
  - destruct (match_ r "") as [[c rest]|] eqn:E; [|discriminate].
    intros [= <-]. apply match_sound in E as (t & Hs & Hl). exists "", t, rest. auto.
  - destruct (match_ r (String a s)) as [[c rest]|] eqn:E.
    + intros [= <-]. apply match_sound in E as (t & Hs & Hl). exists "", t, rest. auto.
    + intros H. apply IH in H as (pre & t & post & -> & Hl).
      exists (String a pre), t, post. auto.
Qed.

(** A repetition of a one-character pattern matches characters of its
    class only. *)
Lemma iter_chr p n t c c' :
  iter (lang (Chr p)) n t c c' ->
  all_chars p t = true /\ String.length t = n /\ c' = c.
Proof.
  induction 1 as [|n t1 t2 c c1 c2 Hne (a & -> & Hp & ->) _ (IH1 & IH2 & IH3)];
    [auto|].
  cbn. rewrite Hp, IH1. auto.
Qed.
Lemma lang_lit p t c c' : lang (lit p) t c c' -> t = p /\ c' = c.
Proof.
  revert t c c'. induction p as [|a p IH]; intros t c c'; [cbn; tauto|].
  destruct p as [|a' p'].
  - cbn. intros (b & -> & Hb & ->). unfold one in Hb.
    apply Ascii.eqb_eq in Hb. now subst b.
  - change (lit (String a (String a' p')))
      with (Cat (Chr (one a)) (lit (String a' p'))).
    cbn [lang]. intros (t1 & t2 & c1 & -> & (b & -> & Hb & ->) & H2).
    apply IH in H2 as [-> ->]. unfold one in Hb. apply Ascii.eqb_eq in Hb.
    now subst b.
Qed.

Lemma lang_plus_chr p t c c' :
  lang (plus (Chr p)) t c c' -> t <> "" /\ all_chars p t = true /\ c' = c.
Proof.
  unfold plus. cbn [lang]. intros (n & Hn & _ & Hit).
  apply iter_chr in Hit as (Hall & Hlen & ->). repeat split; auto.
  intros ->. cbn in Hlen. lia.
Qed.
End MatcherProperties.

(** ** The helper functions *)

Section HelperProperties.
Import Scraper Lang Text.
#[local] Arguments String.append : simpl nomatch.

(** *** [clean_text] *)

Lemma replace_char_cons c new a rest :
  Py.replace_from 0 (String c "") new (String a rest)
  = if Ascii.eqb c a then new ++ Py.replace_from 0 (String c "") new rest
    else String a (Py.replace_from 0 (String c "") new rest).
Proof.
  cbn [Py.replace_from]. unfold Py.startswith. cbn [Py.strip_prefix].
  destruct (Ascii.eqb c a); reflexivity.
Qed.

Lemma replace_char_removes c new s :
  has_char c new = false -> has_char c (Py.replace s (String c "") new) = false.
Proof.
  intros Hnew. unfold Py.replace. induction s as [|a s IH]; [reflexivity|].
  rewrite replace_char_cons. destruct (Ascii.eqb c a) eqn:E.
  - now rewrite has_char_app, Hnew.
  - cbn [has_char]. rewrite Ascii.eqb_sym, E. exact IH.
Qed.

Lemma replace_char_absent c new s :
  has_char c s = false -> Py.replace s (String c "") new = s.
Proof.
  unfold Py.replace. induction s as [|a s IH]; [reflexivity|].
  cbn [has_char]. intros H. apply orb_false_iff in H as [Ha Hs].
  rewrite replace_char_cons, Ascii.eqb_sym, Ha. now rewrite IH.
Qed.

Lemma length_lstrip s : (String.length (Py.lstrip s) <= String.length s)%nat.
Proof. induction s as [|a s IH]; cbn; [lia|]. destruct (Py.isspace a); cbn; lia. Qed.

Lemma lstrip_fixed s :
  Py.lstrip s = s -> s = "" \/ exists a r, s = String a r /\ Py.isspace a = false.
Proof.
  destruct s as [|a r]; [now left|]. cbn [Py.lstrip].
  destruct (Py.isspace a) eqn:E; [|right; eauto].
  intros H. pose proof (length_lstrip r) as Hl. rewrite H in Hl. cbn in Hl. lia.
Qed.

Lemma lstrip_of_clean a r : Py.isspace a = false -> Py.lstrip (String a r) = String a r.
Proof. intros E. cbn. now rewrite E. Qed.

Lemma rstrip_fixed_cons a rest :
  Py.rstrip (String a rest) = String a rest ->
  (rest = "" /\ Py.isspace a = false) \/ (rest <> "" /\ Py.rstrip rest = rest).
Proof.
  cbn [Py.rstrip]. destruct (Py.rstrip rest) as [|b t] eqn:E.
  - destruct (Py.isspace a); [discriminate|]. intros [= <-]. now left.
  - intros [= <-]. right. split; [discriminate | reflexivity].
Qed.

Lemma rstrip_cons_fixed a rest :
  rest <> "" -> Py.rstrip rest = rest -> Py.rstrip (String a rest) = String a rest.
Proof.
  intros Hne H. cbn [Py.rstrip]. rewrite H. destruct rest; [contradiction | reflexivity].
Qed.

Lemma rstrip_idempotent s : Py.rstrip (Py.rstrip s) = Py.rstrip s.
Proof.
  induction s as [|a s IH]; [reflexivity|]. cbn [Py.rstrip].
  destruct (Py.rstrip s) as [|b t] eqn:E.
  - destruct (Py.isspace a) eqn:Ha; [reflexivity|]. cbn. now rewrite Ha.
  - apply rstrip_cons_fixed; [discriminate | exact IH].
Qed.

Lemma lstrip_rstrip s : Py.lstrip s = s -> Py.lstrip (Py.rstrip s) = Py.rstrip s.
Proof.
  intros H. apply lstrip_fixed in H as [->|(a & r & -> & Ha)]; [reflexivity|].
  cbn [Py.rstrip]. destruct (Py.rstrip r); [rewrite Ha|]; cbn; now rewrite Ha.
Qed.

Lemma lstrip_idempotent s : Py.lstrip (Py.lstrip s) = Py.lstrip s.
Proof.
  induction s as [|a s IH]; [reflexivity|]. cbn [Py.lstrip].
  destruct (Py.isspace a) eqn:E; [exact IH|]. cbn. now rewrite E.
Qed.

(** A replacement of one character keeps a text trimmed, when the
    character is white space and what replaces it is at most one
    character. *)
Lemma replace_char_keeps_lstrip c new s :
  Py.isspace c = true -> Py.lstrip s = s ->
  Py.lstrip (Py.replace s (String c "") new) = Py.replace s (String c "") new.
Proof.
  intros Hc H. apply lstrip_fixed in H as [->|(a & r & -> & Ha)]; [reflexivity|].
  unfold Py.replace. rewrite replace_char_cons.
  destruct (Ascii.eqb_spec c a) as [->|_]; [congruence|]. now apply lstrip_of_clean.
Qed.

Lemma replace_char_nonempty c new s :
  Py.isspace c = true -> s <> "" -> Py.rstrip s = s ->
  Py.replace s (String c "") new <> "".
Proof.
  intros Hc. unfold Py.replace. induction s as [|a s IH]; [contradiction|].
  intros _ H. rewrite replace_char_cons.
  apply rstrip_fixed_cons in H as [[-> Ha]|[Hne H]].
  - destruct (Ascii.eqb_spec c a) as [->|_]; [congruence | discriminate].
  - destruct (Ascii.eqb c a); [|discriminate].
    specialize (IH Hne H). intros E. apply IH.
    destruct new; [exact E | discriminate].
Qed.

Lemma replace_char_keeps_rstrip c new s :
  Py.isspace c = true -> (String.length new <= 1)%nat ->
  Py.rstrip s = s ->
  Py.rstrip (Py.replace s (String c "") new) = Py.replace s (String c "") new.
Proof.
  intros Hc Hnew. induction s as [|a s IH]; [reflexivity|].
  intros H. pose proof H as H0. unfold Py.replace in *. rewrite replace_char_cons.
  apply rstrip_fixed_cons in H as [[-> Ha]|[Hne H]].
  - destruct (Ascii.eqb_spec c a) as [->|_]; [congruence|]. cbn. now rewrite Ha.
  - specialize (IH H).
    pose proof (replace_char_nonempty c new s Hc Hne H) as Hn. unfold Py.replace in Hn.
    destruct (Ascii.eqb c a).
    + destruct new as [|b [|? ?]]; [exact IH | | cbn in Hnew; lia].
      cbn [String.append]. now apply rstrip_cons_fixed.
    + now apply rstrip_cons_fixed.
Qed.

Lemma strip_fixed s : Py.lstrip s = s -> Py.rstrip s = s -> Py.strip s = s.
Proof. intros H1 H2. unfold Py.strip. now rewrite H1, H2. Qed.

Lemma clean_text_body_trimmed text :
  let y := Py.replace (Py.replace (Py.strip text) Py.LF " ") Py.CR "" in
  Py.lstrip y = y /\ Py.rstrip y = y.
Proof.
  intros y. subst y. unfold Py.strip, Py.LF, Py.CR. split.
  - apply replace_char_keeps_lstrip; [reflexivity|].
    apply replace_char_keeps_lstrip; [reflexivity|].
    apply lstrip_rstrip, lstrip_idempotent.
  - apply replace_char_keeps_rstrip; [reflexivity | cbn; lia |].
    apply replace_char_keeps_rstrip; [reflexivity | cbn; lia |].
    apply rstrip_idempotent.
Qed.

(** X1.  [clean_text] gives a text without line feed and without carriage
    return, neither led nor trailed by white space; and cleaning a cleaned
    text changes nothing, unless the cleaned text is empty (which a text
    of white space gives: the sentinel stands for the empty text only). *)
Theorem clean_text_clean (text : string) :
  has_char "010" (clean_text text) = false
  /\ has_char "013" (clean_text text) = false
  /\ Py.strip (clean_text text) = clean_text text
  /\ (clean_text text <> "" -> clean_text (clean_text text) = clean_text text).
Proof.
  unfold clean_text. destruct text as [|a text]; cbn [Py.falsy].
  { repeat split; try reflexivity; auto. }
  set (s := String a text).
  set (y := Py.replace (Py.replace (Py.strip s) Py.LF " ") Py.CR "").
  assert (Hlf : has_char "010" y = false).
  { subst y. unfold Py.replace at 1. apply replace_from_keeps_absent; [reflexivity|].
    now apply replace_char_removes. }
  assert (Hcr : has_char "013" y = false) by (now apply replace_char_removes).
  destruct (clean_text_body_trimmed s) as [Hl Hr]. fold y in Hl, Hr.
  split; [assumption|]. split; [assumption|].
  split; [now apply strip_fixed|].
  intros Hne. destruct y as [|b y'] eqn:Hy; [contradiction|]. cbn [Py.falsy].
  rewrite <- Hy in *. rewrite (strip_fixed y Hl Hr).
  unfold Py.LF, Py.CR. rewrite (replace_char_absent _ _ y Hlf).
  now rewrite (replace_char_absent _ _ y Hcr).
Qed.

(** White space alone is cleaned to the empty text, not to the sentinel. *)
Example clean_text_of_blank :
  clean_text "" = "NA" /\ clean_text "  " = "" /\ clean_text (clean_text "  ") = "NA".
Proof. vm_compute. auto. Qed.

(** *** [parse_rank] *)

Lemma run_digits_group s1 c1 :
  Re.run (Re.Grp 1 (Re.plus (Re.Chr Re.digit))) s1 c1 (fun rest caps => Some (caps, rest))
  = match s1 with
    | String a r =>
        if Re.digit a
        then Some ((1%nat, String a (Py.take_while Re.digit r)) :: c1, drop_while Re.digit r)
        else None
    | EmptyString => None
    end.
Proof.
  cbn [Re.run].
  rewrite (run_plus_chr _ _ (fun s' caps' => ((1%nat, Re.consumed s1 s') :: caps', s')))
    by reflexivity.
  destruct s1 as [|a r]; [reflexivity|]. destruct (Re.digit a); [|reflexivity].
  rewrite <- (take_drop_while Re.digit r) at 1.
  change (String a (Py.take_while Re.digit r ++ drop_while Re.digit r))
    with (String a (Py.take_while Re.digit r) ++ drop_while Re.digit r).
  now rewrite consumed_app.
Qed.

Lemma hash_is_no_digit a : Re.one "#" a = true -> Re.digit a = false.
Proof. unfold Re.one. intros H. apply Ascii.eqb_eq in H. now subst a. Qed.

Lemma run_opt_chr {R} p s caps (k : @Re.cont R) :
  Re.run (Re.opt (Re.Chr p)) s caps k
  = match s with
    | String a rest => if p a then Re.orelse (k rest caps) (k s caps) else k s caps
    | EmptyString => k s caps
    end.
Proof.
  unfold Re.opt. cbn [Re.run Re.rep]. destruct s as [|a rest]; [reflexivity|].
  cbn [Re.run]. destruct (p a); [|reflexivity].
  replace (String.length rest <? String.length (String a rest))%nat with true
    by (symmetry; apply Nat.ltb_lt; cbn; lia).
  reflexivity.
Qed.

(** What the pattern of ranks takes at the start of [s]. *)
Lemma match_rank s :
  Re.match_ rank_re s
  = match s with
    | String a rest =>
        if Re.digit a
        then Some ([(1%nat, Py.take_while Re.digit s)], drop_while Re.digit s)
        else if Re.one "#" a
             then match rest with
                  | String b _ =>
                      if Re.digit b
                      then Some ([(1%nat, Py.take_while Re.digit rest)],
                                 drop_while Re.digit rest)
                      else None
                  | EmptyString => None
                  end
             else None
    | EmptyString => None
    end.
Proof.
  unfold Re.match_, rank_re.
  change (Re.run (Re.Cat ?x ?y) s [] ?k) with (Re.run x s [] (fun s' caps' => Re.run y s' caps' k)).
  rewrite run_opt_chr. destruct s as [|a rest]; [now rewrite run_digits_group|].
  rewrite !run_digits_group.
  destruct (Re.one "#" a) eqn:Hh.
  - rewrite (hash_is_no_digit a Hh).
    destruct rest as [|b r]; [reflexivity|].
    destruct (Re.digit b) eqn:Hb; cbn [Re.orelse Py.take_while drop_while];
      rewrite ?Hb; reflexivity.
  - destruct (Re.digit a) eqn:Ha; cbn [Re.orelse Py.take_while drop_while];
      rewrite ?Ha; reflexivity.
Qed.

Lemma search_rank s :
  match Re.search rank_re s with
  | Some caps => Re.group 1 caps
  | None => None
  end
  = if Py.falsy (first_digits s) then None else Some (first_digits s).
Proof.
  unfold first_digits. induction s as [|a rest IH]; [reflexivity|].
  cbn [Re.search]. rewrite match_rank. cbn [drop_while].
  destruct (Re.digit a) eqn:Hd; cbn [negb].
  - cbn [Py.take_while]. rewrite Hd. reflexivity.
  - destruct (Re.one "#" a); [|exact IH].
    destruct rest as [|b r']; [exact IH|].
    destruct (Re.digit b) eqn:Hb; [|exact IH].
    cbn [drop_while]. rewrite Hb. cbn [negb Py.take_while]. rewrite Hb. reflexivity.
Qed.

Lemma take_while_all p s : all_chars p (Py.take_while p s) = true.
Proof.
  induction s as [|a s IH]; [reflexivity|]. cbn. destruct (p a) eqn:E; [|reflexivity].
  cbn. now rewrite E.
Qed.

Lemma parse_rank_digits (text : string) :
  parse_rank text
  = if Py.falsy (first_digits text) then "NA" else first_digits text.
Proof.
  unfold parse_rank. destruct text as [|a text]; [reflexivity|]. cbn [Py.falsy].
  pose proof (search_rank (String a text)) as Hs.
  destruct (Re.search rank_re (String a text)) as [caps|].
  - rewrite Hs. now destruct (Py.falsy (first_digits (String a text))).
  - now destruct (Py.falsy (first_digits (String a text))).
Qed.

Lemma parse_rank_shape (text : string) :
  parse_rank text = "NA" \/ is_number (parse_rank text) = true.
Proof.
  rewrite parse_rank_digits.
  destruct (Py.falsy (first_digits text)) eqn:E; [now left|]. right.
  unfold is_number. rewrite E. cbn [negb andb]. apply take_while_all.
Qed.

(** X2.  [parse_rank] gives the first run of decimal digits of the text,
    whether or not a ['#'] stands before it, and the sentinel when the text
    has no digit; so what it gives is the sentinel or a number. *)
Theorem parse_rank_first_digits (text : string) :
  parse_rank text
  = (if Py.falsy (first_digits text) then "NA" else first_digits text)
  /\ (parse_rank text = "NA" \/ is_number (parse_rank text) = true).
Proof.
  assert (H : parse_rank text
              = if Py.falsy (first_digits text) then "NA" else first_digits text).
  { unfold parse_rank. destruct text as [|a text]; [reflexivity|]. cbn [Py.falsy].
    pose proof (search_rank (String a text)) as Hs.
    destruct (Re.search rank_re (String a text)) as [caps|].
    - rewrite Hs. now destruct (Py.falsy (first_digits (String a text))).
    - now destruct (Py.falsy (first_digits (String a text))). }
  split; [exact H|]. rewrite H.
  destruct (Py.falsy (first_digits text)) eqn:E; [now left|]. right.
  unfold is_number. rewrite E. cbn [negb andb]. apply take_while_all.
Qed.

Example parse_rank_examples :
  parse_rank "#12" = "12" /\ parse_rank "No. 7 (of 250)" = "7"
  /\ parse_rank "#" = "NA" /\ parse_rank "" = "NA".
Proof. vm_compute. auto. Qed.

(** *** [extract_player_id] *)

Lemma all_chars_none_of c s : all_chars (Re.none_of [c]) s = true -> has_char c s = false.
Proof.
  induction s as [|a s IH]; [reflexivity|]. cbn [all_chars has_char].
  intros H. apply andb_true_iff in H as [Ha Hs]. rewrite (IH Hs).
  unfold Re.none_of in Ha. cbn in Ha. rewrite orb_false_r in Ha.
  apply negb_true_iff in Ha. now rewrite Ha.
Qed.

(** X3.  What [extract_player_id] gives is the sentinel or a number, and
    the number stands in the URL after ["/player/"], a slug and a hyphen,
    and before a ['/']. *)
Theorem extract_player_id_number (url : string) :
  extract_player_id url = "NA"
  \/ (is_number (extract_player_id url) = true
      /\ exists pre slug post,
           url = pre ++ "/player/" ++ slug ++ "-" ++ extract_player_id url ++ "/" ++ post
           /\ slug <> "" /\ has_char "/" slug = false).
Proof.
  unfold extract_player_id.
  destruct (Re.search player_id_re url) as [caps|] eqn:E; [|now left].
  apply search_sound in E as (pre & t & post & -> & Hl). right.
  unfold player_id_re in Hl. cbn [Re.cat lang] in Hl.
  destruct Hl as (t1 & u1 & c1 & -> & H1 & t2 & u2 & c2 & -> & H2
                  & t3 & u3 & c3 & -> & H3 & t4 & t5 & c4 & -> & (c5 & H4 & ->) & H5).
  apply lang_lit in H1 as [-> ->]. apply lang_plus_chr in H2 as (Hne2 & Hall2 & ->).
  apply lang_lit in H3 as [-> ->]. apply lang_plus_chr in H4 as (Hne4 & Hall4 & ->).
  apply lang_lit in H5 as [-> ->].
  change (default "NA" (Re.group 1 [(1%nat, t4)])) with t4.
  split.
  - unfold is_number. rewrite Hall4. destruct t4; [contradiction | reflexivity].
  - exists pre, t2, post. split.
    + now rewrite !append_assoc.
    + split; [assumption | now apply all_chars_none_of].
Qed.

(** *** [normalize_height] *)

Lemma length_lstrip_chars cs s :
  (String.length (Py.lstrip_chars cs s) <= String.length s)%nat.
Proof. induction s as [|a s IH]; cbn; [lia|]. destruct (Py.in_chars cs a); cbn; lia. Qed.

Lemma lstrip_chars_head cs s a r :
  Py.lstrip_chars cs s = String a r -> Py.in_chars cs a = false.
Proof.
  induction s as [|b s IH]; [discriminate|]. cbn [Py.lstrip_chars].
  destruct (Py.in_chars cs b) eqn:E; [exact IH|]. now intros [= <- _].
Qed.

Lemma rstrip_chars_head cs s a r :
  Py.rstrip_chars cs s = String a r -> exists r0, s = String a r0.
Proof.
  destruct s as [|b s]; [discriminate|]. cbn [Py.rstrip_chars].
  destruct (Py.rstrip_chars cs s).
  - destruct (Py.in_chars cs b); [discriminate|]. intros [= <- _]. eauto.
  - intros [= <- _]. eauto.
Qed.

Lemma rstrip_chars_cons_fixed cs a rest :
  rest <> "" -> Py.rstrip_chars cs rest = rest ->
  Py.rstrip_chars cs (String a rest) = String a rest.
Proof.
  intros Hne H. cbn [Py.rstrip_chars]. rewrite H. destruct rest; [contradiction | reflexivity].
Qed.

Lemma rstrip_chars_idempotent cs s :
  Py.rstrip_chars cs (Py.rstrip_chars cs s) = Py.rstrip_chars cs s.
Proof.
  induction s as [|a s IH]; [reflexivity|]. cbn [Py.rstrip_chars].
  destruct (Py.rstrip_chars cs s) as [|b t] eqn:E.
  - destruct (Py.in_chars cs a) eqn:Ha; [reflexivity|]. cbn. now rewrite Ha.
  - apply rstrip_chars_cons_fixed; [discriminate | exact IH].
Qed.

Lemma strip_chars_head cs s a r :
  Py.strip_chars cs s = String a r -> Py.in_chars cs a = false.
Proof.
  unfold Py.strip_chars. intros H. apply rstrip_chars_head in H as [r0 H].
  now apply lstrip_chars_head in H.
Qed.

Lemma strip_chars_idempotent cs s :
  Py.strip_chars cs (Py.strip_chars cs s) = Py.strip_chars cs s.
Proof.
  unfold Py.strip_chars at 1.
  destruct (Py.strip_chars cs s) as [|a r] eqn:E; [reflexivity|].
  cbn [Py.lstrip_chars]. rewrite (strip_chars_head cs s a r E).
  rewrite <- E. unfold Py.strip_chars. apply rstrip_chars_idempotent.
Qed.

(** X4.  A height that a spreadsheet would read as a date or as a number
    is given with an apostrophe before it; and the apostrophe is never
    doubled: what follows it is led and trailed by no quote. *)
Theorem normalize_height_protected (height_str : string) :
  (spreadsheet_bait (normalize_height height_str) = true ->
   Py.startswith (normalize_height height_str) (String Py.APOSTROPHE "") = true)
  /\ (forall t, normalize_height height_str = String Py.APOSTROPHE t ->
        Py.strip_chars [Py.APOSTROPHE; Py.QUOTE] t = t).
Proof.
  unfold normalize_height.
  destruct (Py.falsy height_str || String.eqb height_str "NA").
  { split; [discriminate|]. intros t [=]. }
  set (h := Py.strip_chars [Py.APOSTROPHE; Py.QUOTE] (Py.strip height_str)).
  fold (spreadsheet_bait h). destruct (spreadsheet_bait h) eqn:Hb.
  - split; [reflexivity|]. intros t [= <-]. subst h. apply strip_chars_idempotent.
  - split; [congruence|]. intros t Ht. exfalso.
    subst h. apply strip_chars_head in Ht. discriminate Ht.
Qed.

Example normalize_height_examples :
  normalize_height "6-3" = String Py.APOSTROPHE "6-3"
  /\ normalize_height (String Py.APOSTROPHE "6-3") = String Py.APOSTROPHE "6-3"
  /\ normalize_height "185" = String Py.APOSTROPHE "185"
  /\ normalize_height "Six feet" = "Six feet"
  /\ normalize_height "" = "NA".
Proof. vm_compute. auto 10. Qed.

(** *** [is_date_valid_for_class] *)

Lemma make_out_of_range y m d : 9999 < y -> Datetime.make y m d = None.
Proof.
  intros H. unfold Datetime.make.
  replace (y <=? 9999) with false by (symmetry; apply Z.leb_gt; lia).
  now rewrite andb_false_r.
Qed.

Lemma ltb_cutoff_monotone dt y1 y2 :
  y1 <= y2 ->
  Datetime.ltb dt (Datetime.mk y1 9 1) = true ->
  Datetime.ltb dt (Datetime.mk y2 9 1) = true.
Proof.
  unfold Datetime.ltb. cbn [Datetime.year Datetime.month Datetime.day]. intros Hy H.
  destruct (Z.ltb_spec (Datetime.year dt) y2) as [|Hge]; [reflexivity|].
  destruct (Z.ltb_spec (Datetime.year dt) y1) as [|Hge1]; [lia|].
  cbn [orb] in *. apply andb_true_iff in H as [He H]. apply Z.eqb_eq in He.
  replace (Datetime.year dt =? y2) with true by (symmetry; apply Z.eqb_eq; lia).
  exact H.
Qed.

(** X5.  A date that is valid for a recruiting year (from year 1 on) is
    valid for every later one; and for a year beyond 9999 or before 1,
    for which the cut-off cannot be built, every date but the sentinel is
    valid. *)
Theorem date_validity_monotone (date_str : string) (y1 y2 : Z) :
  1 <= y1 -> y1 <= y2 ->
  is_date_valid_for_class date_str y1 = true ->
  is_date_valid_for_class date_str y2 = true
  /\ (forall y, y < 1 \/ 9999 < y -> is_date_valid_for_class date_str y = true).
Proof.
  intros H1 H12. unfold is_date_valid_for_class.
  destruct (String.eqb date_str "NA"); [discriminate|].
  destruct (Datetime.strptime date_str "%m/%d/%Y") as [dt|]; [|auto].
  intros Hv. split.
  - destruct (Z_le_gt_dec y2 9999) as [Hle|Hgt].
    + rewrite make_cutoff in * by lia. now apply (ltb_cutoff_monotone dt y1 y2).
    + now rewrite make_out_of_range by lia.
  - intros y [Hy|Hy].
    + unfold Datetime.make.
      replace (1 <=? y) with false by (symmetry; apply Z.leb_gt; lia). reflexivity.
    + now rewrite make_out_of_range.
Qed.

Lemma date_validity_monotone_witness :
  is_date_valid_for_class "02/06/2019" 2020 = true
  /\ (forall y, y < 1 \/ 9999 < y -> is_date_valid_for_class "02/06/2019" y = true).
Proof.
  apply (date_validity_monotone "02/06/2019" 2019 2020); [lia | lia |].
  vm_compute. reflexivity.
Defined.

(** *** [normalize_player_url] *)

Lemma normalize_drops_marks (url : string) :
  has_char "?" (normalize_player_url url) = false
  /\ has_char "#" (normalize_player_url url) = false.
Proof.
  unfold normalize_player_url. fold (Py.replace (Py.before_char "#" (Py.before_char "?" url)) "://www." "://").
  fold (prepared url).
  destruct (prepared_no_query url) as [Hq Hh].
  destruct (match_player_url (prepared url)) as [g1|] eqn:E; [|now split].
  apply normalize_matched in E as (seg & -> & _ & _ & Hq' & Hh').
  rewrite !has_char_app, Hq', Hh'. split; reflexivity.
Qed.

(** X6.  A normalized URL has neither query string nor fragment: it holds
    no ['?'] and no ['#']. *)
Theorem normalize_drops_query (url : string) :
  has_char "?" (normalize_player_url url) = false
  /\ has_char "#" (normalize_player_url url) = false.
Proof.
  unfold normalize_player_url. fold (Py.replace (Py.before_char "#" (Py.before_char "?" url)) "://www." "://").
  fold (prepared url).
  destruct (prepared_no_query url) as [Hq Hh].
  destruct (match_player_url (prepared url)) as [g1|] eqn:E; [|now split].
  apply normalize_matched in E as (seg & -> & _ & _ & Hq' & Hh').
  rewrite !has_char_app, Hq', Hh'. split; reflexivity.
Qed.
End HelperProperties.

(** ** The identifier of a player *)

Section PlayerId.
Import Scraper Lang.
#[local] Arguments String.append : simpl nomatch.

(** A greedy run of one-character matches gives what it gives after one
    more character, when that is a result. *)
Lemma rep_chr_skip {R} (p : ascii -> bool) (k : @Re.cont R) caps x u :
  Lang.all_chars p u = true ->
  forall t,
    (forall fuel, (String.length t < fuel)%nat ->
       Re.rep (Re.run (Re.Chr p)) fuel true 0 None t caps k = Some x) ->
    forall fuel, (String.length (u ++ t) < fuel)%nat ->
      Re.rep (Re.run (Re.Chr p)) fuel true 0 None (u ++ t) caps k = Some x.
Proof.
  intros Hu t Ht. induction u as [|a u IH]; intros fuel Hlen; [now apply Ht|].
  cbn [Lang.all_chars] in Hu. apply andb_true_iff in Hu as [Ha Hu].
  destruct fuel as [|fuel]; [lia|].
  change (String a u ++ t) with (String a (u ++ t)) in *.
  cbn [Re.rep Re.run]. rewrite Ha.
  replace (String.length (u ++ t) <? String.length (String a (u ++ t)))%nat with true
    by (symmetry; apply Nat.ltb_lt; cbn; lia).
  cbn [Nat.pred fmap option_fmap option_map].
  rewrite (IH Hu) by (cbn in Hlen; lia). reflexivity.
Qed.

(** The run stops where the next character does not match. *)
Lemma rep_chr_stop {R} (p : ascii -> bool) (k : @Re.cont R) caps t fuel :
  (match t with String a _ => p a = false | EmptyString => True end) ->
  (0 < fuel)%nat ->
  Re.rep (Re.run (Re.Chr p)) fuel true 0 None t caps k = k t caps.
Proof.
  intros Ht Hfuel. destruct fuel as [|fuel]; [lia|]. cbn [Re.rep Re.run].
  destruct t as [|a t]; [reflexivity|]. now rewrite Ht.
Qed.

(** The run fails when the continuation fails wherever the run can
    stop. *)
Lemma rep_chr_none {R} (p q : ascii -> bool) (k : @Re.cont R) caps t :
  (forall u', Lang.all_chars q u' = true -> k (u' ++ t) caps = None) ->
  (match t with String a _ => p a = false | EmptyString => True end) ->
  forall u, Lang.all_chars q u = true ->
  forall fuel, Re.rep (Re.run (Re.Chr p)) fuel true 0 None (u ++ t) caps k = None.
Proof.
  intros Hk Ht. induction u as [|a u IH]; intros Hu fuel.
  - destruct fuel as [|fuel]; [reflexivity|].
    change ("" ++ t) with t. rewrite rep_chr_stop by (assumption || lia).
    now apply (Hk "").
  - destruct fuel as [|fuel]; [reflexivity|].
    pose proof Hu as Hu'. cbn [Lang.all_chars] in Hu'.
    apply andb_true_iff in Hu' as [_ Hu'].
    change (String a u ++ t) with (String a (u ++ t)).
    cbn [Re.rep Re.run]. destruct (p a).
    + destruct (String.length (u ++ t) <? String.length (String a (u ++ t)))%nat;
        cbn [Nat.pred fmap option_fmap option_map]; rewrite ?(IH Hu');
        now apply (Hk (String a u)).
    + now apply (Hk (String a u)).
Qed.

Lemma digit_not_hyphen a : Re.digit a = true -> Ascii.eqb "-" a = false.
Proof.
  intros Hd. destruct (Ascii.eqb_spec "-"%char a) as [<-|]; [discriminate | reflexivity].
Qed.

Lemma digit_not_slash a : Re.digit a = true -> Re.none_of ["/"%char] a = true.
Proof.
  intros Hd. unfold Re.none_of. cbn [existsb].
  destruct (Ascii.eqb_spec a "/"%char) as [->|]; [discriminate | reflexivity].
Qed.

(** The pattern of the identifier at the start of a text that begins
    with [/player/], a slug, a hyphen, a number and a slash. *)
Lemma match_player_id slug id post :
  slug <> "" -> has_char "/" slug = false -> is_number id = true ->
  Re.match_ player_id_re ("/player/" ++ slug ++ "-" ++ id ++ "/" ++ post)
  = Some ([(1%nat, id)], post).
Proof.
  intros Hslug Hslash Hid.
  unfold is_number in Hid. apply andb_true_iff in Hid as [Hne Hdigits].
  destruct id as [|d id]; [discriminate|]. clear Hne.
  cbn [all_chars] in Hdigits. apply andb_true_iff in Hdigits as [Hd Hdigits].
  destruct slug as [|a slug]; [contradiction|]. clear Hslug.
  cbn [has_char] in Hslash. apply orb_false_iff in Hslash as [Ha Hslash].
  assert (Hall : all_chars (Re.none_of ["/"%char]) slug = true).
  { clear -Hslash. induction slug as [|b slug IH]; [reflexivity|].
    cbn [has_char] in Hslash. apply orb_false_iff in Hslash as [Hb Hs].
    cbn [all_chars]. rewrite (IH Hs), andb_true_r.
    unfold Re.none_of. cbn [existsb]. now rewrite Hb. }
  unfold Re.match_, player_id_re. cbn [Re.cat].
  change (Re.run (Re.Cat (Re.lit "/player/") ?r) ?s ?c ?k)
    with (Re.run (Re.lit "/player/") s c (fun s' c' => Re.run r s' c' k)).
  rewrite run_lit, strip_prefix_app.
  change (Re.run (Re.Cat (Re.plus ?r1) ?r) ?s ?c ?k)
    with (Re.run (Re.plus r1) s c (fun s' c' => Re.run r s' c' k)).
  set (K2 := fun s' c' => Re.run _ s' c' _).
  set (tail := "-" ++ String d id ++ "/" ++ post).
  change (String a slug ++ tail) with (String a (slug ++ tail)).
  unfold Re.plus. cbn [Re.run Re.rep].
  replace (Re.none_of ["/"%char] a) with true
    by (unfold Re.none_of; cbn [existsb]; now rewrite Ha).
  replace (String.length (slug ++ tail) <? String.length (String a (slug ++ tail)))%nat
    with true by (symmetry; apply Nat.ltb_lt; cbn; lia).
  cbn [Nat.pred fmap option_fmap option_map].
  apply rep_chr_skip; [exact Hall | | cbn; lia].
  intros fuel Hfuel. subst tail.
  change ("-" ++ String d id ++ "/" ++ post)
    with (String "-" (String d (id ++ String "/" post))) in *.
  destruct fuel as [|fuel]; [lia|]. cbn [Re.rep Re.run].
  change (Re.none_of ["/"%char] "-") with true. cbv iota.
  replace (_ <? _)%nat with true by (symmetry; apply Nat.ltb_lt; cbn; lia).
  cbn [Nat.pred fmap option_fmap option_map].
  assert (HK2 : forall u', all_chars Re.digit u' = true ->
                  K2 (u' ++ String "/" post) [] = None).
  { intros u' Hu'. subst K2. cbv beta.
    change (Re.run (Re.Cat (Re.lit "-") ?r) ?s ?c ?k)
      with (Re.run (Re.lit "-") s c (fun s' c' => Re.run r s' c' k)).
    rewrite run_lit. destruct u' as [|b u']; [reflexivity|].
    cbn [all_chars] in Hu'. apply andb_true_iff in Hu' as [Hb _].
    change (String b u' ++ String "/" post) with (String b (u' ++ String "/" post)).
    cbn [Py.strip_prefix]. now rewrite (digit_not_hyphen b Hb). }
  assert (Hid : all_chars Re.digit (String d id) = true)
    by (cbn [all_chars]; now rewrite Hd, Hdigits).
  change (String d (id ++ String "/" post)) with (String d id ++ String "/" post).
  rewrite (rep_chr_none (Re.none_of ["/"%char]) Re.digit K2 [] (String "/" post)
             HK2 eq_refl (String d id) Hid).
  change (String d id ++ String "/" post) with (String d (id ++ String "/" post)).
  cbn [Re.orelse]. subst K2. cbv beta.
  change (Re.run (Re.Cat (Re.lit "-") ?r) ?s ?c ?k)
    with (Re.run (Re.lit "-") s c (fun s' c' => Re.run r s' c' k)).
  rewrite run_lit. cbn [Py.strip_prefix]. change (Ascii.eqb "-" "-") with true. cbv iota.
  unfold Re.plus.
  change (Re.run (Re.Cat (Re.Grp 1 (Re.Rep true 1 None ?r1)) ?r) ?s ?c ?k)
    with (Re.run (Re.Rep true 1 None r1) s c
            (fun s' c' => Re.run r s' ((1%nat, Re.consumed s s') :: c') k)).
  cbn [Re.run Re.rep]. rewrite Hd.
  replace (_ <? _)%nat with true by (symmetry; apply Nat.ltb_lt; cbn; lia).
  cbn [Nat.pred fmap option_fmap option_map].
  apply rep_chr_skip; [exact Hdigits | | cbn; lia].
  intros fuel' Hfuel'. rewrite rep_chr_stop by (reflexivity || lia).
  rewrite run_lit. cbn [Py.strip_prefix]. change (Ascii.eqb "/" "/") with true. cbv iota.
  change (String d (id ++ String "/" post)) with (String d id ++ String "/" post).
  now rewrite consumed_app.
Qed.

Lemma match_id_needs_prefix s :
  Py.strip_prefix "/player/" s = None -> Re.match_ player_id_re s = None.
Proof.
  intros Hp. unfold Re.match_, player_id_re. cbn [Re.cat].
  change (Re.run (Re.Cat (Re.lit "/player/") ?r) ?s ?c ?k)
    with (Re.run (Re.lit "/player/") s c (fun s' c' => Re.run r s' c' k)).
  now rewrite run_lit, Hp.
Qed.

Lemma search_skip r a s :
  Re.match_ r (String a s) = None -> Re.search r (String a s) = Re.search r s.
Proof. intros Hm. cbn [Re.search]. now rewrite Hm. Qed.

Lemma search_hit r s caps rest :
  Re.match_ r s = Some (caps, rest) -> Re.search r s = Some caps.
Proof. intros Hm. destruct s; cbn [Re.search]; now rewrite Hm. Qed.

(** X7.  In a player URL of the site, the prefix followed by a slug, a
    hyphen, a number and a slash, [extract_player_id] finds the number,
    whatever follows the slash and whatever hyphens and digits the slug
    holds. *)
Theorem extract_player_id_of_url (slug id post : string) :
  slug <> "" -> has_char "/" slug = false -> is_number id = true ->
  extract_player_id (player_prefix ++ slug ++ "-" ++ id ++ "/" ++ post) = id.
Proof.
  intros Hslug Hslash Hid.
  pose proof (match_player_id slug id post Hslug Hslash Hid) as Hm.
  unfold extract_player_id.
  change (player_prefix ++ slug ++ "-" ++ id ++ "/" ++ post)
    with ("https://247sports.com" ++ "/player/" ++ slug ++ "-" ++ id ++ "/" ++ post).
  set (tail := "/player/" ++ slug ++ "-" ++ id ++ "/" ++ post) in *.
  cbn [String.append].
  do 6 (rewrite search_skip by (apply match_id_needs_prefix; reflexivity)).
  rewrite search_skip by (apply match_id_needs_prefix; reflexivity).
  do 14 (rewrite search_skip by (apply match_id_needs_prefix; reflexivity)).
  rewrite (search_hit _ _ _ _ Hm). reflexivity.
Qed.

Lemma extract_player_id_of_url_witness :
  extract_player_id (player_prefix ++ "trevor-lawrence" ++ "-" ++ "45618" ++ "/" ++ "") = "45618".
Proof. apply (extract_player_id_of_url "trevor-lawrence" "45618" ""); [discriminate | reflexivity | reflexivity]. Defined.

End PlayerId.

(** ** Dates *)

Section DateProperties.
Import Scraper Datetime.
#[local] Arguments String.append : simpl nomatch.

Lemma mod10_cases n :
  n mod 10 = 0 \/ n mod 10 = 1 \/ n mod 10 = 2 \/ n mod 10 = 3 \/ n mod 10 = 4
  \/ n mod 10 = 5 \/ n mod 10 = 6 \/ n mod 10 = 7 \/ n mod 10 = 8 \/ n mod 10 = 9.
Proof. pose proof (Z.mod_pos_bound n 10 ltac:(lia)). lia. Qed.

Lemma digit_char_spec n :
  Re.digit (digit_char n) = true /\ digit_value (digit_char n) = n mod 10.
Proof.
  unfold digit_char.
  destruct (mod10_cases n) as [E|[E|[E|[E|[E|[E|[E|[E|[E|E]]]]]]]]];
    rewrite E; split; reflexivity.
Qed.

Lemma int_two_digits n : 0 <= n <= 99 -> int (two_digits n) = n.
Proof.
  intros Hn. unfold int, two_digits. cbn [int_acc].
  destruct (digit_char_spec (n / 10)) as [-> ->].
  destruct (digit_char_spec n) as [-> ->].
  pose proof (Z.div_mod n 10 ltac:(lia)).
  assert (0 <= n / 10 < 10)
    by (split; [apply Z.div_pos | apply Z.div_lt_upper_bound]; lia).
  rewrite (Z.mod_small (n / 10)) by assumption. lia.
Qed.

Lemma int_four_digits n : 0 <= n <= 9999 -> int (four_digits n) = n.
Proof.
  intros Hn. unfold int, four_digits, two_digits.
  cbn [String.append int_acc].
  destruct (digit_char_spec (n / 100 / 10)) as [-> ->].
  destruct (digit_char_spec (n / 100)) as [-> ->].
  destruct (digit_char_spec (n / 10)) as [-> ->].
  destruct (digit_char_spec n) as [-> ->].
  pose proof (Z.div_mod n 10 ltac:(lia)).
  pose proof (Z.div_mod (n / 10) 10 ltac:(lia)).
  pose proof (Z.div_mod (n / 100) 10 ltac:(lia)).
  assert (n / 10 / 10 = n / 100) by (rewrite Z.div_div by lia; reflexivity).
  assert (0 <= n / 100 / 10 < 10)
    by (split; [apply Z.div_pos; [apply Z.div_pos|] | apply Z.div_lt_upper_bound;
                [|apply Z.div_lt_upper_bound]]; lia).
  rewrite (Z.mod_small (n / 100 / 10)) by assumption. lia.
Qed.

(** The directive [%m] on a month written on two digits. *)
Lemma run_month {R} m rest caps (k : @Re.cont R) x rm :
  1 <= m <= 12 -> directive "m" = Some rm ->
  k rest ((1%nat, two_digits m) :: caps) = Some x ->
  Re.run rm (two_digits m ++ rest) caps k = Some x.
Proof.
  intros Hm [= <-] Hk.
  assert (Hc : Re.consumed (two_digits m ++ rest) rest = two_digits m)
    by apply consumed_app.
  assert (m = 1 \/ m = 2 \/ m = 3 \/ m = 4 \/ m = 5 \/ m = 6 \/ m = 7 \/ m = 8
          \/ m = 9 \/ m = 10 \/ m = 11 \/ m = 12) as Hcases by lia.
  repeat destruct Hcases as [->|Hcases]; try subst m;
    cbn [Re.run Re.alt Re.lit r19 Re.orelse];
    match goal with
    | |- context [two_digits ?n] =>
        let s := eval vm_compute in (two_digits n) in
        change (two_digits n) with s in *
    end;
    cbn [String.append Re.run Re.one Re.in_range] in *;
    cbn; cbn in Hc; rewrite Hc, Hk; reflexivity.
Qed.

(** The directive [%d] on a day written on two digits. *)
Lemma run_day {R} d rest caps (k : @Re.cont R) x rd :
  1 <= d <= 31 -> directive "d" = Some rd ->
  k rest ((2%nat, two_digits d) :: caps) = Some x ->
  Re.run rd (two_digits d ++ rest) caps k = Some x.
Proof.
  intros Hd [= <-] Hk.
  assert (Hc : Re.consumed (two_digits d ++ rest) rest = two_digits d)
    by apply consumed_app.
  assert (d = 1 \/ d = 2 \/ d = 3 \/ d = 4 \/ d = 5 \/ d = 6 \/ d = 7 \/
          d = 8 \/ d = 9 \/ d = 10 \/ d = 11 \/ d = 12 \/ d = 13 \/ d = 14 \/
          d = 15 \/ d = 16 \/ d = 17 \/ d = 18 \/ d = 19 \/ d = 20 \/
          d = 21 \/ d = 22 \/ d = 23 \/ d = 24 \/ d = 25 \/ d = 26 \/
          d = 27 \/ d = 28 \/ d = 29 \/ d = 30 \/ d = 31) as Hcases by lia.
  repeat destruct Hcases as [->|Hcases]; try subst d;
    cbn [Re.run Re.alt Re.lit r19 Re.orelse];
    match goal with
    | |- context [two_digits ?n] =>
        let s := eval vm_compute in (two_digits n) in
        change (two_digits n) with s in *
    end;
    cbn [String.append Re.run Re.one Re.in_range] in *;
    cbn; cbn in Hc; rewrite Hc, Hk; reflexivity.
Qed.

(** The directive [%Y] on a year written on four digits. *)
Lemma run_year {R} y rest caps (k : @Re.cont R) x rY :
  directive "Y" = Some rY ->
  k rest ((3%nat, four_digits y) :: caps) = Some x ->
  Re.run rY (four_digits y ++ rest) caps k = Some x.
Proof.
  intros [= <-] Hk.
  assert (Hc : Re.consumed (four_digits y ++ rest) rest = four_digits y)
    by apply consumed_app.
  unfold four_digits, two_digits in *. cbn [String.append] in *.
  unfold Re.times. cbn [Re.run Re.rep String.length].
  destruct (digit_char_spec (y / 100 / 10)) as [-> _].
  destruct (digit_char_spec (y / 100)) as [-> _].
  destruct (digit_char_spec (y / 10)) as [-> _].
  destruct (digit_char_spec y) as [-> _].
  cbn [Nat.pred fmap option_fmap option_map String.length].
  repeat match goal with
         | |- context [(?a <? ?b)%nat] =>
             replace (a <? b)%nat with true by (symmetry; apply Nat.ltb_lt; lia)
         end.
  rewrite Hc. exact Hk.
Qed.

Lemma make_fields y m d dt :
  make y m d = Some dt ->
  dt = mk y m d /\ 1 <= y <= 9999 /\ 1 <= m <= 12 /\ 1 <= d <= 31.
Proof.
  unfold make. intros H.
  destruct ((1 <=? y) && (y <=? 9999) && (1 <=? m) && (m <=? 12) && (1 <=? d)
            && (d <=? days_in_month y m)) eqn:E; [|discriminate].
  injection H as <-.
  repeat (apply andb_true_iff in E as [E ?]).
  assert (days_in_month y m <= 31).
  { unfold days_in_month.
    destruct (m =? 2); [destruct (is_leap y); lia|].
    destruct ((m =? 4) || (m =? 6) || (m =? 9) || (m =? 11)); lia. }
  split; [reflexivity|]. lia.
Qed.

(** What [strptime] reads in a date that [strftime] wrote. *)
Lemma match_strftime y m d rs :
  1000 <= y -> 1 <= m <= 12 -> 1 <= d <= 31 ->
  pattern false "%m/%d/%Y" = Some rs ->
  Re.match_ (Re.cat rs) (strftime_mdY (mk y m d))
  = Some ([(3%nat, four_digits y); (2%nat, two_digits d); (1%nat, two_digits m)], "").
Proof.
  intros Hy Hm Hd [= <-]. unfold strftime_mdY, year_digits, Re.match_.
  cbn [month day year Re.cat].
  replace (y <? 1000) with false by (symmetry; apply Z.ltb_ge; lia).
  match goal with
  | |- Re.run (Re.Cat ?a ?b) ?s ?c ?k = _ =>
      change (Re.run a s c (fun s' c' => Re.run b s' c' k) = Some ([(3%nat, four_digits y); (2%nat, two_digits d); (1%nat, two_digits m)], ""))
  end.
  eapply run_month; [exact Hm | reflexivity |]. cbv beta.
  change ("/" ++ two_digits d ++ "/" ++ four_digits y)
    with (String "/" (two_digits d ++ String "/" (four_digits y))).
  match goal with
  | |- Re.run (Re.Cat (Re.Chr ?p) (Re.Cat ?a ?b)) (String ?c ?s) ?caps ?k = _ =>
      change (Re.run a s caps (fun s' c' => Re.run b s' c' k) = Some ([(3%nat, four_digits y); (2%nat, two_digits d); (1%nat, two_digits m)], ""))
  end.
  eapply run_day; [exact Hd | reflexivity |]. cbv beta.
  rewrite <- (app_nil_r_string (four_digits y)) at 1.
  match goal with
  | |- Re.run (Re.Cat (Re.Chr ?p) ?a) (String ?c ?s) ?caps ?k = _ =>
      change (Re.run a s caps k = Some ([(3%nat, four_digits y); (2%nat, two_digits d); (1%nat, two_digits m)], ""))
  end.
  eapply run_year; reflexivity.
Qed.

(** [strptime] reads back the date that [strftime] wrote. *)
Lemma strptime_strftime y m d dt :
  make y m d = Some dt -> 1000 <= y ->
  strptime (strftime_mdY dt) "%m/%d/%Y" = Some dt.
Proof.
  intros Hmake Hy1000. pose proof Hmake as Hf.
  apply make_fields in Hf as (-> & Hy & Hm & Hd).
  unfold strptime.
  destruct (pattern false "%m/%d/%Y") as [rs|] eqn:Hrs; [|discriminate].
  rewrite (match_strftime y m d rs Hy1000 Hm Hd Hrs).
  cbn [Re.group List.find fst snd Nat.eqb fmap option_fmap option_map].
  rewrite int_four_digits, !int_two_digits by lia. exact Hmake.
Qed.

Lemma strptime_make s fmt dt :
  strptime s fmt = Some dt -> exists y m d, make y m d = Some dt.
Proof.
  unfold strptime.
  destruct (pattern false fmt); [|discriminate].
  destruct (Re.match_ _ s) as [[caps [|? ?]]|]; try discriminate.
  match goal with
  | |- match ?m with Some _ => _ | None => _ end = _ -> _ => destruct m
  end; [|discriminate].
  eauto.
Qed.

Lemma first_parse_make s formats dt :
  first_parse s formats = Some dt -> exists y m d, make y m d = Some dt.
Proof.
  induction formats as [|fmt formats IH]; [discriminate|]. cbn [first_parse].
  destruct (strptime s fmt) as [dt'|] eqn:E; [|exact IH].
  intros [= <-]. now apply strptime_make in E.
Qed.

(** The characters that [strftime] writes. *)
Lemma digit_char_plain n :
  Py.isspace (digit_char n) = false
  /\ Ascii.eqb (digit_char n) "010" = false
  /\ Ascii.eqb (digit_char n) "013" = false
  /\ Ascii.eqb (digit_char n) "N" = false.
Proof.
  unfold digit_char.
  destruct (mod10_cases n) as [E|[E|[E|[E|[E|[E|[E|[E|[E|E]]]]]]]]];
    rewrite E; repeat split; reflexivity.
Qed.

(** A date that [strftime] wrote is a clean text, and it is not the
    sentinel. *)
Lemma strftime_clean dt :
  1000 <= year dt ->
  clean_text (strftime_mdY dt) = strftime_mdY dt
  /\ String.eqb (strftime_mdY dt) "NA" = false.
Proof.
  intros Hy. unfold strftime_mdY, year_digits.
  replace (year dt <? 1000) with false by (symmetry; apply Z.ltb_ge; lia).
  unfold four_digits, two_digits. cbn [String.append].
  destruct (digit_char_plain (month dt / 10)) as (S1 & L1 & C1 & N1).
  destruct (digit_char_plain (month dt)) as (S2 & L2 & C2 & _).
  destruct (digit_char_plain (day dt / 10)) as (S3 & L3 & C3 & _).
  destruct (digit_char_plain (day dt)) as (S4 & L4 & C4 & _).
  destruct (digit_char_plain (year dt / 100 / 10)) as (S5 & L5 & C5 & _).
  destruct (digit_char_plain (year dt / 100)) as (S6 & L6 & C6 & _).
  destruct (digit_char_plain (year dt / 10)) as (S7 & L7 & C7 & _).
  destruct (digit_char_plain (year dt)) as (S8 & L8 & C8 & _).
  split.
  - unfold clean_text. cbn [Py.falsy]. unfold Py.strip.
    rewrite lstrip_of_clean by assumption.
    rewrite !rstrip_cons_fixed; try discriminate;
      [|cbn [Py.rstrip]; rewrite S8; reflexivity].
    unfold Py.LF, Py.CR.
    match goal with
    | |- Py.replace (Py.replace ?s _ _) _ _ = _ =>
        assert (Hlf : has_char "010" s = false)
          by (cbn [has_char]; rewrite L1, L2, L3, L4, L5, L6, L7, L8; reflexivity);
        assert (Hcr : has_char "013" s = false)
          by (cbn [has_char]; rewrite C1, C2, C3, C4, C5, C6, C7, C8; reflexivity);
        rewrite (replace_char_absent _ _ s Hlf), (replace_char_absent _ _ s Hcr)
    end.
    reflexivity.
  - cbn [String.eqb]. now rewrite N1.
Qed.

Lemma normalize_date_recognized s dt :
  s <> "" -> first_parse (clean_text s) date_formats = Some dt ->
  normalize_date s = strftime_mdY dt.
Proof.
  intros Hs Hp. unfold normalize_date. destruct s; [contradiction|].
  cbn [Py.falsy]. cbv zeta. now rewrite Hp.
Qed.

(** X8.  A text in which [normalize_date] recognizes a date of the
    year 1000 or later, in any of its three formats, is rewritten as
    MM/DD/YYYY; [is_date_valid_for_class] reads the rewritten text as the
    same date, and so answers, for a class year from 1 on, whether the
    date falls before September 1 of that year.  Normalizing the
    rewritten text again changes nothing.  (Below the year 1000
    [strftime] writes the year on fewer than four digits.) *)
Theorem recognized_date_checked (date_str : string) (dt : Datetime.t) (year : Z) :
  date_str <> "" -> first_parse (clean_text date_str) date_formats = Some dt ->
  1000 <= Datetime.year dt -> 1 <= year ->
  Datetime.strptime (normalize_date date_str) "%m/%d/%Y" = Some dt
  /\ is_date_valid_for_class (normalize_date date_str) year
     = Datetime.ltb dt (Datetime.mk year 9 1)
  /\ normalize_date (normalize_date date_str) = normalize_date date_str.
Proof.
  intros Hs Hp Hy1000 Hy. rewrite (normalize_date_recognized date_str dt Hs Hp).
  destruct (first_parse_make _ _ _ Hp) as (y & m & d & Hmake).
  assert (Hy' : 1000 <= y).
  { pose proof Hmake as Hf. apply make_fields in Hf as (-> & _). exact Hy1000. }
  pose proof (strptime_strftime y m d dt Hmake Hy') as Hback.
  destruct (strftime_clean dt Hy1000) as [Hclean Hna].
  split; [exact Hback|]. split.
  - unfold is_date_valid_for_class. rewrite Hna, Hback.
    destruct (Z_le_gt_dec year 9999) as [Hle|Hgt].
    + now rewrite make_cutoff by lia.
    + apply make_bounds in Hmake as [-> Hb].
      replace (make year 9 1) with (@None Datetime.t)
        by (unfold make; replace (year <=? 9999) with false
              by (symmetry; apply Z.leb_gt; lia);
            now rewrite andb_false_r).
      unfold Datetime.ltb. cbn [Datetime.year].
      replace (y <? year) with true by (symmetry; apply Z.ltb_lt; lia). reflexivity.
  - unfold normalize_date at 1.
    destruct (strftime_mdY dt) eqn:E; [discriminate|]. cbn [Py.falsy]. cbv zeta.
    rewrite <- E in *. rewrite Hclean. cbn [date_formats first_parse].
    now rewrite Hback.
Qed.

Lemma recognized_date_checked_witness :
  Datetime.strptime (normalize_date "Feb 6, 2019") "%m/%d/%Y"
  = Some (Datetime.mk 2019 2 6)
  /\ is_date_valid_for_class (normalize_date "Feb 6, 2019") 2019
     = Datetime.ltb (Datetime.mk 2019 2 6) (Datetime.mk 2019 9 1)
  /\ normalize_date (normalize_date "Feb 6, 2019") = normalize_date "Feb 6, 2019".
Proof.
  apply (recognized_date_checked "Feb 6, 2019" (Datetime.mk 2019 2 6) 2019).
  - discriminate.
  - vm_compute. reflexivity.
  - cbn. lia.
  - lia.
Defined.

End DateProperties.

(** ** What the scan of the timeline writes *)

Section TimelineFrame.
Import Effect Scraper Timeline Draft.

Lemma writes_only_refl cols s : writes_only cols s s.
Proof. split; auto. Qed.

Lemma writes_only_mono cols cols' s0 s :
  cols ⊆ cols' -> writes_only cols s0 s -> writes_only cols' s0 s.
Proof.
  intros Hsub [H1 H2]. split; [|assumption].
  intros key Hk. apply H1. intros Hin. apply Hk. now apply Hsub.
Qed.

Lemma writes_only_set_field cols s0 key value :
  key ∈ cols ->
  triple (writes_only cols s0) (writes_only cols s0) (set_field key value).
Proof.
  intros Hk. apply triple_modify. intros s [H1 H2]. split; simpl.
  - intros k Hn. rewrite lookup_insert_ne; [now apply H1|]. intros ->. now apply Hn.
  - intros k Hs. destruct (decide (key = k)) as [->|Hne].
    + rewrite lookup_insert_eq. eauto.
    + rewrite lookup_insert_ne by assumption. now apply H2.
Qed.

Lemma writes_only_get_field cols s0 key :
  triple (writes_only cols s0) (writes_only cols s0) (get_field key).
Proof.
  unfold get_field. apply triple_bind; [apply triple_get|].
  intros s. apply triple_await.
Qed.

Lemma writes_only_log cols s0 e :
  triple (writes_only cols s0) (writes_only cols s0) (log e).
Proof. apply triple_modify. intros s H. exact H. Qed.

Lemma writes_only_draft_logic cols s0 item_text :
  "Draft Date" ∈ cols -> "Draft Team" ∈ cols ->
  triple (writes_only cols s0) (writes_only cols s0) (draft_logic item_text).
Proof.
  intros Hd Ht. unfold draft_logic.
  destruct (Py.contains (Py.lower item_text) "draft"); [|apply triple_ret].
  apply triple_bind.
  - destruct (search1 date_re item_text); [|apply triple_ret].
    apply triple_bind; [apply writes_only_get_field|]. intros draft_date.
    destruct (String.eqb draft_date "NA");
      [now apply writes_only_set_field | apply triple_ret].
  - intros _. destruct (search1 draft_team_re item_text); [|apply triple_ret].
    apply triple_bind; [apply writes_only_get_field|]. intros draft_team.
    destruct (String.eqb draft_team "NA"); [|apply triple_ret].
    cbv zeta. match goal with |- context [if ?c then _ else _] => destruct c end;
      [now apply writes_only_set_field | apply triple_ret].
Qed.

Lemma writes_only_commitment_logic cols s0 early_exit year item_text :
  "Signed Date" ∈ cols -> "Signed Team" ∈ cols ->
  triple (writes_only cols s0) (writes_only cols s0)
    (commitment_logic early_exit year item_text).
Proof.
  intros Hd Ht s Hs. rewrite commitment_logic_eq.
  destruct (accepts year (recorded_priority (data s)) item_text); [|exact Hs].
  assert (Hrec : writes_only cols s0
            (State (record_event item_text (data s)) (trace s))).
  { destruct Hs as [H1 H2]. unfold record_event. split; simpl.
    - intros k Hn.
      assert (k <> "Signed Date") by (intros ->; now apply Hn).
      assert (k <> "Signed Team") by (intros ->; now apply Hn).
      destruct (search1 team_re item_text);
        rewrite ?lookup_insert_ne by congruence; now apply H1.
    - intros k Hk. specialize (H2 k Hk).
      destruct (search1 team_re item_text).
      + destruct (decide ("Signed Team" = k)) as [<-|];
          [rewrite lookup_insert_eq; eauto | rewrite lookup_insert_ne by assumption].
        destruct (decide ("Signed Date" = k)) as [<-|];
          [rewrite lookup_insert_eq; eauto | now rewrite lookup_insert_ne by assumption].
      + destruct (decide ("Signed Date" = k)) as [<-|];
          [rewrite lookup_insert_eq; eauto | now rewrite lookup_insert_ne by assumption]. }
  destruct (early_exit && (item_priority_of item_text =? 100)); exact Hrec.
Qed.

Lemma writes_only_scan_pages cols s0 year pages remaining page_count :
  "Signed Date" ∈ cols -> "Signed Team" ∈ cols ->
  triple (writes_only cols s0) (writes_only cols s0)
    (scan_pages year pages remaining page_count).
Proof.
  intros Hd Ht. revert page_count.
  induction remaining as [|remaining IH]; intros page_count; simpl.
  - apply triple_ret.
  - apply triple_bind; [apply triple_await|]. intros page.
    apply triple_bind; [apply triple_await|]. intros full_items.
    apply triple_bind.
    + apply triple_for_each. intros item.
      apply triple_bind; [apply writes_only_log|]. intros _.
      now apply writes_only_commitment_logic.
    + intros _. destruct (next page).
      * apply triple_bind; [apply writes_only_log | intros _; apply IH].
      * apply triple_ret.
      * apply triple_raise.
Qed.

(** The part of [parse_timeline] that follows the abbreviated timeline. *)
Lemma writes_only_deep cols s0 (page : timeline_view) year (do_deep_dive : bool) :
  "Signed Date" ∈ cols -> "Signed Team" ∈ cols ->
  triple (writes_only cols s0) (writes_only cols s0)
    (if do_deep_dive then
       bind (await (see_all_href page)) (fun href =>
         match href with
         | Some href =>
             if negb (Py.falsy href) then
               try_pass (bind (if goto_ok page then ret tt else raise)
                              (fun _ => scan_pages year (pages page) max_pages O))
             else ret tt
         | None => ret tt
         end)
     else ret tt).
Proof.
  intros Hd Ht. destruct do_deep_dive; [|apply triple_ret].
  apply triple_bind; [apply triple_await|]. intros [href|]; [|apply triple_ret].
  destruct (negb (Py.falsy href)); [|apply triple_ret].
  apply triple_try_pass. apply triple_bind.
  - destruct (goto_ok page); [apply triple_ret | apply triple_raise].
  - intros _. now apply writes_only_scan_pages.
Qed.

Lemma parse_timeline_writes_only (page : timeline_view) (year : Z) (do_deep_dive : bool)
    (s : state) :
  writes_only timeline_columns s (snd (parse_timeline page year do_deep_dive s)).
Proof.
  unfold parse_timeline.
  apply (triple_call (writes_only timeline_columns s) (writes_only timeline_columns s));
    [|auto|apply writes_only_refl].
  apply triple_try_pass.
  apply triple_bind; [apply triple_await|]. intros its.
  apply triple_bind.
  - apply triple_for_each. intros item.
    apply triple_bind; [apply writes_only_log|]. intros _.
    apply triple_bind.
    + apply writes_only_draft_logic; unfold timeline_columns; repeat constructor.
    + intros _. apply writes_only_commitment_logic; unfold timeline_columns; repeat constructor.
  - intros _. apply writes_only_deep; unfold timeline_columns; repeat constructor.
Qed.

(** X9.  [parse_timeline] never raises; it writes no column other than
    Signed Date, Signed Team, Draft Date and Draft Team, and it removes
    no column, whatever the page shows and whichever of its operations
    raise. *)
Theorem parse_timeline_frame (page : timeline_view) (year : Z) (do_deep_dive : bool)
    (s : state) :
  let out := parse_timeline page year do_deep_dive s in
  fst out = Val tt
  /\ (forall key, key ∉ timeline_columns ->
        fields (data (snd out)) !! key = fields (data s) !! key)
  /\ (forall key, is_Some (fields (data s) !! key) ->
        is_Some (fields (data (snd out)) !! key)).
Proof.
  intros out. split; [apply call_never_raises_or_returns|].
  apply parse_timeline_writes_only.
Qed.

(** *** The draft columns *)

Lemma first_known_cons v l :
  first_known (v :: l) = if String.eqb v "NA" then first_known l else v.
Proof. unfold first_known. simpl. now destruct (String.eqb v "NA"). Qed.

Lemma first_known_app l1 l2 :
  first_known (first_known l1 :: l2) = first_known (l1 ++ l2).
Proof.
  induction l1 as [|v l1 IH]; simpl.
  - rewrite first_known_cons. reflexivity.
  - rewrite !(first_known_cons v). destruct (String.eqb v "NA") eqn:E; [exact IH|].
    rewrite first_known_cons, E. reflexivity.
Qed.

Lemma first_known_offer cur (o : option string) :
  first_known (cur :: option_list o)
  = if String.eqb cur "NA" then default "NA" o else cur.
Proof.
  rewrite first_known_cons. destruct (String.eqb cur "NA"); [|reflexivity].
  destruct o as [v|]; [|reflexivity]. simpl. rewrite first_known_cons.
  destruct (String.eqb v "NA") eqn:E; [|reflexivity].
  apply String.eqb_eq in E. now subst.
Qed.

Lemma first_known_NA cur : (if String.eqb cur "NA" then "NA" else cur) = cur.
Proof.
  destruct (String.eqb cur "NA") eqn:E; [|reflexivity].
  apply String.eqb_eq in E. now subst.
Qed.

(** One run of the draft logic, on a record that has the two draft
    columns: each keeps its value unless that is the sentinel and the
    item offers one. *)
Lemma draft_logic_fields item_text s dd dt :
  fields (data s) !! "Draft Date" = Some dd ->
  fields (data s) !! "Draft Team" = Some dt ->
  exists d',
    draft_logic item_text s = (Val tt, State d' (trace s))
    /\ fields d' !! "Draft Date"
       = Some (first_known (dd :: option_list (draft_date_of item_text)))
    /\ fields d' !! "Draft Team"
       = Some (first_known (dt :: option_list (draft_team_of item_text)))
    /\ date_priority d' = date_priority (data s).
Proof.
  intros Hdate Hteam. rewrite !first_known_offer.
  unfold draft_logic, draft_date_of, draft_team_of.
  destruct (Py.contains (Py.lower item_text) "draft").
  2:{ exists (data s). simpl. rewrite !first_known_NA. destruct s; auto. }
  set (first :=
    match search1 date_re item_text with
    | Some g1 =>
        bind (get_field "Draft Date") (fun draft_date =>
          if String.eqb draft_date "NA"
          then set_field "Draft Date" (normalize_date g1) else ret tt)
    | None => ret tt
    end).
  assert (H1 : exists d1, first s = (Val tt, State d1 (trace s))
            /\ fields d1 !! "Draft Date"
               = Some (if String.eqb dd "NA"
                       then default "NA" (normalize_date <$> search1 date_re item_text)
                       else dd)
            /\ fields d1 !! "Draft Team" = Some dt
            /\ date_priority d1 = date_priority (data s)).
  { unfold first. destruct (search1 date_re item_text) as [g1|].
    - unfold bind, get_field, get, await, bind. simpl. rewrite Hdate. simpl.
      destruct (String.eqb dd "NA").
      + eexists. split; [reflexivity|]. simpl.
        rewrite lookup_insert_eq, lookup_insert_ne by discriminate. auto.
      + exists (data s). destruct s; simpl in *; auto.
    - exists (data s). simpl. rewrite first_known_NA. destruct s; simpl in *; auto. }
  destruct H1 as (d1 & E1 & Hd1 & Ht1 & Hp1).
  unfold bind at 1. rewrite E1.
  destruct (search1 draft_team_re item_text) as [g1|].
  - unfold bind, get_field, get, await, bind. simpl. rewrite Ht1. simpl.
    destruct (String.eqb dt "NA") eqn:Edt.
    + match goal with |- context [if ?c then _ else _] => destruct c end.
      * eexists. split; [reflexivity|]. simpl.
        rewrite lookup_insert_eq, lookup_insert_ne by discriminate. auto.
      * exists d1. simpl. apply String.eqb_eq in Edt. subst dt. auto.
    + exists d1. auto.
  - exists d1. simpl. rewrite first_known_NA. auto.
Qed.

Lemma record_event_keeps item_text d key :
  key <> "Signed Date" -> key <> "Signed Team" ->
  fields (record_event item_text d) !! key = fields d !! key.
Proof.
  intros H1 H2. unfold record_event. simpl.
  destruct (search1 team_re item_text); now rewrite ?lookup_insert_ne by congruence.
Qed.

(** The loop over the abbreviated timeline, on a record that has the two
    draft columns. *)
Lemma abbreviated_loop_draft year items s dd dt :
  fields (data s) !! "Draft Date" = Some dd ->
  fields (data s) !! "Draft Team" = Some dt ->
  exists s',
    for_each items (abbreviated_body year) s = (Val tt, s')
    /\ fields (data s') !! "Draft Date"
       = Some (first_known (dd :: omap draft_date_of (clean_text <$> items)))
    /\ fields (data s') !! "Draft Team"
       = Some (first_known (dt :: omap draft_team_of (clean_text <$> items))).
Proof.
  revert s dd dt. induction items as [|item items IH]; intros s dd dt Hdate Hteam.
  - exists s. simpl. rewrite !first_known_cons. unfold first_known. simpl.
    rewrite !first_known_NA. auto.
  - set (s1 := State (data s) (trace s ++ [Examined Abbreviated (clean_text item)])).
    destruct (draft_logic_fields (clean_text item) s1 dd dt Hdate Hteam)
      as (d1 & E1 & Hd1 & Ht1 & _).
    set (s2 := snd (commitment_logic false year (clean_text item) (State d1 (trace s1)))).
    assert (E2 : commitment_logic false year (clean_text item) (State d1 (trace s1))
                 = (Val tt, s2)
                 /\ fields (data s2) !! "Draft Date" = fields d1 !! "Draft Date"
                 /\ fields (data s2) !! "Draft Team" = fields d1 !! "Draft Team").
    { subst s2. rewrite commitment_logic_eq. cbn [data trace].
      destruct (accepts year (recorded_priority d1) (clean_text item));
        cbn [snd data andb]; auto.
      rewrite !record_event_keeps by discriminate. auto. }
    destruct E2 as (E2 & Hd2 & Ht2). rewrite Hd1 in Hd2. rewrite Ht1 in Ht2.
    destruct (IH s2 _ _ Hd2 Ht2) as (s' & E3 & Hd3 & Ht3).
    exists s'. cbn [for_each]. unfold bind at 1. unfold abbreviated_body at 1.
    cbv zeta. unfold bind at 1. unfold log at 1, modify at 1. fold s1.
    unfold bind at 1. rewrite E1, E2, E3.
    split; [reflexivity|]. rewrite Hd3, Ht3, !first_known_app.
    rewrite fmap_cons. cbn [omap list_omap].
    split; f_equal; f_equal;
      match goal with |- context [option_list ?o] => destruct o end; reflexivity.
Qed.

Lemma not_signed key :
  key <> "Signed Date" -> key <> "Signed Team" -> key ∉ signed_columns.
Proof.
  intros H1 H2 Hin. unfold signed_columns in Hin.
  apply elem_of_cons in Hin as [Hin|Hin]; [contradiction|].
  apply elem_of_cons in Hin as [Hin|Hin]; [contradiction|].
  now apply elem_of_nil in Hin.
Qed.

(** X10.  On a record that has the two draft columns, the scan of the
    timeline leaves in Draft Date the first known value among the one
    already there and the draft dates offered by the items of the
    abbreviated timeline, in order; and likewise in Draft Team.  So a
    draft date or team already recorded is never replaced, and the full
    history has no part in them. *)
Theorem draft_first_known (page : timeline_view) (year : Z) (do_deep_dive : bool)
    (s : state) (dd dt : string) :
  fields (data s) !! "Draft Date" = Some dd ->
  fields (data s) !! "Draft Team" = Some dt ->
  let texts := clean_text <$> default [] (items page) in
  let out := snd (parse_timeline page year do_deep_dive s) in
  fields (data out) !! "Draft Date" = Some (first_known (dd :: omap draft_date_of texts))
  /\ fields (data out) !! "Draft Team" = Some (first_known (dt :: omap draft_team_of texts)).
Proof.
  intros Hdate Hteam texts out. subst texts.
  destruct (items page) as [its|] eqn:Hits.
  2:{ subst out. unfold parse_timeline. rewrite Hits.
      unfold call, try_pass, bind, await, raise. simpl.
      rewrite !first_known_cons. unfold first_known. simpl.
      rewrite !first_known_NA. auto. }
  destruct (abbreviated_loop_draft year its s dd dt Hdate Hteam) as (s1 & E1 & Hd1 & Ht1).
  assert (Hout : writes_only signed_columns s1 out).
  { subst out. unfold parse_timeline. rewrite Hits.
    set (rest := (if do_deep_dive then _ else _) : M state unit).
    assert (Hrest : triple (writes_only signed_columns s1)
                           (writes_only signed_columns s1) rest)
      by (apply writes_only_deep; unfold signed_columns; repeat constructor).
    specialize (Hrest s1 (writes_only_refl _ _)).
    unfold call, try_pass. unfold bind at 1. simpl.
    change (for_each its _) with (for_each its (abbreviated_body year)).
    unfold bind at 1. rewrite E1.
    destruct (rest s1) as [[[]| |] s2]; exact Hrest. }
  destruct Hout as [Hk _]. simpl.
  rewrite (Hk "Draft Date"), (Hk "Draft Team") by (apply not_signed; discriminate).
  auto.
Qed.

Lemma draft_first_known_witness :
  let s := State (PlayerData all_NA (Some (-1))) [] in
  let page := TimelineView (Some ["2019 NFL Draft: Arizona Cardinals select, Apr 25, 2019"])
                (Some None) true [] in
  fields (data (snd (parse_timeline page 2015 true s))) !! "Draft Date"
  = Some (first_known ("NA" :: omap draft_date_of
                         (clean_text <$> default [] (items page)))).
Proof.
  intros s page.
  apply (draft_first_known page 2015 true s "NA" "NA"); reflexivity.
Defined.

End TimelineFrame.

(** ** What the list crawls return *)

Section CrawlOutput.
Import Listing Crawl Links.

(** *** The deduplication *)

Lemma fromkeys_elem seen l x :
  x ∈ Scraper.fromkeys seen l <-> x ∈ l /\ x ∉ seen.
Proof.
  revert seen. induction l as [|y l IH]; intros seen; simpl.
  - split; [intros Hin; now apply elem_of_nil in Hin | intros [Hin _]; now apply elem_of_nil in Hin].
  - destruct (bool_decide_reflect (y ∈ seen)) as [Hy|Hy].
    + rewrite IH. split.
      * intros [H1 H2]. split; [now right | assumption].
      * intros [H1 H2]. split; [|assumption].
        apply elem_of_cons in H1 as [->|H1]; [contradiction | assumption].
    + rewrite elem_of_cons, IH. split.
      * intros [->|[H1 H2]]; [split; [now left | assumption]|].
        split; [now right|]. intros Hin. apply H2. now right.
      * intros [H1 H2]. apply elem_of_cons in H1 as [->|H1]; [now left|].
        destruct (decide (x = y)) as [->|Hne]; [now left|]. right.
        split; [assumption|]. intros Hin. apply elem_of_cons in Hin as [->|Hin]; contradiction.
Qed.

Lemma fromkeys_distinct seen l : NoDup (Scraper.fromkeys seen l).
Proof.
  revert seen. induction l as [|y l IH]; intros seen; simpl; [constructor|].
  destruct (bool_decide (y ∈ seen)); [apply IH|].
  constructor; [|apply IH]. rewrite fromkeys_elem. intros [_ Hn]. apply Hn. now left.
Qed.

(** *** The pages that the driver reads *)

Section Pages.
Context {P : Type} `{Page P}.

Lemma page_after_add i j (page : P) :
  page_after j (page_after i page) = page_after (i + j) page.
Proof.
  revert page. induction i as [|i IH]; intros page; [reflexivity|]. simpl. apply IH.
Qed.

Lemma cleanup_page n (page : P) done :
  exists j, fst (Scraper.cleanup n page done) = page_after j page.
Proof.
  revert page done. induction n as [|n IH]; intros page done; simpl.
  - now exists 0%nat.
  - destruct (try_load_more page) as [a page'] eqn:Htry.
    assert (Hp : page' = page_after 1 page) by (simpl; now rewrite Htry).
    destruct a; try (destruct (IH page' (done ++ [a0])%list) as [j Hj]).
    all: try (destruct (IH page' (done ++ [Clicked])%list) as [j Hj];
              exists (S j); rewrite Hj, Hp; simpl; reflexivity).
    all: try (destruct (IH page' (done ++ [ClickedThenRaised])%list) as [j Hj];
              exists (S j); rewrite Hj, Hp; simpl; reflexivity).
    all: try (destruct (IH page' (done ++ [Failed])%list) as [j Hj];
              exists (S j); rewrite Hj, Hp; simpl; reflexivity).
    exists 1%nat. simpl. now rewrite Htry.
Qed.

Lemma post_loop_page (page : P) :
  exists j, fst (Scraper.post_loop_verification page) = page_after j page.
Proof.
  unfold Scraper.post_loop_verification.
  destruct (button_visible page) as [[|]|]; try (now exists 0%nat).
  apply cleanup_page.
Qed.

Lemma extracted_links (page : P) u :
  u ∈ Scraper.extract_player_urls page ->
  exists link, link ∈ all_links page /\ Scraper.is_player_link link = true
               /\ u = Scraper.normalize_player_url link.
Proof.
  unfold Scraper.extract_player_urls. cbv zeta. rewrite fromkeys_elem. intros [Hu _].
  apply list_elem_of_fmap in Hu as (link & -> & Hlink).
  apply list_elem_of_In, filter_In in Hlink as [Hin Hok].
  apply list_elem_of_In in Hin.
  exists link. split; [|split; [assumption | reflexivity]]. unfold all_links.
  rewrite !elem_of_app.
  destruct (bool_decide (name_links page = [])).
  - destruct (bool_decide (item_links page = [])); auto.
  - destruct (bool_decide (name_links page = [])); auto.
Qed.

(** X11.  On every page [click_load_more_until_complete] returns, and
    the list it returns has no duplicate, holds at most 300 URLs in test
    mode, and is empty when the page did not open or shows no item.  Each
    URL of the list is the normal form of a link that one of the
    extraction queries gives on the page as some number of passes has
    left it, a link that mentions [/player/] and [247sports.com]; it has
    no query string and no fragment. *)
Theorem crawl_output (TEST_MODE : bool) (page : P) :
  exists c,
    Scraper.click_load_more_until_complete TEST_MODE page = Some c
    /\ NoDup (Scraper.player_urls c)
    /\ (TEST_MODE = true -> (length (Scraper.player_urls c) <= 300)%nat)
    /\ (opened page = false \/ item_count page <= 0 -> Scraper.player_urls c = [])
    /\ (forall u, u ∈ Scraper.player_urls c ->
          has_char "?" u = false /\ has_char "#" u = false
          /\ exists j link,
               link ∈ all_links (page_after j page)
               /\ Scraper.is_player_link link = true
               /\ u = Scraper.normalize_player_url link).
Proof.
  destruct (driver_bounded TEST_MODE page) as (c & Hc & _).
  exists c. split; [assumption|].
  unfold Scraper.click_load_more_until_complete in Hc.
  destruct (opened page) eqn:Hopen; cbn [negb] in Hc.
  2:{ injection Hc as <-. simpl. split; [constructor|]. split; [lia|].
      split; [reflexivity|]. intros u Hu. now apply elem_of_nil in Hu. }
  destruct (item_count page >? 0) eqn:Hitems; cbn [negb] in Hc.
  2:{ injection Hc as <-. simpl. split; [constructor|]. split; [lia|].
      split; [reflexivity|]. intros u Hu. now apply elem_of_nil in Hu. }
  destruct (Scraper.load_more_loop TEST_MODE (Scraper.loop_fuel TEST_MODE) page
              (Scraper.Counters 0 0 0) []) as [r|] eqn:Hr; [|discriminate].
  destruct (loop_spec TEST_MODE page (Scraper.loop_fuel TEST_MODE) 0 page
              (Scraper.Counters 0 0 0) [] (initial_at_head page))
    as (r' & Hr' & Hok).
  { unfold budget, Scraper.loop_fuel.
    cbn [Scraper.click_count Scraper.consecutive_failures Scraper.no_button_checks].
    pose proof (max_clicks_pos false). pose proof (max_clicks_pos true).
    rewrite Z2Nat.id; destruct TEST_MODE; lia. }
  rewrite Hr in Hr'. injection Hr' as <-.
  destruct Hok as (_ & Hfinal & _).
  destruct (post_loop_page (Scraper.final_page r)) as [j Hj].
  destruct (Scraper.post_loop_verification (Scraper.final_page r)) as [page' cleaned].
  cbn [fst] in Hj. rewrite Hfinal, page_after_add in Hj.
  injection Hc as <-. cbn [Scraper.player_urls].
  set (urls := Scraper.extract_player_urls page').
  assert (Hsub : (if TEST_MODE && (Z.of_nat (length urls) >? 300)
                  then take 300 urls else urls) `sublist_of` urls).
  { destruct (TEST_MODE && (Z.of_nat (length urls) >? 300)); [|reflexivity].
    apply sublist_take. }
  split; [|split; [|split]].
  - eapply sublist_NoDup; [|exact Hsub]. apply fromkeys_distinct.
  - intros ->. cbn [andb].
    destruct (Z.of_nat (length urls) >? 300) eqn:Hlen.
    + rewrite length_take. lia.
    + destruct (Z.gtb_spec (Z.of_nat (length urls)) 300); [discriminate | lia].
  - apply Z.gtb_lt in Hitems. intros [?|?]; [discriminate | lia].
  - intros u Hu.
    assert (Hin : u ∈ urls) by (eapply elem_of_sublist; eassumption).
    apply extracted_links in Hin as (link & Hl1 & Hl2 & ->).
    destruct (normalize_drops_marks link) as [Hq Hh].
    split; [assumption|]. split; [assumption|].
    exists (length (Scraper.attempts r) + j)%nat, link. rewrite <- Hj. auto.
Qed.
End Pages.

(** *** The map from ranks to players *)

Lemma rank_to_player_from (items_data : list entry) (m : gmap Z entry) k :
  fold_left (fun m item => <[rank item := item]> m) items_data m !! k
  = match last (of_rank k items_data) with
    | Some e => Some e
    | None => m !! k
    end.
Proof.
  revert m. induction items_data as [|item items_data IH]; intros m; [reflexivity|].
  cbn [fold_left]. rewrite IH. unfold of_rank. cbn [List.filter].
  destruct (Z.eqb_spec (rank item) k) as [Heq|Hne].
  - fold (of_rank k items_data). rewrite last_cons.
    destruct (last (of_rank k items_data)); [reflexivity|].
    rewrite Heq. apply lookup_insert_eq.
  - fold (of_rank k items_data).
    destruct (last (of_rank k items_data)); [reflexivity|].
    now apply lookup_insert_ne.
Qed.

Lemma rank_to_player_last (items_data : list entry) k :
  Patch.rank_to_player items_data !! k = last (of_rank k items_data).
Proof.
  unfold Patch.rank_to_player. rewrite rank_to_player_from.
  now destruct (last (of_rank k items_data)).
Qed.

Section GapOutput.
Context {P : Type} `{Page P}.
Variable max_rank_needed : Z.
Variable page0 : P.
Import Patch.

Lemma gap_initial_at_head : gap_at_head page0 0 page0 (Counters 0 0 0) [].
Proof. unfold gap_at_head. simpl. repeat split; reflexivity || lia. Qed.

(** X12.  The map that [get_players_from_list] returns is empty when the
    page did not open; otherwise it is read from the page as some number
    of passes, at most [max_rank_needed // 50 + 10], has left it, and it
    gives under each rank the last entry of the list that carries this
    rank, and nothing under a rank that no entry carries. *)
Theorem rank_map_of_last_entries :
  exists j, (j <= passes max_rank_needed)%nat
    /\ forall k,
         get_players_from_list page0 max_rank_needed !! k
         = if opened page0
           then last (of_rank k (entries (page_after j page0)))
           else None.
Proof.
  pose proof (gap_loop_spec max_rank_needed page0 (passes max_rank_needed) 0 page0
                (Counters 0 0 0) [] gap_initial_at_head)
    as (_ & Hfinal & _ & _ & _ & _ & _ & _ & Hlen).
  exists (length (attempts (load_more_loop max_rank_needed (passes max_rank_needed)
                                page0 (Counters 0 0 0) []))).
  split; [lia|]. intros k. unfold get_players_from_list.
  destruct (opened page0); cbn [negb]; [|apply lookup_empty].
  rewrite rank_to_player_last, Hfinal. reflexivity.
Qed.

(** The check for the early exit, from the head of the loop after [k]
    passes. *)
Lemma gap_enough_spec n :
  forall k page c done,
    gap_at_head page0 k page c done ->
    let r := load_more_loop max_rank_needed n page c done in
    (reason r = EnoughLoaded ->
       exists j, length (attempts r) = S j /\ enough_at max_rank_needed page0 j = true)
    /\ (forall j, (k <= j)%nat -> length (attempts r) = S j ->
          enough_at max_rank_needed page0 j = true -> reason r = EnoughLoaded)
    /\ (forall j, (k <= j)%nat -> (S j < length (attempts r))%nat ->
          enough_at max_rank_needed page0 j = false).
Proof.
  induction n as [|n IH]; intros k page c done Hhead;
    pose proof Hhead as (Hdone & Hpage & Hcc & Hcf & Hnb & Hcf0 & Hnb0);
    assert (Hk : length done = k) by (rewrite Hdone; apply length_observed).
  - cbn [load_more_loop attempts reason]. rewrite Hk.
    split; [discriminate|]. split; intros; lia.
  - cbn [load_more_loop].
    destruct (try_load_more page) as [a page'] eqn:Htry.
    assert (Hdone' : (done ++ [a])%list = observed (S k) page0)
      by (rewrite observed_S, <- Hdone, <- Hpage, Htry; reflexivity).
    assert (Hpage' : page' = page_after (S k) page0)
      by (rewrite page_after_S, <- Hpage, Htry; reflexivity).
    assert (Ha : fst (try_load_more (page_after k page0)) = a)
      by (now rewrite <- Hpage, Htry).
    assert (Hcont : forall c',
              click_count c' = clicks (done ++ [a]) ->
              consecutive_failures c' = failures_since_click (done ++ [a]) ->
              no_button_checks c' = no_button_since_click (done ++ [a]) ->
              0 <= consecutive_failures c' < 5 -> 0 <= no_button_checks c' < 3 ->
              enough_at max_rank_needed page0 k = false ->
              let r := load_more_loop max_rank_needed n page' c' (done ++ [a]) in
              (reason r = EnoughLoaded ->
                 exists j, length (attempts r) = S j
                           /\ enough_at max_rank_needed page0 j = true)
              /\ (forall j, (k <= j)%nat -> length (attempts r) = S j ->
                    enough_at max_rank_needed page0 j = true -> reason r = EnoughLoaded)
              /\ (forall j, (k <= j)%nat -> (S j < length (attempts r))%nat ->
                    enough_at max_rank_needed page0 j = false)).
    { intros c' H1 H2 H3 H5 H6 Hno r.
      assert (Hhead' : gap_at_head page0 (S k) page' c' (done ++ [a]))
        by (repeat split; auto; lia).
      destruct (IH (S k) page' c' (done ++ [a])%list Hhead') as (I1 & I2 & I3).
      fold r in I1, I2, I3.
      split; [assumption|]. split.
      - intros j Hj Hlen Hen. destruct (decide (j = k)) as [->|Hne]; [congruence|].
        apply (I2 j); [lia | assumption | assumption].
      - intros j Hj Hlen. destruct (decide (j = k)) as [->|Hne]; [assumption|].
        apply I3; [lia | assumption]. }
    assert (Hbreak : forall c' why,
              (why = EnoughLoaded <-> enough_at max_rank_needed page0 k = true) ->
              let r := LoopResult page' c' why (done ++ [a]) in
              (reason r = EnoughLoaded ->
                 exists j, length (attempts r) = S j
                           /\ enough_at max_rank_needed page0 j = true)
              /\ (forall j, (k <= j)%nat -> length (attempts r) = S j ->
                    enough_at max_rank_needed page0 j = true -> reason r = EnoughLoaded)
              /\ (forall j, (k <= j)%nat -> (S j < length (attempts r))%nat ->
                    enough_at max_rank_needed page0 j = false)).
    { intros c' why Hwhy r. subst r. cbn [reason attempts].
      rewrite length_app, Hk. cbn [length].
      split; [|split].
      - intros Hw. exists k. split; [lia|]. now apply Hwhy.
      - intros j Hj Hlen Hen. assert (j = k) as -> by lia. now apply Hwhy.
      - intros j Hj Hlen. lia. }
    assert (Hen : enough_at max_rank_needed page0 k
                  = match a with
                    | Clicked => (clicks (done ++ [a]) mod 5 =? 0)
                                 && (item_count page' >? max_rank_needed + 50)
                    | _ => false
                    end)
      by (unfold enough_at; rewrite Ha, <- Hdone', <- Hpage'; reflexivity).
    destruct a; cbn [click_count consecutive_failures no_button_checks].
    + rewrite clicks_snoc in Hen. rewrite Hcc.
      destruct ((clicks done + 1) mod 5 =? 0) eqn:E5;
        [destruct (item_count page' >? max_rank_needed + 50) eqn:Eit|]; cbn [andb] in *.
      * apply Hbreak. now split.
      * apply Hcont; cbn [click_count consecutive_failures no_button_checks];
          rewrite ?clicks_snoc, ?failures_snoc, ?no_button_snoc; try lia. assumption.
      * apply Hcont; cbn [click_count consecutive_failures no_button_checks];
          rewrite ?clicks_snoc, ?failures_snoc, ?no_button_snoc; try lia. assumption.
    + change (0 + 1 >=? 5) with false. cbv iota.
      apply Hcont; cbn [click_count consecutive_failures no_button_checks];
        rewrite ?clicks_snoc, ?failures_snoc, ?no_button_snoc; try lia. assumption.
    + destruct (no_button_checks c + 1 >=? 3) eqn:Hge.
      * apply Hbreak. rewrite Hen. split; discriminate.
      * assert (no_button_checks c + 1 < 3)
          by (destruct (Z.geb_spec (no_button_checks c + 1) 3); [discriminate|lia]).
        apply Hcont; cbn [click_count consecutive_failures no_button_checks];
          rewrite ?clicks_snoc, ?failures_snoc, ?no_button_snoc; try lia. assumption.
    + destruct (consecutive_failures c + 1 >=? 5) eqn:Hge.
      * apply Hbreak. rewrite Hen. split; discriminate.
      * assert (consecutive_failures c + 1 < 5)
          by (destruct (Z.geb_spec (consecutive_failures c + 1) 5); [discriminate|lia]).
        apply Hcont; cbn [click_count consecutive_failures no_button_checks];
          rewrite ?clicks_snoc, ?failures_snoc, ?no_button_snoc; try lia. assumption.
Qed.

(** X13.  The loop of the gap-repair crawl ends because enough of the
    list is loaded exactly when its last pass clicked, brought the number
    of clicks to a multiple of 5 and left more than
    [max_rank_needed + 50] items on the page; and no earlier pass did
    so: the loop stops at the first such pass, and the length of the list
    is not looked at after the other clicks. *)
Theorem gap_early_exit :
  let r := load_more_loop max_rank_needed (passes max_rank_needed) page0
             (Counters 0 0 0) [] in
  (reason r = EnoughLoaded
   <-> exists j, length (attempts r) = S j
                 /\ enough_at max_rank_needed page0 j = true)
  /\ (forall j, (S j < length (attempts r))%nat ->
        enough_at max_rank_needed page0 j = false).
Proof.
  intros r.
  destruct (gap_enough_spec (passes max_rank_needed) 0 page0 (Counters 0 0 0) []
              gap_initial_at_head) as (I1 & I2 & I3).
  fold r in I1, I2, I3. split; [split|].
  - exact I1.
  - intros (j & Hlen & Hen). apply (I2 j); [lia | assumption | assumption].
  - intros j Hj. apply I3; [lia | assumption].
Qed.
End GapOutput.

End CrawlOutput.

(** ** The record of a profile *)

Section ProfileRecord.
Import Effect Scraper Timeline Draft Lang Columns.
#[local] Arguments String.append : simpl nomatch.

(** *** A sequence of writes *)

Lemma written_snoc writes kv m :
  written (writes ++ [kv]) m = <[fst kv := snd kv]> (written writes m).
Proof. unfold written. now rewrite fold_left_app. Qed.

Lemma written_cases writes m k v :
  written writes m !! k = Some v -> (k, v) ∈ writes \/ m !! k = Some v.
Proof.
  induction writes as [|kv writes IH] using rev_ind; [now right|].
  rewrite written_snoc. destruct (decide (fst kv = k)) as [<-|Hne].
  - rewrite lookup_insert_eq. intros [= <-]. left. apply elem_of_app. right.
    destruct kv. now left.
  - rewrite lookup_insert_ne by assumption. intros Hv.
    destruct (IH Hv) as [Hin|Hm]; [left; apply elem_of_app; now left | now right].
Qed.

Lemma written_absent writes m k :
  (forall kv, kv ∈ writes -> fst kv <> k) -> written writes m !! k = m !! k.
Proof.
  induction writes as [|kv writes IH] using rev_ind; intros Hk; [reflexivity|].
  rewrite written_snoc, lookup_insert_ne.
  - apply IH. intros kv' Hin. apply Hk, elem_of_app. now left.
  - apply Hk, elem_of_app. right. now left.
Qed.

Lemma written_is_Some writes m k :
  is_Some (m !! k) -> is_Some (written writes m !! k).
Proof.
  induction writes as [|kv writes IH] using rev_ind; intros Hk; [assumption|].
  rewrite written_snoc. destruct (decide (fst kv = k)) as [<-|Hne].
  - rewrite lookup_insert_eq. eauto.
  - rewrite lookup_insert_ne by assumption. now apply IH.
Qed.

Lemma for_each_set_field writes s :
  for_each writes (fun kv => set_field (fst kv) (snd kv)) s
  = (Val tt, State (PlayerData (written writes (fields (data s)))
                               (date_priority (data s))) (trace s)).
Proof.
  revert s. induction writes as [|kv writes IH]; intros s.
  - destruct s as [[f p] tr]. reflexivity.
  - cbn [for_each]. unfold bind, set_field at 1, modify. rewrite IH. reflexivity.
Qed.

(** *** The course of [parse_profile] *)

Lemma parse_profile_unreached page url year player_num total :
  fetch_ok page = false \/ content page = None ->
  parse_profile page url year player_num total = initial_data page url year.
Proof.
  intros [Hf|Hc]; [now apply parse_profile_fetch_failure|].
  unfold parse_profile, parse_profile_run, parse_profile_body, bind.
  rewrite Hc. now destruct (fetch_ok page).
Qed.

(** When the page was fetched and parsed, the record is the one that the
    scan of the timeline leaves, but for the Signed Team that the banner
    may give. *)
Lemma parse_profile_reached page url year player_num total soup :
  fetch_ok page = true -> content page = Some soup ->
  let s1 := State (PlayerData (before_timeline page soup url year) (Some (-1))) [] in
  let s2 := snd (parse_timeline (timeline page) year (do_deep_dive player_num) s1) in
  trace (parse_profile_run page url year player_num total) = trace s2
  /\ date_priority (parse_profile page url year player_num total) = date_priority (data s2)
  /\ (fields (parse_profile page url year player_num total) = fields (data s2)
      \/ exists team,
           fields (parse_profile page url year player_num total)
           = <["Signed Team" := team]> (fields (data s2))).
Proof.
  intros Hf Hc s1 s2. unfold parse_profile.
  remember (parse_profile_run page url year player_num total) as final eqn:Ef.
  unfold parse_profile_run, parse_profile_body in Ef.
  rewrite Hf, Hc in Ef. unfold bind at 1 in Ef. unfold ret at 1 in Ef.
  unfold bind at 1 in Ef. unfold await at 1, ret at 1 in Ef.
  unfold bind at 1 in Ef. unfold set_field at 1, modify at 1 in Ef.
  unfold bind at 1 in Ef. rewrite for_each_set_field in Ef.
  unfold bind at 1 in Ef. unfold set_field at 1, modify at 1 in Ef.
  unfold bind at 1 in Ef. rewrite for_each_set_field in Ef.
  match type of Ef with
  | context [bind (parse_timeline ?a ?b ?c) ?f ?s] =>
      change (bind (parse_timeline a b c) f s) with (bind (parse_timeline a b c) f s1) in Ef
  end.
  unfold bind at 1 in Ef.
  assert (Hv : fst (parse_timeline (timeline page) year (do_deep_dive player_num) s1)
               = Val tt) by apply call_never_raises_or_returns.
  subst s2.
  destruct (parse_timeline (timeline page) year (do_deep_dive player_num) s1)
    as [o s2] eqn:E.
  cbn [fst] in Hv. subst o. cbn [snd].
  unfold bind at 1, get_field at 1 in Ef. unfold bind at 1, get at 1 in Ef.
  destruct (fields (data s2) !! "Signed Team") as [signed_team|];
    cbn [await ret raise snd] in Ef; [|subst final; auto].
  destruct (String.eqb signed_team "NA"); [|subst final; auto].
  destruct (commit_banner soup) as [team|]; [|subst final; auto].
  cbv zeta in Ef.
  match type of Ef with context [if ?c then _ else _] => destruct c end;
    [|subst final; auto].
  unfold set_field, modify in Ef. cbn [snd data fields date_priority] in Ef.
  subst final. cbn [data fields date_priority trace]. eauto.
Qed.

(** Outside the columns of the timeline the record is as the header and
    ranking loops have left it. *)
Lemma parse_profile_entry page url year player_num total soup key :
  fetch_ok page = true -> content page = Some soup -> key ∉ timeline_columns ->
  fields (parse_profile page url year player_num total) !! key
  = before_timeline page soup url year !! key.
Proof.
  intros Hf Hc Hk.
  destruct (parse_profile_reached page url year player_num total soup Hf Hc)
    as (_ & _ & Hfields).
  pose proof (parse_timeline_writes_only (timeline page) year (do_deep_dive player_num)
                (State (PlayerData (before_timeline page soup url year) (Some (-1))) []))
    as [Hframe _].
  specialize (Hframe key Hk). cbn [data fields] in Hframe.
  destruct Hfields as [->|[team ->]]; [exact Hframe|].
  rewrite lookup_insert_ne; [exact Hframe|].
  intros <-. apply Hk. unfold timeline_columns. repeat constructor.
Qed.

(** *** What the loops write *)

Lemma in_list_elem key l : in_list key l = true <-> key ∈ l.
Proof.
  unfold in_list. rewrite existsb_exists. split.
  - intros (x & Hin & Heq). apply String.eqb_eq in Heq. subst x.
    now apply list_elem_of_In.
  - intros Hin. exists key. split; [now apply list_elem_of_In | apply String.eqb_refl].
Qed.

Lemma header_write_key labels key f text kv :
  kv ∈ header_write labels key f text -> fst kv = key.
Proof.
  unfold header_write. destruct (search1 (header_re labels) text).
  - intros Hin. apply list_elem_of_singleton in Hin. now subst kv.
  - intros Hin. now apply elem_of_nil in Hin.
Qed.

Lemma header_item_keys text kv : kv ∈ header_item text -> fst kv ∈ header_columns.
Proof.
  unfold header_item.
  repeat match goal with
         | |- _ ∈ (if ?c then _ else _) -> _ => destruct c
         end;
    intros Hin; try (apply header_write_key in Hin; rewrite Hin; apply in_list_elem; reflexivity).
  now apply elem_of_nil in Hin.
Qed.

Lemma header_loop_keys soup kv : kv ∈ header_loop soup -> fst kv ∈ header_columns.
Proof.
  unfold header_loop. intros Hin. apply elem_of_app in Hin as [Hin|Hin].
  - destruct (name_elem soup); [|now apply elem_of_nil in Hin].
    apply list_elem_of_singleton in Hin. subst kv. apply in_list_elem. reflexivity.
  - apply list_elem_of_In, in_flat_map in Hin as (text & _ & Hin).
    apply list_elem_of_In in Hin. now apply header_item_keys in Hin.
Qed.

Lemma section_prefix_cases header_text prefix :
  section_prefix header_text = Some prefix -> prefix = "Composite" \/ prefix = "247".
Proof.
  unfold section_prefix. destruct (Py.contains header_text "COMPOSITE"); cbn [negb andb].
  - intros [= <-]. now left.
  - destruct (Py.contains header_text "247SPORTS"); cbn [andb]; [|discriminate].
    intros [= <-]. now right.
Qed.

Lemma stars_value n : (0 < n)%nat -> is_stars (Py.str (Z.min (Z.of_nat n) 5)) = true.
Proof.
  intros Hn. destruct n as [|[|[|[|[|n]]]]]; try reflexivity; [lia|].
  rewrite Z.min_r by lia. reflexivity.
Qed.

Lemma take_while_app_stop p t c rest :
  all_chars p t = true -> p c = false ->
  Py.take_while p (t ++ String c rest) = t
  /\ drop_while p (t ++ String c rest) = String c rest.
Proof.
  intros Hall Hc. induction t as [|a t IH]; cbn.
  - now rewrite Hc.
  - cbn in Hall. apply andb_true_iff in Hall as [Ha Ht]. rewrite Ha.
    destruct (IH Ht) as [-> ->]. auto.
Qed.

Lemma take_while_whole p t :
  all_chars p t = true -> Py.take_while p t = t /\ drop_while p t = "".
Proof.
  intros Hall. induction t as [|a t IH]; cbn; [auto|].
  cbn in Hall. apply andb_true_iff in Hall as [Ha Ht]. rewrite Ha.
  destruct (IH Ht) as [-> ->]. auto.
Qed.

(** What the pattern of a rating captures. *)
Lemma rating_value s g1 : search1 rating_re s = Some g1 -> is_decimal g1 = true.
Proof.
  unfold search1. destruct (Re.search rating_re s) as [caps|] eqn:E; [|discriminate].
  apply search_sound in E as (pre & t & post & _ & Hl).
  unfold rating_re in Hl. cbn [lang] in Hl.
  destruct Hl as (c1 & (t1 & t2 & c2 & -> & Hwhole & Hfrac) & ->).
  cbn. intros [= <-].
  apply lang_plus_chr in Hwhole as (Hne & Hdig & ->).
  destruct Hfrac as (n & _ & Hn & Hit). cbn in Hn.
  unfold is_decimal.
  destruct n as [|[|n]]; [| |lia].
  - inversion Hit; subst. rewrite app_nil_r_string.
    destruct (take_while_whole _ _ Hdig) as [-> ->].
    destruct t1; [contradiction | reflexivity].
  - inversion Hit as [|n' u1 u2 ca cb cc Hu Hl Hit' E1 E2 E3 E4]; subst.
    inversion Hit'; subst. rewrite app_nil_r_string.
    destruct Hl as (p1 & p2 & c3 & -> & Hpoint & Hdigits).
    apply (lang_lit ".") in Hpoint as [-> ->].
    apply lang_plus_chr in Hdigits as (Hne2 & Hdig2 & _).
    change ("." ++ p2) with (String "." p2).
    destruct (take_while_app_stop Re.digit t1 "." p2 Hdig eq_refl) as [-> ->].
    destruct t1; [contradiction|]. cbn [Py.falsy negb andb]. cbn [Ascii.eqb].
    unfold is_number. rewrite Hdig2. destruct p2; [contradiction | reflexivity].
Qed.

Lemma well_formed_NA key : well_formed key "NA" = true.
Proof.
  unfold well_formed.
  destruct (in_list key stars_columns); [reflexivity|].
  destruct (in_list key rating_columns); [reflexivity|].
  destruct (in_list key rank_columns); reflexivity.
Qed.

Lemma well_formed_free key value :
  key ∉ ranking_columns -> well_formed key value = true.
Proof.
  intros Hk. unfold well_formed.
  destruct (in_list key stars_columns) eqn:E1.
  { exfalso. apply Hk. apply in_list_elem in E1. unfold ranking_columns.
    apply elem_of_app. now left. }
  destruct (in_list key rating_columns) eqn:E2.
  { exfalso. apply Hk. apply in_list_elem in E2. unfold ranking_columns.
    apply elem_of_app. right. apply elem_of_app. now left. }
  destruct (in_list key rank_columns) eqn:E3; [|reflexivity].
  exfalso. apply Hk. apply in_list_elem in E3. unfold ranking_columns.
  apply elem_of_app. right. apply elem_of_app. right. apply elem_of_app. now left.
Qed.

Lemma rank_value text : (String.eqb (parse_rank text) "NA" || is_number (parse_rank text)) = true.
Proof.
  destruct (parse_rank_shape text) as [->| ->]; [reflexivity | apply orb_true_r].
Qed.

Lemma rank_item_writes_ok prefix li kv :
  prefix = "Composite" \/ prefix = "247" ->
  kv ∈ rank_item_writes prefix li ->
  fst kv ∈ ranking_columns /\ well_formed (fst kv) (snd kv) = true.
Proof.
  intros Hp. unfold rank_item_writes.
  destruct (link_tag li) as [[href rank_node]|];
    [|intros Hin; now apply elem_of_nil in Hin].
  cbv zeta. destruct (Py.contains (default "" href) "Position=").
  - intros Hin. apply elem_of_app in Hin as [Hin|Hin].
    + destruct (pos_node li); [|now apply elem_of_nil in Hin].
      apply list_elem_of_singleton in Hin. subst kv.
      destruct Hp as [-> | ->]; (split; [apply in_list_elem|]; reflexivity).
    + destruct rank_node; [|now apply elem_of_nil in Hin].
      apply list_elem_of_singleton in Hin. subst kv.
      destruct Hp as [-> | ->]; (split; [apply in_list_elem; reflexivity | apply rank_value]).
  - destruct (Py.contains (default "" href) "State=" || Py.contains (default "" href) "state=");
      [intros Hin; now apply elem_of_nil in Hin|].
    destruct (Py.contains (default "" href) "InstitutionGroup=HighSchool");
      [|intros Hin; now apply elem_of_nil in Hin].
    destruct rank_node; [|intros Hin; now apply elem_of_nil in Hin].
    intros Hin. apply list_elem_of_singleton in Hin. subst kv.
    destruct Hp as [-> | ->]; (split; [apply in_list_elem; reflexivity | apply rank_value]).
Qed.

Lemma section_writes_ok section kv :
  kv ∈ section_writes section ->
  fst kv ∈ ranking_columns /\ well_formed (fst kv) (snd kv) = true.
Proof.
  unfold section_writes.
  destruct (section_header section) as [header|];
    [|intros Hin; now apply elem_of_nil in Hin].
  cbv zeta. destruct (Py.contains (Py.upper (clean_text header)) "JUCO");
    [intros Hin; now apply elem_of_nil in Hin|].
  destruct (section_prefix (Py.upper (clean_text header))) as [prefix|] eqn:Hprefix;
    [|intros Hin; now apply elem_of_nil in Hin].
  apply section_prefix_cases in Hprefix as Hp.
  intros Hin. apply elem_of_app in Hin as [Hin|Hin];
    [|apply elem_of_app in Hin as [Hin|Hin]].
  - destruct (0 <? stars section)%nat eqn:Hs; [|now apply elem_of_nil in Hin].
    apply Nat.ltb_lt in Hs. apply list_elem_of_singleton in Hin. subst kv.
    pose proof (stars_value (stars section) Hs) as Hv.
    destruct Hp as [-> | ->];
      (split; [apply in_list_elem; reflexivity|]);
      cbn [fst snd]; unfold well_formed;
      [change (in_list (column "Composite" "Stars") stars_columns) with true
      |change (in_list (column "247" "Stars") stars_columns) with true];
      cbv iota; rewrite Hv; apply orb_true_r.
  - destruct (rating_elem section) as [text|]; [|now apply elem_of_nil in Hin].
    destruct (search1 rating_re (clean_text text)) as [g1|] eqn:Hg;
      [|now apply elem_of_nil in Hin].
    apply rating_value in Hg.
    apply list_elem_of_singleton in Hin. subst kv.
    destruct Hp as [-> | ->];
      (split; [apply in_list_elem; reflexivity|]);
      cbn [fst snd]; unfold well_formed;
      [change (in_list (column "Composite" "Rating") stars_columns) with false;
       change (in_list (column "Composite" "Rating") rating_columns) with true
      |change (in_list (column "247" "Rating") stars_columns) with false;
       change (in_list (column "247" "Rating") rating_columns) with true];
      cbv iota; rewrite Hg; apply orb_true_r.
  - destruct (ranks_list section) as [lis|]; [|now apply elem_of_nil in Hin].
    apply list_elem_of_In, in_flat_map in Hin as (li & _ & Hin).
    apply list_elem_of_In in Hin. now apply (rank_item_writes_ok prefix li).
Qed.

Lemma ranking_loop_ok soup kv :
  kv ∈ ranking_loop soup ->
  fst kv ∈ ranking_columns /\ well_formed (fst kv) (snd kv) = true.
Proof.
  unfold ranking_loop. intros Hin.
  apply list_elem_of_In, in_flat_map in Hin as (section & _ & Hin).
  apply list_elem_of_In in Hin. now apply section_writes_ok in Hin.
Qed.

(** *** The record *)

Lemma all_NA_entry key value :
  all_NA !! key = Some value -> key ∈ CSV_HEADERS /\ value = "NA".
Proof.
  unfold all_NA. intros Hl. apply elem_of_list_to_map_2 in Hl.
  apply list_elem_of_fmap in Hl as (header & [= -> ->] & Hin). auto.
Qed.

Lemma initial_entry page url year key value :
  fields (initial_data page url year) !! key = Some value ->
  key ∈ CSV_HEADERS /\ (value = "NA" \/ key ∉ ranking_columns).
Proof.
  unfold initial_data. cbn [fields]. intros Hl.
  repeat (apply lookup_insert_Some in Hl as [[<- _]|[_ Hl]];
          [split; [apply in_list_elem; reflexivity|];
           right; intros Hin; apply in_list_elem in Hin; discriminate|]).
  apply all_NA_entry in Hl as [Hin ->]. auto.
Qed.

(** An entry of the record before the timeline, when the loops are those
    of a parsed page. *)
Lemma before_timeline_entry page parsed url year key value :
  before_timeline page (soup_of parsed) url year !! key = Some value ->
  key ∈ CSV_HEADERS /\ well_formed key value = true.
Proof.
  unfold before_timeline. cbn [soup_of ranking_writes header_writes]. intros Hl.
  assert (Hsub : forall k, k ∈ ranking_columns \/ k ∈ header_columns -> k ∈ CSV_HEADERS).
  { intros k [Hk|Hk]; apply in_list_elem in Hk; apply in_list_elem;
      unfold in_list in *; cbn [ranking_columns header_columns stars_columns rating_columns
                                 rank_columns position_columns app existsb CSV_HEADERS] in *;
      repeat (apply orb_true_iff in Hk as [Hk|Hk];
              [apply String.eqb_eq in Hk; subst k; reflexivity|]);
      discriminate. }
  apply written_cases in Hl as [Hin|Hl].
  { apply ranking_loop_ok in Hin as [Hk Hv]. auto. }
  apply lookup_insert_Some in Hl as [[<- _]|[_ Hl]].
  { split; [apply in_list_elem|]; reflexivity. }
  apply written_cases in Hl as [Hin|Hl].
  { apply header_loop_keys in Hin. cbn [fst] in Hin. split; [auto|].
    apply well_formed_free. intros Hr.
    apply in_list_elem in Hin, Hr. unfold in_list in Hin.
    cbn [header_columns existsb] in Hin.
    repeat (apply orb_true_iff in Hin as [Hin|Hin];
            [apply String.eqb_eq in Hin; subst key; discriminate|]).
    discriminate. }
  apply lookup_insert_Some in Hl as [[<- _]|[_ Hl]].
  { split; [apply in_list_elem|]; reflexivity. }
  apply initial_entry in Hl as [Hin [-> |Hfree]];
    [split; [assumption | apply well_formed_NA]
    |split; [assumption | now apply well_formed_free]].
Qed.

Lemma timeline_column_free key value :
  key ∈ timeline_columns -> key ∈ CSV_HEADERS /\ well_formed key value = true.
Proof.
  intros Hk. apply in_list_elem in Hk. unfold in_list in Hk.
  cbn [timeline_columns existsb] in Hk.
  repeat (apply orb_true_iff in Hk as [Hk|Hk];
          [apply String.eqb_eq in Hk; subst key;
           split; [apply in_list_elem|]; reflexivity|]).
  discriminate.
Qed.

(** Every entry of the record of a parsed page is in a column of the
    file and holds a value of the column. *)
Lemma parse_profile_entry_ok page parsed url year player_num total key value :
  content page = soup_of <$> parsed ->
  fields (parse_profile page url year player_num total) !! key = Some value ->
  key ∈ CSV_HEADERS /\ well_formed key value = true.
Proof.
  intros Hc Hl.
  destruct (decide (key ∈ timeline_columns)) as [Hk|Hk];
    [now apply timeline_column_free|].
  destruct (fetch_ok page) eqn:Hf, parsed as [soup|]; cbn [fmap option_fmap option_map] in Hc.
  - rewrite (parse_profile_entry page url year player_num total (soup_of soup))
      in Hl by assumption.
    now apply before_timeline_entry in Hl.
  - rewrite parse_profile_unreached in Hl by auto.
    apply initial_entry in Hl as [Hin [-> |Hfree]];
      [split; [assumption | apply well_formed_NA]
      |split; [assumption | now apply well_formed_free]].
  - rewrite parse_profile_unreached in Hl by auto.
    apply initial_entry in Hl as [Hin [-> |Hfree]];
      [split; [assumption | apply well_formed_NA]
      |split; [assumption | now apply well_formed_free]].
  - rewrite parse_profile_unreached in Hl by auto.
    apply initial_entry in Hl as [Hin [-> |Hfree]];
      [split; [assumption | apply well_formed_NA]
      |split; [assumption | now apply well_formed_free]].
Qed.

Lemma parse_profile_has_columns page url year player_num total key :
  key ∈ CSV_HEADERS ->
  is_Some (fields (parse_profile page url year player_num total) !! key).
Proof.
  intros Hk.
  destruct (parse_profile_reconciled year page url player_num total) as [Hcols _].
  now apply Hcols.
Qed.

(** X14.  Whatever a parsed profile page shows and whichever operations
    on it raise, the record that [parse_profile] returns has the columns
    of the file and no other; its star columns hold the sentinel or a
    number from 1 to 5, its rating columns the sentinel or a decimal
    numeral, and its rank columns the sentinel or a number. *)
Theorem profile_record_well_formed (page : profile_page) (parsed : option profile_soup)
    (url : string) (year player_num total : Z) :
  content page = soup_of <$> parsed ->
  let d := fields (parse_profile page url year player_num total) in
  (forall key, is_Some (d !! key) <-> key ∈ CSV_HEADERS)
  /\ (forall key value, d !! key = Some value -> well_formed key value = true).
Proof.
  intros Hc d. split.
  - intros key. split.
    + intros [value Hl].
      now apply (parse_profile_entry_ok page parsed url year player_num total key value).
    + apply parse_profile_has_columns.
  - intros key value Hl.
    now apply (parse_profile_entry_ok page parsed url year player_num total key value).
Qed.

Lemma profile_record_well_formed_witness :
  let d := fields (parse_profile ProfileExamples.quarterback_page
                     ProfileExamples.quarterback_url 2018 1 1) in
  (forall key, is_Some (d !! key) <-> key ∈ CSV_HEADERS)
  /\ (forall key value, d !! key = Some value -> well_formed key value = true).
Proof.
  apply (profile_record_well_formed ProfileExamples.quarterback_page
           (Some ProfileExamples.quarterback)).
  reflexivity.
Defined.

(** *** The columns that tell where a record comes from *)

Lemma ranking_loop_not key parsed :
  key ∉ ranking_columns -> forall kv, kv ∈ ranking_loop parsed -> fst kv <> key.
Proof. intros Hk kv Hin <-. now apply ranking_loop_ok in Hin as [Hin _]. Qed.

Lemma header_loop_not key parsed :
  key ∉ header_columns -> forall kv, kv ∈ header_loop parsed -> fst kv <> key.
Proof. intros Hk kv Hin <-. now apply header_loop_keys in Hin. Qed.

Lemma not_in_list key l : in_list key l = false -> key ∉ l.
Proof. intros E Hin. apply in_list_elem in Hin. congruence. Qed.

(** X15.  Whatever a parsed profile page shows and whichever operations
    on it raise, the record of [parse_profile] holds the URL it was asked
    for, the year as Recruiting Year, the time of the scrape and the name
    of the source; and once the page has been fetched and parsed it holds
    the identifier taken from the URL and the year as Class, even when
    the page gives another class. *)
Theorem profile_identity (page : profile_page) (parsed : option profile_soup)
    (url : string) (year player_num total : Z) :
  content page = soup_of <$> parsed ->
  let d := fields (parse_profile page url year player_num total) in
  let reached := fetch_ok page && bool_decide (is_Some parsed) in
  d !! "Profile URL" = Some url
  /\ d !! "Recruiting Year" = Some (Py.str year)
  /\ d !! "Scrape Date" = Some (clock page)
  /\ d !! "Data Source" = Some data_source
  /\ d !! "247 ID" = Some (if reached then extract_player_id url else "NA")
  /\ d !! "Class" = Some (if reached then Py.str year else "NA").
Proof.
  intros Hc d reached. subst d reached.
  destruct (fetch_ok page) eqn:Hf, parsed as [soup|];
    cbn [fmap option_fmap option_map] in Hc; cbn [andb];
    try (rewrite parse_profile_unreached by auto; repeat split; reflexivity).
  rewrite bool_decide_eq_true_2 by eauto.
  rewrite !(parse_profile_entry page url year player_num total (soup_of soup) _ Hf Hc)
    by (apply not_in_list; reflexivity).
  unfold before_timeline. cbn [soup_of ranking_writes header_writes].
  rewrite !(written_absent (ranking_loop soup))
    by (apply ranking_loop_not, not_in_list; reflexivity).
  rewrite lookup_insert_eq, !lookup_insert_ne by discriminate.
  rewrite !(written_absent (header_loop soup))
    by (apply header_loop_not, not_in_list; reflexivity).
  rewrite lookup_insert_eq, !lookup_insert_ne by discriminate.
  repeat split; reflexivity.
Qed.

Lemma profile_identity_witness :
  let d := fields (parse_profile ProfileExamples.quarterback_page
                     ProfileExamples.quarterback_url 2018 1 1) in
  d !! "Profile URL" = Some ProfileExamples.quarterback_url
  /\ d !! "Recruiting Year" = Some (Py.str 2018)
  /\ d !! "Scrape Date" = Some (clock ProfileExamples.quarterback_page)
  /\ d !! "Data Source" = Some data_source
  /\ d !! "247 ID" = Some (extract_player_id ProfileExamples.quarterback_url)
  /\ d !! "Class" = Some (Py.str 2018).
Proof.
  apply (profile_identity ProfileExamples.quarterback_page
           (Some ProfileExamples.quarterback)).
  reflexivity.
Defined.

(** *** The value of a header item *)

Lemma take_while_dot s : has_char "010" s = false -> Py.take_while Re.dot s = s.
Proof.
  induction s as [|a s IH]; [reflexivity|]. cbn [has_char Py.take_while].
  intros H. apply orb_false_iff in H as [Ha Hs]. unfold Re.dot at 1. rewrite Ha.
  cbn [negb]. now rewrite IH.
Qed.

Lemma drop_while_keeps_absent c p s :
  has_char c s = false -> has_char c (drop_while p s) = false.
Proof.
  induction s as [|a s IH]; [reflexivity|]. cbn [has_char drop_while].
  intros H. destruct (p a).
  - apply orb_false_iff in H as [_ Hs]. now apply IH.
  - exact H.
Qed.

(** After the label: the colons and white space are skipped, and group 1
    takes the rest of the line. *)
Lemma run_header_tail s caps :
  Re.run (Re.Cat (Re.star (Re.Chr Output.label_gap)) (Re.Grp 1 (Re.star (Re.Chr Re.dot))))
    s caps (fun rest caps => Some (caps, rest))
  = Some ((1%nat, Py.take_while Re.dot (drop_while Output.label_gap s)) :: caps,
          drop_while Re.dot (drop_while Output.label_gap s)).
Proof.
  assert (Hgroup : forall s caps,
            Re.run (Re.Grp 1 (Re.star (Re.Chr Re.dot))) s caps
              (fun rest caps => Some (caps, rest))
            = Some ((1%nat, Py.take_while Re.dot s) :: caps, drop_while Re.dot s)).
  { intros s0 caps0. cbn [Re.run]. unfold Re.star. cbn [Re.run].
    rewrite (rep_chr_greedy Re.dot _
               (fun s' caps' => ((1%nat, Re.consumed s0 s') :: caps', s')))
      by (reflexivity || (cbn; lia)).
    rewrite <- (take_drop_while Re.dot s0) at 1. now rewrite consumed_app. }
  cbn [Re.run]. unfold Re.star at 1. cbn [Re.run].
  rewrite (rep_chr_greedy Output.label_gap _
             (fun s' caps' => ((1%nat, Py.take_while Re.dot s') :: caps', drop_while Re.dot s')))
    by (apply Hgroup || (cbn; lia)).
  apply Hgroup.
Qed.

Lemma match_position_label tail :
  has_char "010" tail = false ->
  exists rest,
    Re.match_ (header_re ["Pos"; "Position"]) ("Pos" ++ tail)
    = Some ([(1%nat, drop_while Output.label_gap tail)], rest).
Proof.
  intros Htail. eexists. unfold Re.match_.
  change (header_re ["Pos"; "Position"])
    with (Re.Cat (Re.Alt (Re.lit_i "Pos") (Re.lit_i "Position"))
            (Re.Cat (Re.star (Re.Chr Output.label_gap))
                    (Re.Grp 1 (Re.star (Re.Chr Re.dot))))).
  match goal with
  | |- Re.run (Re.Cat (Re.Alt ?a ?b) ?t) ?s ?c ?k = _ =>
      change (Re.run (Re.Cat (Re.Alt a b) t) s c k)
        with (Re.orelse (Re.run a s c (fun s' c' => Re.run t s' c' k))
                        (Re.run b s c (fun s' c' => Re.run t s' c' k)))
  end.
  match goal with
  | |- Re.orelse (Re.run _ _ _ ?k) _ = _ =>
      change (Re.run (Re.lit_i "Pos") ("Pos" ++ tail) [] k) with (k tail [])
  end.
  cbv beta. rewrite run_header_tail.
  rewrite take_while_dot by now apply drop_while_keeps_absent.
  reflexivity.
Qed.

(** X16.  A header item that begins with the label [Pos] and holds one
    line gives as Position what follows the label, without the colons and
    the white space that come first, cleaned.  The label is matched
    before its longer form: of an item that spells it [Position], the
    letters [ition] stay in the value. *)
Theorem position_value (rest : string) :
  has_char "010" rest = false ->
  header_item ("Pos" ++ rest)
  = [("Position", clean_text (drop_while Output.label_gap rest))]
  /\ header_item ("Position" ++ rest) = [("Position", clean_text ("ition" ++ rest))].
Proof.
  intros Hline.
  assert (Hpos : forall tail, has_char "010" tail = false ->
            header_item ("Pos" ++ tail)
            = [("Position", clean_text (drop_while Output.label_gap tail))]).
  { intros tail Htail. unfold header_item.
    change (Py.contains ("Pos" ++ tail) "Pos") with true. cbn [orb].
    unfold header_write, search1.
    destruct (match_position_label tail Htail) as [left Hm].
    change ("Pos" ++ tail) with (String "P" ("os" ++ tail)) in *.
    cbn [Re.search]. rewrite Hm. reflexivity. }
  split; [now apply Hpos|].
  apply (Hpos ("ition" ++ rest)). exact Hline.
Qed.

Lemma position_value_witness :
  header_item ("Pos" ++ ": QB") = [("Position", clean_text (drop_while Output.label_gap ": QB"))]
  /\ header_item ("Position" ++ ": QB") = [("Position", clean_text ("ition" ++ ": QB"))].
Proof. apply (position_value ": QB"). reflexivity. Defined.

Example position_value_examples :
  header_item "Pos: QB" = [("Position", "QB")]
  /\ header_item "Position: QB" = [("Position", "ition: QB")].
Proof. split; reflexivity. Qed.

End ProfileRecord.

(** ** The scan of the timeline, from what the profile offers *)

Section ScanOfProfile.
Import Effect Scraper Timeline Words Columns BatchWords.
#[local] Arguments Timeline.replay : simpl never.

Lemma has_columns_before_timeline page soup url year :
  has_columns (PlayerData (before_timeline page soup url year) (Some (-1))).
Proof.
  intros header Hin. cbn [fields]. unfold before_timeline.
  apply written_is_Some, lookup_insert_is_Some'. right.
  apply written_is_Some, lookup_insert_is_Some'. right.
  now apply has_columns_initial_data.
Qed.

Lemma parse_profile_run_unreached page url year player_num total :
  fetch_ok page = false \/ content page = None ->
  parse_profile_run page url year player_num total
  = State (initial_data page url year) [].
Proof.
  intros [Hf|Hc]; unfold parse_profile_run, parse_profile_body, bind.
  - now rewrite Hf.
  - rewrite Hc. now destruct (fetch_ok page).
Qed.

(** The events examined for a player are those that the profile offers,
    up to and including the first that makes the scan leave; and the
    priority recorded is the one that all the events offered give. *)
Lemma parse_profile_trace page url year player_num total :
  let final := parse_profile_run page url year player_num total in
  trace final = cut year (-1) (profile_events page player_num)
  /\ recorded_priority (data final) = replay year (-1) (profile_events page player_num).
Proof.
  intros final. subst final. unfold profile_events, profile_offer.
  destruct (fetch_ok page) eqn:Hf.
  2:{ rewrite parse_profile_run_unreached by auto. split; reflexivity. }
  destruct (content page) as [soup|] eqn:Hc.
  2:{ rewrite parse_profile_run_unreached by auto. split; reflexivity. }
  destruct (parse_profile_reached page url year player_num total soup Hf Hc)
    as (Htr & Hp & _).
  set (s1 := State (PlayerData (before_timeline page soup url year) (Some (-1))) []) in *.
  pose proof (has_columns_before_timeline page soup url year) as Hcols.
  pose proof (parse_timeline_trace year (timeline page) (do_deep_dive player_num) s1
                Hcols eq_refl) as Hcut.
  destruct (parse_timeline_spec year (timeline page) (do_deep_dive player_num) s1
              Hcols eq_refl) as (_ & _ & Hrec & _).
  change (recorded_priority (data s1)) with (-1) in Hcut, Hrec.
  split.
  - now rewrite Htr.
  - unfold parse_profile in Hp. unfold recorded_priority at 1. rewrite Hp.
    fold (recorded_priority (data (snd (parse_timeline (timeline page) year
                                          (do_deep_dive player_num) s1)))).
    rewrite Hrec, Hcut. apply replay_cut.
Qed.

Lemma item_priority_classes item_text :
  item_priority_of item_text
  = if mentions commitment_words item_text then 100
    else if mentions signing_words item_text then 1 else 0.
Proof.
  unfold item_priority_of, mentions, commitment_words, signing_words.
  cbn [existsb]. now rewrite !orb_false_r, !orb_assoc.
Qed.

Lemma make_cutoff_cases year :
  (1 <= year <= 9999 /\ Datetime.make year 9 1 = Some (Datetime.mk year 9 1))
  \/ (~ 1 <= year <= 9999 /\ Datetime.make year 9 1 = None).
Proof.
  destruct (Z_le_gt_dec 1 year) as [H1|H1], (Z_le_gt_dec year 9999) as [H2|H2].
  - left. split; [lia|]. apply make_cutoff. lia.
  - right. split; [lia|]. unfold Datetime.make.
    replace (year <=? 9999) with false by (symmetry; apply Z.leb_gt; lia).
    now rewrite andb_false_r.
  - right. split; [lia|]. unfold Datetime.make.
    now replace (1 <=? year) with false by (symmetry; apply Z.leb_gt; lia).
  - lia.
Qed.

Lemma valid_event_checked year item_text :
  valid_event year item_text = true
  <-> 0 < item_priority_of item_text
      /\ found_date_of item_text <> "NA"
      /\ (before_cutoff (found_date_of item_text) year = true
          \/ Datetime.strptime (found_date_of item_text) "%m/%d/%Y" = None
          \/ ~ 1 <= year <= 9999).
Proof.
  unfold valid_event, is_date_valid_for_class, before_cutoff.
  destruct (String.eqb_spec (found_date_of item_text) "NA") as [E|E].
  - rewrite andb_false_r. cbn [andb]. split; [discriminate|]. intros (_ & H & _).
    contradiction.
  - rewrite andb_true_r. cbn [negb].
    destruct (Datetime.strptime (found_date_of item_text) "%m/%d/%Y") as [dt|].
    + destruct (make_cutoff_cases year) as [[Hy ->] | [Hy ->]].
      * rewrite andb_true_iff, Z.gtb_lt. split.
        -- intros [H1 H2]. auto.
        -- intros (H1 & _ & [H2 | [H2 | H2]]); [auto | discriminate | contradiction].
      * rewrite andb_true_r, Z.gtb_lt. split; [auto | now intros (H & _)].
    + rewrite andb_true_r, Z.gtb_lt. split; [auto | now intros (H & _)].
Qed.

(** C1, as amended.  For one player, the events examined are those that
    the profile offers (the abbreviated items and, for a player with the
    deep-dive budget whose page opens the full history, the items and
    page turns of the history) up to the early exit.  The priority
    recorded at the end is the maximum of the initial -1 and the
    priorities of the events examined that pass the check of the code,
    which is also the maximum over all the events offered.  A text that
    mentions a commitment has priority 100, one that mentions a signing
    and no commitment 1, any other 0.  An event passes the check when it
    has a positive priority and a date was found in it that either reads
    as MM/DD/YYYY and falls before September 1 of the recruiting year or
    does not read as MM/DD/YYYY (or the recruiting year is outside
    1..9999, for which no cut-off can be built).  An event that passes
    the check and
    whose priority strictly exceeds the recorded one sets the Signed
    Date and the recorded priority; any other event leaves the record as
    it is. *)
Theorem priority_merge_maximum (page : profile_page) (url : string)
    (year player_num total : Z) :
  let final := parse_profile_run page url year player_num total in
  trace final = cut year (-1) (profile_events page player_num)
  /\ recorded_priority (data final) = max_of (-1) (valid_priorities year (trace final))
  /\ recorded_priority (data final)
     = max_of (-1) (valid_priorities year (profile_events page player_num))
  /\ (forall item_text,
        item_priority_of item_text
        = if mentions commitment_words item_text then 100
          else if mentions signing_words item_text then 1 else 0)
  /\ (forall item_text,
        valid_event year item_text = true
        <-> 0 < item_priority_of item_text
            /\ found_date_of item_text <> "NA"
            /\ (before_cutoff (found_date_of item_text) year = true
                \/ Datetime.strptime (found_date_of item_text) "%m/%d/%Y" = None
                \/ ~ 1 <= year <= 9999))
  /\ (forall early_exit item_text s,
        valid_event year item_text = true ->
        recorded_priority (data s) < item_priority_of item_text ->
        let s' := snd (commitment_logic early_exit year item_text s) in
        fields (data s') !! "Signed Date" = Some (found_date_of item_text)
        /\ recorded_priority (data s') = item_priority_of item_text)
  /\ (forall early_exit item_text s,
        valid_event year item_text = false
        \/ item_priority_of item_text <= recorded_priority (data s) ->
        commitment_logic early_exit year item_text s = (Val tt, s)).
Proof.
  intros final.
  destruct (parse_profile_trace page url year player_num total) as [Htr Hp].
  fold final in Htr, Hp.
  split; [exact Htr|]. split; [|split; [|split; [|split; [|split]]]].
  - rewrite Hp, Htr, <- replay_max_of. symmetry. apply replay_cut.
  - rewrite Hp. apply replay_max_of.
  - apply item_priority_classes.
  - intros item_text. apply valid_event_checked.
  - intros early_exit item_text s Hv Hgt. cbv zeta.
    rewrite commitment_logic_eq. unfold accepts. rewrite Hv.
    replace (item_priority_of item_text >? recorded_priority (data s)) with true
      by (symmetry; apply Z.gtb_lt; lia).
    cbn [andb snd data]. split; [apply record_event_signed_date | reflexivity].
  - intros early_exit item_text s H. apply not_accepted. unfold accepts.
    destruct H as [-> | Hle]; [reflexivity|].
    replace (item_priority_of item_text >? recorded_priority (data s)) with false
      by (symmetry; rewrite Z.gtb_ltb; apply Z.ltb_ge; lia).
    apply andb_false_r.
Qed.

Lemma priority_merge_maximum_witness :
  let page := Examples.some_profile Examples.signing_then_commitment in
  let final := parse_profile_run page Examples.some_url 2019 1 10 in
  trace final = cut 2019 (-1) (profile_events page 1)
  /\ recorded_priority (data final) = max_of (-1) (valid_priorities 2019 (trace final))
  /\ recorded_priority (data final)
     = max_of (-1) (valid_priorities 2019 (profile_events page 1))
  /\ (forall item_text,
        item_priority_of item_text
        = if mentions commitment_words item_text then 100
          else if mentions signing_words item_text then 1 else 0)
  /\ (forall item_text,
        valid_event 2019 item_text = true
        <-> 0 < item_priority_of item_text
            /\ found_date_of item_text <> "NA"
            /\ (before_cutoff (found_date_of item_text) 2019 = true
                \/ Datetime.strptime (found_date_of item_text) "%m/%d/%Y" = None
                \/ ~ 1 <= 2019 <= 9999))
  /\ (forall early_exit item_text s,
        valid_event 2019 item_text = true ->
        recorded_priority (data s) < item_priority_of item_text ->
        let s' := snd (commitment_logic early_exit 2019 item_text s) in
        fields (data s') !! "Signed Date" = Some (found_date_of item_text)
        /\ recorded_priority (data s') = item_priority_of item_text)
  /\ (forall early_exit item_text s,
        valid_event 2019 item_text = false
        \/ item_priority_of item_text <= recorded_priority (data s) ->
        commitment_logic early_exit 2019 item_text s = (Val tt, s)).
Proof.
  apply (priority_merge_maximum (Examples.some_profile Examples.signing_then_commitment)
           Examples.some_url 2019 1 10).
Defined.

(** C1, as stated, fails.  The maximum is taken over the events that pass
    the check of the code, and a date that does not read as MM/DD/YYYY
    passes it: with a signing dated before the cut-off and a commitment
    dated "Sept 5, 2019" in the class of 2019, the record holds priority
    100 and the date of the commitment, while the greatest priority of
    an event whose date falls before the cut-off is 1. *)
Lemma unparsed_date_takes_the_record :
  ~ (forall (page : profile_page) (url : string) (year player_num total : Z),
       let final := parse_profile_run page url year player_num total in
       recorded_priority (data final)
       = max_of (-1) (priorities_before_cutoff year (trace final))).
Proof.
  intros H.
  specialize (H (Examples.some_profile Examples.unparsed_commitment)
                Examples.some_url 2019 1 10).
  vm_compute in H. discriminate H.
Qed.

Example scenario_unparsed_commitment :
  let final := parse_profile_run (Examples.some_profile Examples.unparsed_commitment)
                 Examples.some_url 2019 1 10 in
  trace final = [Examined Abbreviated "Signed with Alabama 02/06/2019";
                 Examined Abbreviated "Committed to Auburn Sept 5, 2019"]
  /\ before_cutoff (found_date_of "Signed with Alabama 02/06/2019") 2019 = true
  /\ before_cutoff (found_date_of "Committed to Auburn Sept 5, 2019") 2019 = false
  /\ recorded_priority (data final) = 100
  /\ fields (data final) !! "Signed Date" = Some "Sept 5, 2019"
  /\ max_of (-1) (priorities_before_cutoff 2019 (trace final)) = 1.
Proof. vm_compute. repeat split; reflexivity. Qed.

End ScanOfProfile.

(** ** The deep-dive budget *)

Section BudgetByPosition.
Import Effect Scraper Timeline Words Columns BatchWords.
#[local] Arguments Timeline.replay : simpl never.

Lemma offered_shallow page :
  offered page false
  = match items page with Some its => abbreviated_events its | None => [] end.
Proof.
  unfold offered, opens_history. destruct (items page); [|reflexivity].
  cbn [andb]. apply app_nil_r.
Qed.

Lemma profile_offer_shallow page :
  forallb is_abbreviated (profile_offer page false) = true.
Proof.
  unfold profile_offer. destruct (fetch_ok page); [|reflexivity].
  destruct (content page); [|reflexivity]. rewrite offered_shallow.
  destruct (items (timeline page)); [apply abbreviated_events_shallow | reflexivity].
Qed.

Lemma stops_shallow year p tr :
  forallb is_abbreviated tr = true -> stops year p tr = false.
Proof.
  revert p. induction tr as [|e tr IH]; intros p; [reflexivity|]. cbn [forallb stops].
  intros H. apply andb_true_iff in H as [He H]. rewrite (IH _ H).
  destruct e as [[|] t|]; try discriminate. reflexivity.
Qed.

(** X20.  For every positive width the tasks run by the batches are the
    tasks of the locators numbered by their 1-based position in the
    sequence handed to the batch loop (the list of the year after the
    slice of a resumed run), so that what is scraped does not depend on
    the width.  A player whose number is at most 1000 gets the
    full-history scan: the events examined are those that its page
    offers with the full history, up to the early exit.  A player beyond
    that number gets the abbreviated timeline only. *)
Theorem budget_by_position (width : Z) (browser : Z -> profile_page)
    (start_from : Z) (player_urls : list string) (year : Z) :
  0 < width ->
  let urls := resume start_from player_urls in
  scrape_profiles width browser start_from player_urls year
  = omap valid_result
      (imap (fun i url =>
               scrape_player (browser (Z.of_nat i + 1)) url year (Z.of_nat i + 1)
                 (Z.of_nat (length urls))) urls)
  /\ (forall page url player_num total,
        player_num <= 1000 ->
        trace (parse_profile_run page url year player_num total)
        = cut year (-1) (profile_offer page true))
  /\ (forall page url player_num total,
        1000 < player_num ->
        trace (parse_profile_run page url year player_num total)
        = profile_offer page false
        /\ forallb is_abbreviated (profile_offer page false) = true).
Proof.
  intros Hw urls. split; [|split].
  - unfold scrape_profiles. fold urls.
    rewrite <- (tasks_by_position width browser urls year _ Hw).
    unfold scrape_player_batch. apply omap_join.
  - intros page url player_num total Hle.
    destruct (parse_profile_trace page url year player_num total) as [Htr _].
    rewrite Htr. unfold profile_events, do_deep_dive, DEEP_TIMELINE_LIMIT.
    now replace (player_num <=? 1000) with true by (symmetry; apply Z.leb_le; lia).
  - intros page url player_num total Hgt.
    destruct (parse_profile_trace page url year player_num total) as [Htr _].
    rewrite Htr. unfold profile_events, do_deep_dive, DEEP_TIMELINE_LIMIT.
    replace (player_num <=? 1000) with false by (symmetry; apply Z.leb_gt; lia).
    pose proof (profile_offer_shallow page) as Hs.
    split; [|exact Hs]. apply cut_not_stops. now apply stops_shallow.
Qed.

Lemma budget_by_position_witness :
  let urls := resume 0 Examples.batch_urls in
  scrape_profiles 2 Examples.batch_browser 0 Examples.batch_urls 2019
  = omap valid_result
      (imap (fun i url =>
               scrape_player (Examples.batch_browser (Z.of_nat i + 1)) url 2019
                 (Z.of_nat i + 1) (Z.of_nat (length urls))) urls)
  /\ (forall page url player_num total,
        player_num <= 1000 ->
        trace (parse_profile_run page url 2019 player_num total)
        = cut 2019 (-1) (profile_offer page true))
  /\ (forall page url player_num total,
        1000 < player_num ->
        trace (parse_profile_run page url 2019 player_num total)
        = profile_offer page false
        /\ forallb is_abbreviated (profile_offer page false) = true).
Proof.
  apply (budget_by_position 2 Examples.batch_browser 0 Examples.batch_urls 2019).
  lia.
Defined.

(** C9.  The numbers of the players are counted in the list left by the
    slice of a resumed run.  With 1001 players whose commitment only the
    full history shows, a run resumed at player 1000 gives the player at
    position 1001 of the list of the year the number 1 and scans its
    full history, so that its commitment is recorded; on a complete run
    the players up to position 1000 are scanned so and the player at
    position 1001 is not. *)
Theorem resumed_run_moves_the_budget :
  let player_urls := CrawlExamples.links 1001 in
  let signed_dates records := (fun d => fields d !! "Signed Date") <$> records in
  let resumed := scrape_profiles 4 Examples.history_browser 1000 player_urls 2019 in
  let complete := scrape_profiles 4 Examples.history_browser 0 player_urls 2019 in
  (fun d => fields d !! "Profile URL") <$> resumed = [last player_urls]
  /\ signed_dates resumed = [Some "12/19/2018"]
  /\ length complete = 1001%nat
  /\ (fun d => fields d !! "Profile URL") <$> complete !! 1000%nat = Some <$> last player_urls
  /\ signed_dates complete !! 999%nat = Some (Some "12/19/2018")
  /\ signed_dates complete !! 1000%nat = Some (Some "NA").
Proof. vm_compute. repeat split; reflexivity. Qed.

End BudgetByPosition.

(** ** The output file *)

Section OutputFile.
Import Effect Scraper Columns Output.

Lemma dict_to_list_writable d :
  writable d ->
  dict_to_list CSV_HEADERS d
  = Some ((fun key => default "" (fields d !! key)) <$> CSV_HEADERS).
Proof.
  intros [Hp Hk]. unfold dict_to_list. rewrite Hp.
  rewrite bool_decide_eq_false_2 by (intros [? [=]]). cbn [orb].
  replace (forallb _ _) with true; [reflexivity|].
  symmetry. apply forallb_forall. intros key Hin. apply bool_decide_eq_true_2.
  apply Hk. apply list_elem_of_In, list_elem_of_fmap in Hin as ([k v] & -> & Hin).
  apply elem_of_map_to_list in Hin. cbn. eauto.
Qed.

Lemma writerows_writable players rows :
  Forall writable players ->
  writerows CSV_HEADERS players rows = (Val tt, (rows ++ (row_of <$> players))%list).
Proof.
  intros Hw. revert rows. induction Hw as [|d players Hd _ IH]; intros rows; cbn [writerows].
  - unfold ret. now rewrite app_nil_r.
  - rewrite (dict_to_list_writable d Hd). unfold bind, modify. rewrite IH.
    rewrite fmap_cons, <- app_assoc. reflexivity.
Qed.

Lemma append_writable players file :
  players <> [] -> Forall writable players ->
  append_to_csv players file = (Val tt, appended file players).
Proof.
  intros Hne Hw. unfold append_to_csv, appended. cbv zeta.
  rewrite writerows_writable by assumption.
  destruct players as [|d players]; [contradiction|].
  destruct file as [rows|]; cbn [default negb]; [|reflexivity].
  rewrite bool_decide_eq_true_2 by eauto. reflexivity.
Qed.

Lemma appended_app file a b :
  appended (appended file a) b = appended file (a ++ b)%list.
Proof.
  destruct a as [|x a]; [reflexivity|]. destruct b as [|y b].
  - now rewrite app_nil_r.
  - cbn [appended app default id]. rewrite <- app_assoc.
    rewrite <- fmap_app. reflexivity.
Qed.

(** The loop, entered with [saved] in the file and [batch_buffer] not
    yet there. *)
Lemma save_loop_spec batches_data :
  forall saved batch_buffer file,
    Forall (Forall writable) batches_data -> Forall writable batch_buffer ->
    exists saved' batch_buffer',
      save_loop batches_data (saved ++ batch_buffer)%list batch_buffer
        (appended file saved)
      = (Val (((saved ++ batch_buffer) ++ mjoin batches_data)%list, batch_buffer'),
         appended file saved')
      /\ (saved' ++ batch_buffer' = (saved ++ batch_buffer) ++ mjoin batches_data)%list
      /\ Forall writable batch_buffer'.
Proof.
  induction batches_data as [|batch_data rest IH]; intros saved batch_buffer file Hall Hbuf.
  - exists saved, batch_buffer. cbn. rewrite app_nil_r. auto.
  - apply Forall_cons in Hall as [Hbatch Hrest]. cbn [save_loop]. cbv zeta.
    assert (Hnew : Forall writable (batch_buffer ++ batch_data)%list)
      by now apply Forall_app.
    destruct (100 <=? length (batch_buffer ++ batch_data)%list)%nat eqn:Hlen.
    + assert (Hne : (batch_buffer ++ batch_data)%list <> []).
      { intros E. rewrite E in Hlen. discriminate. }
      unfold bind. rewrite append_writable by assumption. rewrite appended_app.
      destruct (IH (saved ++ batch_buffer ++ batch_data)%list [] file Hrest ltac:(constructor))
        as (saved' & buffer' & E & Hsplit & Hw).
      rewrite app_nil_r in E, Hsplit. exists saved', buffer'.
      rewrite <- (app_assoc saved), E. cbn [mjoin list_join].
      rewrite Hsplit, !app_assoc. auto.
    + destruct (IH saved (batch_buffer ++ batch_data)%list file Hrest Hnew)
        as (saved' & buffer' & E & Hsplit & Hw).
      exists saved', buffer'. rewrite <- (app_assoc saved), E. cbn [mjoin list_join].
      rewrite Hsplit, !app_assoc. auto.
Qed.

Lemma all_NA_writable : writable (PlayerData all_NA None).
Proof.
  split; [reflexivity|]. intros key. cbn [fields]. split.
  - intros [value Hl]. now apply all_NA_entry in Hl.
  - apply all_NA_columns.
Qed.

(** The writer accepts the records of a batch. *)
Lemma batch_writable width browser urls year batch_num total :
  (forall n, exists parsed, content (browser n) = soup_of <$> parsed) ->
  Forall writable (scrape_player_batch width browser urls year batch_num total).
Proof.
  intros Hparsed. unfold scrape_player_batch. apply Forall_forall. intros d Hin.
  apply list_elem_of_omap in Hin as (result & Hin & Hvalid).
  unfold batch_tasks in Hin. apply list_elem_of_fmap in Hin as ([i url] & -> & _).
  cbn [fst snd] in Hvalid. unfold scrape_player in Hvalid.
  destruct (close_ok _); [|discriminate]. cbn [valid_result] in Hvalid.
  injection Hvalid as <-.
  destruct (Py.contains url "/"); [|apply all_NA_writable].
  split; [reflexivity|]. intros key. cbn [del_date_priority fields].
  destruct (Hparsed (batch_num * width + i + 1)) as [parsed Hc]. split.
  - intros [value Hl].
    eapply parse_profile_entry_ok; eassumption.
  - apply parse_profile_has_columns.
Qed.

(** X17.  With parsed profile pages, [scrape_year] returns the records
    of all the batches in order, and the incremental save leaves each of
    them in the output file exactly once and in the same order, after the
    rows that the file held before; the header is written when the file
    did not exist, and nothing is written when there is no record.  The
    writer refuses none of the records. *)
Theorem incremental_save (width : Z) (browser : Z -> profile_page) (start_from : Z)
    (player_urls : list string) (year : Z) (file : csv_file) :
  0 < width ->
  (forall n, exists parsed, content (browser n) = soup_of <$> parsed) ->
  scrape_year width browser start_from player_urls year file
  = (Val (scrape_profiles width browser start_from player_urls year),
     appended file (scrape_profiles width browser start_from player_urls year)).
Proof.
  intros Hwidth Hparsed. unfold scrape_year.
  destruct (bool_decide_reflect (player_urls = [])) as [->|Hne].
  { assert (Hnone : scrape_profiles width browser start_from [] year = []).
    { unfold scrape_profiles. replace (resume start_from []) with (@nil string)
        by (unfold resume; destruct (start_from >? 0); [now rewrite drop_nil | reflexivity]).
      unfold batches, range_step. cbn [length].
      replace ((Z.of_nat 0 + width - 1) / width) with 0
        by (symmetry; apply Z.div_small; lia).
      reflexivity. }
    rewrite Hnone. reflexivity. }
  cbv zeta. unfold scrape_profiles.
  set (urls := resume start_from player_urls).
  set (batches_data :=
         (fun b => scrape_player_batch width browser (snd b) year (fst b)
                     (Z.of_nat (length urls))) <$> batches width urls).
  assert (Hall : Forall (Forall writable) batches_data).
  { apply Forall_fmap, Forall_forall. intros b _. now apply batch_writable. }
  destruct (save_loop_spec batches_data [] [] file Hall ltac:(constructor))
    as (saved & buffer & E & Hsplit & Hw).
  cbn [app appended] in E, Hsplit. unfold bind at 1. rewrite E.
  rewrite <- Hsplit.
  destruct (bool_decide_reflect (buffer = [])) as [->|Hbuf]; cbn [negb].
  - unfold bind, ret. now rewrite app_nil_r.
  - unfold bind. rewrite append_writable by assumption.
    unfold ret. now rewrite appended_app.
Qed.

Lemma incremental_save_witness :
  scrape_year 4 (fun _ => ProfileExamples.quarterback_page) 0
    [ProfileExamples.quarterback_url] 2018 None
  = (Val (scrape_profiles 4 (fun _ => ProfileExamples.quarterback_page) 0
            [ProfileExamples.quarterback_url] 2018),
     appended None (scrape_profiles 4 (fun _ => ProfileExamples.quarterback_page) 0
                      [ProfileExamples.quarterback_url] 2018)).
Proof.
  apply (incremental_save 4 (fun _ => ProfileExamples.quarterback_page) 0
           [ProfileExamples.quarterback_url] 2018 None).
  - lia.
  - intros _. exists (Some ProfileExamples.quarterback). reflexivity.
Defined.

End OutputFile.

(** ** The Signed Date of a record *)

Section SignedDate.
Import Effect Scraper Timeline Draft Columns.
Variable year : Z.

Lemma checked_log e s :
  signed_date_checked year s ->
  signed_date_checked year (State (data s) (trace s ++ [e])).
Proof.
  intros [Hna|(tier & item_text & Hin & Hv & Hd)]; [now left|].
  right. exists tier, item_text. cbn [data trace]. split; [|auto].
  apply elem_of_app. now left.
Qed.

(** The draft logic leaves the Signed Date and the trace as they are. *)
Lemma draft_logic_keeps (P : option string -> list event -> Prop) item_text :
  triple (fun s => P (fields (data s) !! "Signed Date") (trace s))
         (fun s => P (fields (data s) !! "Signed Date") (trace s))
         (draft_logic item_text).
Proof.
  assert (Hset : forall key value, key <> "Signed Date" ->
            triple (fun s => P (fields (data s) !! "Signed Date") (trace s))
                   (fun s => P (fields (data s) !! "Signed Date") (trace s))
                   (set_field key value)).
  { intros key value Hk. apply triple_modify. intros s Hs. cbn [data fields trace].
    now rewrite lookup_insert_ne. }
  assert (Hget : forall key,
            triple (fun s => P (fields (data s) !! "Signed Date") (trace s))
                   (fun s => P (fields (data s) !! "Signed Date") (trace s))
                   (get_field key)).
  { intros key. unfold get_field. apply triple_bind; [apply triple_get|].
    intros s. apply triple_await. }
  unfold draft_logic.
  destruct (Py.contains (Py.lower item_text) "draft"); [|apply triple_ret].
  apply triple_bind.
  - destruct (search1 date_re item_text); [|apply triple_ret].
    apply triple_bind; [apply Hget|]. intros draft_date.
    destruct (String.eqb draft_date "NA"); [now apply Hset | apply triple_ret].
  - intros _. destruct (search1 draft_team_re item_text); [|apply triple_ret].
    apply triple_bind; [apply Hget|]. intros draft_team.
    destruct (String.eqb draft_team "NA"); [|apply triple_ret].
    cbv zeta. match goal with |- context [if ?c then _ else _] => destruct c end;
      [now apply Hset | apply triple_ret].
Qed.

(** An item that has been examined may give the record its date. *)
Lemma checked_commitment early_exit tier item_text s :
  signed_date_checked year s -> Examined tier item_text ∈ trace s ->
  let out := commitment_logic early_exit year item_text s in
  signed_date_checked year (snd out).
Proof.
  intros Hs Hin out. subst out. rewrite commitment_logic_eq.
  destruct (accepts year (recorded_priority (data s)) item_text) eqn:Ha; [|exact Hs].
  assert (Hrec : signed_date_checked year
            (State (record_event item_text (data s)) (trace s))).
  { right. exists tier, item_text. cbn [data trace]. split; [assumption|].
    unfold accepts in Ha. apply andb_true_iff in Ha as [Hv _].
    split; [assumption | apply record_event_signed_date]. }
  destruct (early_exit && (item_priority_of item_text =? 100)); exact Hrec.
Qed.

Lemma checked_deep_item item_text :
  triple (signed_date_checked year) (signed_date_checked year)
    (bind (log (Examined DeepHistory item_text))
          (fun _ => commitment_logic true year item_text)).
Proof.
  intros s Hs. unfold bind, log, modify.
  pose proof (checked_commitment true DeepHistory item_text
                (State (data s) (trace s ++ [Examined DeepHistory item_text]))
                (checked_log _ s Hs)) as Hc.
  cbn [trace] in Hc. specialize (Hc ltac:(apply elem_of_app; right; now left)).
  cbv zeta in Hc.
  destruct (commitment_logic true year item_text _) as [[[]| |] s']; exact Hc.
Qed.

Lemma checked_abbreviated_item item_text :
  triple (signed_date_checked year) (signed_date_checked year)
    (bind (log (Examined Abbreviated item_text))
          (fun _ => bind (draft_logic item_text)
             (fun _ => commitment_logic false year item_text))).
Proof.
  intros s Hs. unfold bind at 1. unfold log, modify.
  pose proof (checked_log (Examined Abbreviated item_text) s Hs) as Hs1.
  set (s1 := State (data s) (trace s ++ [Examined Abbreviated item_text])) in *.
  assert (Hkeep : forall s2,
            fields (data s2) !! "Signed Date" = fields (data s1) !! "Signed Date" ->
            trace s2 = trace s1 -> signed_date_checked year s2).
  { intros s2 Hf Ht. destruct Hs1 as [Hna|(tier & it & Hin & Hv & Hdate)].
    - left. now rewrite Hf.
    - right. exists tier, it. rewrite Hf, Ht. auto. }
  assert (Hin : forall s2, trace s2 = trace s1 ->
            Examined Abbreviated item_text ∈ trace s2).
  { intros s2 ->. subst s1. cbn [trace]. apply elem_of_app. right. now left. }
  unfold bind.
  destruct (draft_logic item_text s1) as [[[]| |] s2] eqn:E.
  - assert (Hs2 : fields (data s2) !! "Signed Date" = fields (data s1) !! "Signed Date"
                  /\ trace s2 = trace s1).
    { pose proof (draft_logic_keeps
                    (fun d tr => d = fields (data s1) !! "Signed Date" /\ tr = trace s1)
                    item_text s1 (conj eq_refl eq_refl)) as H1.
      rewrite E in H1. exact H1. }
    destruct Hs2 as [Hf Ht].
    pose proof (checked_commitment false Abbreviated item_text s2
                  (Hkeep s2 Hf Ht) (Hin s2 Ht)) as Hc.
    cbv zeta in Hc.
    destruct (commitment_logic false year item_text s2) as [[[]| |] s3]; exact Hc.
  - pose proof (draft_logic_keeps
                  (fun d tr => d = fields (data s1) !! "Signed Date" /\ tr = trace s1)
                  item_text s1 (conj eq_refl eq_refl)) as H1.
    rewrite E in H1. destruct H1 as [Hf Ht]. now apply Hkeep.
  - pose proof (draft_logic_keeps
                  (fun d tr => d = fields (data s1) !! "Signed Date" /\ tr = trace s1)
                  item_text s1 (conj eq_refl eq_refl)) as H1.
    rewrite E in H1. destruct H1 as [Hf Ht]. now apply Hkeep.
Qed.

Lemma checked_scan_pages pages remaining page_count :
  triple (signed_date_checked year) (signed_date_checked year)
    (scan_pages year pages remaining page_count).
Proof.
  revert page_count. induction remaining as [|remaining IH]; intros page_count; simpl.
  - apply triple_ret.
  - apply triple_bind; [apply triple_await|]. intros page.
    apply triple_bind; [apply triple_await|]. intros full_items.
    apply triple_bind.
    + apply triple_for_each. intros item. apply checked_deep_item.
    + intros _. destruct (next page).
      * apply triple_bind; [|intros _; apply IH].
        apply triple_modify. intros s Hs. now apply checked_log.
      * apply triple_ret.
      * apply triple_raise.
Qed.

Lemma checked_parse_timeline (page : timeline_view) (do_deep_dive : bool) s :
  signed_date_checked year s ->
  signed_date_checked year (snd (parse_timeline page year do_deep_dive s)).
Proof.
  unfold parse_timeline.
  apply (triple_call (signed_date_checked year) (signed_date_checked year)); [|auto].
  apply triple_try_pass.
  apply triple_bind; [apply triple_await|]. intros its.
  apply triple_bind.
  - apply triple_for_each. intros item. apply checked_abbreviated_item.
  - intros _. destruct do_deep_dive; [|apply triple_ret].
    apply triple_bind; [apply triple_await|]. intros [href|]; [|apply triple_ret].
    destruct (negb (Py.falsy href)); [|apply triple_ret].
    apply triple_try_pass. apply triple_bind.
    + destruct (goto_ok page); [apply triple_ret | apply triple_raise].
    + intros _. apply checked_scan_pages.
Qed.

(** X19.  The Signed Date of the record that [parse_profile] returns for
    a parsed page is the sentinel, or it is the date found in an item
    that the scan of the timeline examined: an item with the priority of
    a commitment or of a signing, whose date is not the sentinel and
    passed the validity check for the class year. *)
Theorem signed_date_is_checked (page : profile_page) (parsed : option profile_soup)
    (url : string) (player_num total : Z) :
  content page = soup_of <$> parsed ->
  signed_date_checked year (parse_profile_run page url year player_num total).
Proof.
  intros Hc.
  assert (Hinit : fields (initial_data page url year) !! "Signed Date" = Some "NA")
    by reflexivity.
  destruct (fetch_ok page) eqn:Hf, parsed as [soup|];
    cbn [fmap option_fmap option_map] in Hc;
    try (left; change (data (parse_profile_run page url year player_num total))
                 with (parse_profile page url year player_num total);
         rewrite parse_profile_unreached by auto; exact Hinit).
  destruct (parse_profile_reached page url year player_num total (soup_of soup) Hf Hc)
    as (Htrace & _ & Hfields).
  set (s1 := State (PlayerData (before_timeline page (soup_of soup) url year) (Some (-1))) [])
    in *.
  assert (Hs1 : signed_date_checked year s1).
  { left. subst s1. cbn [data fields]. unfold before_timeline.
    cbn [soup_of ranking_writes header_writes].
    rewrite (written_absent (ranking_loop soup))
      by (apply ranking_loop_not, not_in_list; reflexivity).
    rewrite lookup_insert_ne by discriminate.
    rewrite (written_absent (header_loop soup))
      by (apply header_loop_not, not_in_list; reflexivity).
    rewrite lookup_insert_ne by discriminate. exact Hinit. }
  apply (checked_parse_timeline (timeline page) (do_deep_dive player_num)) in Hs1.
  set (s2 := snd (parse_timeline (timeline page) year (do_deep_dive player_num) s1)) in *.
  assert (Hdate : fields (data (parse_profile_run page url year player_num total))
                    !! "Signed Date" = fields (data s2) !! "Signed Date").
  { change (data (parse_profile_run page url year player_num total))
      with (parse_profile page url year player_num total).
    destruct Hfields as [->|[team ->]]; [reflexivity|].
    now rewrite lookup_insert_ne by discriminate. }
  destruct Hs1 as [Hna|(tier & item_text & Hin & Hv & Hd)].
  - left. now rewrite Hdate.
  - right. exists tier, item_text. rewrite Htrace, Hdate. auto.
Qed.

End SignedDate.

Lemma signed_date_is_checked_witness :
  Draft.signed_date_checked 2018
    (Scraper.parse_profile_run ProfileExamples.quarterback_page
       ProfileExamples.quarterback_url 2018 1 1).
Proof.
  apply (signed_date_is_checked 2018 ProfileExamples.quarterback_page
           (Some ProfileExamples.quarterback)).
  reflexivity.
Defined.
